(** * The BFD session engine of proto/bfd/bfd.c

    A shallow embedding of the session state machine, its two timers, the
    poll sequence and the request broker, followed by the properties of
    the specification that concern them.

    Integers of the C code are [Z] with the truncation of every store
    written out ([u8], [u32]); times ([btime], microseconds) are [Z];
    C truth values are tested with [nz].  [current_time()] is the
    argument [now] of every function that reads the clock: within one
    event handler the loop's cached time does not move. *)

From stdpp Require Import base gmap list.
From Stdlib Require Import ZArith Lia.
Local Open Scope Z_scope.

(** * Part I: the embedding *)

(** ** Machine integers *)

Definition u8 (x : Z) : Z := x mod 256.
Definition u32 (x : Z) : Z := x mod 4294967296.

(** C truth value of an integer. *)
Definition nz (x : Z) : bool := negb (x =? 0).

(** The GNU conditional with omitted operand, [a ?: b]. *)
Definition elvis (a b : Z) : Z := if nz a then a else b.

(** ** Constants of bfd.h *)

(** Modelled from the spec: bfd.h is not part of the sources at hand.  The
    state numbers are the indexes of [bfd_state_names] in bfd.c; the
    diagnostic codes and the flag bits are those of the wire format
    (RFC 5880 section 4.1) the spec refers to; the poll bits are the two-bit
    mask over TX-change and RX-change. *)
Definition BFD_STATE_ADMIN_DOWN : Z := 0.
Definition BFD_STATE_DOWN : Z := 1.
Definition BFD_STATE_INIT : Z := 2.
Definition BFD_STATE_UP : Z := 3.

Definition BFD_DIAG_NOTHING : Z := 0.
Definition BFD_DIAG_TIMEOUT : Z := 1.
Definition BFD_DIAG_NEIGHBOR_DOWN : Z := 3.

Definition BFD_POLL_TX : Z := 1.
Definition BFD_POLL_RX : Z := 2.

Definition BFD_FLAG_POLL : Z := 32.
Definition BFD_FLAG_FINAL : Z := 16.

Definition BFD_FLAG_DEMAND : Z := 2.

(** ** Timers *)

(** Modelled from the spec: the timer module (lib/timer.c) is not part of
    the sources at hand.  The spec gives a timer a deadline while it is
    armed ("every outstanding timer is backed by a deadline") and makes the
    TX timer recurrent and randomized; [expires] is that deadline, [None]
    when the timer is stopped. *)
Record timer := mk_timer {
  expires : option Z;
  recurrent : Z;
  randomize : Z
}.

Definition tm_new_init (rec rand : Z) : timer := mk_timer None rec rand.
Definition tm_active (t : timer) : bool := bool_decide (is_Some (expires t)).
Definition tm_set (t : timer) (when : Z) : timer :=
  mk_timer (Some when) (recurrent t) (randomize t).
Definition tm_start (t : timer) (after now : Z) : timer :=
  tm_set t (now + Z.max after 0).
Definition tm_stop (t : timer) : timer :=
  mk_timer None (recurrent t) (randomize t).
Definition set_recurrent (v : Z) (t : timer) : timer :=
  mk_timer (expires t) v (randomize t).
Definition set_randomize (v : Z) (t : timer) : timer :=
  mk_timer (expires t) (recurrent t) v.

(** Modelled from the spec: the timer loop is not part of the sources at
    hand.  A timer that fires is re-armed when it is recurrent, its period
    and a random part of at most [randomize] after the deadline that just
    passed, and stopped otherwise; its hook runs afterwards. *)
Definition tm_fire (t : timer) (jitter : Z) : timer :=
  match expires t with
  | None => t
  | Some deadline =>
      if nz (recurrent t)
      then tm_set t (deadline + recurrent t + jitter mod (randomize t + 1))
      else tm_stop t
  end.

(** ** Addresses, interfaces and configuration *)

(** Modelled from the spec: lib/ip.h and the interface structures are not
    part of the sources at hand; a peer address is IPv4 or IPv6, an
    interface is known by its index. *)
Inductive ip_addr := IP4 (a : Z) | IP6 (a : Z).

Definition ipa_is_ip4 (a : ip_addr) : bool :=
  match a with IP4 _ => true | IP6 _ => false end.

Record iface := mk_iface { index : Z }.

Global Instance ip_addr_eq_dec : EqDecision ip_addr.
Proof. solve_decision. Defined.
Global Instance iface_eq_dec : EqDecision iface.
Proof. solve_decision. Defined.

Global Instance ip_addr_countable : Countable ip_addr.
Proof.
  refine (inj_countable'
    (fun a => match a with IP4 x => inl x | IP6 x => inr x end)
    (fun e => match e with inl x => IP4 x | inr x => IP6 x end) _).
  intros []; reflexivity.
Defined.

Definition ipa_equal (a b : ip_addr) : bool := bool_decide (a = b).

(** The structures of bfd.h are written as bfd.c uses them: the fields it
    reads and writes, with the widths (u8, u32) the spec gives them. *)

(** [struct bfd_options]: what a request may override.  A zero interval,
    multiplier or authentication type and a null password list mean
    "unset"; [passive] counts only with [passive_set]. *)
Record bfd_options := mk_options {
  o_min_rx_int : Z;
  o_min_tx_int : Z;
  o_idle_tx_int : Z;
  o_multiplier : Z;
  o_passive : Z;
  o_passive_set : Z;
  o_auth_type : Z;
  o_passwords : Z
}.

Global Instance bfd_options_eq_dec : EqDecision bfd_options.
Proof. solve_decision. Defined.

(** [struct bfd_iface_config], the per-interface defaults. *)
Record bfd_iface_config := mk_iface_config {
  ic_min_rx_int : Z;
  ic_min_tx_int : Z;
  ic_idle_tx_int : Z;
  ic_multiplier : Z;
  ic_passive : Z;
  ic_auth_type : Z;
  ic_passwords : Z
}.

(** [struct bfd_session_config], the merged configuration of a session. *)
Record bfd_session_config := mk_session_config {
  sc_min_rx_int : Z;
  sc_min_tx_int : Z;
  sc_idle_tx_int : Z;
  sc_multiplier : Z;
  sc_passive : Z;
  sc_auth_type : Z;
  sc_passwords : Z
}.

Definition bfd_merge_options (cf : bfd_iface_config) (opts : bfd_options)
  : bfd_session_config :=
  {| sc_min_rx_int := elvis (o_min_rx_int opts) (ic_min_rx_int cf);
     sc_min_tx_int := elvis (o_min_tx_int opts) (ic_min_tx_int cf);
     sc_idle_tx_int := elvis (o_idle_tx_int opts) (ic_idle_tx_int cf);
     sc_multiplier := elvis (o_multiplier opts) (ic_multiplier cf);
     sc_passive := if nz (o_passive_set opts) then o_passive opts else ic_passive cf;
     sc_auth_type := elvis (o_auth_type opts) (ic_auth_type cf);
     sc_passwords := elvis (o_passwords opts) (ic_passwords cf) |}.

(** An interface binding is found by its (local address, interface) pair;
    the pair stands for the pointer [s->ifa]. *)
Definition bfd_iface_key : Type := ip_addr * option iface.

(** ** Sessions *)

(** [struct bfd_session].  The intrusive node [n] is kept as the flag
    [n_linked]; [request_list] holds the pointers of the attached requests.
    The last two fields are not in the C structure: they record the calls
    that leave the session ([bfd_send_ctl], [bfd_notify_kick]). *)
Record bfd_session := mk_session {
  n_linked : bool;
  addr : ip_addr;
  ifa : bfd_iface_key;
  ifindex : Z;
  passive : Z;
  poll_active : Z;
  poll_scheduled : Z;
  loc_state : Z;
  rem_state : Z;
  loc_diag : Z;
  rem_diag : Z;
  loc_id : Z;
  rem_id : Z;
  cf : bfd_session_config;
  des_min_tx_int : Z;
  des_min_tx_new : Z;
  req_min_rx_int : Z;
  req_min_rx_new : Z;
  rem_min_tx_int : Z;
  rem_min_rx_int : Z;
  rem_demand_mode : Z;
  detect_mult : Z;
  rem_detect_mult : Z;
  last_tx : Z;
  last_rx : Z;
  tx_timer : timer;
  hold_timer : timer;
  request_list : list nat;
  last_state_change : Z;
  notify_running : bool;
  rx_csn_known : Z;
  tx_csn : Z;
  sent : list Z;
  kicks : nat
}.

Definition session_eta (s : bfd_session) : bfd_session :=
  mk_session (n_linked s) (addr s) (ifa s) (ifindex s) (passive s)
    (poll_active s) (poll_scheduled s) (loc_state s) (rem_state s)
    (loc_diag s) (rem_diag s) (loc_id s) (rem_id s) (cf s)
    (des_min_tx_int s) (des_min_tx_new s) (req_min_rx_int s)
    (req_min_rx_new s) (rem_min_tx_int s) (rem_min_rx_int s)
    (rem_demand_mode s) (detect_mult s) (rem_detect_mult s) (last_tx s)
    (last_rx s) (tx_timer s) (hold_timer s) (request_list s)
    (last_state_change s) (notify_running s) (rx_csn_known s) (tx_csn s)
    (sent s) (kicks s).

(** The assignment [s->proj = v], derived from [session_eta]. *)
Ltac field_setter proj :=
  let body := eval cbv beta delta [session_eta] in session_eta in
  match eval pattern proj in body with
  | ?g _ => let t := eval cbv beta in (fun v => g (fun _ => v)) in exact t
  end.

Definition set_n_linked : bool -> bfd_session -> bfd_session := ltac:(field_setter n_linked).
Definition set_passive : Z -> bfd_session -> bfd_session := ltac:(field_setter passive).
Definition set_poll_active : Z -> bfd_session -> bfd_session := ltac:(field_setter poll_active).
Definition set_poll_scheduled : Z -> bfd_session -> bfd_session := ltac:(field_setter poll_scheduled).
Definition set_loc_state : Z -> bfd_session -> bfd_session := ltac:(field_setter loc_state).
Definition set_rem_state : Z -> bfd_session -> bfd_session := ltac:(field_setter rem_state).
Definition set_loc_diag : Z -> bfd_session -> bfd_session := ltac:(field_setter loc_diag).
Definition set_rem_diag : Z -> bfd_session -> bfd_session := ltac:(field_setter rem_diag).
Definition set_rem_id : Z -> bfd_session -> bfd_session := ltac:(field_setter rem_id).
Definition set_cf : bfd_session_config -> bfd_session -> bfd_session := ltac:(field_setter cf).
Definition set_des_min_tx_int : Z -> bfd_session -> bfd_session := ltac:(field_setter des_min_tx_int).
Definition set_des_min_tx_new : Z -> bfd_session -> bfd_session := ltac:(field_setter des_min_tx_new).
Definition set_req_min_rx_int : Z -> bfd_session -> bfd_session := ltac:(field_setter req_min_rx_int).
Definition set_req_min_rx_new : Z -> bfd_session -> bfd_session := ltac:(field_setter req_min_rx_new).
Definition set_rem_min_tx_int : Z -> bfd_session -> bfd_session := ltac:(field_setter rem_min_tx_int).
Definition set_rem_min_rx_int : Z -> bfd_session -> bfd_session := ltac:(field_setter rem_min_rx_int).
Definition set_rem_demand_mode : Z -> bfd_session -> bfd_session := ltac:(field_setter rem_demand_mode).
Definition set_detect_mult : Z -> bfd_session -> bfd_session := ltac:(field_setter detect_mult).
Definition set_rem_detect_mult : Z -> bfd_session -> bfd_session := ltac:(field_setter rem_detect_mult).
Definition set_last_tx : Z -> bfd_session -> bfd_session := ltac:(field_setter last_tx).
Definition set_last_rx : Z -> bfd_session -> bfd_session := ltac:(field_setter last_rx).
Definition set_tx_timer : timer -> bfd_session -> bfd_session := ltac:(field_setter tx_timer).
Definition set_hold_timer : timer -> bfd_session -> bfd_session := ltac:(field_setter hold_timer).
Definition set_request_list : list nat -> bfd_session -> bfd_session := ltac:(field_setter request_list).
Definition set_last_state_change : Z -> bfd_session -> bfd_session := ltac:(field_setter last_state_change).
Definition set_notify_running : bool -> bfd_session -> bfd_session := ltac:(field_setter notify_running).
Definition set_rx_csn_known : Z -> bfd_session -> bfd_session := ltac:(field_setter rx_csn_known).
Definition set_sent : list Z -> bfd_session -> bfd_session := ltac:(field_setter sent).
Definition set_kicks : nat -> bfd_session -> bfd_session := ltac:(field_setter kicks).

(** Modelled from the spec: [bfd_send_ctl] lives in packets.c, which is not
    part of the sources at hand; it emits one control packet, with the Final
    flag when [final] is set.  Only the emission is recorded. *)
Definition bfd_send_ctl (s : bfd_session) (final : Z) : bfd_session :=
  set_sent (final :: sent s) s.

(** Modelled from the spec: [bfd_notify_kick] writes to the wake pipe of the
    control thread; only the call is counted. *)
Definition bfd_notify_kick (s : bfd_session) : bfd_session :=
  set_kicks (S (kicks s)) s.

Definition bfd_session_update_tx_interval (s : bfd_session) : bfd_session :=
  let tx_int := Z.max (des_min_tx_int s) (rem_min_rx_int s) in
  let tx_int_l := u32 (tx_int - tx_int / 4) in
  let tx_int_h := u32 (tx_int - tx_int / 10) in
  let s := set_tx_timer (set_recurrent tx_int_l (tx_timer s)) s in
  let s := set_tx_timer (set_randomize (u32 (tx_int_h - tx_int_l)) (tx_timer s)) s in
  (* Do not set timer if no previous event *)
  if negb (nz (last_tx s)) then s
  else set_tx_timer (tm_set (tx_timer s) (last_tx s + tx_int_l)) s.

Definition bfd_session_update_detection_time (s : bfd_session) (kick now : Z)
  : bfd_session :=
  let timeout := Z.max (req_min_rx_int s) (rem_min_tx_int s) * rem_detect_mult s in
  let s := if nz kick then set_last_rx now s else s in
  if negb (nz (last_rx s)) then s
  else set_hold_timer (tm_set (hold_timer s) (last_rx s + timeout)) s.

Definition bfd_session_control_tx_timer (s : bfd_session) (reset now : Z)
  : bfd_session :=
  let stop := set_last_tx 0 (set_tx_timer (tm_stop (tx_timer s)) s) in
  if nz (passive s) && (rem_id s =? 0) then stop
  else if nz (rem_demand_mode s) && negb (nz (poll_active s)) &&
          (loc_state s =? BFD_STATE_UP) && (rem_state s =? BFD_STATE_UP) then stop
  else if rem_min_rx_int s =? 0 then stop
  else
    (* So TX timer should run *)
    if nz reset || negb (tm_active (tx_timer s))
    then set_tx_timer (tm_start (tx_timer s) 0 now) (set_last_tx 0 s)
    else s.

Definition bfd_session_request_poll (s : bfd_session) (request now : Z)
  : bfd_session :=
  if rem_id s =? 0 then s
  else
    let s := set_poll_scheduled (u8 (Z.lor (poll_scheduled s) request)) s in
    if nz (poll_active s) then s
    else
      let s := set_poll_active (poll_scheduled s) s in
      let s := set_poll_scheduled 0 s in
      bfd_session_control_tx_timer s 1 now.

Definition bfd_session_terminate_poll (s : bfd_session) : bfd_session :=
  let poll_done := u8 (Z.land (poll_active s) (Z.lnot (poll_scheduled s))) in
  let s := if nz (Z.land poll_done BFD_POLL_TX)
           then set_des_min_tx_int (des_min_tx_new s) s else s in
  let s := if nz (Z.land poll_done BFD_POLL_RX)
           then set_req_min_rx_int (req_min_rx_new s) s else s in
  let s := set_poll_active (poll_scheduled s) s in
  set_poll_scheduled 0 s.

Definition bfd_session_set_min_tx (s : bfd_session) (val now : Z) : bfd_session :=
  if val =? des_min_tx_new s then s
  else
    let s := set_des_min_tx_new val s in
    (* Postpone timer update if des_min_tx_int increases and the session is up *)
    let s := if negb (loc_state s =? BFD_STATE_UP) || (val <? des_min_tx_int s)
             then bfd_session_update_tx_interval (set_des_min_tx_int val s)
             else s in
    bfd_session_request_poll s BFD_POLL_TX now.

Definition bfd_session_set_min_rx (s : bfd_session) (val now : Z) : bfd_session :=
  if val =? req_min_rx_new s then s
  else
    let s := set_req_min_rx_new val s in
    (* Postpone timer update if req_min_rx_int decreases and the session is up *)
    let s := if negb (loc_state s =? BFD_STATE_UP) || (val >? req_min_rx_int s)
             then bfd_session_update_detection_time (set_req_min_rx_int val s) 0 now
             else s in
    bfd_session_request_poll s BFD_POLL_RX now.

Definition bfd_session_update_state (s : bfd_session) (state diag now : Z)
  : bfd_session :=
  let old_state := loc_state s in
  if state =? old_state then s
  else
    let s := set_loc_state (u8 state) s in
    let s := set_loc_diag (u8 diag) s in
    let s := set_last_state_change now s in
    let notify := negb (n_linked s) in
    (* add_tail(&p->notify_list, &s->n) *)
    let s := if notify then set_n_linked true s else s in
    let s := if state =? BFD_STATE_UP
             then bfd_session_set_min_tx s (sc_min_tx_int (cf s)) now else s in
    let s := if old_state =? BFD_STATE_UP
             then bfd_session_set_min_tx s (sc_idle_tx_int (cf s)) now else s in
    if notify then bfd_notify_kick s else s.

(** The [switch] of [bfd_session_process_ctl]: the next state, zero for "no
    transition", and the diagnostic. *)
Definition process_ctl_switch (loc rem : Z) : Z * Z :=
  if loc =? BFD_STATE_DOWN then
    if rem =? BFD_STATE_DOWN then (BFD_STATE_INIT, BFD_DIAG_NOTHING)
    else if rem =? BFD_STATE_INIT then (BFD_STATE_UP, BFD_DIAG_NOTHING)
    else (0, BFD_DIAG_NOTHING)
  else if loc =? BFD_STATE_INIT then
    if rem =? BFD_STATE_ADMIN_DOWN then (BFD_STATE_DOWN, BFD_DIAG_NEIGHBOR_DOWN)
    else if rem >=? BFD_STATE_INIT then (BFD_STATE_UP, BFD_DIAG_NOTHING)
    else (0, BFD_DIAG_NOTHING)
  else if loc =? BFD_STATE_UP then
    if rem <=? BFD_STATE_DOWN then (BFD_STATE_DOWN, BFD_DIAG_NEIGHBOR_DOWN)
    else (0, BFD_DIAG_NOTHING)
  else (0, BFD_DIAG_NOTHING).

Definition bfd_session_process_ctl (s : bfd_session)
    (flags old_tx_int old_rx_int now : Z) : bfd_session :=
  let s := if nz (poll_active s) && nz (Z.land flags BFD_FLAG_FINAL)
           then bfd_session_terminate_poll s else s in
  let s := if negb (des_min_tx_int s =? old_tx_int) ||
              negb (rem_min_rx_int s =? old_rx_int)
           then bfd_session_update_tx_interval s else s in
  let s := bfd_session_update_detection_time s 1 now in
  (* Update session state *)
  if loc_state s =? BFD_STATE_ADMIN_DOWN then s
  else
    let '(next_state, diag) := process_ctl_switch (loc_state s) (rem_state s) in
    let s := if nz next_state
             then bfd_session_update_state s next_state diag now else s in
    let s := bfd_session_control_tx_timer s 0 now in
    if nz (Z.land flags BFD_FLAG_POLL) then bfd_send_ctl s 1 else s.

Definition bfd_session_timeout (s : bfd_session) (now : Z) : bfd_session :=
  let s := set_rem_state BFD_STATE_DOWN s in
  let s := set_rem_id 0 s in
  let s := set_rem_min_tx_int 0 s in
  let s := set_rem_min_rx_int 1 s in
  let s := set_rem_demand_mode 0 s in
  let s := set_rem_detect_mult 0 s in
  let s := set_rx_csn_known 0 s in
  let s := set_poll_active 0 s in
  let s := set_poll_scheduled 0 s in
  let s := bfd_session_update_state s BFD_STATE_DOWN BFD_DIAG_TIMEOUT now in
  bfd_session_control_tx_timer s 1 now.

Definition bfd_tx_timer_hook (s : bfd_session) (now : Z) : bfd_session :=
  bfd_send_ctl (set_last_tx now s) 0.

Definition bfd_hold_timer_hook (s : bfd_session) (now : Z) : bfd_session :=
  bfd_session_timeout s now.

(** The session part of [bfd_reconfigure_session]: [ifa_cf] is [s->ifa->cf]
    and [opts] the options of the request at the head of the request list. *)
Definition bfd_session_reconfigure (s : bfd_session) (ifa_cf : bfd_iface_config)
    (opts : bfd_options) (now : Z) : bfd_session :=
  let s := set_cf (bfd_merge_options ifa_cf opts) s in
  let tx := if loc_state s =? BFD_STATE_UP
            then sc_min_tx_int (cf s) else sc_idle_tx_int (cf s) in
  let s := bfd_session_set_min_tx s tx now in
  let s := bfd_session_set_min_rx s (sc_min_rx_int (cf s)) now in
  let s := set_detect_mult (u8 (sc_multiplier (cf s))) s in
  let s := set_passive (u8 (sc_passive (cf s))) s in
  bfd_session_control_tx_timer s 0 now.

(** The session allocated and initialised by [bfd_add_session] (RFC 5880
    6.8.1): [sl_allocz] gives a zeroed structure, [id] is the discriminator
    chosen by [bfd_get_free_id] and [csn] the random initial sequence
    number. *)
Definition bfd_session_new (a : ip_addr) (k : bfd_iface_key) (ifx id : Z)
    (c : bfd_session_config) (csn now : Z) : bfd_session :=
  let s := {| n_linked := false; addr := a; ifa := k; ifindex := ifx;
              passive := 0; poll_active := 0; poll_scheduled := 0;
              loc_state := 0; rem_state := 0; loc_diag := 0; rem_diag := 0;
              loc_id := id; rem_id := 0; cf := c;
              des_min_tx_int := 0; des_min_tx_new := 0;
              req_min_rx_int := 0; req_min_rx_new := 0;
              rem_min_tx_int := 0; rem_min_rx_int := 0;
              rem_demand_mode := 0; detect_mult := 0; rem_detect_mult := 0;
              last_tx := 0; last_rx := 0;
              tx_timer := tm_new_init 0 0; hold_timer := tm_new_init 0 0;
              request_list := []; last_state_change := 0;
              notify_running := false; rx_csn_known := 0; tx_csn := csn;
              sent := []; kicks := 0%nat |} in
  let s := set_loc_state BFD_STATE_DOWN s in
  let s := set_rem_state BFD_STATE_DOWN s in
  let s := set_des_min_tx_new (sc_idle_tx_int (cf s)) s in
  let s := set_des_min_tx_int (des_min_tx_new s) s in
  let s := set_req_min_rx_new (sc_min_rx_int (cf s)) s in
  let s := set_req_min_rx_int (req_min_rx_new s) s in
  let s := set_rem_min_rx_int 1 s in
  let s := set_detect_mult (u8 (sc_multiplier (cf s))) s in
  let s := set_passive (u8 (sc_passive (cf s))) s in
  let s := bfd_session_update_tx_interval s in
  let s := bfd_session_control_tx_timer s 1 now in
  set_last_state_change now s.

(** ** The life of a session *)

(** The fields of a received control packet that reach the session. *)
Record bfd_ctl_packet := mk_ctl_packet {
  p_state : Z;
  p_diag : Z;
  p_flags : Z;
  p_detect_mult : Z;
  p_snd_id : Z;
  p_des_min_tx_int : Z;
  p_req_min_rx_int : Z
}.

(** Modelled from the spec: the receive path ([bfd_rx_hook] in packets.c) is
    not part of the sources at hand.  After validation it stores what the
    packet carries in the remote fields and hands the packet's flags and the
    two intervals as they were before to [bfd_session_process_ctl]. *)
Definition bfd_rx_ctl (s : bfd_session) (pkt : bfd_ctl_packet) (now : Z)
  : bfd_session :=
  let old_tx_int := des_min_tx_int s in
  let old_rx_int := rem_min_rx_int s in
  let s := set_rem_id (u32 (p_snd_id pkt)) s in
  let s := set_rem_state (u8 (p_state pkt)) s in
  let s := set_rem_diag (u8 (p_diag pkt)) s in
  let s := set_rem_demand_mode (Z.land (p_flags pkt) BFD_FLAG_DEMAND) s in
  let s := set_rem_min_tx_int (u32 (p_des_min_tx_int pkt)) s in
  let s := set_rem_min_rx_int (u32 (p_req_min_rx_int pkt)) s in
  let s := set_rem_detect_mult (u8 (p_detect_mult pkt)) s in
  bfd_session_process_ctl s (p_flags pkt) old_tx_int old_rx_int now.

(** One event in the life of a session: a control packet, one of its two
    timers firing, a reconfiguration, or the control thread touching the
    fields it owns (request list, notify flag and notify-list linkage). *)
Inductive session_step : bfd_session -> bfd_session -> Prop :=
| step_rx s pkt now :
    session_step s (bfd_rx_ctl s pkt now)
| step_tx_timer s jitter now :
    tm_active (tx_timer s) = true ->
    session_step s
      (bfd_tx_timer_hook (set_tx_timer (tm_fire (tx_timer s) jitter) s) now)
| step_hold_timer s now :
    tm_active (hold_timer s) = true ->
    session_step s
      (bfd_hold_timer_hook (set_hold_timer (tm_fire (hold_timer s) 0) s) now)
| step_reconfigure s ifa_cf opts now :
    session_step s (bfd_session_reconfigure s ifa_cf opts now)
| step_control s l running linked :
    session_step s
      (set_request_list l (set_notify_running running (set_n_linked linked s))).

(** The sessions the engine can hold: created by [bfd_add_session], then
    any number of events. *)
Inductive session_reachable : bfd_session -> Prop :=
| reach_new a k ifx id c csn now :
    session_reachable (bfd_session_new a k ifx id c csn now)
| reach_step s s' :
    session_reachable s -> session_step s s' -> session_reachable s'.

(** ** Requests, interfaces and engines *)

(** What the callback of a request does to the broker.  The C callback is
    code of the subscriber; of all it may do, the broker sees only whether
    it releases the request it was called for ([rfree(req)]). *)
Inductive hook_action := HookObserve | HookRelease.

(** A session is designated by its engine and its local discriminator. *)
Definition session_ptr : Type := nat * Z.

(** [struct bfd_request]; the node [n] is the position of the request in
    the list that holds its pointer. *)
Record bfd_request := mk_request {
  req_addr : ip_addr;
  req_local : ip_addr;
  req_iface : option iface;
  req_vrf : option iface;
  req_opts : bfd_options;
  req_hook : option hook_action;
  req_data : Z;
  req_session : option session_ptr;
  req_state : Z;
  req_diag : Z;
  req_old_state : Z;
  req_down : Z
}.

Definition request_eta (r : bfd_request) : bfd_request :=
  mk_request (req_addr r) (req_local r) (req_iface r) (req_vrf r) (req_opts r)
    (req_hook r) (req_data r) (req_session r) (req_state r) (req_diag r)
    (req_old_state r) (req_down r).

Ltac request_setter proj :=
  let body := eval cbv beta delta [request_eta] in request_eta in
  match eval pattern proj in body with
  | ?g _ => let t := eval cbv beta in (fun v => g (fun _ => v)) in exact t
  end.

Definition set_req_opts : bfd_options -> bfd_request -> bfd_request := ltac:(request_setter req_opts).
Definition set_req_hook : option hook_action -> bfd_request -> bfd_request := ltac:(request_setter req_hook).
Definition set_req_data : Z -> bfd_request -> bfd_request := ltac:(request_setter req_data).
Definition set_req_session : option session_ptr -> bfd_request -> bfd_request := ltac:(request_setter req_session).
Definition set_req_state : Z -> bfd_request -> bfd_request := ltac:(request_setter req_state).
Definition set_req_diag : Z -> bfd_request -> bfd_request := ltac:(request_setter req_diag).
Definition set_req_old_state : Z -> bfd_request -> bfd_request := ltac:(request_setter req_old_state).
Definition set_req_down : Z -> bfd_request -> bfd_request := ltac:(request_setter req_down).

Definition set_req_addr (v : ip_addr) (q : bfd_request) : bfd_request :=
  mk_request v (req_local q) (req_iface q) (req_vrf q) (req_opts q) (req_hook q)
    (req_data q) (req_session q) (req_state q) (req_diag q) (req_old_state q)
    (req_down q).
Definition set_req_local (v : ip_addr) (q : bfd_request) : bfd_request :=
  mk_request (req_addr q) v (req_iface q) (req_vrf q) (req_opts q) (req_hook q)
    (req_data q) (req_session q) (req_state q) (req_diag q) (req_old_state q)
    (req_down q).
Definition set_req_iface (v : option iface) (q : bfd_request) : bfd_request :=
  mk_request (req_addr q) (req_local q) v (req_vrf q) (req_opts q) (req_hook q)
    (req_data q) (req_session q) (req_state q) (req_diag q) (req_old_state q)
    (req_down q).
Definition set_req_vrf (v : option iface) (q : bfd_request) : bfd_request :=
  mk_request (req_addr q) (req_local q) (req_iface q) v (req_opts q) (req_hook q)
    (req_data q) (req_session q) (req_state q) (req_diag q) (req_old_state q)
    (req_down q).

(** [struct bfd_iface]; the sockets are left out. *)
Record bfd_iface := mk_bfd_iface {
  ifa_local : ip_addr;
  ifa_iface : option iface;
  ifa_cf : bfd_iface_config;
  ifa_uc : Z;
  ifa_changed : bool
}.

(** [struct bfd_config]: [patt_find] stands for [iface_patt_find] over the
    configured interface patterns. *)
Record bfd_config := mk_bfd_config {
  accept_ipv4 : bool;
  accept_ipv6 : bool;
  accept_direct : bool;
  accept_multihop : bool;
  strict_bind : bool;
  patt_find : iface -> option bfd_iface_config;
  multihop : option bfd_iface_config
}.

(** [struct bfd_proto]: the two session indexes, the interface bindings and
    the list of sessions with a pending notification. *)
Record bfd_proto := mk_bfd_proto {
  vrf_set : bool;
  vrf : option iface;
  p_cf : bfd_config;
  session_hash_id : gmap Z bfd_session;
  session_hash_ip : gmap (ip_addr * Z) Z;
  iface_list : list bfd_iface;
  notify_list : list Z
}.

Definition set_session_hash_id (m : gmap Z bfd_session) (p : bfd_proto) : bfd_proto :=
  mk_bfd_proto (vrf_set p) (vrf p) (p_cf p) m (session_hash_ip p) (iface_list p)
    (notify_list p).
Definition set_session_hash_ip (m : gmap (ip_addr * Z) Z) (p : bfd_proto) : bfd_proto :=
  mk_bfd_proto (vrf_set p) (vrf p) (p_cf p) (session_hash_id p) m (iface_list p)
    (notify_list p).
Definition set_iface_list (l : list bfd_iface) (p : bfd_proto) : bfd_proto :=
  mk_bfd_proto (vrf_set p) (vrf p) (p_cf p) (session_hash_id p) (session_hash_ip p) l
    (notify_list p).
Definition set_notify_list (l : list Z) (p : bfd_proto) : bfd_proto :=
  mk_bfd_proto (vrf_set p) (vrf p) (p_cf p) (session_hash_id p) (session_hash_ip p)
    (iface_list p) l.

(** One invocation of a request's callback: the request and what it reads
    there. *)
Record hook_call := mk_hook_call {
  call_req : nat;
  call_state : Z;
  call_diag : Z;
  call_old_state : Z;
  call_down : Z
}.

(** The state of the control thread: the running engines, the two static
    lists of bfd.c, the requests allocated from the callers' pools, and two
    traces, newest first: the callbacks invoked and the calls of
    [bfd_reconfigure_session]. *)
Record bfd_world := mk_world {
  protos : gmap nat bfd_proto;
  bfd_proto_list : list nat;
  bfd_wait_list : list nat;
  requests : gmap nat bfd_request;
  hook_log : list hook_call;
  reconfigure_log : list session_ptr
}.

Definition set_protos (m : gmap nat bfd_proto) (w : bfd_world) : bfd_world :=
  mk_world m (bfd_proto_list w) (bfd_wait_list w) (requests w) (hook_log w)
    (reconfigure_log w).
Definition set_bfd_wait_list (l : list nat) (w : bfd_world) : bfd_world :=
  mk_world (protos w) (bfd_proto_list w) l (requests w) (hook_log w)
    (reconfigure_log w).
Definition set_requests (m : gmap nat bfd_request) (w : bfd_world) : bfd_world :=
  mk_world (protos w) (bfd_proto_list w) (bfd_wait_list w) m (hook_log w)
    (reconfigure_log w).
Definition set_hook_log (l : list hook_call) (w : bfd_world) : bfd_world :=
  mk_world (protos w) (bfd_proto_list w) (bfd_wait_list w) (requests w) l
    (reconfigure_log w).
Definition set_reconfigure_log (l : list session_ptr) (w : bfd_world) : bfd_world :=
  mk_world (protos w) (bfd_proto_list w) (bfd_wait_list w) (requests w) (hook_log w) l.

(** Dereferencing and updating through pointers. *)
Definition lookup_session (w : bfd_world) (sp : session_ptr) : option bfd_session :=
  pr ← protos w !! sp.1; session_hash_id pr !! sp.2.

Definition upd_proto (p : nat) (f : bfd_proto -> bfd_proto) (w : bfd_world)
  : bfd_world :=
  set_protos (alter f p (protos w)) w.

Definition upd_session (sp : session_ptr) (f : bfd_session -> bfd_session)
    (w : bfd_world) : bfd_world :=
  upd_proto sp.1 (fun pr => set_session_hash_id (alter f sp.2 (session_hash_id pr)) pr) w.

Definition upd_request (r : nat) (f : bfd_request -> bfd_request) (w : bfd_world)
  : bfd_world :=
  set_requests (alter f r (requests w)) w.

Definition bfd_find_session_by_id (p : bfd_proto) (id : Z) : option bfd_session :=
  session_hash_id p !! id.

Definition bfd_find_session_by_addr (p : bfd_proto) (a : ip_addr) (ifx : Z)
  : option bfd_session :=
  id ← session_hash_ip p !! (a, ifx); session_hash_id p !! id.

(** The loop of [bfd_get_free_id], from the candidate [id] on; [fuel] bounds
    the number of increments. *)
Fixpoint bfd_get_free_id_from (fuel : nat) (p : bfd_proto) (id : Z) : Z :=
  if nz id && negb (bool_decide (is_Some (bfd_find_session_by_id p id))) then id
  else match fuel with
       | O => id
       | S n => bfd_get_free_id_from n p (u32 (id + 1))
       end.

(** [rnd] is the value of [random_u32()].  One non-zero free identifier is
    found within as many increments as there are sessions, plus one. *)
Definition bfd_get_free_id (p : bfd_proto) (rnd : Z) : Z :=
  bfd_get_free_id_from (S (size (session_hash_id p))) p (u32 rnd).

(** Modelled from the spec: the defaults of bfd.h are not part of the
    sources at hand; an idle TX interval of one second is the value the
    spec calls typical, the other values are those of its scenarios. *)
Definition BFD_DEFAULT_MIN_RX_INT : Z := 10000.
Definition BFD_DEFAULT_MIN_TX_INT : Z := 100000.
Definition BFD_DEFAULT_IDLE_TX_INT : Z := 1000000.
Definition BFD_DEFAULT_MULTIPLIER : Z := 5.

Definition bfd_default_iface : bfd_iface_config :=
  {| ic_min_rx_int := BFD_DEFAULT_MIN_RX_INT;
     ic_min_tx_int := BFD_DEFAULT_MIN_TX_INT;
     ic_idle_tx_int := BFD_DEFAULT_IDLE_TX_INT;
     ic_multiplier := BFD_DEFAULT_MULTIPLIER;
     ic_passive := 0; ic_auth_type := 0; ic_passwords := 0 |}.

Definition bfd_find_iface_config (cf : bfd_config) (i : option iface)
  : bfd_iface_config :=
  let ic := match i with Some i => patt_find cf i | None => multihop cf end in
  match ic with Some ic => ic | None => bfd_default_iface end.

Definition iface_is (k : bfd_iface_key) (ifa : bfd_iface) : bool :=
  ipa_equal (ifa_local ifa) k.1 && bool_decide (ifa_iface ifa = k.2).

Definition find_iface (p : bfd_proto) (k : bfd_iface_key) : option bfd_iface :=
  List.find (iface_is k) (iface_list p).

(** Applies [f] to the first binding of the list that matches [k]. *)
Fixpoint alter_iface (f : bfd_iface -> bfd_iface) (k : bfd_iface_key)
    (l : list bfd_iface) : list bfd_iface :=
  match l with
  | [] => []
  | ifa :: l' => if iface_is k ifa then f ifa :: l' else ifa :: alter_iface f k l'
  end.

Definition set_ifa_uc (v : Z) (ifa : bfd_iface) : bfd_iface :=
  mk_bfd_iface (ifa_local ifa) (ifa_iface ifa) (ifa_cf ifa) v (ifa_changed ifa).

(** [bfd_get_iface]: the binding is found and its use count incremented, or
    a new one is appended; the caller holds it by its key. *)
Definition bfd_get_iface (p : bfd_proto) (local : ip_addr) (i : option iface)
  : bfd_proto :=
  match find_iface p (local, i) with
  | Some _ =>
      set_iface_list
        (alter_iface (fun ifa => set_ifa_uc (ifa_uc ifa + 1) ifa) (local, i)
           (iface_list p)) p
  | None =>
      let ic := bfd_find_iface_config (p_cf p) i in
      set_iface_list (iface_list p ++ [mk_bfd_iface local i ic 1 false]) p
  end.

(** Removes the first binding of the list that matches [k]. *)
Fixpoint remove_iface (k : bfd_iface_key) (l : list bfd_iface) : list bfd_iface :=
  match l with
  | [] => []
  | ifa :: l' => if iface_is k ifa then l' else ifa :: remove_iface k l'
  end.

Definition bfd_free_iface (p : bfd_proto) (k : bfd_iface_key) : bfd_proto :=
  match find_iface p k with
  | None => p
  | Some ifa =>
      if nz (ifa_uc ifa - 1)
      then set_iface_list
             (alter_iface (fun ifa => set_ifa_uc (ifa_uc ifa - 1) ifa) k (iface_list p)) p
      else set_iface_list (remove_iface k (iface_list p)) p
  end.

(** The time and the two random numbers a call may draw. *)
Record oracle := mk_oracle {
  now_of : Z;
  rnd_id : Z;
  rnd_csn : Z
}.

Definition bfd_add_session (w : bfd_world) (p : nat) (a local : ip_addr)
    (i : option iface) (opts : bfd_options) (o : oracle) : Z * bfd_world :=
  match protos w !! p with
  | None => (0, w)
  | Some pr =>
      let pr := bfd_get_iface pr local i in
      let ic := match find_iface pr (local, i) with
                | Some ifa => ifa_cf ifa
                | None => bfd_default_iface
                end in
      let ifx := match i with Some i => index i | None => 0 end in
      let id := bfd_get_free_id pr (rnd_id o) in
      let s := bfd_session_new a (local, i) ifx id (bfd_merge_options ic opts)
                 (u32 (rnd_csn o)) (now_of o) in
      let pr := set_session_hash_id (<[id := s]> (session_hash_id pr)) pr in
      let pr := set_session_hash_ip (<[(a, ifx) := id]> (session_hash_ip pr)) pr in
      (id, set_protos (<[p := pr]> (protos w)) w)
  end.

Definition bfd_remove_session (w : bfd_world) (sp : session_ptr) : bfd_world :=
  match protos w !! sp.1 with
  | None => w
  | Some pr =>
      match session_hash_id pr !! sp.2 with
      | None => w
      | Some s =>
          (* Remove session from notify list if scheduled for notification *)
          let pr := if n_linked s
                    then set_notify_list
                           (List.filter (fun id => negb (id =? sp.2)) (notify_list pr)) pr
                    else pr in
          let pr := bfd_free_iface pr (ifa s) in
          let pr := set_session_hash_id (delete sp.2 (session_hash_id pr)) pr in
          let pr := set_session_hash_ip
                      (delete (addr s, ifindex s) (session_hash_ip pr)) pr in
          set_protos (<[sp.1 := pr]> (protos w)) w
      end
  end.

(** [bfd_reconfigure_session], with its call recorded. *)
Definition bfd_reconfigure_session (w : bfd_world) (sp : session_ptr) (now : Z)
  : bfd_world :=
  let w := set_reconfigure_log (sp :: reconfigure_log w) w in
  match protos w !! sp.1 with
  | None => w
  | Some pr =>
      match session_hash_id pr !! sp.2 with
      | None => w
      | Some s =>
          match request_list s with
          | [] => w
          | r :: _ =>
              match requests w !! r, find_iface pr (ifa s) with
              | Some req, Some b =>
                  upd_session sp
                    (fun s => bfd_session_reconfigure s (ifa_cf b) (req_opts req) now) w
              | _, _ => w
              end
          end
      end
  end.

(** ** The request broker *)

(** [rem_node(&req->n)]: the request leaves the list that holds it, the
    request list of its session or the wait list; on a request that is on no
    list (self-linked) nothing happens. *)
Definition rem_node_request (w : bfd_world) (r : nat) : bfd_world :=
  let w := set_bfd_wait_list (filter (.≠ r) (bfd_wait_list w)) w in
  match requests w !! r ≫= req_session with
  | Some sp =>
      upd_session sp (fun s => set_request_list (filter (.≠ r) (request_list s)) s) w
  | None => w
  end.

Definition bfd_request_free (w : bfd_world) (r : nat) : bfd_world :=
  match requests w !! r with
  | None => w
  | Some req =>
      let s := req_session req in
      let w := rem_node_request w r in
      (* Remove the session if there is no request for it. Skip that if
         inside notify hooks, will be handled by bfd_notify_hook() itself *)
      match s with
      | None => w
      | Some sp =>
          match lookup_session w sp with
          | Some s' =>
              if bool_decide (request_list s' = []) && negb (notify_running s')
              then bfd_remove_session w sp
              else w
          | None => w
          end
      end
  end.

(** Modelled from the spec: [rfree] belongs to the resource pools, which are
    not part of the sources at hand; a release runs the destructor of the
    class, [bfd_request_free], and the request is gone. *)
Definition rfree_request (w : bfd_world) (r : nat) : bfd_world :=
  let w := bfd_request_free w r in
  set_requests (delete r (requests w)) w.

(** [req->hook(req)] *)
Definition run_hook (h : hook_action) (w : bfd_world) (r : nat) : bfd_world :=
  match h with
  | HookObserve => w
  | HookRelease => rfree_request w r
  end.

(** The assignments of [bfd_request_notify] to the request: the delivered
    state and diagnostic, the state delivered before, and the down flag. *)
Definition notified (req : bfd_request) (state remote diag : Z) : bfd_request :=
  let old_state := req_state req in
  let req := set_req_state state req in
  let req := set_req_diag diag req in
  let req := set_req_old_state old_state req in
  set_req_down
    (Z.b2z ((old_state =? BFD_STATE_UP) && (state =? BFD_STATE_DOWN) &&
            negb (remote =? BFD_STATE_ADMIN_DOWN))) req.

Definition bfd_request_notify (w : bfd_world) (r : nat) (state remote diag : Z)
  : bfd_world :=
  match requests w !! r with
  | None => w
  | Some req =>
      let old_state := req_state req in
      if state =? old_state then w
      else
        let w := upd_request r (fun req => notified req state remote diag) w in
        let req := notified req state remote diag in
        match req_hook req with
        | Some h =>
            let call := mk_hook_call r (req_state req) (req_diag req)
                          (req_old_state req) (req_down req) in
            run_hook h (set_hook_log (call :: hook_log w) w) r
        | None => w
        end
  end.

Definition bfd_add_request (w : bfd_world) (p : nat) (r : nat) (o : oracle)
  : bool * bfd_world :=
  match protos w !! p, requests w !! r with
  | Some pr, Some req =>
      let cf := p_cf pr in
      if vrf_set pr && negb (bool_decide (vrf pr = req_vrf req)) then (false, w)
      else if (if ipa_is_ip4 (req_addr req)
               then negb (accept_ipv4 cf) else negb (accept_ipv6 cf)) then (false, w)
      else if (match req_iface req with
               | Some _ => negb (accept_direct cf)
               | None => negb (accept_multihop cf)
               end) then (false, w)
      else
        let ifx := match req_iface req with Some i => index i | None => 0 end in
        let '(id, w) :=
          match bfd_find_session_by_addr pr (req_addr req) ifx with
          | Some s => (loc_id s, w)
          | None => bfd_add_session w p (req_addr req) (req_local req)
                      (req_iface req) (req_opts req) o
          end in
        let w := rem_node_request w r in
        let w := upd_session (p, id)
                   (fun s => set_request_list (request_list s ++ [r]) s) w in
        let w := upd_request r (set_req_session (Some (p, id))) w in
        match lookup_session w (p, id) with
        | Some s =>
            (true, bfd_request_notify w r (loc_state s) (rem_state s) (loc_diag s))
        | None => (true, w)
        end
  | _, _ => (false, w)
  end.

(** The walk of [bfd_submit_request] over the engines still to try; [None]
    when none accepts the request. *)
Fixpoint submit_walk (w : bfd_world) (l : list nat) (r : nat) (o : oracle)
  : option bfd_world :=
  match l with
  | [] => None
  | p :: l' =>
      let '(accepted, w') := bfd_add_request w p r o in
      if accepted then Some w' else submit_walk w' l' r o
  end.

Definition bfd_submit_request (w : bfd_world) (r : nat) (o : oracle) : bfd_world :=
  match submit_walk w (bfd_proto_list w) r o with
  | Some w' => w'
  | None =>
      let w := rem_node_request w r in
      let w := set_bfd_wait_list (bfd_wait_list w ++ [r]) w in
      let w := upd_request r (set_req_session None) w in
      bfd_request_notify w r BFD_STATE_ADMIN_DOWN BFD_STATE_ADMIN_DOWN 0
  end.

(** Modelled from the spec: [ralloc] belongs to the resource pools; it
    returns a zeroed structure at an address not in use. *)
Definition ralloc_request (w : bfd_world) : nat * bfd_world :=
  let r := fresh (dom (requests w)) in
  let zero_opts := mk_options 0 0 0 0 0 0 0 0 in
  let req := mk_request (IP6 0) (IP6 0) None None zero_opts None 0 None 0 0 0 0 in
  (r, set_requests (<[r := req]> (requests w)) w).

Definition bfd_request_session (w : bfd_world) (a local : ip_addr)
    (i v : option iface) (hook : option hook_action) (data : Z)
    (opts : option bfd_options) (o : oracle) : nat * bfd_world :=
  let '(r, w) := ralloc_request w in
  (* Hack: self-link req->n, we will call rem_node() on it *)
  let w := upd_request r (set_req_addr a) w in
  let w := upd_request r (set_req_local local) w in
  let w := upd_request r (set_req_iface i) w in
  let w := upd_request r (set_req_vrf v) w in
  let w := match opts with
           | Some opts => upd_request r (set_req_opts opts) w
           | None => w
           end in
  let w := bfd_submit_request w r o in
  let w := upd_request r (set_req_hook hook) w in
  let w := upd_request r (set_req_data data) w in
  (r, w).

Definition bfd_update_request (w : bfd_world) (r : nat) (opts : bfd_options)
    (now : Z) : bfd_world :=
  match requests w !! r with
  | None => w
  | Some req =>
      let s := req_session req in
      (* memcmp(opts, &req->opts, sizeof(struct bfd_options)) *)
      if bool_decide (opts = req_opts req) then w
      else
        let w := upd_request r (set_req_opts opts) w in
        match s with
        | Some sp => bfd_reconfigure_session w sp now
        | None => w
        end
  end.

(** The body of the outer loop of [bfd_notify_hook], for the session [id] of
    the engine [p].  The inner loop is delete-safe: it visits the requests
    that were on the list when it started, whatever a callback does to its
    own request. *)
Definition bfd_notify_session (w : bfd_world) (p : nat) (id : Z) : bfd_world :=
  match lookup_session w (p, id) with
  | None => w
  | Some s =>
      let w := upd_session (p, id) (set_n_linked false) w in
      let w := upd_session (p, id) (set_notify_running true) w in
      let w := foldl (fun w r =>
                 bfd_request_notify w r (loc_state s) (rem_state s) (loc_diag s))
                 w (request_list s) in
      let w := upd_session (p, id) (set_notify_running false) w in
      (* Remove the session if all requests were removed in notify hooks *)
      match lookup_session w (p, id) with
      | Some s' =>
          if bool_decide (request_list s' = []) then bfd_remove_session w (p, id) else w
      | None => w
      end
  end.

(** [bfd_notify_hook] for the engine [p]: the notify list is taken over and
    emptied, then every session on it is served. *)
Definition bfd_notify_hook (w : bfd_world) (p : nat) : bfd_world :=
  match protos w !! p with
  | None => w
  | Some pr =>
      let tmp_list := notify_list pr in
      let w := upd_proto p (set_notify_list []) w in
      foldl (fun w id => bfd_notify_session w p id) w tmp_list
  end.

(** An event of the session thread as the control thread sees it: the
    session changes, and when the event linked it on the notify list
    ([add_tail] in [bfd_session_update_state]) it is at the tail of that
    list. *)
Definition session_thread_event (w : bfd_world) (sp : session_ptr)
    (f : bfd_session -> bfd_session) : bfd_world :=
  match lookup_session w sp with
  | None => w
  | Some s =>
      let w := upd_session sp f w in
      if negb (n_linked s) && n_linked (f s)
      then upd_proto sp.1 (fun pr => set_notify_list (notify_list pr ++ [sp.2]) pr) w
      else w
  end.

(** ** Engines that come and go *)

Definition set_bfd_proto_list (l : list nat) (w : bfd_world) : bfd_world :=
  mk_world (protos w) l (bfd_wait_list w) (requests w) (hook_log w)
    (reconfigure_log w).

(** [bfd_take_requests]: the walk over the wait list is delete-safe, it
    visits the requests that were waiting when it started; [o r] holds the
    draws of the call made for the request [r]. *)
Definition bfd_take_requests (w : bfd_world) (p : nat) (o : nat -> oracle)
  : bfd_world :=
  foldl (fun w r => (bfd_add_request w p r (o r)).2) w (bfd_wait_list w).

(** The inner loop of [bfd_drop_requests], [WALK_LIST_FIRST]: as long as
    the request list of the session is not empty its first request is
    submitted again; [fuel] bounds the number of rounds. *)
Fixpoint drop_session_requests (fuel : nat) (w : bfd_world) (sp : session_ptr)
    (o : nat -> oracle) : bfd_world :=
  match fuel with
  | O => w
  | S n =>
      match lookup_session w sp ≫= (fun s => head (request_list s)) with
      | Some r => drop_session_requests n (bfd_submit_request w r (o r)) sp o
      | None => w
      end
  end.

(** [bfd_drop_requests]: [ids] is the order in which [HASH_WALK] meets the
    sessions of the engine.  Each round of the inner loop is given as many
    rounds as the session has requests when its turn comes. *)
Definition bfd_drop_requests (w : bfd_world) (p : nat) (ids : list Z)
    (o : nat -> oracle) : bfd_world :=
  foldl (fun w id =>
           match lookup_session w (p, id) with
           | Some s => drop_session_requests (length (request_list s)) w (p, id) o
           | None => w
           end) w ids.

(** ** Neighbors *)

(** [struct bfd_neighbor], an entry of the configuration: [n_neigh] points
    to its entry in the neighbor cache of the nest and [n_req] to the
    request made for it. *)
Record bfd_neighbor := mk_bfd_neighbor {
  n_addr : ip_addr;
  n_local : ip_addr;
  n_iface : option iface;
  n_neigh : option nat;
  n_req : option nat;
  n_multihop : Z;
  n_active : Z
}.

Definition set_n_neigh (v : option nat) (n : bfd_neighbor) : bfd_neighbor :=
  mk_bfd_neighbor (n_addr n) (n_local n) (n_iface n) v (n_req n) (n_multihop n)
    (n_active n).
Definition set_n_req (v : option nat) (n : bfd_neighbor) : bfd_neighbor :=
  mk_bfd_neighbor (n_addr n) (n_local n) (n_iface n) (n_neigh n) v (n_multihop n)
    (n_active n).
Definition set_n_active (v : Z) (n : bfd_neighbor) : bfd_neighbor :=
  mk_bfd_neighbor (n_addr n) (n_local n) (n_iface n) (n_neigh n) (n_req n)
    (n_multihop n) v.

(** [struct neighbor] of the nest, with the fields bfd.c reads and writes:
    the protocol that asked for the entry, its [data], the scope, the
    interface and the address the router has there ([nb->ifa->ip]). *)
Record neighbor := mk_neighbor {
  nb_proto : nat;
  nb_data : option nat;
  nb_scope : Z;
  nb_iface : option iface;
  nb_ifa_ip : ip_addr
}.

Definition set_nb_data (v : option nat) (e : neighbor) : neighbor :=
  mk_neighbor (nb_proto e) v (nb_scope e) (nb_iface e) (nb_ifa_ip e).

(** The two errors [bfd_start_neighbor] logs. *)
Inductive neigh_error :=
  | InvalidRemote (n : nat)
  | DuplicateNeighbor (n : nat).

(** The control thread with the neighbors: the broker, the neighbor cache
    of the nest, the neighbors of the configurations and the errors logged,
    newest first. *)
Record bfd_nest := mk_nest {
  broker : bfd_world;
  neigh_cache : gmap nat neighbor;
  bfd_neighbors : gmap nat bfd_neighbor;
  neigh_errors : list neigh_error
}.

Definition set_broker (w : bfd_world) (x : bfd_nest) : bfd_nest :=
  mk_nest w (neigh_cache x) (bfd_neighbors x) (neigh_errors x).
Definition upd_cache (nb : nat) (f : neighbor -> neighbor) (x : bfd_nest) : bfd_nest :=
  mk_nest (broker x) (alter f nb (neigh_cache x)) (bfd_neighbors x) (neigh_errors x).
Definition upd_neighbor (n : nat) (f : bfd_neighbor -> bfd_neighbor) (x : bfd_nest)
  : bfd_nest :=
  mk_nest (broker x) (neigh_cache x) (alter f n (bfd_neighbors x)) (neigh_errors x).
Definition log_neigh_error (e : neigh_error) (x : bfd_nest) : bfd_nest :=
  mk_nest (broker x) (neigh_cache x) (bfd_neighbors x) (e :: neigh_errors x).

(** [p->p.vrf] *)
Definition proto_vrf (w : bfd_world) (p : nat) : option iface :=
  pr ← protos w !! p; vrf pr.

Definition bfd_same_neighbor (x y : bfd_neighbor) : bool :=
  ipa_equal (n_addr x) (n_addr y) && ipa_equal (n_local x) (n_local y) &&
  bool_decide (n_iface x = n_iface y) && (n_multihop x =? n_multihop y).

Section neighbors.

(** Two functions of the libraries: [ipa_nonzero] of lib/ip.h, and
    [neigh_find] of the nest called with [NEF_STICKY], which gives the
    entry of the neighbor cache for an address on an interface, if the
    address can be a neighbor at all. *)
Variable ipa_nonzero : ip_addr -> bool.
Variable neigh_find : nat -> ip_addr -> option iface -> option nat.

(** [bfd_neigh_notify], the hook the nest calls when the scope of the
    cache entry [nb] has changed. *)
Definition bfd_neigh_notify (x : bfd_nest) (nb : nat) (o : oracle) : bfd_nest :=
  match neigh_cache x !! nb with
  | None => x
  | Some e =>
      match nb_data e with
      | None => x
      | Some n =>
          match bfd_neighbors x !! n with
          | None => x
          | Some bn =>
              let x :=
                if (0 <? nb_scope e) && negb (bool_decide (is_Some (n_req bn))) then
                  let local := if ipa_nonzero (n_local bn) then n_local bn
                               else nb_ifa_ip e in
                  let '(r, w) :=
                    bfd_request_session (broker x) (n_addr bn) local (nb_iface e)
                      (proto_vrf (broker x) (nb_proto e)) None 0 None o in
                  upd_neighbor n (set_n_req (Some r)) (set_broker w x)
                else x in
              match bfd_neighbors x !! n ≫= n_req with
              | Some r =>
                  if nb_scope e <=? 0
                  then upd_neighbor n (set_n_req None)
                         (set_broker (rfree_request (broker x) r) x)
                  else x
              | None => x
              end
          end
      end
  end.

Definition bfd_start_neighbor (x : bfd_nest) (p n : nat) (o : oracle) : bfd_nest :=
  let x := upd_neighbor n (set_n_active 1) x in
  match bfd_neighbors x !! n with
  | None => x
  | Some bn =>
      if nz (n_multihop bn) then
        let '(r, w) :=
          bfd_request_session (broker x) (n_addr bn) (n_local bn) None
            (proto_vrf (broker x) p) None 0 None o in
        upd_neighbor n (set_n_req (Some r)) (set_broker w x)
      else
        match neigh_find p (n_addr bn) (n_iface bn) with
        | None => log_neigh_error (InvalidRemote n) x
        | Some nb =>
            match neigh_cache x !! nb with
            | None => x
            | Some e =>
                if bool_decide (is_Some (nb_data e))
                then log_neigh_error (DuplicateNeighbor n) x
                else
                  let x := upd_neighbor n (set_n_neigh (Some nb)) x in
                  let x := upd_cache nb (set_nb_data (Some n)) x in
                  if 0 <? nb_scope e then bfd_neigh_notify x nb o
                  else x (* Waiting for the address to become my neighbor *)
            end
        end
  end.

(** [bfd_stop_neighbor]; [rfree(NULL)] does nothing. *)
Definition bfd_stop_neighbor (x : bfd_nest) (n : nat) : bfd_nest :=
  match bfd_neighbors x !! n with
  | None => x
  | Some bn =>
      let x := match n_neigh bn with
               | Some nb => upd_cache nb (set_nb_data None) x
               | None => x
               end in
      let x := upd_neighbor n (set_n_neigh None) x in
      let x := match n_req bn with
               | Some r => set_broker (rfree_request (broker x) r) x
               | None => x
               end in
      upd_neighbor n (set_n_req None) x
  end.

(** The first neighbor of the list [new] that is the same as [on]. *)
Definition find_same (x : bfd_nest) (on : nat) (new : list nat) : option nat :=
  bo ← bfd_neighbors x !! on;
  List.find (fun nn => match bfd_neighbors x !! nn with
                       | Some bn => bfd_same_neighbor bn bo
                       | None => false
                       end) new.

(** The body of the inner loop of [bfd_reconfigure_neighbors] where it
    finds the same neighbor. *)
Definition keep_neighbor (x : bfd_nest) (on nn : nat) : bfd_nest :=
  match bfd_neighbors x !! on with
  | None => x
  | Some bo =>
      let x := upd_neighbor nn (set_n_neigh (n_neigh bo)) x in
      let x := match n_neigh bo with
               | Some nb => upd_cache nb (set_nb_data (Some nn)) x
               | None => x
               end in
      let x := upd_neighbor nn (set_n_req (n_req bo)) x in
      upd_neighbor nn (set_n_active 1) x
  end.

(** [bfd_reconfigure_neighbors]: [old] and [new] are the neighbor lists of
    the configuration of the engine and of the new configuration; [o n]
    holds the draws of the start of the neighbor [n]. *)
Definition bfd_reconfigure_neighbors (x : bfd_nest) (p : nat) (old new : list nat)
    (o : nat -> oracle) : bfd_nest :=
  let x := foldl (fun x on =>
                    match find_same x on new with
                    | Some nn => keep_neighbor x on nn
                    | None => bfd_stop_neighbor x on
                    end) x old in
  foldl (fun x nn =>
           match bfd_neighbors x !! nn with
           | Some bn => if nz (n_active bn) then x else bfd_start_neighbor x p nn (o nn)
           | None => x
           end) x new.

End neighbors.

(** ** Reconfiguration of an engine *)

Definition bfd_reconfigure_iface (ifa : bfd_iface) (nc : bfd_config) : bfd_iface :=
  let new := bfd_find_iface_config nc (ifa_iface ifa) in
  let old := ifa_cf ifa in
  (* Any configuration change should trigger bfd_reconfigure_session() *)
  let changed :=
    negb (ic_min_rx_int new =? ic_min_rx_int old) ||
    negb (ic_min_tx_int new =? ic_min_tx_int old) ||
    negb (ic_idle_tx_int new =? ic_idle_tx_int old) ||
    negb (ic_multiplier new =? ic_multiplier old) ||
    negb (ic_passive new =? ic_passive old) ||
    negb (ic_auth_type new =? ic_auth_type old) ||
    negb (ic_passwords new =? ic_passwords old) in
  mk_bfd_iface (ifa_local ifa) (ifa_iface ifa) new (ifa_uc ifa) changed.

(** The body of the walk of [bfd_reconfigure] over the sessions. *)
Definition reconfigure_changed (p : nat) (now : Z) (w : bfd_world) (id : Z)
  : bfd_world :=
  match protos w !! p with
  | None => w
  | Some pr =>
      match session_hash_id pr !! id with
      | None => w
      | Some s =>
          match find_iface pr (ifa s) with
          | Some b => if ifa_changed b then bfd_reconfigure_session w (p, id) now else w
          | None => w
          end
      end
  end.

(** The two loops of [bfd_reconfigure] over the bindings and over the
    sessions of the engine; [ids] is the order in which [HASH_WALK] meets
    the sessions. *)
Definition reconfigure_sessions (w : bfd_world) (p : nat) (new : bfd_config)
    (ids : list Z) (now : Z) : bfd_world :=
  let w := upd_proto p
             (fun pr => set_iface_list
                          ((fun ifa => bfd_reconfigure_iface ifa new) <$> iface_list pr)
                          pr) w in
  foldl (reconfigure_changed p now) w ids.

(** [bfd_reconfigure]; the result is what it returns.  [old_neigh] and
    [new_neigh] are the neighbor lists of the two configurations, and
    [udp6_changed] tells whether they differ in [zero_udp6_checksum_rx], an
    option of the sockets. *)
Definition bfd_reconfigure (ipa_nonzero : ip_addr -> bool)
    (neigh_find : nat -> ip_addr -> option iface -> option nat)
    (x : bfd_nest) (p : nat) (new : bfd_config) (udp6_changed : bool)
    (old_neigh new_neigh : list nat) (ids : list Z) (now : Z) (o : nat -> oracle)
  : bool * bfd_nest :=
  match protos (broker x) !! p with
  | None => (false, x)
  | Some pr =>
      let old := p_cf pr in
      (* TODO: Improve accept reconfiguration *)
      if negb (Bool.eqb (accept_ipv4 new) (accept_ipv4 old)) ||
         negb (Bool.eqb (accept_ipv6 new) (accept_ipv6 old)) ||
         negb (Bool.eqb (accept_direct new) (accept_direct old)) ||
         negb (Bool.eqb (accept_multihop new) (accept_multihop old)) ||
         negb (Bool.eqb (strict_bind new) (strict_bind old)) ||
         udp6_changed
      then (false, x)
      else
        let w := reconfigure_sessions (broker x) p new ids now in
        (true,
         bfd_reconfigure_neighbors ipa_nonzero neigh_find (set_broker w x) p
           old_neigh new_neigh o)
  end.

(** ** The end of an engine *)

(** [bfd_shutdown] up to the release of the pool of the session thread:
    the engine leaves the list of the engines, its neighbors are stopped
    and its requests are dropped.  [neigh] is the neighbor list of its
    configuration and [ids] the order of the walk over its sessions.
    What follows, [rfree(p->tpool)], frees the timers of the sessions and
    the interface bindings and is left out. *)
Definition bfd_shutdown (x : bfd_nest) (p : nat) (neigh : list nat) (ids : list Z)
    (o : nat -> oracle) : bfd_nest :=
  (* rem_node(&p->bfd_node) *)
  let w := set_bfd_proto_list (filter (.≠ p) (bfd_proto_list (broker x))) (broker x) in
  let x := foldl bfd_stop_neighbor (set_broker w x) neigh in
  set_broker (bfd_drop_requests (broker x) p ids o) x.

(** * Part II: the vocabulary of the properties *)

(** ** Groups of fields *)

(** The fields no timer or poll helper writes: the local state and
    diagnostic, everything learnt from the peer, and the configuration. *)
Definition fsm_fields (s : bfd_session) :=
  (loc_state s, loc_diag s, rem_state s, rem_id s,
   (rem_min_tx_int s, rem_min_rx_int s, rem_demand_mode s, rem_detect_mult s),
   (passive s, cf s, n_linked s, kicks s, sent s, last_state_change s)).

(** What [bfd_session_update_state] leaves alone: the remote fields, the
    passive flag and the configuration. *)
Definition peer_fields (s : bfd_session) :=
  (rem_state s, rem_id s, rem_min_tx_int s, rem_min_rx_int s,
   (rem_demand_mode s, rem_detect_mult s, passive s, cf s)).

(** The intervals under negotiation and the two poll masks. *)
Definition poll_fields (s : bfd_session) :=
  (des_min_tx_int s, des_min_tx_new s, req_min_rx_int s, req_min_rx_new s,
   poll_active s, poll_scheduled s).

(** The four intervals under negotiation. *)
Definition interval_fields (s : bfd_session) :=
  (des_min_tx_int s, des_min_tx_new s, req_min_rx_int s, req_min_rx_new s).

(** What [tx_timer_gated] reads. *)
Definition gate_fields (s : bfd_session) :=
  (rem_min_rx_int s, passive s, rem_id s, tx_timer s).

(** ** The transition table *)

Inductive bfd_state := AdminDown | Down | Init | Up.

Definition state_num (st : bfd_state) : Z :=
  match st with
  | AdminDown => BFD_STATE_ADMIN_DOWN
  | Down => BFD_STATE_DOWN
  | Init => BFD_STATE_INIT
  | Up => BFD_STATE_UP
  end.

(** The table in the words of the specification (section 4.1): the next
    state and diagnostic, [None] for "no change" and for the pairs the
    table does not list. *)
Definition spec_transition (loc rem : bfd_state) : option (bfd_state * Z) :=
  match loc, rem with
  | AdminDown, _ => None
  | Down, Down => Some (Init, BFD_DIAG_NOTHING)
  | Down, (Init | Up) => Some (Up, BFD_DIAG_NOTHING)
  | Init, AdminDown => Some (Down, BFD_DIAG_NEIGHBOR_DOWN)
  | Init, (Init | Up) => Some (Up, BFD_DIAG_NOTHING)
  | Up, (AdminDown | Down) => Some (Down, BFD_DIAG_NEIGHBOR_DOWN)
  | Up, (Init | Up) => None
  | _, _ => None
  end.

(** The same table with the one cell the code does not have: a session that
    is Down and sees the peer Up stays Down (RFC 5880 6.8.6). *)
Definition code_transition (loc rem : bfd_state) : option (bfd_state * Z) :=
  match loc, rem with
  | Down, Up => None
  | _, _ => spec_transition loc rem
  end.

(** ** Timers, polls and intervals *)

(** The three [goto stop] conditions of [bfd_session_control_tx_timer]. *)
Definition tx_timer_must_stop (s : bfd_session) : bool :=
  nz (passive s) && (rem_id s =? 0) ||
  nz (rem_demand_mode s) && negb (nz (poll_active s)) &&
    (loc_state s =? BFD_STATE_UP) && (rem_state s =? BFD_STATE_UP) ||
  (rem_min_rx_int s =? 0).

(** Whether the bit [bit] of a poll mask or of packet flags is set. *)
Definition has_bit (mask bit : Z) : bool := nz (Z.land mask bit).

(** The effective TX interval, [MAX(des_min_tx_int, rem_min_rx_int)]. *)
Definition tx_interval (s : bfd_session) : Z :=
  Z.max (des_min_tx_int s) (rem_min_rx_int s).

(** The TX timer is tuned: it carries the base and the randomization range
    that [bfd_session_update_tx_interval] computes from the intervals the
    session holds now. *)
Definition tx_timer_tuned (s : bfd_session) : Prop :=
  recurrent (tx_timer s) =
    recurrent (tx_timer (bfd_session_update_tx_interval s)) /\
  randomize (tx_timer s) =
    randomize (tx_timer (bfd_session_update_tx_interval s)).

(** What [tx_timer_tuned] reads. *)
Definition tune_fields (s : bfd_session) :=
  (des_min_tx_int s, rem_min_rx_int s, recurrent (tx_timer s),
   randomize (tx_timer s)).

(** The ordering the comments of [bfd_session_set_min_tx] and
    [bfd_session_set_min_rx] note. *)
Definition intervals_ordered (s : bfd_session) : Prop :=
  des_min_tx_int s <= des_min_tx_new s /\ req_min_rx_new s <= req_min_rx_int s.

(** Invariants 3 and 4 of the session: no TX timer against a peer that
    accepts no packets, none for a passive session that has not heard of its
    peer. *)
Definition tx_timer_gated (s : bfd_session) : Prop :=
  (rem_min_rx_int s = 0 -> tm_active (tx_timer s) = false) /\
  (nz (passive s) = true -> rem_id s = 0 -> tm_active (tx_timer s) = false).

(** A discriminator the engine [p] can give to a new session. *)
Definition id_free (p : bfd_proto) (id : Z) : Prop :=
  id <> 0 /\ session_hash_id p !! id = None.

Global Instance id_free_dec p id : Decision (id_free p id).
Proof. unfold id_free. apply _. Defined.

(** ** Requests under notification *)

(** A request without callback, and the callbacks invoked so far. *)
Definition hookless (w : bfd_world) (r : nat) (log : list hook_call) : Prop :=
  (exists q, requests w !! r = Some q /\ req_hook q = None) /\ hook_log w = log.



(** ** The session between events *)

(** The detection parameters of the two ends and the hold timer. *)
Definition detection_fields (s : bfd_session) :=
  (req_min_rx_int s, rem_min_tx_int s, rem_detect_mult s, detect_mult s,
   last_rx s, hold_timer s).

(** The parameters a session aims at are those of its configuration: the
    TX interval is [min_tx_int] when the session is Up and [idle_tx_int]
    otherwise. *)
Definition follows_configuration (s : bfd_session) : Prop :=
  des_min_tx_new s =
    (if loc_state s =? BFD_STATE_UP
     then sc_min_tx_int (cf s) else sc_idle_tx_int (cf s)) /\
  req_min_rx_new s = sc_min_rx_int (cf s) /\
  detect_mult s = u8 (sc_multiplier (cf s)) /\
  passive s = u8 (sc_passive (cf s)).

(** An event that takes the session from [s] to [s'] links it on the notify
    list and wakes the control thread exactly when it changed the local
    state of a session that was not linked yet. *)
Definition notified_once (s s' : bfd_session) : Prop :=
  n_linked s' = n_linked s || negb (loc_state s' =? loc_state s) /\
  kicks s' =
    if negb (n_linked s) && negb (loc_state s' =? loc_state s)
    then S (kicks s) else kicks s.

(** ** The session tables and the interface bindings *)

(** The two indexes of an engine describe the same sessions: a session is
    filed under its own discriminator, which is not zero, and under its own
    address and interface index, and what the address index names is a
    session with that address and interface index. *)
Definition registry_ok (p : bfd_proto) : Prop :=
  (forall id s, session_hash_id p !! id = Some s ->
     loc_id s = id /\ id <> 0 /\
     session_hash_ip p !! (addr s, ifindex s) = Some id) /\
  (forall k id, session_hash_ip p !! k = Some id ->
     exists s, session_hash_id p !! id = Some s /\ (addr s, ifindex s) = k).

Definition iface_key (b : bfd_iface) : bfd_iface_key := (ifa_local b, ifa_iface b).

(** The number of sessions of the engine that hold the binding [k]. *)
Definition sessions_on (p : bfd_proto) (k : bfd_iface_key) : nat :=
  size (filter (fun e : Z * bfd_session => ifa e.2 = k) (session_hash_id p)).

(** No pair of local address and interface is bound twice; a binding exists
    exactly while some session holds it, and its use count is the number of
    those sessions. *)
Definition ifaces_ok (p : bfd_proto) : Prop :=
  NoDup (iface_key <$> iface_list p) /\
  forall k, ifa_uc <$> find_iface p k =
            if decide (sessions_on p k = 0%nat) then None
            else Some (Z.of_nat (sessions_on p k)).

(** What the control thread reads of a session: its keys in the two
    indexes, its binding, the two states, and the fields it owns. *)
Definition table_fields (s : bfd_session) :=
  (loc_id s, addr s, ifindex s, ifa s,
   (loc_state s, rem_state s, request_list s, n_linked s, notify_running s)).

(** ** Requests between the engines *)

(** The three tests of [bfd_add_request] that a request passes before the
    engine looks for its session: the VRF of an engine bound to one, the
    address family, and direct or multihop operation. *)
Definition request_acceptable (pr : bfd_proto) (req : bfd_request) : bool :=
  negb (vrf_set pr && negb (bool_decide (vrf pr = req_vrf req))) &&
  negb (if ipa_is_ip4 (req_addr req)
        then negb (accept_ipv4 (p_cf pr)) else negb (accept_ipv6 (p_cf pr))) &&
  negb (match req_iface req with
        | Some _ => negb (accept_direct (p_cf pr))
        | None => negb (accept_multihop (p_cf pr))
        end).

(** The interface index a request asks for. *)
Definition request_ifindex (req : bfd_request) : Z :=
  match req_iface req with Some i => index i | None => 0 end.

(** Whether the callback of a request, run by a notification, releases the
    request. *)
Definition releases (h : option hook_action) : bool :=
  match h with Some HookRelease => true | _ => false end.

(** The property [P] holds of the session [sp], if the world has it. *)
Definition holds (P : bfd_session -> Prop) (sp : session_ptr) (w : bfd_world)
  : Prop :=
  forall s, lookup_session w sp = Some s -> P s.

(** The state [state] was delivered to the request [r], if it is still
    allocated. *)
Definition delivered (state : Z) (r : nat) (w : bfd_world) : Prop :=
  forall q, requests w !! r = Some q -> req_state q = state.

(** A session as the notifier leaves it: off the notify list, no callback
    running, and wanted by some request. *)
Definition served (s : bfd_session) : Prop :=
  n_linked s = false /\ notify_running s = false /\ request_list s <> [].

(** The notify list of the engine [p] is empty. *)
Definition notify_drained (p : nat) (w : bfd_world) : Prop :=
  exists pr, protos w !! p = Some pr /\ notify_list pr = [].

(** The broker between two operations: in every engine the two indexes are
    in step, the bindings are counted and a discriminator is left; the
    lists hold allocated requests only; every session is wanted. *)
Definition broker_ok (w : bfd_world) : Prop :=
  (forall p pr, protos w !! p = Some pr ->
     registry_ok pr /\ ifaces_ok pr /\
     Z.of_nat (size (session_hash_id pr)) + 2 <= 4294967296) /\
  (forall r, r ∈ bfd_wait_list w -> is_Some (requests w !! r)) /\
  (forall sp s, lookup_session w sp = Some s ->
     request_list s <> [] /\
     forall r, r ∈ request_list s -> is_Some (requests w !! r)).

(** ** Requests that change hands *)

(** Whether the engine [p] accepts the request [r]. *)
Definition accepts (w : bfd_world) (p r : nat) : bool :=
  match protos w !! p, requests w !! r with
  | Some pr, Some req => request_acceptable pr req
  | _, _ => false
  end.

(** What an engine is configured with, as far as requests are concerned. *)
Definition engine_conf (pr : bfd_proto) : bool * option iface * bfd_config :=
  (vrf_set pr, vrf pr, p_cf pr).

(** What the subscriber wrote into a request. *)
Definition request_static (q : bfd_request) :=
  (req_addr q, req_local q, req_iface q, req_vrf q, req_opts q, req_hook q,
   req_data q).

(** [w'] differs from [w] by the service of the request [r] only: the
    engines are the same and configured the same, the other requests are as
    they were, the wait list is the same but for the place of [r], and [r]
    itself, if it is still there, holds what the subscriber wrote. *)
Definition serves_request (r : nat) (w w' : bfd_world) : Prop :=
  bfd_proto_list w' = bfd_proto_list w /\
  (forall p, engine_conf <$> protos w' !! p = engine_conf <$> protos w !! p) /\
  (forall r', r' <> r -> requests w' !! r' = requests w !! r') /\
  filter (.≠ r) (bfd_wait_list w') = filter (.≠ r) (bfd_wait_list w) /\
  (forall q', requests w' !! r = Some q' ->
     exists q, requests w !! r = Some q /\ request_static q' = request_static q).

(** The same without a word on [r] itself, which may be new or gone. *)
Definition around_request (r : nat) (w w' : bfd_world) : Prop :=
  bfd_proto_list w' = bfd_proto_list w /\
  (forall p, engine_conf <$> protos w' !! p = engine_conf <$> protos w !! p) /\
  (forall r', r' <> r -> requests w' !! r' = requests w !! r') /\
  filter (.≠ r) (bfd_wait_list w') = filter (.≠ r) (bfd_wait_list w).

(** The requests of the sessions of the engine [p] point back to them. *)
Definition requests_linked (p : nat) (w : bfd_world) : Prop :=
  forall id s r, lookup_session w (p, id) = Some s -> r ∈ request_list s ->
    exists q, requests w !! r = Some q /\ req_session q = Some (p, id).

(** Where a request is once its session dropped it: waiting, or with an
    engine of the list. *)
Definition rehomed (w : bfd_world) (r : nat) : Prop :=
  forall q, requests w !! r = Some q ->
    (req_session q = None /\ r ∈ bfd_wait_list w) \/
    exists sp, req_session q = Some sp /\ sp.1 ∈ bfd_proto_list w.

(** ** Neighbors across a reconfiguration *)

(** What makes two neighbors the same for [bfd_same_neighbor]. *)
Definition neighbor_id (n : bfd_neighbor) : ip_addr * ip_addr * option iface * Z :=
  (n_addr n, n_local n, n_iface n, n_multihop n).

(** The neighbors of the list are allocated, no two of them are the same,
    and no two of them hold the same request. *)
Definition neighbors_distinct (x : bfd_nest) (l : list nat) : Prop :=
  NoDup l /\
  (forall n, n ∈ l -> is_Some (bfd_neighbors x !! n)) /\
  forall n1 n2 b1 b2, n1 ∈ l -> n2 ∈ l ->
    bfd_neighbors x !! n1 = Some b1 -> bfd_neighbors x !! n2 = Some b2 ->
    neighbor_id b1 = neighbor_id b2 \/ (is_Some (n_req b1) /\ n_req b1 = n_req b2) ->
    n1 = n2.

(** The neighbors keep what makes them the same. *)
Definition same_ids (x x' : bfd_nest) : Prop :=
  forall n, neighbor_id <$> bfd_neighbors x' !! n = neighbor_id <$> bfd_neighbors x !! n.

(** The requests that were stored are as they were. *)
Definition requests_kept (w w' : bfd_world) : Prop :=
  forall r, is_Some (requests w !! r) -> requests w' !! r = requests w !! r.

(** ** Engines in order *)

(** What the tables of an engine know a session by. *)
Definition key_fields (s : bfd_session) := (loc_id s, addr s, ifindex s, ifa s).

(** The two indexes of an engine agree and its bindings are counted, in
    every engine. *)
Definition engines_ok (w : bfd_world) : Prop :=
  forall p pr, protos w !! p = Some pr -> registry_ok pr /\ ifaces_ok pr.

(** Every engine has room for one more discriminator. *)
Definition engines_room (w : bfd_world) : Prop :=
  forall p pr, protos w !! p = Some pr ->
    Z.of_nat (size (session_hash_id pr)) + 2 <= 4294967296.

(** ** The lists of the requests *)

(** The lists tell the truth: a request on the list of a session points to
    that session, a request that points to a session is on its list, and a
    request on the wait list is stored and points to no session. *)
Definition requests_consistent (w : bfd_world) : Prop :=
  (forall sp s r, lookup_session w sp = Some s -> r ∈ request_list s ->
     requests w !! r ≫= req_session = Some sp) /\
  (forall r sp, requests w !! r ≫= req_session = Some sp ->
     exists s, lookup_session w sp = Some s /\ r ∈ request_list s) /\
  (forall r, r ∈ bfd_wait_list w ->
     exists q, requests w !! r = Some q /\ req_session q = None).

(** The same while the request [r] is on no list, between its [rem_node]
    and what follows: nothing is said of where [r] points. *)
Definition request_detached (r : nat) (w : bfd_world) : Prop :=
  (forall sp s r', lookup_session w sp = Some s -> r' ∈ request_list s ->
     r' <> r /\ requests w !! r' ≫= req_session = Some sp) /\
  (forall r' sp, r' <> r -> requests w !! r' ≫= req_session = Some sp ->
     exists s, lookup_session w sp = Some s /\ r' ∈ request_list s) /\
  (forall r', r' ∈ bfd_wait_list w ->
     r' <> r /\ exists q, requests w !! r' = Some q /\ req_session q = None).

(** ** Sessions and worlds of the examples *)

(** A session that is Down and whose peer reports Up. *)
Definition session_down_sees_up : bfd_session :=
  set_rem_min_rx_int 1000000 (set_rem_id 7 (set_rem_state BFD_STATE_UP
    (bfd_session_new (IP4 1) (IP4 2, None) 0 5
       (mk_session_config 10000 10000 1000000 5 0 0 0) 99 1000))).

(** A session brought Up by two control packets: the first reports the
    peer Up and changes nothing, the second reports Init. *)
Definition session_up : bfd_session :=
  bfd_session_process_ctl
    (set_rem_state BFD_STATE_INIT
       (bfd_session_process_ctl session_down_sees_up 0 0 0 2000)) 0 0 0 3000.

(** The same session after its TX interval was raised to 50 ms while the
    poll opened on entering Up was still active, and after the Final packet
    that closed this first poll: the poll for the raise is now the active
    one. *)
Definition session_poll_pending : bfd_session :=
  bfd_session_process_ctl (bfd_session_set_min_tx session_up 50000 3500)
    BFD_FLAG_FINAL 10000 1000000 4000.

(** A passive session, just created. *)
Definition session_passive_new : bfd_session :=
  bfd_session_new (IP4 1) (IP4 2, None) 0 5
    (mk_session_config 10000 10000 1000000 5 1 0 0) 99 1000.

(** The first control packet of a peer that is Down. *)
Definition packet_from_down_peer : bfd_ctl_packet :=
  mk_ctl_packet BFD_STATE_DOWN 0 0 3 7 1000000 10000.

(** One engine that accepts every request, and nothing else. *)
Definition world_one_engine : bfd_world :=
  let cf := mk_bfd_config true true true true false (fun _ => None) None in
  let pr := mk_bfd_proto false None cf ∅ ∅ [] [] in
  mk_world {[ 0%nat := pr ]} [0%nat] [] ∅ [] [].

Definition oracle_one : oracle := mk_oracle 1000 5 99.

(** The same with one multihop request whose callback releases it; the
    engine made session 5 for it. *)
Definition world_one_request : bfd_world :=
  (bfd_request_session world_one_engine (IP4 1) (IP4 2) None None
     (Some HookRelease) 0 None oracle_one).2.

(** The peer is heard for the first time (it is Down): the session goes to
    Init and is linked on the notify list. *)
Definition world_session_init : bfd_world :=
  session_thread_event world_one_request (0%nat, 5)
    (fun s => bfd_rx_ctl s packet_from_down_peer 2000).


(** No engine at all. *)
Definition world_no_engine : bfd_world := mk_world ∅ [] [] ∅ [] [].

(** Options that ask for a receive interval of 20 ms. *)
Definition options_rx_20ms : bfd_options := mk_options 20000 0 0 0 0 0 0 0.

(** [session_up] after the Final packet that closes the poll opened on
    entering Up: no poll is in progress, no change is pending. *)
Definition session_up_settled : bfd_session :=
  bfd_session_process_ctl session_up BFD_FLAG_FINAL 10000 1000000 3200.

(** A control packet of a peer that is Up. *)
Definition packet_from_up_peer : bfd_ctl_packet :=
  mk_ctl_packet BFD_STATE_UP 0 0 3 7 1000000 10000.

(** Options that override nothing. *)
Definition options_none : bfd_options := mk_options 0 0 0 0 0 0 0 0.

(** [session_up_settled] with a raise of its TX interval left pending: the
    session was reconfigured from 10 ms to 1 s, its detection time expired
    before the peer answered the poll, and two packets brought it back Up.
    It uses 10 ms, 1 s is stored as the new value, and no poll is open. *)
Definition session_up_pending : bfd_session :=
  bfd_rx_ctl
    (bfd_rx_ctl
       (bfd_hold_timer_hook
          (bfd_session_reconfigure session_up_settled
             (mk_iface_config 10000 1000000 1000000 5 0 0 0) options_none 5000)
          6000)
       packet_from_down_peer 7000)
    packet_from_up_peer 8000.

(** The engine of [world_one_engine] with one session, to the peer 1 from
    the local address 2 over no interface, and no request for it. *)
Definition world_one_session : bfd_world :=
  (bfd_add_session world_one_engine 0 (IP4 1) (IP4 2) None options_none
     oracle_one).2.

(** A request for a multihop session to the peer 1 from the local address
    2, as [bfd_request_session] allocates it, and the world of one engine
    that holds it before it is submitted. *)
Definition request_to_peer : bfd_request :=
  mk_request (IP4 1) (IP4 2) None None options_none None 0 None 0 0 0 0.

Definition world_request_pending : bfd_world :=
  set_requests {[ 0%nat := request_to_peer ]} world_one_engine.

(** A request that no engine serves, left in state Up by an engine that is
    gone, with a callback that observes. *)
Definition world_waiting_up : bfd_world :=
  set_requests
    {[ 0%nat := set_req_hook (Some HookObserve)
                  (set_req_state BFD_STATE_UP request_to_peer) ]}
    world_no_engine.

(** Two requests with observing callbacks for the same peer: they share
    the session 5 of the engine, the request 0 is first on its list. *)
Definition world_two_requests : bfd_world :=
  (bfd_request_session
     (bfd_request_session world_one_engine (IP4 1) (IP4 2) None None
        (Some HookObserve) 0 None oracle_one).2
     (IP4 1) (IP4 2) None None (Some HookObserve) 0 None oracle_one).2.

(** The two requests after the session heard its peer for the first time
    and went to Init: the session is on the notify list. *)
Definition world_two_requests_init : bfd_world :=
  session_thread_event world_two_requests (0%nat, 5)
    (fun s => bfd_rx_ctl s packet_from_down_peer 2000).

(** An engine for IPv4 only and two requests that wait for it, one for a
    peer over IPv4 and one for a peer over IPv6. *)
Definition world_two_waiting : bfd_world :=
  let cf := mk_bfd_config true false true true false (fun _ => None) None in
  let pr := mk_bfd_proto false None cf ∅ ∅ [] [] in
  mk_world {[ 0%nat := pr ]} [0%nat] [0%nat; 1%nat]
    {[ 0%nat := request_to_peer;
       1%nat := set_req_addr (IP6 1) request_to_peer ]} [] [].

(** The engine of [world_two_requests] on its way down: it is off the list
    of the engines and its session still has the two requests. *)
Definition world_leaving : bfd_world := set_bfd_proto_list [] world_two_requests.

(** For the examples: an address is zero when its number is, and the nest
    knows no neighbor on any link. *)
Definition example_nonzero (a : ip_addr) : bool :=
  match a with IP4 x | IP6 x => nz x end.
Definition no_neighbor (p : nat) (a : ip_addr) (i : option iface) : option nat :=
  None.

(** A direct neighbor without local address whose cache entry is in scope
    on the interface 3, where the router has the address 9. *)
Definition nest_direct : bfd_nest :=
  mk_nest world_one_engine
    {[ 0%nat := mk_neighbor 0 (Some 0%nat) 1 (Some (mk_iface 3)) (IP4 9) ]}
    {[ 0%nat := mk_bfd_neighbor (IP4 1) (IP4 0) (Some (mk_iface 3)) (Some 0%nat)
                  None 0 1 ]}
    [].

(** The engine of [world_one_engine] with a multihop neighbor (0) that has
    been started, and the neighbors of a new configuration: the same
    neighbor (1) and another one (2). *)
Definition nest_multihop : bfd_nest :=
  bfd_start_neighbor example_nonzero no_neighbor
    (mk_nest world_one_engine ∅
       {[ 0%nat := mk_bfd_neighbor (IP4 1) (IP4 2) None None None 1 0;
          1%nat := mk_bfd_neighbor (IP4 1) (IP4 2) None None None 1 0;
          2%nat := mk_bfd_neighbor (IP4 7) (IP4 2) None None None 1 0 ]}
       [])
    0 0 oracle_one.

(** A configuration that asks for a receive interval of 20 ms on multihop
    sessions. *)
Definition config_multihop_20ms : bfd_config :=
  mk_bfd_config true true true true false (fun _ => None)
    (Some (mk_iface_config 20000 100000 1000000 5 0 0 0)).

(** The engine of [world_one_request] with a multihop neighbor for the
    same peer: the request of the neighbor shares session 5 with the
    request that was there. *)
Definition nest_shared : bfd_nest :=
  bfd_start_neighbor example_nonzero no_neighbor
    (mk_nest world_one_request ∅
       {[ 0%nat := mk_bfd_neighbor (IP4 1) (IP4 2) None None None 1 0 ]}
       [])
    0 0 oracle_one.

(** A control packet of a peer that is in AdminDown. *)
Definition packet_admin_down : bfd_ctl_packet :=
  mk_ctl_packet BFD_STATE_ADMIN_DOWN 7 0 3 7 1000000 10000.

(** One engine and one multihop request whose callback only observes; the
    engine made session 5 for it. *)
Definition world_observed : bfd_world :=
  (bfd_request_session world_one_engine (IP4 1) (IP4 2) None None
     (Some HookObserve) 0 None oracle_one).2.

(** The session heard its peer Down, then Up, and the notifier told the
    request that the session is Up. *)
Definition world_delivered_up : bfd_world :=
  bfd_notify_hook
    (session_thread_event
       (session_thread_event world_observed (0%nat, 5)
          (fun s => bfd_rx_ctl s packet_from_down_peer 2000))
       (0%nat, 5) (fun s => bfd_rx_ctl s packet_from_up_peer 3000)) 0.

(** The peer goes to AdminDown, which takes the session Down, and an Up
    packet of the peer that was under way arrives before the notifier
    runs. *)
Definition world_admin_down_then_up : bfd_world :=
  session_thread_event
    (session_thread_event world_delivered_up (0%nat, 5)
       (fun s => bfd_rx_ctl s packet_admin_down 4000))
    (0%nat, 5) (fun s => bfd_rx_ctl s packet_from_up_peer 4100).

(** The detection time expires, which takes the session Down, and the
    peer reports AdminDown before the notifier runs. *)
Definition world_timeout_then_admin_down : bfd_world :=
  session_thread_event
    (session_thread_event world_delivered_up (0%nat, 5)
       (fun s => bfd_hold_timer_hook
                   (set_hold_timer (tm_fire (hold_timer s) 0) s) 9000))
    (0%nat, 5) (fun s => bfd_rx_ctl s packet_admin_down 9100).

(** A session whose idle TX interval is one microsecond over a second, as
    [bfd_add_session] creates it at the time 1000: its TX timer is due at
    once. *)
Definition session_odd_new : bfd_session :=
  bfd_session_new (IP4 1) (IP4 2, None) 0 5
    (mk_session_config 10000 10000 1000001 5 0 0 0) 99 1000.

(** The first control packet of a peer that is Down and accepts a packet
    every ten seconds. *)
Definition packet_from_slow_peer : bfd_ctl_packet :=
  mk_ctl_packet BFD_STATE_DOWN 0 0 3 7 1000000 10000000.

(** A session with an idle TX interval of a second, created at the time
    1000: it sent its first packet at once, heard the slow peer at 2000 and
    went to Init, and its detection time expired at 3002000, before its TX
    timer was due again. *)
Definition session_init_timed_out : bfd_session :=
  let s := bfd_session_new (IP4 1) (IP4 2, None) 0 5
             (mk_session_config 10000 10000 1000000 5 0 0 0) 99 1000 in
  let s := bfd_tx_timer_hook (set_tx_timer (tm_fire (tx_timer s) 0) s) 1000 in
  let s := bfd_rx_ctl s packet_from_slow_peer 2000 in
  bfd_hold_timer_hook (set_hold_timer (tm_fire (hold_timer s) 0) s) 3002000.

(** ** Tactics *)

Ltac case_if :=
  match goal with
  | |- context [if ?b then _ else _] => destruct b eqn:?
  end.

Ltac frame_by_cases := intros; repeat case_if; reflexivity.

(** Equations between worlds, component by component. *)
Ltac world_eq :=
  unfold upd_session, upd_proto, upd_request, set_protos, set_requests,
    set_hook_log, set_bfd_wait_list, set_reconfigure_log; cbn; f_equal.

(** Case analysis on a decision of the goal. *)
Ltac goal_decide :=
  match goal with
  | |- context [decide ?P] => destruct (decide P)
  end.

(** Names the value of a lookup that can be computed. *)
Ltac lookup_value t x H :=
  destruct t as [x|] eqn:H; [|vm_compute in H; discriminate];
  let H0 := fresh in
  pose proof H as H0; vm_compute in H0; injection H0 as H0; subst x.

(** * Part III: properties *)

(** ** Frame properties of the session helpers *)

Lemma fsm_update_tx_interval s :
  fsm_fields (bfd_session_update_tx_interval s) = fsm_fields s.
Proof. unfold bfd_session_update_tx_interval. frame_by_cases. Qed.

Lemma fsm_update_detection_time s kick now :
  fsm_fields (bfd_session_update_detection_time s kick now) = fsm_fields s.
Proof. unfold bfd_session_update_detection_time. frame_by_cases. Qed.

Lemma fsm_control_tx_timer s reset now :
  fsm_fields (bfd_session_control_tx_timer s reset now) = fsm_fields s.
Proof. unfold bfd_session_control_tx_timer. frame_by_cases. Qed.

Lemma fsm_request_poll s request now :
  fsm_fields (bfd_session_request_poll s request now) = fsm_fields s.
Proof.
  unfold bfd_session_request_poll. repeat case_if; try reflexivity.
  now rewrite fsm_control_tx_timer.
Qed.

Lemma fsm_terminate_poll s :
  fsm_fields (bfd_session_terminate_poll s) = fsm_fields s.
Proof. unfold bfd_session_terminate_poll. frame_by_cases. Qed.

Lemma fsm_set_min_tx s val now :
  fsm_fields (bfd_session_set_min_tx s val now) = fsm_fields s.
Proof.
  unfold bfd_session_set_min_tx. repeat case_if; try reflexivity;
    rewrite fsm_request_poll, ?fsm_update_tx_interval; reflexivity.
Qed.

Lemma fsm_set_min_rx s val now :
  fsm_fields (bfd_session_set_min_rx s val now) = fsm_fields s.
Proof.
  unfold bfd_session_set_min_rx. repeat case_if; try reflexivity;
    rewrite fsm_request_poll, ?fsm_update_detection_time; reflexivity.
Qed.

Lemma peer_of_fsm s s' : fsm_fields s' = fsm_fields s -> peer_fields s' = peer_fields s.
Proof. unfold fsm_fields, peer_fields. intros H. injection H as ?. congruence. Qed.

Lemma update_state_same s state diag now :
  state = loc_state s -> bfd_session_update_state s state diag now = s.
Proof. intros ->. unfold bfd_session_update_state. now rewrite Z.eqb_refl. Qed.

Lemma update_state_changed s state diag now :
  state <> loc_state s ->
  let s' := bfd_session_update_state s state diag now in
  loc_state s' = u8 state /\ loc_diag s' = u8 diag /\
  last_state_change s' = now /\ n_linked s' = true /\
  peer_fields s' = peer_fields s.
Proof.
  intros Hne. unfold bfd_session_update_state.
  apply Z.eqb_neq in Hne. rewrite Hne.
  set (s1 := set_last_state_change _ _).
  set (s2 := if negb (n_linked s1) then _ else s1).
  set (s3 := if state =? BFD_STATE_UP then _ else s2).
  set (s4 := if loc_state s =? BFD_STATE_UP then _ else s3).
  set (s5 := if negb (n_linked s1) then _ else s4).
  assert (H2 : loc_state s2 = u8 state /\ loc_diag s2 = u8 diag /\
               last_state_change s2 = now /\ n_linked s2 = true /\
               peer_fields s2 = peer_fields s).
  { subst s2 s1. destruct (n_linked s) eqn:E; cbn; rewrite ?E; cbn; auto. }
  assert (H3 : fsm_fields s3 = fsm_fields s2).
  { subst s3. case_if; [apply fsm_set_min_tx | done]. }
  assert (H4 : fsm_fields s4 = fsm_fields s3).
  { subst s4. case_if; [apply fsm_set_min_tx | done]. }
  assert (H5 : loc_state s5 = loc_state s4 /\ loc_diag s5 = loc_diag s4 /\
               last_state_change s5 = last_state_change s4 /\
               n_linked s5 = n_linked s4 /\ peer_fields s5 = peer_fields s4).
  { subst s5. case_if; done. }
  destruct H2 as (A1 & A2 & A3 & A4 & A5), H5 as (D1 & D2 & D3 & D4 & D5).
  rewrite H3 in H4. pose proof (peer_of_fsm _ _ H4) as C5.
  unfold fsm_fields in H4. injection H4 as ?.
  repeat split; congruence.
Qed.

(** ** The transition table *)

(** What a processed control packet does to the local state: with [next]
    and [diag] the result of the switch, a non-zero [next] other than the
    current state is entered, anything else changes nothing. *)
Lemma process_ctl_state s flags old_tx_int old_rx_int now :
  let s' := bfd_session_process_ctl s flags old_tx_int old_rx_int now in
  let next := (process_ctl_switch (loc_state s) (rem_state s)).1 in
  let diag := (process_ctl_switch (loc_state s) (rem_state s)).2 in
  peer_fields s' = peer_fields s /\
  if nz (loc_state s) && nz next && negb (next =? loc_state s)
  then loc_state s' = u8 next /\ loc_diag s' = u8 diag
  else loc_state s' = loc_state s /\ loc_diag s' = loc_diag s.
Proof.
  cbv zeta. unfold bfd_session_process_ctl.
  set (s1 := if nz (poll_active s) && _ then _ else s).
  set (s2 := if negb (des_min_tx_int s1 =? _) || _ then _ else s1).
  set (s3 := bfd_session_update_detection_time s2 1 now).
  assert (E1 : fsm_fields s1 = fsm_fields s).
  { subst s1. case_if; [apply fsm_terminate_poll | done]. }
  assert (E2 : fsm_fields s2 = fsm_fields s1).
  { subst s2. case_if; [apply fsm_update_tx_interval | done]. }
  assert (E3 : fsm_fields s3 = fsm_fields s) by
    (subst s3; rewrite fsm_update_detection_time; congruence).
  clearbody s3. clear E1 E2 s1 s2.
  pose proof (peer_of_fsm _ _ E3) as P3.
  unfold fsm_fields in E3. injection E3 as Hl Hd Hr _ _ _ _ _ _ _ _ _ _ _.
  rewrite <- Hl, <- Hr, <- Hd, <- P3.
  unfold BFD_STATE_ADMIN_DOWN, nz.
  destruct (loc_state s3 =? 0) eqn:E0; cbn [negb andb]; [done|].
  destruct (process_ctl_switch (loc_state s3) (rem_state s3)) as [next diag] eqn:Esw.
  cbn [fst snd].
  set (s4 := if negb (next =? 0) then _ else s3).
  assert (H4 : peer_fields s4 = peer_fields s3 /\
    if negb (next =? 0) && negb (next =? loc_state s3)
    then loc_state s4 = u8 next /\ loc_diag s4 = u8 diag
    else loc_state s4 = loc_state s3 /\ loc_diag s4 = loc_diag s3).
  { subst s4. destruct (next =? 0) eqn:En; cbn [negb andb]; [done|].
    destruct (next =? loc_state s3) eqn:Es; cbn [negb].
    - apply Z.eqb_eq in Es. now rewrite update_state_same.
    - apply Z.eqb_neq in Es.
      destruct (update_state_changed s3 next diag now Es) as (?&?&?&?&?). done. }
  clearbody s4.
  set (s5 := bfd_session_control_tx_timer s4 0 now).
  assert (E5 : fsm_fields s5 = fsm_fields s4) by apply fsm_control_tx_timer.
  clearbody s5. pose proof (peer_of_fsm _ _ E5) as P5.
  assert (E6 : forall s6, s6 = (if negb (Z.land flags BFD_FLAG_POLL =? 0)
                                then bfd_send_ctl s5 1 else s5) ->
      peer_fields s6 = peer_fields s5 /\ loc_state s6 = loc_state s5 /\
      loc_diag s6 = loc_diag s5).
  { intros s6 ->. case_if; done. }
  specialize (E6 _ eq_refl). destruct E6 as (P6 & L6 & D6).
  unfold fsm_fields in E5. injection E5 as Hl5 Hd5 _ _ _ _ _ _ _ _ _ _ _ _.
  destruct H4 as [P4 H4]. split; [congruence|].
  rewrite L6, D6, Hl5, Hd5. exact H4.
Qed.

(** C1 (as amended).  A control packet processed by
    [bfd_session_process_ctl] moves the session along the table of the
    specification except in one cell: from Down an observed remote state
    Down gives Init and an observed Init gives Up, both with diagnostic
    None, but an observed Up (like AdminDown) changes nothing; from Init,
    AdminDown gives Down with NeighborDown and Init or Up give Up with None;
    from Up, AdminDown or Down give Down with NeighborDown; in AdminDown,
    and wherever the table says "no change", state and diagnostic stay. *)
Theorem process_ctl_follows_code_table s loc rem flags old_tx_int old_rx_int now :
  loc_state s = state_num loc ->
  rem_state s = state_num rem ->
  let s' := bfd_session_process_ctl s flags old_tx_int old_rx_int now in
  match code_transition loc rem with
  | Some (next, diag) => loc_state s' = state_num next /\ loc_diag s' = diag
  | None => loc_state s' = loc_state s /\ loc_diag s' = loc_diag s
  end.
Proof.
  intros Hl Hr s'.
  destruct (process_ctl_state s flags old_tx_int old_rx_int now) as [_ H].
  fold s' in H. rewrite Hl, Hr in H.
  destruct loc, rem; cbn in H |- *; rewrite ?Hl; exact H.
Qed.

(** The table at work: a new session that hears its peer in Down goes to
    Init. *)
Lemma process_ctl_follows_code_table_witness :
  let s := bfd_session_new (IP4 1) (IP4 2, None) 0 5
             (mk_session_config 10000 10000 1000000 5 0 0 0) 99 1000 in
  let s' := bfd_session_process_ctl s 0 0 0 2000 in
  loc_state s' = state_num Init /\ loc_diag s' = BFD_DIAG_NOTHING.
Proof.
  intros s.
  exact (process_ctl_follows_code_table s Down Down 0 0 0 2000 eq_refl eq_refl).
Defined.

(** C1, the cell where the claim fails: the specification's table sends a
    Down session that sees the peer Up to Up, the code leaves it Down. *)
Lemma process_ctl_down_sees_up_stays_down :
  loc_state session_down_sees_up = state_num Down /\
  rem_state session_down_sees_up = state_num Up /\
  spec_transition Down Up = Some (Up, BFD_DIAG_NOTHING) /\
  loc_state (bfd_session_process_ctl session_down_sees_up 0 0 0 2000) = state_num Down /\
  loc_state (bfd_session_process_ctl session_down_sees_up 0 0 0 2000) <> state_num Up.
Proof. vm_compute. repeat split; discriminate. Qed.

(** ** The detection timeout *)

Lemma control_tx_timer_active s reset now :
  tm_active (tx_timer (bfd_session_control_tx_timer s reset now)) =
  negb (tx_timer_must_stop s).
Proof.
  unfold bfd_session_control_tx_timer, tx_timer_must_stop.
  destruct (nz (passive s) && (rem_id s =? 0)); [done|].
  destruct (nz (rem_demand_mode s) && negb (nz (poll_active s)) &&
    (loc_state s =? BFD_STATE_UP) && (rem_state s =? BFD_STATE_UP)); [done|].
  destruct (rem_min_rx_int s =? 0); [done|].
  cbn [orb negb].
  destruct (nz reset); cbn [orb]; [done|].
  destruct (tm_active (tx_timer s)) eqn:E; cbn [negb]; done.
Qed.

(** C2.  When the detection (hold) timer fires on a session that is Up or
    Init, the session goes Down with diagnostic Time expired, the remote
    state is set to Down, the remote discriminator, minimum TX interval,
    demand mode and detection multiplier are zeroed and the remote minimum
    RX interval is forced to 1; the TX timer then runs again unless the
    session is passive. *)
Theorem hold_timer_expiry_resets_remote s now :
  loc_state s = BFD_STATE_UP \/ loc_state s = BFD_STATE_INIT ->
  let s' := bfd_hold_timer_hook s now in
  loc_state s' = BFD_STATE_DOWN /\ loc_diag s' = BFD_DIAG_TIMEOUT /\
  rem_state s' = BFD_STATE_DOWN /\ rem_id s' = 0 /\ rem_min_tx_int s' = 0 /\
  rem_demand_mode s' = 0 /\ rem_detect_mult s' = 0 /\
  rem_min_rx_int s' = 1 /\
  tm_active (tx_timer s') = negb (nz (passive s)).
Proof.
  intros Hst. unfold bfd_hold_timer_hook, bfd_session_timeout.
  set (s9 := set_poll_scheduled 0 _).
  assert (Hne : BFD_STATE_DOWN <> loc_state s9).
  { subst s9. cbn. unfold BFD_STATE_DOWN, BFD_STATE_UP, BFD_STATE_INIT in *. lia. }
  destruct (update_state_changed s9 BFD_STATE_DOWN BFD_DIAG_TIMEOUT now Hne)
    as (Hl & Hd & _ & _ & Hp).
  set (s10 := bfd_session_update_state s9 _ _ now) in *.
  pose proof (fsm_control_tx_timer s10 1 now) as Hf.
  cbv zeta. rewrite control_tx_timer_active.
  set (s11 := bfd_session_control_tx_timer s10 1 now) in *.
  unfold fsm_fields in Hf. injection Hf as -> -> -> -> -> -> -> -> _ _ _ _ _ _.
  unfold tx_timer_must_stop.
  unfold peer_fields in Hp. injection Hp as -> -> -> -> -> -> -> _.
  subst s9. cbn. rewrite Hl, Hd. repeat split.
  now rewrite !orb_false_r, andb_true_r.
Qed.

(** A session that is Up and hears nothing more: it goes Down with Time
    expired, and since it is not passive its TX timer runs. *)
Lemma hold_timer_expiry_resets_remote_witness :
  let s := bfd_session_process_ctl session_down_sees_up 0 0 0 2000 in
  let s1 := bfd_session_process_ctl (set_rem_state BFD_STATE_INIT s) 0 0 0 3000 in
  let s' := bfd_hold_timer_hook s1 9000 in
  loc_state s1 = BFD_STATE_UP /\
  loc_state s' = BFD_STATE_DOWN /\ loc_diag s' = BFD_DIAG_TIMEOUT /\
  rem_min_rx_int s' = 1 /\ tm_active (tx_timer s') = true.
Proof.
  intros s s1.
  assert (H : loc_state s1 = BFD_STATE_UP) by (vm_compute; reflexivity).
  pose proof (hold_timer_expiry_resets_remote s1 9000 (or_introl H)) as T.
  cbv zeta in T. split; [exact H|].
  destruct T as (A & B & _ & _ & _ & _ & _ & C & D).
  exact (conj A (conj B (conj C D))).
Defined.

(** ** The poll sequence *)

Lemma land_pow2 x n :
  0 <= n -> Z.land x (2 ^ n) = if Z.testbit x n then 2 ^ n else 0.
Proof.
  intros Hn. apply Z.bits_inj'. intros i Hi.
  rewrite Z.land_spec, Z.pow2_bits_eqb by lia.
  destruct (Z.eqb_spec n i) as [<-|Hni].
  - rewrite andb_true_r. destruct (Z.testbit x n) eqn:E.
    + now rewrite Z.pow2_bits_true.
    + now rewrite Z.bits_0.
  - rewrite andb_false_r. destruct (Z.testbit x n).
    + rewrite Z.pow2_bits_false; [done|lia].
    + now rewrite Z.bits_0.
Qed.

Lemma has_bit_pow2 x n : 0 <= n -> has_bit x (2 ^ n) = Z.testbit x n.
Proof.
  intros Hn. unfold has_bit, nz. rewrite land_pow2 by done.
  destruct (Z.testbit x n); [|done].
  assert (0 < 2 ^ n) by (apply Z.pow_pos_nonneg; lia).
  destruct (Z.eqb_spec (2 ^ n) 0); [lia|done].
Qed.

(** The bits polled and not scheduled again, as [bfd_session_terminate_poll]
    computes them into its [u8]. *)
Lemma poll_done_bit active scheduled n :
  0 <= n < 8 ->
  has_bit (u8 (Z.land active (Z.lnot scheduled))) (2 ^ n) =
  has_bit active (2 ^ n) && negb (has_bit scheduled (2 ^ n)).
Proof.
  intros Hn. rewrite !has_bit_pow2 by lia. unfold u8.
  change 256 with (2 ^ 8). rewrite Z.mod_pow2_bits_low by lia.
  rewrite Z.land_spec, Z.lnot_spec by lia. done.
Qed.

Lemma poll_update_tx_interval s :
  poll_fields (bfd_session_update_tx_interval s) = poll_fields s.
Proof. unfold bfd_session_update_tx_interval. frame_by_cases. Qed.

Lemma poll_update_detection_time s kick now :
  poll_fields (bfd_session_update_detection_time s kick now) = poll_fields s.
Proof. unfold bfd_session_update_detection_time. frame_by_cases. Qed.

Lemma poll_control_tx_timer s reset now :
  poll_fields (bfd_session_control_tx_timer s reset now) = poll_fields s.
Proof. unfold bfd_session_control_tx_timer. frame_by_cases. Qed.

Lemma terminate_poll_fields s :
  poll_fields (bfd_session_terminate_poll s) =
  (if has_bit (poll_active s) BFD_POLL_TX && negb (has_bit (poll_scheduled s) BFD_POLL_TX)
   then des_min_tx_new s else des_min_tx_int s,
   des_min_tx_new s,
   if has_bit (poll_active s) BFD_POLL_RX && negb (has_bit (poll_scheduled s) BFD_POLL_RX)
   then req_min_rx_new s else req_min_rx_int s,
   req_min_rx_new s, poll_scheduled s, 0).
Proof.
  unfold bfd_session_terminate_poll.
  pose proof (poll_done_bit (poll_active s) (poll_scheduled s) 0 ltac:(lia)) as H0.
  pose proof (poll_done_bit (poll_active s) (poll_scheduled s) 1 ltac:(lia)) as H1.
  change (2 ^ 0) with BFD_POLL_TX in H0. change (2 ^ 1) with BFD_POLL_RX in H1.
  unfold has_bit at 1 in H0. unfold has_bit at 1 in H1.
  rewrite H0, H1.
  destruct (has_bit (poll_active s) BFD_POLL_TX && _),
    (has_bit (poll_active s) BFD_POLL_RX && _); reflexivity.
Qed.

Lemma switch_next_range loc rem :
  let next := (process_ctl_switch loc rem).1 in 0 <= next <= 3.
Proof.
  unfold process_ctl_switch. repeat case_if; cbn; unfold BFD_STATE_INIT,
    BFD_STATE_UP, BFD_STATE_DOWN; lia.
Qed.

(** A processed packet that does not change the local state leaves the
    intervals and the poll masks as its first step, the poll termination,
    made them. *)
Lemma process_ctl_quiet s flags old_tx_int old_rx_int now :
  let s' := bfd_session_process_ctl s flags old_tx_int old_rx_int now in
  let s1 := if nz (poll_active s) && has_bit flags BFD_FLAG_FINAL
            then bfd_session_terminate_poll s else s in
  loc_state s' = loc_state s -> poll_fields s' = poll_fields s1.
Proof.
  cbv zeta. unfold bfd_session_process_ctl, has_bit.
  set (s1 := if nz (poll_active s) && _ then _ else s).
  set (s2 := if negb (des_min_tx_int s1 =? _) || _ then _ else s1).
  set (s3 := bfd_session_update_detection_time s2 1 now).
  assert (E1 : fsm_fields s1 = fsm_fields s).
  { subst s1. case_if; [apply fsm_terminate_poll | done]. }
  assert (E2 : fsm_fields s2 = fsm_fields s1 /\ poll_fields s2 = poll_fields s1).
  { subst s2. case_if; [|done].
    split; [apply fsm_update_tx_interval | apply poll_update_tx_interval]. }
  assert (E3 : fsm_fields s3 = fsm_fields s /\ poll_fields s3 = poll_fields s1).
  { subst s3. rewrite fsm_update_detection_time, poll_update_detection_time.
    destruct E2. split; congruence. }
  clearbody s3 s1. clear E1 E2 s2. destruct E3 as [E3 <-].
  unfold fsm_fields in E3. injection E3 as Hl _ _ _ _ _ _ _ _ _ _ _ _ _.
  rewrite <- Hl. clear Hl.
  destruct (loc_state s3 =? BFD_STATE_ADMIN_DOWN) eqn:E0; [done|].
  pose proof (switch_next_range (loc_state s3) (rem_state s3)) as Hr.
  destruct (process_ctl_switch (loc_state s3) (rem_state s3)) as [next diag].
  cbn [fst] in Hr. cbv zeta in Hr.
  set (s4 := if nz next then _ else s3).
  intros Hsame.
  assert (H4 : s4 = s3 \/ loc_state s4 = next /\ next <> loc_state s3).
  { subst s4. destruct (nz next); [|by left].
    destruct (Z.eq_dec next (loc_state s3)) as [->|Hne].
    - left. now apply update_state_same.
    - right. destruct (update_state_changed s3 next diag now Hne) as (-> & _).
      unfold u8. rewrite Z.mod_small by lia. done. }
  assert (E5 : forall s5, loc_state (if nz (Z.land flags BFD_FLAG_POLL)
      then bfd_send_ctl (bfd_session_control_tx_timer s5 0 now) 1
      else bfd_session_control_tx_timer s5 0 now) = loc_state s5 /\
    poll_fields (if nz (Z.land flags BFD_FLAG_POLL)
      then bfd_send_ctl (bfd_session_control_tx_timer s5 0 now) 1
      else bfd_session_control_tx_timer s5 0 now) = poll_fields s5).
  { intros s5. pose proof (fsm_control_tx_timer s5 0 now) as F.
    pose proof (poll_control_tx_timer s5 0 now) as P.
    unfold fsm_fields in F. injection F as F _ _ _ _ _ _ _ _ _ _ _ _ _.
    case_if; cbn; done. }
  destruct (E5 s4) as [L P]. rewrite L in Hsame. rewrite P.
  destruct H4 as [->|[H4 Hne]]; [done|]. congruence.
Qed.

Lemma final_cleared flags :
  has_bit (Z.ldiff flags BFD_FLAG_FINAL) BFD_FLAG_FINAL = false /\
  Z.land (Z.ldiff flags BFD_FLAG_FINAL) BFD_FLAG_POLL = Z.land flags BFD_FLAG_POLL.
Proof.
  unfold has_bit, nz. rewrite Z.ldiff_land, <- !Z.land_assoc.
  rewrite (Z.land_comm (Z.lnot _) BFD_FLAG_FINAL), Z.land_lnot_diag, Z.land_0_r.
  done.
Qed.

Lemma poll_fields_inv s a b c d e f :
  poll_fields s = (a, b, c, d, e, f) ->
  des_min_tx_int s = a /\ des_min_tx_new s = b /\ req_min_rx_int s = c /\
  req_min_rx_new s = d /\ poll_active s = e /\ poll_scheduled s = f.
Proof. unfold poll_fields. intros [= <- <- <- <- <- <-]. done. Qed.

Lemma fsm_fields_rem_id s s' : fsm_fields s' = fsm_fields s -> rem_id s' = rem_id s.
Proof. unfold fsm_fields. intros [= ]. done. Qed.

Lemma process_ctl_after_final s flags old_tx_int old_rx_int now :
  nz (poll_active s) = true -> has_bit flags BFD_FLAG_FINAL = true ->
  bfd_session_process_ctl s flags old_tx_int old_rx_int now =
  bfd_session_process_ctl (bfd_session_terminate_poll s)
    (Z.ldiff flags BFD_FLAG_FINAL) old_tx_int old_rx_int now.
Proof.
  intros Ha Hf. destruct (final_cleared flags) as [Hc Hp].
  unfold has_bit in Hf, Hc. unfold bfd_session_process_ctl.
  rewrite Ha, Hf, Hc, Hp, andb_false_r. reflexivity.
Qed.

(** C3.  On a session with an active poll, a processed packet that carries
    the Final flag first terminates the poll: the stashed value is committed
    ([des_min_tx_int := des_min_tx_new] for the TX bit,
    [req_min_rx_int := req_min_rx_new] for the RX bit) exactly for the bits
    of [poll_active] that are not also in [poll_scheduled], the scheduled
    bits become the new active poll and the schedule is emptied; the rest of
    the processing runs on that session, and when it makes no state
    transition these are the values it leaves.  A packet without the Final
    flag that makes no state transition leaves intervals and poll masks
    alone.  On a session whose [rem_id] is zero a poll request changes
    nothing, so neither it nor an interval change activates a poll. *)
Theorem final_flag_commits_active_poll :
  (forall s flags old_tx_int old_rx_int now,
     nz (poll_active s) = true ->
     has_bit flags BFD_FLAG_FINAL = true ->
     let t := bfd_session_terminate_poll s in
     let s' := bfd_session_process_ctl s flags old_tx_int old_rx_int now in
     des_min_tx_int t =
       (if has_bit (poll_active s) BFD_POLL_TX &&
           negb (has_bit (poll_scheduled s) BFD_POLL_TX)
        then des_min_tx_new s else des_min_tx_int s) /\
     req_min_rx_int t =
       (if has_bit (poll_active s) BFD_POLL_RX &&
           negb (has_bit (poll_scheduled s) BFD_POLL_RX)
        then req_min_rx_new s else req_min_rx_int s) /\
     poll_active t = poll_scheduled s /\
     poll_scheduled t = 0 /\
     s' = bfd_session_process_ctl t (Z.ldiff flags BFD_FLAG_FINAL)
            old_tx_int old_rx_int now /\
     (loc_state s' = loc_state s -> poll_fields s' = poll_fields t)) /\
  (forall s flags old_tx_int old_rx_int now,
     has_bit flags BFD_FLAG_FINAL = false ->
     let s' := bfd_session_process_ctl s flags old_tx_int old_rx_int now in
     loc_state s' = loc_state s -> poll_fields s' = poll_fields s) /\
  (forall s request val now,
     rem_id s = 0 ->
     bfd_session_request_poll s request now = s /\
     poll_active (bfd_session_set_min_tx s val now) = poll_active s /\
     poll_active (bfd_session_set_min_rx s val now) = poll_active s).
Proof.
  split; [|split].
  - intros s flags old_tx_int old_rx_int now Ha Hf t s'.
    pose proof (terminate_poll_fields s) as Ht. fold t in Ht.
    destruct (poll_fields_inv _ _ _ _ _ _ _ Ht) as (H1 & _ & H3 & _ & H5 & H6).
    repeat (split; [assumption|]). split.
    + apply process_ctl_after_final; assumption.
    + intros Hsame.
      pose proof (process_ctl_quiet s flags old_tx_int old_rx_int now) as Hq.
      cbv zeta in Hq. rewrite Ha, Hf in Hq. exact (Hq Hsame).
  - intros s flags old_tx_int old_rx_int now Hf s' Hsame.
    pose proof (process_ctl_quiet s flags old_tx_int old_rx_int now) as Hq.
    cbv zeta in Hq. rewrite Hf, andb_false_r in Hq. exact (Hq Hsame).
  - intros s request val now Hid.
    assert (Hreq : forall s0 r, rem_id s0 = 0 -> bfd_session_request_poll s0 r now = s0).
    { intros s0 r H0. unfold bfd_session_request_poll. now rewrite H0. }
    split; [apply Hreq, Hid|]. split.
    + unfold bfd_session_set_min_tx. case_if; [done|].
      rewrite Hreq.
      * case_if; [|done].
        destruct (poll_fields_inv _ _ _ _ _ _ _ (poll_update_tx_interval
          (set_des_min_tx_int val (set_des_min_tx_new val s))))
          as (_ & _ & _ & _ & P & _). exact P.
      * case_if; [|exact Hid].
        rewrite (fsm_fields_rem_id _ _ (fsm_update_tx_interval _)). exact Hid.
    + unfold bfd_session_set_min_rx. case_if; [done|].
      rewrite Hreq.
      * case_if; [|done].
        destruct (poll_fields_inv _ _ _ _ _ _ _ (poll_update_detection_time
          (set_req_min_rx_int val (set_req_min_rx_new val s)) 0 now))
          as (_ & _ & _ & _ & P & _). exact P.
      * case_if; [|exact Hid].
        rewrite (fsm_fields_rem_id _ _ (fsm_update_detection_time _ _ _)). exact Hid.
Qed.

(** A poll for a TX interval raised from 10 ms to 50 ms: the Final packet
    commits the 50 ms and leaves no poll behind. *)
Lemma final_flag_commits_active_poll_witness :
  let s := session_poll_pending in
  let s' := bfd_session_process_ctl s BFD_FLAG_FINAL 10000 1000000 5000 in
  (des_min_tx_int s = 10000 /\ des_min_tx_new s = 50000 /\
   poll_active s = BFD_POLL_TX /\ poll_scheduled s = 0) /\
  des_min_tx_int (bfd_session_terminate_poll s) = 50000 /\
  poll_fields s' = (50000, 50000, 10000, 10000, 0, 0).
Proof.
  cbv zeta.
  assert (Ha : nz (poll_active session_poll_pending) = true) by (vm_compute; reflexivity).
  assert (Hf : has_bit BFD_FLAG_FINAL BFD_FLAG_FINAL = true) by (vm_compute; reflexivity).
  destruct final_flag_commits_active_poll as [H _].
  specialize (H session_poll_pending BFD_FLAG_FINAL 10000 1000000 5000 Ha Hf).
  cbv zeta in H. destruct H as (H1 & _ & _ & _ & _ & H6).
  assert (Hs : loc_state (bfd_session_process_ctl session_poll_pending BFD_FLAG_FINAL 10000 1000000 5000) = loc_state session_poll_pending) by (vm_compute; reflexivity).
  specialize (H6 Hs).
  split; [vm_compute; repeat split|].
  split.
  - rewrite H1. vm_compute. reflexivity.
  - rewrite H6. vm_compute. reflexivity.
Defined.

(** ** The interval ordering *)

Lemma interval_update_tx_interval s :
  interval_fields (bfd_session_update_tx_interval s) = interval_fields s.
Proof. unfold bfd_session_update_tx_interval. frame_by_cases. Qed.

Lemma interval_update_detection_time s kick now :
  interval_fields (bfd_session_update_detection_time s kick now) = interval_fields s.
Proof. unfold bfd_session_update_detection_time. frame_by_cases. Qed.

Lemma interval_control_tx_timer s reset now :
  interval_fields (bfd_session_control_tx_timer s reset now) = interval_fields s.
Proof. unfold bfd_session_control_tx_timer. frame_by_cases. Qed.

Lemma interval_request_poll s request now :
  interval_fields (bfd_session_request_poll s request now) = interval_fields s.
Proof.
  unfold bfd_session_request_poll. repeat case_if; try reflexivity.
  now rewrite interval_control_tx_timer.
Qed.

Lemma ordered_of_fields s s' :
  interval_fields s' = interval_fields s -> intervals_ordered s -> intervals_ordered s'.
Proof.
  unfold interval_fields, intervals_ordered. intros [= -> -> -> ->]. done.
Qed.

Lemma ordered_terminate_poll s :
  intervals_ordered s -> intervals_ordered (bfd_session_terminate_poll s).
Proof.
  unfold intervals_ordered. intros [Ht Hr].
  destruct (poll_fields_inv _ _ _ _ _ _ _ (terminate_poll_fields s))
    as (-> & -> & -> & -> & _).
  split; case_if; lia.
Qed.

Lemma ordered_set_min_tx s val now :
  intervals_ordered s -> intervals_ordered (bfd_session_set_min_tx s val now).
Proof.
  intros Ho. unfold bfd_session_set_min_tx. case_if; [done|].
  apply (ordered_of_fields _ _ (interval_request_poll _ _ _)).
  destruct Ho as [Ht Hr].
  destruct (negb (loc_state (set_des_min_tx_new val s) =? BFD_STATE_UP)) eqn:Eup;
    cbn [orb].
  - apply (ordered_of_fields _ _ (interval_update_tx_interval _)).
    split; cbn; [lia | exact Hr].
  - destruct (val <? des_min_tx_int (set_des_min_tx_new val s)) eqn:Elt.
    + apply (ordered_of_fields _ _ (interval_update_tx_interval _)).
      split; cbn; [lia | exact Hr].
    + apply Z.ltb_ge in Elt. split; cbn in *; [exact Elt | exact Hr].
Qed.

Lemma ordered_set_min_rx s val now :
  intervals_ordered s -> intervals_ordered (bfd_session_set_min_rx s val now).
Proof.
  intros Ho. unfold bfd_session_set_min_rx. case_if; [done|].
  apply (ordered_of_fields _ _ (interval_request_poll _ _ _)).
  destruct Ho as [Ht Hr].
  destruct (negb (loc_state (set_req_min_rx_new val s) =? BFD_STATE_UP)) eqn:Eup;
    cbn [orb].
  - apply (ordered_of_fields _ _ (interval_update_detection_time _ _ _)).
    split; cbn; [exact Ht | lia].
  - destruct (val >? req_min_rx_int (set_req_min_rx_new val s)) eqn:Egt.
    + apply (ordered_of_fields _ _ (interval_update_detection_time _ _ _)).
      split; cbn; [exact Ht | lia].
    + split; cbn in *; [exact Ht | lia].
Qed.

Lemma ordered_update_state s state diag now :
  intervals_ordered s -> intervals_ordered (bfd_session_update_state s state diag now).
Proof.
  intros Ho. unfold bfd_session_update_state. case_if; [done|].
  set (s1 := set_last_state_change _ _).
  assert (H1 : intervals_ordered (if negb (n_linked s1) then set_n_linked true s1 else s1))
    by (case_if; exact Ho).
  revert H1. generalize (if negb (n_linked s1) then set_n_linked true s1 else s1).
  intros s2 H2.
  assert (H3 : intervals_ordered (if state =? BFD_STATE_UP
     then bfd_session_set_min_tx s2 (sc_min_tx_int (cf s2)) now else s2))
    by (case_if; [apply ordered_set_min_tx|]; exact H2).
  revert H3. generalize (if state =? BFD_STATE_UP
     then bfd_session_set_min_tx s2 (sc_min_tx_int (cf s2)) now else s2).
  intros s3 H3.
  assert (H4 : intervals_ordered (if loc_state s =? BFD_STATE_UP
     then bfd_session_set_min_tx s3 (sc_idle_tx_int (cf s3)) now else s3))
    by (case_if; [apply ordered_set_min_tx|]; exact H3).
  revert H4. generalize (if loc_state s =? BFD_STATE_UP
     then bfd_session_set_min_tx s3 (sc_idle_tx_int (cf s3)) now else s3).
  intros s4 H4. case_if; exact H4.
Qed.

Lemma ordered_process_ctl s flags old_tx_int old_rx_int now :
  intervals_ordered s ->
  intervals_ordered (bfd_session_process_ctl s flags old_tx_int old_rx_int now).
Proof.
  intros Ho. unfold bfd_session_process_ctl.
  set (s1 := if nz (poll_active s) && _ then _ else s).
  assert (H1 : intervals_ordered s1)
    by (subst s1; case_if; [apply ordered_terminate_poll|]; exact Ho).
  clearbody s1.
  set (s2 := if negb (des_min_tx_int s1 =? _) || _ then _ else s1).
  assert (H2 : intervals_ordered s2).
  { subst s2. case_if; [|exact H1].
    exact (ordered_of_fields _ _ (interval_update_tx_interval _) H1). }
  clearbody s2.
  pose proof (ordered_of_fields _ _ (interval_update_detection_time s2 1 now) H2) as H3.
  revert H3. generalize (bfd_session_update_detection_time s2 1 now). intros s3 H3.
  case_if; [exact H3|].
  destruct (process_ctl_switch (loc_state s3) (rem_state s3)) as [next diag].
  set (s4 := if nz next then _ else s3).
  assert (H4 : intervals_ordered s4)
    by (subst s4; case_if; [apply ordered_update_state|]; exact H3).
  clearbody s4.
  pose proof (ordered_of_fields _ _ (interval_control_tx_timer s4 0 now) H4) as H5.
  case_if; exact H5.
Qed.

Lemma ordered_timeout s now :
  intervals_ordered s -> intervals_ordered (bfd_session_timeout s now).
Proof.
  intros Ho. unfold bfd_session_timeout.
  apply (ordered_of_fields _ _ (interval_control_tx_timer _ _ _)).
  apply ordered_update_state. exact Ho.
Qed.

Lemma ordered_reconfigure s ifa_cf opts now :
  intervals_ordered s -> intervals_ordered (bfd_session_reconfigure s ifa_cf opts now).
Proof.
  intros Ho. unfold bfd_session_reconfigure.
  apply (ordered_of_fields _ _ (interval_control_tx_timer _ _ _)).
  set (s1 := set_cf _ s).
  assert (H1 : intervals_ordered s1) by exact Ho. clearbody s1.
  set (tx := if loc_state s1 =? BFD_STATE_UP then _ else _). clearbody tx.
  pose proof (ordered_set_min_tx s1 tx now H1) as H2.
  revert H2. generalize (bfd_session_set_min_tx s1 tx now). intros s2 H2.
  pose proof (ordered_set_min_rx s2 (sc_min_rx_int (cf s2)) now H2) as H3.
  revert H3. generalize (bfd_session_set_min_rx s2 (sc_min_rx_int (cf s2)) now).
  intros s3 H3. exact H3.
Qed.

Lemma ordered_new a k ifx id c csn now :
  intervals_ordered (bfd_session_new a k ifx id c csn now).
Proof.
  unfold bfd_session_new.
  set (s9 := set_passive _ _).
  assert (H : interval_fields (set_last_state_change now
     (bfd_session_control_tx_timer (bfd_session_update_tx_interval s9) 1 now)) =
     interval_fields s9).
  { transitivity (interval_fields (bfd_session_control_tx_timer
      (bfd_session_update_tx_interval s9) 1 now)); [reflexivity|].
    now rewrite interval_control_tx_timer, interval_update_tx_interval. }
  apply (ordered_of_fields _ _ H). subst s9. split; cbn; lia.
Qed.

Lemma ordered_step s s' :
  session_step s s' -> intervals_ordered s -> intervals_ordered s'.
Proof.
  intros Hstep Ho. destruct Hstep.
  - unfold bfd_rx_ctl. apply ordered_process_ctl. exact Ho.
  - exact Ho.
  - unfold bfd_hold_timer_hook. apply ordered_timeout. exact Ho.
  - apply ordered_reconfigure. exact Ho.
  - exact Ho.
Qed.

(** C5.  The two orderings [des_min_tx_int <= des_min_tx_new] and
    [req_min_rx_int >= req_min_rx_new] hold for a session as
    [bfd_add_session] creates it, are preserved by
    [bfd_session_set_min_tx], by [bfd_session_set_min_rx] and by the commit
    of [bfd_session_terminate_poll], and hold for every session at every
    time: in every state a session reaches by control packets, timer
    expiries and reconfigurations. *)
Theorem intervals_always_ordered :
  (forall a k ifx id c csn now,
     intervals_ordered (bfd_session_new a k ifx id c csn now)) /\
  (forall s val now,
     intervals_ordered s -> intervals_ordered (bfd_session_set_min_tx s val now)) /\
  (forall s val now,
     intervals_ordered s -> intervals_ordered (bfd_session_set_min_rx s val now)) /\
  (forall s,
     intervals_ordered s -> intervals_ordered (bfd_session_terminate_poll s)) /\
  (forall s, session_reachable s -> intervals_ordered s).
Proof.
  split; [exact ordered_new|]. split; [exact ordered_set_min_tx|].
  split; [exact ordered_set_min_rx|]. split; [exact ordered_terminate_poll|].
  intros s Hr. induction Hr as [|s s' _ IH Hstep].
  - apply ordered_new.
  - exact (ordered_step s s' Hstep IH).
Qed.

(** The ordering after the first packet of a peer, and after an interval
    change on a session that is Up. *)
Lemma intervals_always_ordered_witness :
  intervals_ordered (bfd_rx_ctl session_passive_new packet_from_down_peer 2000) /\
  intervals_ordered (bfd_session_set_min_tx session_up 50000 3500).
Proof.
  destruct intervals_always_ordered as (_ & Htx & _ & _ & H).
  split.
  - apply H. exact (reach_step _ _ (reach_new _ _ _ _ _ _ _) (step_rx _ _ _)).
  - apply Htx. split; vm_compute; discriminate.
Defined.

(** ** The gate of the TX timer *)

Lemma gated_of_fields s s' :
  gate_fields s' = gate_fields s -> tx_timer_gated s -> tx_timer_gated s'.
Proof. unfold gate_fields, tx_timer_gated. intros [= -> -> -> ->]. done. Qed.

Lemma gated_control_tx_timer s reset now :
  tx_timer_gated (bfd_session_control_tx_timer s reset now).
Proof.
  pose proof (control_tx_timer_active s reset now) as Ha.
  pose proof (fsm_control_tx_timer s reset now) as Hf.
  unfold tx_timer_gated. rewrite Ha.
  unfold fsm_fields in Hf. injection Hf as _ _ _ -> _ -> _ _ -> _ _ _ _ _.
  unfold tx_timer_must_stop. split.
  - intros ->. now rewrite Z.eqb_refl, orb_true_r.
  - intros -> ->. now rewrite Z.eqb_refl.
Qed.

Lemma gated_process_ctl s flags old_tx_int old_rx_int now :
  loc_state s <> BFD_STATE_ADMIN_DOWN ->
  tx_timer_gated (bfd_session_process_ctl s flags old_tx_int old_rx_int now).
Proof.
  intros Hne. unfold bfd_session_process_ctl.
  set (s1 := if nz (poll_active s) && _ then _ else s).
  set (s2 := if negb (des_min_tx_int s1 =? _) || _ then _ else s1).
  set (s3 := bfd_session_update_detection_time s2 1 now).
  assert (E1 : fsm_fields s1 = fsm_fields s).
  { subst s1. case_if; [apply fsm_terminate_poll | done]. }
  assert (E2 : fsm_fields s2 = fsm_fields s1).
  { subst s2. case_if; [apply fsm_update_tx_interval | done]. }
  assert (E3 : fsm_fields s3 = fsm_fields s) by
    (subst s3; rewrite fsm_update_detection_time; congruence).
  clearbody s3. clear E1 E2 s1 s2.
  unfold fsm_fields in E3. injection E3 as Hl _ _ _ _ _ _ _ _ _ _ _ _ _.
  rewrite <- Hl in Hne. apply Z.eqb_neq in Hne. rewrite Hne.
  destruct (process_ctl_switch (loc_state s3) (rem_state s3)) as [next diag].
  generalize (if nz next then bfd_session_update_state s3 next diag now else s3).
  intros s4. pose proof (gated_control_tx_timer s4 0 now) as G.
  case_if; exact G.
Qed.

Lemma state_kept_nonzero_process_ctl s flags old_tx_int old_rx_int now :
  loc_state s <> BFD_STATE_ADMIN_DOWN ->
  loc_state (bfd_session_process_ctl s flags old_tx_int old_rx_int now)
    <> BFD_STATE_ADMIN_DOWN.
Proof.
  intros Hne.
  destruct (process_ctl_state s flags old_tx_int old_rx_int now) as [_ H].
  pose proof (switch_next_range (loc_state s) (rem_state s)) as Hr.
  cbv zeta in Hr.
  destruct (nz (loc_state s) && nz (process_ctl_switch (loc_state s) (rem_state s)).1
            && negb ((process_ctl_switch (loc_state s) (rem_state s)).1 =? loc_state s))
    eqn:E.
  - destruct H as [-> _]. apply andb_prop in E as [E _]. apply andb_prop in E as [_ E].
    unfold nz in E. apply negb_true_iff, Z.eqb_neq in E.
    unfold u8. rewrite Z.mod_small by lia. exact E.
  - destruct H as [-> _]. exact Hne.
Qed.

Lemma state_after_timeout s now :
  loc_state s <> BFD_STATE_ADMIN_DOWN ->
  loc_state (bfd_session_timeout s now) = BFD_STATE_DOWN.
Proof.
  intros Hne. unfold bfd_session_timeout.
  set (s9 := set_poll_scheduled 0 _).
  rewrite (f_equal (fun p => p.1.1.1.1.1)
             (fsm_control_tx_timer (bfd_session_update_state s9 BFD_STATE_DOWN
                BFD_DIAG_TIMEOUT now) 1 now) : loc_state _ = loc_state _).
  destruct (Z.eq_dec BFD_STATE_DOWN (loc_state s9)) as [E|E].
  - now rewrite update_state_same.
  - now destruct (update_state_changed s9 _ BFD_DIAG_TIMEOUT now E) as [-> _].
Qed.

Lemma state_kept_reconfigure s ifa_cf opts now :
  loc_state (bfd_session_reconfigure s ifa_cf opts now) = loc_state s.
Proof.
  unfold bfd_session_reconfigure.
  set (s1 := set_cf _ s).
  set (tx := if loc_state s1 =? BFD_STATE_UP then _ else _). clearbody tx.
  set (s2 := bfd_session_set_min_tx s1 tx now).
  set (s3 := bfd_session_set_min_rx s2 _ now).
  assert (E : fsm_fields s3 = fsm_fields s1)
    by (subst s3 s2; now rewrite fsm_set_min_rx, fsm_set_min_tx).
  clearbody s3.
  rewrite (f_equal (fun p => p.1.1.1.1.1) (fsm_control_tx_timer _ 0 now)
             : loc_state _ = loc_state _).
  cbn. exact (f_equal (fun p => p.1.1.1.1.1) E).
Qed.

(** Every reachable session has left AdminDown behind and keeps its TX
    timer gated. *)
Lemma reachable_gated s :
  session_reachable s -> loc_state s <> BFD_STATE_ADMIN_DOWN /\ tx_timer_gated s.
Proof.
  intros Hr. induction Hr as [a k ifx id c csn now | s s' _ [IHs IHg] Hstep].
  - unfold bfd_session_new. set (s9 := bfd_session_update_tx_interval _).
    split.
    + change (loc_state (bfd_session_control_tx_timer s9 1 now) <> BFD_STATE_ADMIN_DOWN).
      rewrite (f_equal (fun p => p.1.1.1.1.1) (fsm_control_tx_timer s9 1 now)
                 : loc_state _ = loc_state _).
      subst s9.
      rewrite (f_equal (fun p => p.1.1.1.1.1) (fsm_update_tx_interval _)
                 : loc_state _ = loc_state _).
      cbn. discriminate.
    + apply (gated_of_fields (bfd_session_control_tx_timer s9 1 now));
        [reflexivity | apply gated_control_tx_timer].
  - destruct Hstep.
    + unfold bfd_rx_ctl. split.
      * apply state_kept_nonzero_process_ctl. exact IHs.
      * apply gated_process_ctl. exact IHs.
    + split; [exact IHs|].
      destruct IHg as [G1 G2]. split; cbn.
      * intros E. rewrite (G1 E) in H. discriminate.
      * intros E1 E2. rewrite (G2 E1 E2) in H. discriminate.
    + unfold bfd_hold_timer_hook. split.
      * rewrite state_after_timeout; [discriminate | exact IHs].
      * apply gated_control_tx_timer.
    + split.
      * rewrite state_kept_reconfigure. exact IHs.
      * apply gated_control_tx_timer.
    + split; [exact IHs | exact IHg].
Qed.

(** C4.  [bfd_session_control_tx_timer] leaves the TX timer stopped
    whenever [rem_min_rx_int] is zero and whenever the session is passive
    with [rem_id] zero; the operations that change these fields (creation,
    a received packet on a session that is not AdminDown, the detection
    timeout, a reconfiguration) end in a state with that property; and the
    property holds for every session at every time: in every state a
    session reaches by control packets, timer expiries and
    reconfigurations. *)
Theorem tx_timer_always_gated :
  (forall s reset now, tx_timer_gated (bfd_session_control_tx_timer s reset now)) /\
  (forall a k ifx id c csn now,
     tx_timer_gated (bfd_session_new a k ifx id c csn now)) /\
  (forall s pkt now,
     loc_state s <> BFD_STATE_ADMIN_DOWN -> tx_timer_gated (bfd_rx_ctl s pkt now)) /\
  (forall s now, tx_timer_gated (bfd_session_timeout s now)) /\
  (forall s ifa_cf opts now,
     tx_timer_gated (bfd_session_reconfigure s ifa_cf opts now)) /\
  (forall s, session_reachable s -> tx_timer_gated s).
Proof.
  split; [exact gated_control_tx_timer|].
  split; [intros; apply reachable_gated; constructor|].
  split; [intros; unfold bfd_rx_ctl; now apply gated_process_ctl|].
  split; [intros; apply gated_control_tx_timer|].
  split; [intros; apply gated_control_tx_timer|].
  intros s Hr. now apply reachable_gated.
Qed.

(** A passive session just created has no TX timer; it is gated again after
    the first packet of the peer. *)
Lemma tx_timer_always_gated_witness :
  nz (passive session_passive_new) = true /\
  rem_id session_passive_new = 0 /\
  tm_active (tx_timer session_passive_new) = false /\
  tx_timer_gated (bfd_rx_ctl session_passive_new packet_from_down_peer 2000).
Proof.
  assert (Hp : nz (passive session_passive_new) = true) by (vm_compute; reflexivity).
  assert (Hi : rem_id session_passive_new = 0) by (vm_compute; reflexivity).
  destruct tx_timer_always_gated as (_ & _ & _ & _ & _ & H).
  assert (R : session_reachable session_passive_new) by apply reach_new.
  split; [exact Hp|]. split; [exact Hi|]. split.
  - exact (proj2 (H _ R) Hp Hi).
  - apply H. exact (reach_step _ _ R (step_rx _ _ _)).
Defined.

(** Outside the reachable states: a session put in AdminDown keeps an armed
    TX timer when a packet says that the peer receives nothing, because
    [bfd_session_process_ctl] returns before it controls the timer.  No
    session of bfd.c is ever in AdminDown. *)
Lemma admin_down_session_not_gated :
  let s := set_loc_state BFD_STATE_ADMIN_DOWN session_up in
  let s' := bfd_rx_ctl s (mk_ctl_packet BFD_STATE_UP 0 0 3 7 10000 0) 4000 in
  rem_min_rx_int s' = 0 /\ tm_active (tx_timer s') = true.
Proof. vm_compute. done. Qed.

(** ** The TX interval *)

Lemma update_tx_interval_timer s :
  0 <= des_min_tx_int s < 4294967296 ->
  0 <= rem_min_rx_int s < 4294967296 ->
  let T := tx_interval s in
  let t := tx_timer (bfd_session_update_tx_interval s) in
  recurrent t = T - T / 4 /\
  randomize t = (T - T / 10) - (T - T / 4) /\
  expires t = if nz (last_tx s) then Some (last_tx s + (T - T / 4))
              else expires (tx_timer s).
Proof.
  intros Hd Hr T t.
  assert (HT : 0 <= T < 4294967296) by (unfold T, tx_interval; lia).
  assert (H4 : 0 <= T / 4 <= T) by (split; [apply Z.div_pos | apply Z.div_le_upper_bound]; lia).
  assert (H10 : 0 <= T / 10 <= T / 4).
  { split; [apply Z.div_pos; lia|].
    apply Z.div_le_lower_bound; [lia|].
    pose proof (Z.mul_div_le T 10 ltac:(lia)). lia. }
  assert (El : u32 (T - T / 4) = T - T / 4) by (apply Z.mod_small; lia).
  assert (Eh : u32 (T - T / 10) = T - T / 10) by (apply Z.mod_small; lia).
  assert (Er : u32 (T - T / 10 - (T - T / 4)) = T - T / 10 - (T - T / 4))
    by (apply Z.mod_small; lia).
  subst t. unfold bfd_session_update_tx_interval.
  fold (tx_interval s). fold T. rewrite El, Eh, Er.
  destruct (nz (last_tx s)) eqn:E; cbn; rewrite ?E; done.
Qed.

(** A recurrent timer that fires is armed again between its base and its
    base plus its randomization range after the deadline that passed. *)
Lemma tm_fire_window t deadline jitter :
  expires t = Some deadline -> nz (recurrent t) = true -> 0 <= randomize t ->
  exists when,
    expires (tm_fire t jitter) = Some when /\
    deadline + recurrent t <= when <= deadline + recurrent t + randomize t.
Proof.
  intros E Hrec Hrand. unfold tm_fire. rewrite E, Hrec. eexists. split; [reflexivity|].
  pose proof (Z.mod_pos_bound jitter (randomize t + 1) ltac:(lia)). lia.
Qed.

(** The base and the range [bfd_session_update_tx_interval] computes. *)
Lemma update_tx_interval_params s :
  let T := tx_interval s in
  recurrent (tx_timer (bfd_session_update_tx_interval s)) = u32 (T - T / 4) /\
  randomize (tx_timer (bfd_session_update_tx_interval s)) =
    u32 (u32 (T - T / 10) - u32 (T - T / 4)).
Proof.
  cbv zeta. unfold bfd_session_update_tx_interval, tx_interval.
  destruct (nz (last_tx _)); cbn; done.
Qed.

Lemma tune_fields_update_tx_interval s :
  (des_min_tx_int (bfd_session_update_tx_interval s),
   rem_min_rx_int (bfd_session_update_tx_interval s)) =
  (des_min_tx_int s, rem_min_rx_int s).
Proof.
  unfold bfd_session_update_tx_interval. destruct (nz (last_tx _)); reflexivity.
Qed.

Lemma tuned_iff s :
  tx_timer_tuned s <->
  recurrent (tx_timer s) = u32 (tx_interval s - tx_interval s / 4) /\
  randomize (tx_timer s) =
    u32 (u32 (tx_interval s - tx_interval s / 10) -
         u32 (tx_interval s - tx_interval s / 4)).
Proof.
  unfold tx_timer_tuned.
  destruct (update_tx_interval_params s) as [-> ->]. reflexivity.
Qed.

Lemma tuned_of_fields s s' :
  tune_fields s' = tune_fields s -> tx_timer_tuned s -> tx_timer_tuned s'.
Proof.
  unfold tune_fields. intros E. rewrite !tuned_iff. unfold tx_interval.
  injection E as -> -> -> ->. done.
Qed.

Lemma tx_interval_of_fields s s' :
  tune_fields s' = tune_fields s -> tx_interval s' = tx_interval s.
Proof.
  intros E. apply (f_equal (fun x => Z.max x.1.1.1 x.1.1.2)) in E. exact E.
Qed.

Lemma tuned_update_tx_interval s : tx_timer_tuned (bfd_session_update_tx_interval s).
Proof.
  apply tuned_iff. unfold tx_interval.
  pose proof (tune_fields_update_tx_interval s) as E. injection E as -> ->.
  apply update_tx_interval_params.
Qed.

Lemma tune_update_detection_time s kick now :
  tune_fields (bfd_session_update_detection_time s kick now) = tune_fields s.
Proof. unfold bfd_session_update_detection_time. repeat case_match; reflexivity. Qed.

Lemma tune_control_tx_timer s reset now :
  tune_fields (bfd_session_control_tx_timer s reset now) = tune_fields s.
Proof. unfold bfd_session_control_tx_timer. repeat case_match; reflexivity. Qed.

Lemma tune_request_poll s request now :
  tune_fields (bfd_session_request_poll s request now) = tune_fields s.
Proof.
  unfold bfd_session_request_poll. repeat case_match; try reflexivity.
  now rewrite tune_control_tx_timer.
Qed.

Lemma tune_set_min_rx s val now :
  tune_fields (bfd_session_set_min_rx s val now) = tune_fields s.
Proof.
  unfold bfd_session_set_min_rx. case_match; [done|].
  rewrite tune_request_poll. case_match; [|done].
  now rewrite tune_update_detection_time.
Qed.

Lemma tune_tx_fire s jitter now :
  tune_fields (bfd_tx_timer_hook (set_tx_timer (tm_fire (tx_timer s) jitter) s) now) =
  tune_fields s.
Proof.
  unfold bfd_tx_timer_hook, bfd_send_ctl, tm_fire, tune_fields. cbn.
  repeat case_match; reflexivity.
Qed.

Lemma tuned_set_min_tx s val now :
  tx_timer_tuned s -> tx_timer_tuned (bfd_session_set_min_tx s val now).
Proof.
  intros H. unfold bfd_session_set_min_tx. case_match; [done|].
  apply (tuned_of_fields _ _ (tune_request_poll _ _ _)).
  case_match; [apply tuned_update_tx_interval|].
  now apply (tuned_of_fields s).
Qed.

Lemma tuned_update_state s state diag now :
  tx_timer_tuned s -> tx_timer_tuned (bfd_session_update_state s state diag now).
Proof.
  intros H. unfold bfd_session_update_state. case_match; [done|]. cbv zeta.
  set (s1 := if negb _ then set_n_linked true _ else _).
  assert (H1 : tx_timer_tuned s1).
  { apply (tuned_of_fields s); [|done]. subst s1. now case_match. }
  clearbody s1.
  set (s2 := if state =? BFD_STATE_UP then _ else s1).
  assert (H2 : tx_timer_tuned s2)
    by (subst s2; case_match; [now apply tuned_set_min_tx | done]).
  clearbody s2.
  set (s3 := if loc_state s =? BFD_STATE_UP then _ else s2).
  assert (H3 : tx_timer_tuned s3)
    by (subst s3; case_match; [now apply tuned_set_min_tx | done]).
  clearbody s3. case_match; [|done]. now apply (tuned_of_fields s3).
Qed.

(** [bfd_session_process_ctl] tunes the timer when the packet or the end of
    a poll changed one of the two intervals: it is enough that the timer was
    tuned for the intervals [old_tx_int] and [old_rx_int]. *)
Lemma tuned_process_ctl s flags old_tx_int old_rx_int now :
  let T := Z.max old_tx_int old_rx_int in
  recurrent (tx_timer s) = u32 (T - T / 4) ->
  randomize (tx_timer s) = u32 (u32 (T - T / 10) - u32 (T - T / 4)) ->
  tx_timer_tuned (bfd_session_process_ctl s flags old_tx_int old_rx_int now).
Proof.
  intros T Hrec Hrand. unfold bfd_session_process_ctl. cbv zeta.
  set (s1 := if nz (poll_active s) && _ then _ else s).
  assert (H1 : tx_timer s1 = tx_timer s /\ rem_min_rx_int s1 = rem_min_rx_int s).
  { subst s1. case_match; [|done]. unfold bfd_session_terminate_poll.
    repeat case_match; done. }
  destruct H1 as [Et Er]. clearbody s1.
  set (s2 := if negb _ || _ then _ else s1).
  assert (H2 : tx_timer_tuned s2).
  { subst s2. case_match eqn:E; [apply tuned_update_tx_interval|].
    apply orb_false_iff in E as [E1 E2].
    apply negb_false_iff, Z.eqb_eq in E1, E2.
    apply tuned_iff. unfold tx_interval. rewrite Et, E1, E2. done. }
  clearbody s2.
  set (s3 := bfd_session_update_detection_time s2 1 now).
  assert (H3 : tx_timer_tuned s3)
    by (apply (tuned_of_fields s2); [apply tune_update_detection_time | done]).
  clearbody s3. case_match; [done|].
  destruct (process_ctl_switch _ _) as [next diag].
  set (s4 := if nz next then _ else s3).
  assert (H4 : tx_timer_tuned s4)
    by (subst s4; case_match; [now apply tuned_update_state | done]).
  clearbody s4.
  assert (H5 : tx_timer_tuned (bfd_session_control_tx_timer s4 0 now))
    by (apply (tuned_of_fields s4); [apply tune_control_tx_timer | done]).
  case_match; [|done].
  apply (tuned_of_fields (bfd_session_control_tx_timer s4 0 now)); [reflexivity | done].
Qed.

Lemma tuned_rx_ctl s pkt now :
  tx_timer_tuned s -> tx_timer_tuned (bfd_rx_ctl s pkt now).
Proof.
  intros H. apply tuned_iff in H as [H1 H2]. unfold bfd_rx_ctl. cbv zeta.
  apply tuned_process_ctl; assumption.
Qed.

Lemma tuned_reconfigure s ifa_cf opts now :
  tx_timer_tuned s -> tx_timer_tuned (bfd_session_reconfigure s ifa_cf opts now).
Proof.
  intros H. unfold bfd_session_reconfigure. cbv zeta.
  apply (tuned_of_fields _ _ (tune_control_tx_timer _ _ _)).
  set (s1 := bfd_session_set_min_tx _ _ now).
  assert (H1 : tx_timer_tuned s1).
  { subst s1. apply tuned_set_min_tx. now apply (tuned_of_fields s). }
  clearbody s1.
  apply (tuned_of_fields (bfd_session_set_min_rx s1 (sc_min_rx_int (cf s1)) now));
    [reflexivity|].
  now apply (tuned_of_fields _ _ (tune_set_min_rx _ _ _)).
Qed.

Lemma tune_set_last_state_change v s :
  tune_fields (set_last_state_change v s) = tune_fields s.
Proof. reflexivity. Qed.

Lemma tuned_new a k ifx id c csn now :
  tx_timer_tuned (bfd_session_new a k ifx id c csn now).
Proof.
  unfold bfd_session_new. cbv zeta.
  eapply tuned_of_fields; [apply tune_set_last_state_change|].
  eapply tuned_of_fields; [apply tune_control_tx_timer|].
  apply tuned_update_tx_interval.
Qed.

(** C6 (as amended).  With [T = max(des_min_tx_int, rem_min_rx_int)], both
    32-bit values, the window of the code is [[T - T/4, T - T/10]], that is
    [[ceil(0.75 T), ceil(0.90 T)]]: its lower end is at least 75 % of [T]
    and less than a microsecond above it, its upper end is at least 90 % of
    [T], less than a microsecond above it, and exactly 90 % when [T] is a
    multiple of ten.  [bfd_session_update_tx_interval] tunes the TX timer to
    it, base [T - T/4] and randomization range [(T - T/10) - (T - T/4)]
    without wrap-around, and, when a previous transmit time [last_tx] is
    recorded, arms it at the lower end after [last_tx].  When a tuned timer
    fires (it is armed, so the gate of the TX timer makes [T] positive), the
    timer loop arms it again inside the window after the deadline
    [d] that passed, at any point of it, and [bfd_tx_timer_hook] records the
    time it runs at as [last_tx], leaving [T] and the timer alone: the next
    fire is inside the window after [last_tx] when the hook runs at the
    deadline, and no later than its upper end when the hook runs late.  The
    timer is tuned from the creation of the session on and stays tuned
    through received packets and reconfigurations. *)
Theorem tx_interval_window s :
  0 <= des_min_tx_int s < 4294967296 ->
  0 <= rem_min_rx_int s < 4294967296 ->
  let T := tx_interval s in
  let lo := T - T / 4 in
  let hi := T - T / 10 in
  (3 * T <= 4 * lo <= 3 * T + 3 /\
   9 * T <= 10 * hi <= 9 * T + 9 /\
   (T mod 10 = 0 -> 10 * hi = 9 * T) /\
   lo <= hi) /\
  (let s' := bfd_session_update_tx_interval s in
   recurrent (tx_timer s') = lo /\
   randomize (tx_timer s') = hi - lo /\
   tx_interval s' = T /\ tx_timer_tuned s' /\
   (last_tx s <> 0 -> expires (tx_timer s') = Some (last_tx s + lo))) /\
  (tx_timer_tuned s -> tx_timer_gated s ->
   forall d now, expires (tx_timer s) = Some d ->
     (forall jitter,
        let s' := bfd_tx_timer_hook
                    (set_tx_timer (tm_fire (tx_timer s) jitter) s) now in
        tx_interval s' = T /\ tx_timer_tuned s' /\ last_tx s' = now /\
        exists e,
          expires (tx_timer s') = Some e /\
          d + lo <= e <= d + hi /\
          (now = d -> last_tx s' + lo <= e <= last_tx s' + hi) /\
          (d <= now -> e <= last_tx s' + hi)) /\
     (forall e, d + lo <= e <= d + hi ->
        exists jitter,
          expires (tx_timer
                     (bfd_tx_timer_hook
                        (set_tx_timer (tm_fire (tx_timer s) jitter) s) now)) =
          Some e)) /\
  ((forall a k ifx id c csn now,
      tx_timer_tuned (bfd_session_new a k ifx id c csn now)) /\
   (tx_timer_tuned s -> forall pkt now, tx_timer_tuned (bfd_rx_ctl s pkt now)) /\
   (tx_timer_tuned s -> forall ifa_cf opts now,
      tx_timer_tuned (bfd_session_reconfigure s ifa_cf opts now))).
Proof.
  intros Hd Hr T lo hi.
  destruct (update_tx_interval_timer s Hd Hr) as (E1 & E2 & E3).
  fold T in E1, E2, E3. fold lo in E1, E2, E3. fold hi in E2.
  assert (HT : 0 <= T < 4294967296) by (unfold T, tx_interval; lia).
  pose proof (Z.div_mod T 4 ltac:(lia)) as D4.
  pose proof (Z.mod_pos_bound T 4 ltac:(lia)) as M4.
  pose proof (Z.div_mod T 10 ltac:(lia)) as D10.
  pose proof (Z.mod_pos_bound T 10 ltac:(lia)) as M10.
  assert (W : 3 * T <= 4 * lo <= 3 * T + 3 /\ 9 * T <= 10 * hi <= 9 * T + 9 /\
              (T mod 10 = 0 -> 10 * hi = 9 * T) /\ lo <= hi)
    by (subst lo hi; repeat split; lia).
  split; [exact W|]. destruct W as (_ & _ & _ & Hlh).
  split; [|split].
  - cbv zeta. split; [exact E1|]. split; [exact E2|].
    split; [|split; [apply tuned_update_tx_interval|]].
    + unfold T, tx_interval.
      pose proof (tune_fields_update_tx_interval s) as E. now injection E as -> ->.
    + intros Hne. rewrite E3. unfold nz.
      destruct (Z.eqb_spec (last_tx s) 0); [contradiction | reflexivity].
  - intros Ht [Hg _] d now Ed.
    assert (Hpos : 0 < T).
    { assert (Hrem : rem_min_rx_int s <> 0).
      { intros E0. specialize (Hg E0). unfold tm_active in Hg. rewrite Ed in Hg.
        rewrite bool_decide_eq_true_2 in Hg; [discriminate | by eexists]. }
      unfold T, tx_interval. lia. }
    unfold tx_timer_tuned in Ht. rewrite E1, E2 in Ht. destruct Ht as [R1 R2].
    assert (Hnz : nz (recurrent (tx_timer s)) = true).
    { rewrite R1. unfold nz. apply negb_true_iff, Z.eqb_neq. subst lo. lia. }
    assert (Ef : forall jitter,
              expires (tx_timer (bfd_tx_timer_hook
                         (set_tx_timer (tm_fire (tx_timer s) jitter) s) now)) =
              Some (d + lo + jitter mod (hi - lo + 1))).
    { intros jitter. unfold bfd_tx_timer_hook, bfd_send_ctl, tm_fire.
      rewrite Ed, Hnz. cbn. now rewrite R1, R2. }
    split.
    + intros jitter. cbv zeta.
      pose proof (tune_tx_fire s jitter now) as F.
      split; [|split; [|split]].
      * now apply tx_interval_of_fields.
      * apply (tuned_of_fields s _ F). unfold tx_timer_tuned.
        now rewrite E1, E2.
      * reflexivity.
      * exists (d + lo + jitter mod (hi - lo + 1)). split; [apply Ef|].
        pose proof (Z.mod_pos_bound jitter (hi - lo + 1) ltac:(lia)).
        change (last_tx (bfd_tx_timer_hook
                  (set_tx_timer (tm_fire (tx_timer s) jitter) s) now)) with now.
        repeat split; lia.
    + intros e He. exists (e - d - lo). rewrite Ef. f_equal.
      rewrite Z.mod_small by lia. lia.
  - split; [apply tuned_new|]. split.
    + intros Ht pkt now. now apply tuned_rx_ctl.
    + intros Ht ifa_cf opts now. now apply tuned_reconfigure.
Qed.

(** A new session with T = 1000001 microseconds, whose timer is due at
    1000: fired with the largest random part and served on time, it is
    armed again at 1000 + 900001. *)
Lemma tx_interval_window_witness :
  let s' := bfd_tx_timer_hook
              (set_tx_timer (tm_fire (tx_timer session_odd_new) 150000)
                 session_odd_new) 1000 in
  tx_interval session_odd_new = 1000001 /\
  tx_timer_tuned s' /\ last_tx s' = 1000 /\
  exists e, expires (tx_timer s') = Some e /\
            1000 + 750001 <= e <= 1000 + 900001.
Proof.
  cbv zeta.
  assert (Hd : 0 <= des_min_tx_int session_odd_new < 4294967296)
    by (vm_compute; split; [discriminate | reflexivity]).
  assert (Hr : 0 <= rem_min_rx_int session_odd_new < 4294967296)
    by (vm_compute; split; [discriminate | reflexivity]).
  assert (ET : tx_interval session_odd_new = 1000001) by (vm_compute; reflexivity).
  destruct (tx_interval_window session_odd_new Hd Hr) as (_ & _ & F & N & _).
  rewrite ET in F.
  assert (G : tx_timer_gated session_odd_new)
    by (split; [intros E; vm_compute in E; discriminate
               | intros E; vm_compute in E; discriminate]).
  destruct (F (N _ _ _ _ _ _ _) G 1000 1000 ltac:(vm_compute; reflexivity))
    as [F1 _].
  destruct (F1 150000) as (_ & A & B & e & E & W & _).
  split; [exact ET|]. split; [exact A|]. split; [exact B|].
  exists e. split; [exact E|]. exact W.
Defined.

(** C6, where the claim fails.  A new session with T = 1000001
    microseconds whose timer is due at 1000: fired with the largest random
    part and served on time, its next fire is 900001 microseconds after
    [last_tx], above 90 % of T; fired with no random part and served 500
    microseconds late, its next fire is 749501 microseconds after [last_tx],
    below 75 % of T.  And a session in Init that was tuned to a peer
    accepting a packet every ten seconds, after its detection time expired:
    T is back to a second, the timer keeps the base of 7.5 seconds, and the
    fire after the one due at once is 7.5 seconds after [last_tx]. *)
Lemma tx_fire_leaves_window :
  let fire s jitter now :=
    bfd_tx_timer_hook (set_tx_timer (tm_fire (tx_timer s) jitter) s) now in
  let gap s := (fun e => e - last_tx s) <$> expires (tx_timer s) in
  (tx_interval session_odd_new = 1000001 /\
   expires (tx_timer session_odd_new) = Some 1000) /\
  (tx_interval (fire session_odd_new 150000 1000) = 1000001 /\
   last_tx (fire session_odd_new 150000 1000) = 1000 /\
   gap (fire session_odd_new 150000 1000) = Some 900001 /\
   9 * 1000001 < 10 * 900001) /\
  (tx_interval (fire session_odd_new 0 1500) = 1000001 /\
   last_tx (fire session_odd_new 0 1500) = 1500 /\
   gap (fire session_odd_new 0 1500) = Some 749501 /\
   4 * 749501 < 3 * 1000001) /\
  (expires (tx_timer session_init_timed_out) = Some 3002000 /\
   tx_interval (fire session_init_timed_out 0 3002000) = 1000000 /\
   last_tx (fire session_init_timed_out 0 3002000) = 3002000 /\
   gap (fire session_init_timed_out 0 3002000) = Some 7500000 /\
   9 * 1000000 < 10 * 7500000).
Proof. vm_compute. repeat split. Qed.

(** ** Free discriminators *)

Lemma get_free_id_from_found p fuel id :
  (exists k : nat, (k <= fuel)%nat /\ id_free p (u32 (id + Z.of_nat k))) ->
  0 <= id < 4294967296 ->
  id_free p (bfd_get_free_id_from fuel p id).
Proof.
  revert id. induction fuel as [|fuel IH]; intros id (k & Hk & Hfree) Hid.
  - assert (k = 0%nat) as -> by lia. cbn in Hfree. rewrite Z.add_0_r in Hfree.
    unfold u32 in Hfree. rewrite Z.mod_small in Hfree by done.
    destruct Hfree as [Hnz Hnone]. cbn. unfold nz, bfd_find_session_by_id.
    case_match; done.
  - cbn [bfd_get_free_id_from].
    destruct (nz id && negb (bool_decide (is_Some (bfd_find_session_by_id p id))))
      eqn:Etest.
    + apply andb_prop in Etest as [Hnz Hnone]. split.
      * unfold nz in Hnz. apply negb_true_iff, Z.eqb_neq in Hnz. exact Hnz.
      * apply negb_true_iff, bool_decide_eq_false in Hnone.
        unfold bfd_find_session_by_id in Hnone.
        destruct (session_hash_id p !! id); [|done]. destruct Hnone. by eexists.
    + destruct k as [|k].
      * exfalso. cbn in Hfree. rewrite Z.add_0_r in Hfree.
        unfold u32 in Hfree. rewrite Z.mod_small in Hfree by done.
        destruct Hfree as [Hnz Hnone].
        unfold nz, bfd_find_session_by_id in Etest. rewrite Hnone in Etest.
        apply Z.eqb_neq in Hnz. rewrite Hnz in Etest.
        rewrite bool_decide_eq_false_2 in Etest; [done|]. by intros [? ?].
      * apply IH.
        -- exists k. split; [lia|].
           replace (u32 (u32 (id + 1) + Z.of_nat k)) with (u32 (id + Z.of_nat (S k)));
             [done|].
           unfold u32. rewrite Zplus_mod_idemp_l. f_equal. lia.
        -- unfold u32. apply Z.mod_pos_bound. lia.
Qed.

Lemma u32_shift_inj r (j k : nat) :
  (Z.of_nat j < 4294967296) -> (Z.of_nat k < 4294967296) ->
  u32 (r + Z.of_nat j) = u32 (r + Z.of_nat k) -> j = k.
Proof.
  unfold u32. intros Hj Hk E.
  pose proof (Z.div_mod (r + Z.of_nat j) 4294967296 ltac:(lia)) as Dj.
  pose proof (Z.div_mod (r + Z.of_nat k) 4294967296 ltac:(lia)) as Dk.
  rewrite E in Dj. nia.
Qed.

Lemma free_id_exists p r :
  Z.of_nat (size (session_hash_id p)) + 2 <= 4294967296 ->
  exists k : nat, (k <= S (size (session_hash_id p)))%nat /\
                  id_free p (u32 (r + Z.of_nat k)).
Proof.
  intros Hsize. set (n := size (session_hash_id p)) in *.
  set (L := (fun k : nat => u32 (r + Z.of_nat k)) <$> seq 0 (S (S n))).
  destruct (decide (Exists (id_free p) L)) as [Hex|Hno].
  - apply Exists_exists in Hex as (x & Hx & Hfree).
    apply list_elem_of_fmap in Hx as (k & -> & Hk).
    apply elem_of_seq in Hk. exists k. split; [lia|done].
  - exfalso. apply not_Exists_Forall in Hno; [|intros x; apply _].
    assert (Hnd : NoDup L).
    { subst L. apply NoDup_fmap_2_strong; [|apply NoDup_seq].
      intros j k Hj Hk E. apply elem_of_seq in Hj, Hk.
      apply (u32_shift_inj r j k); [lia | lia | exact E]. }
    assert (Hsub : L ⊆ 0 :: elements (dom (session_hash_id p))).
    { intros x Hx. rewrite Forall_forall in Hno. specialize (Hno x Hx).
      unfold id_free in Hno. cbn in Hno.
      destruct (decide (x = 0)) as [->|Hnz]; [by left|]. right.
      apply elem_of_elements, elem_of_dom.
      destruct (session_hash_id p !! x) eqn:E; [by eexists|].
      exfalso. apply Hno. done. }
    pose proof (submseteq_length _ _ (NoDup_submseteq _ _ Hnd Hsub)) as Hlen.
    subst L. rewrite length_fmap, length_seq in Hlen. cbn [length] in Hlen.
    assert (Hn : length (elements (dom (session_hash_id p))) = n)
      by (subst n; rewrite <- size_dom; reflexivity).
    rewrite Hn in Hlen. lia.
Qed.

(** [bfd_get_free_id] returns a non-zero discriminator that no session of
    the engine uses: the bound on the increments is never reached. *)
Lemma get_free_id_free p rnd :
  Z.of_nat (size (session_hash_id p)) + 2 <= 4294967296 ->
  id_free p (bfd_get_free_id p rnd).
Proof.
  intros Hsize. unfold bfd_get_free_id. apply get_free_id_from_found.
  - apply free_id_exists, Hsize.
  - unfold u32. apply Z.mod_pos_bound. lia.
Qed.

(** ** Requests and their callbacks *)

Lemma hook_log_rem_node w r : hook_log (rem_node_request w r) = hook_log w.
Proof. unfold rem_node_request. case_match; reflexivity. Qed.

Lemma requests_rem_node w r : requests (rem_node_request w r) = requests w.
Proof. unfold rem_node_request. case_match; reflexivity. Qed.

Lemma hook_log_remove_session w sp : hook_log (bfd_remove_session w sp) = hook_log w.
Proof. unfold bfd_remove_session. repeat case_match; reflexivity. Qed.

Lemma requests_remove_session w sp : requests (bfd_remove_session w sp) = requests w.
Proof. unfold bfd_remove_session. repeat case_match; reflexivity. Qed.

Lemma hook_log_request_free w r : hook_log (bfd_request_free w r) = hook_log w.
Proof.
  unfold bfd_request_free. repeat case_match;
    rewrite ?hook_log_remove_session, ?hook_log_rem_node; reflexivity.
Qed.

Lemma requests_request_free w r : requests (bfd_request_free w r) = requests w.
Proof.
  unfold bfd_request_free. repeat case_match;
    rewrite ?requests_remove_session, ?requests_rem_node; reflexivity.
Qed.

Lemma hook_log_rfree w r : hook_log (rfree_request w r) = hook_log w.
Proof. unfold rfree_request. cbn. apply hook_log_request_free. Qed.

Lemma requests_rfree w r : requests (rfree_request w r) = delete r (requests w).
Proof. unfold rfree_request. cbn. now rewrite requests_request_free. Qed.

Lemma request_notify_unfold w r req state remote diag :
  requests w !! r = Some req ->
  bfd_request_notify w r state remote diag =
  if state =? req_state req then w
  else
    let w1 := upd_request r (fun req => notified req state remote diag) w in
    match req_hook req with
    | Some h =>
        run_hook h (set_hook_log
          (mk_hook_call r state diag (req_state req)
             (req_down (notified req state remote diag)) :: hook_log w) w1) r
    | None => w1
    end.
Proof. intros E. unfold bfd_request_notify. rewrite E. reflexivity. Qed.

Lemma down_flag_iff old state remote :
  Z.b2z ((old =? BFD_STATE_UP) && (state =? BFD_STATE_DOWN) &&
         negb (remote =? BFD_STATE_ADMIN_DOWN)) <> 0 <->
  old = BFD_STATE_UP /\ state = BFD_STATE_DOWN /\ remote <> BFD_STATE_ADMIN_DOWN.
Proof.
  destruct (Z.eqb_spec old BFD_STATE_UP), (Z.eqb_spec state BFD_STATE_DOWN),
    (Z.eqb_spec remote BFD_STATE_ADMIN_DOWN); cbn; intuition congruence.
Qed.

(** [bfd_request_notify] for any of its callers: the callback is invoked
    at most once and only when the state handed over differs from the one
    stored in the request; it then reads the state and the diagnostic
    handed over, the state stored before, and a down flag that is set if
    and only if the state stored before was Up, the new state is Down and
    the remote state handed over is not AdminDown.  The same values are
    stored in the request whenever the state differs. *)
Lemma request_notify_values w r req state remote diag :
  requests w !! r = Some req ->
  let w' := bfd_request_notify w r state remote diag in
  (hook_log w' = hook_log w \/
   exists call,
     hook_log w' = call :: hook_log w /\
     is_Some (req_hook req) /\
     (state, diag) <> (req_state req, req_diag req) /\
     call_req call = r /\ call_state call = state /\ call_diag call = diag /\
     call_old_state call = req_state req /\
     (call_down call <> 0 <->
      req_state req = BFD_STATE_UP /\ state = BFD_STATE_DOWN /\
      remote <> BFD_STATE_ADMIN_DOWN)) /\
  (state = req_state req -> w' = w) /\
  (state <> req_state req -> req_hook req <> Some HookRelease ->
   exists req',
     requests w' !! r = Some req' /\
     req_state req' = state /\ req_diag req' = diag /\
     req_old_state req' = req_state req /\
     (req_down req' <> 0 <->
      req_state req = BFD_STATE_UP /\ state = BFD_STATE_DOWN /\
      remote <> BFD_STATE_ADMIN_DOWN)).
Proof.
  intros E w'. subst w'. rewrite (request_notify_unfold _ _ _ _ _ _ E).
  destruct (Z.eqb_spec state (req_state req)) as [Heq|Hne].
  { split; [by left|]. split; [done|]. intros; contradiction. }
  split; [|split; [intros; contradiction|]].
  - destruct (req_hook req) as [h|] eqn:Eh; [|by left]. right.
    eexists. split.
    + destruct h; cbn [run_hook]; rewrite ?hook_log_rfree; reflexivity.
    + split; [done|]. split; [intros [= ? ?]; contradiction|].
      cbn. repeat (split; [reflexivity|]). apply down_flag_iff.
  - intros _ Hrel. exists (notified req state remote diag).
    split.
    + destruct (req_hook req) as [[]|]; cbn; [| contradiction |];
        now rewrite lookup_alter_eq, E.
    + cbn. repeat (split; [reflexivity|]). apply down_flag_iff.
Qed.

(** ** Updating and creating requests *)

Lemma requests_reconfigure_session w sp now :
  requests (bfd_reconfigure_session w sp now) = requests w.
Proof. unfold bfd_reconfigure_session. repeat case_match; reflexivity. Qed.

Lemma reconfigure_log_reconfigure_session w sp now :
  reconfigure_log (bfd_reconfigure_session w sp now) = sp :: reconfigure_log w.
Proof. unfold bfd_reconfigure_session. repeat case_match; reflexivity. Qed.

(** C9.  A second [bfd_update_request] with the options of the first finds
    them equal to the stored ones and returns at once: it changes nothing
    and does not call [bfd_reconfigure_session], so the two calls together
    reconfigure the session at most once. *)
Theorem update_request_twice_reconfigures_once w r opts now1 now2 :
  let w1 := bfd_update_request w r opts now1 in
  let w2 := bfd_update_request w1 r opts now2 in
  w2 = w1 /\
  reconfigure_log w2 = reconfigure_log w1 /\
  (reconfigure_log w1 = reconfigure_log w \/
   exists sp, reconfigure_log w1 = sp :: reconfigure_log w).
Proof.
  cbv zeta.
  assert (Hagain : forall w1, (forall req, requests w1 !! r = Some req -> req_opts req = opts) ->
            bfd_update_request w1 r opts now2 = w1).
  { intros w1 H. unfold bfd_update_request.
    destruct (requests w1 !! r) as [req|] eqn:E; [|done].
    rewrite (H req eq_refl). now rewrite bool_decide_eq_true_2. }
  assert (Hstored : forall req, requests (bfd_update_request w r opts now1) !! r = Some req ->
            req_opts req = opts).
  { unfold bfd_update_request. intros req.
    destruct (requests w !! r) as [req0|] eqn:E; [|congruence].
    case_bool_decide as Ho; [congruence|].
    assert (Hu : requests (upd_request r (set_req_opts opts) w) !! r =
                 Some (set_req_opts opts req0)).
    { cbn. rewrite lookup_alter_eq, E. reflexivity. }
    destruct (req_session req0) as [sp|].
    - rewrite requests_reconfigure_session, Hu. intros [= <-]. reflexivity.
    - rewrite Hu. intros [= <-]. reflexivity. }
  rewrite (Hagain _ Hstored). split; [done|]. split; [done|].
  unfold bfd_update_request.
  destruct (requests w !! r) as [req0|]; [|by left].
  case_bool_decide; [by left|].
  destruct (req_session req0) as [sp|]; [|by left].
  right. exists sp. now rewrite reconfigure_log_reconfigure_session.
Qed.

(** Asking twice for a receive interval of 20 ms: one reconfiguration, and
    the session has the interval. *)
Lemma update_request_twice_reconfigures_once_witness :
  let w1 := bfd_update_request world_one_request 0 options_rx_20ms 3000 in
  let w2 := bfd_update_request w1 0 options_rx_20ms 4000 in
  w2 = w1 /\ reconfigure_log w2 = [(0%nat, 5)] /\
  (req_min_rx_int <$> lookup_session w2 (0%nat, 5)) = Some 20000.
Proof.
  cbv zeta.
  destruct (update_request_twice_reconfigures_once world_one_request 0
              options_rx_20ms 3000 4000) as (H1 & _ & _).
  split; [exact H1|]. rewrite H1. split; vm_compute; reflexivity.
Defined.

Lemma hookless_rem_node w r r' log :
  hookless w r log -> hookless (rem_node_request w r') r log.
Proof.
  unfold hookless. now rewrite requests_rem_node, hook_log_rem_node.
Qed.

Lemma hookless_upd_request w r f log :
  (forall q, req_hook (f q) = req_hook q) ->
  hookless w r log -> hookless (upd_request r f w) r log.
Proof.
  intros Hf [(q & E & Hq) Hl]. split; [|exact Hl].
  exists (f q). cbn. rewrite lookup_alter_eq, E. split; [done|].
  now rewrite Hf.
Qed.

Lemma hookless_notify w r state remote diag log :
  hookless w r log -> hookless (bfd_request_notify w r state remote diag) r log.
Proof.
  intros [(q & E & Hq) Hl].
  rewrite (request_notify_unfold _ _ _ _ _ _ E), Hq.
  case_match; [by split; [exists q|]|].
  split; [|exact Hl]. eexists. cbn. rewrite lookup_alter_eq, E. split; [done|].
  exact Hq.
Qed.

Lemma hookless_add_session w p a local i opts o r log :
  hookless w r log -> hookless (bfd_add_session w p a local i opts o).2 r log.
Proof. unfold bfd_add_session. case_match; done. Qed.

Lemma hookless_add_request w p r o log :
  hookless w r log -> hookless (bfd_add_request w p r o).2 r log.
Proof.
  intros H. unfold bfd_add_request.
  destruct (protos w !! p) as [pr|]; [|done].
  destruct (requests w !! r) as [req|]; [|done].
  destruct (vrf_set pr && _); [done|].
  destruct (if ipa_is_ip4 _ then _ else _); [done|].
  destruct (match req_iface req with Some _ => negb _ | None => _ end); [done|].
  set (found := match bfd_find_session_by_addr _ _ _ with Some s => _ | None => _ end).
  assert (Hf : hookless found.2 r log).
  { subst found. destruct (bfd_find_session_by_addr _ _ _); [done|].
    now apply hookless_add_session. }
  destruct found as [id w1]. cbn [snd] in Hf.
  set (w3 := upd_request r _ _).
  assert (H3 : hookless w3 r log).
  { subst w3. apply hookless_upd_request; [done|].
    destruct (hookless_rem_node _ _ r _ Hf) as [Hq Hl]. split; done. }
  clearbody w3. case_match; [|done]. cbn [snd]. now apply hookless_notify.
Qed.

Lemma hookless_submit_walk l w r o log :
  hookless w r log ->
  match submit_walk w l r o with
  | Some w' => hookless w' r log
  | None => True
  end.
Proof.
  revert w. induction l as [|p l IH]; intros w H; [done|]. cbn.
  pose proof (hookless_add_request w p r o log H) as Ha.
  destruct (bfd_add_request w p r o) as [accepted w']. cbn [snd] in Ha.
  destruct accepted; [exact Ha | apply IH, Ha].
Qed.

Lemma hookless_submit w r o log :
  hookless w r log -> hookless (bfd_submit_request w r o) r log.
Proof.
  intros H. unfold bfd_submit_request.
  pose proof (hookless_submit_walk (bfd_proto_list w) w r o log H) as Hw.
  destruct (submit_walk w (bfd_proto_list w) r o) as [w'|]; [exact Hw|].
  apply hookless_notify, hookless_upd_request; [done|].
  destruct (hookless_rem_node _ _ r _ H) as [Hq Hl]. split; done.
Qed.



(** ** Releasing a request from its callback *)

Lemma lookup_session_upd_session w sp f :
  lookup_session (upd_session sp f w) sp = f <$> lookup_session w sp.
Proof.
  unfold lookup_session, upd_session, upd_proto. cbn.
  rewrite lookup_alter_eq. destruct (protos w !! sp.1) as [pr|]; cbn; [|done].
  now rewrite lookup_alter_eq.
Qed.

Lemma upd_session_twice w sp f g :
  upd_session sp f (upd_session sp g w) = upd_session sp (f ∘ g) w.
Proof.
  world_eq.
  rewrite alter_alter_eq. apply alter_ext. intros pr _. cbn.
  unfold set_session_hash_id. cbn. f_equal. now rewrite alter_alter_eq.
Qed.

Lemma upd_session_ext w sp f g :
  (forall s, lookup_session w sp = Some s -> f s = g s) ->
  upd_session sp f w = upd_session sp g w.
Proof.
  intros H. world_eq.
  apply alter_ext. intros pr Hp. f_equal. apply alter_ext. intros s Hs.
  apply H. unfold lookup_session. rewrite Hp. exact Hs.
Qed.

(** A change of the request [r] that keeps its session pointer commutes with
    everything the broker does for another request. *)
Section request_local.
Context (r : nat) (f : bfd_request -> bfd_request).
Hypothesis f_session : forall q, req_session (f q) = req_session q.

Lemma rem_node_upd_request w r' :
  rem_node_request (upd_request r f w) r' = upd_request r f (rem_node_request w r').
Proof.
  unfold rem_node_request. cbn.
  assert (E : alter f r (requests w) !! r' ≫= req_session =
              requests w !! r' ≫= req_session).
  { destruct (decide (r = r')) as [<-|Hne].
    - rewrite lookup_alter_eq. destruct (requests w !! r); cbn; [apply f_session|done].
    - now rewrite lookup_alter_ne. }
  rewrite E. destruct (requests w !! r' ≫= req_session); reflexivity.
Qed.

Lemma remove_session_upd_request w sp :
  bfd_remove_session (upd_request r f w) sp = upd_request r f (bfd_remove_session w sp).
Proof. unfold bfd_remove_session. cbn. repeat case_match; reflexivity. Qed.





End request_local.

Lemma rem_node_unfold w r sp :
  requests w !! r ≫= req_session = Some sp ->
  rem_node_request w r =
  upd_session sp (fun s => set_request_list (filter (.≠ r) (request_list s)) s)
    (set_bfd_wait_list (filter (.≠ r) (bfd_wait_list w)) w).
Proof. intros E. unfold rem_node_request. cbn. now rewrite E. Qed.

Lemma lookup_session_rem_node w r sp :
  requests w !! r ≫= req_session = Some sp ->
  lookup_session (rem_node_request w r) sp =
  (fun s => set_request_list (filter (.≠ r) (request_list s)) s) <$> lookup_session w sp.
Proof.
  intros E. rewrite (rem_node_unfold _ _ _ E). now rewrite lookup_session_upd_session.
Qed.









Lemma notified_session q state remote diag :
  req_session (notified q state remote diag) = req_session q.
Proof. reflexivity. Qed.

Section notify_one_session.
Context (sp : session_ptr) (r : nat) (state remote diag : Z).

Let N (w : bfd_world) (r' : nat) : bfd_world :=
  bfd_request_notify w r' state remote diag.
Let nf (q : bfd_request) : bfd_request := notified q state remote diag.

(** The four outcomes of a notification. *)
Lemma notify_cases w r' :
  N w r' = w \/
  exists q' lg,
    requests w !! r' = Some q' /\
    (N w r' = upd_request r' nf w \/
     N w r' = set_hook_log lg (upd_request r' nf w) \/
     N w r' = rfree_request (set_hook_log lg (upd_request r' nf w)) r').
Proof.
  unfold N, bfd_request_notify.
  destruct (requests w !! r') as [q'|] eqn:E; [|by left].
  case_match; [by left|]. right. cbv zeta.
  exists q'. eexists. split; [reflexivity|].
  destruct (req_hook (notified q' state remote diag)) as [[]|]; cbn [run_hook].
  - right. left. reflexivity.
  - right. right. reflexivity.
  - left. reflexivity.
Qed.





End notify_one_session.

Lemma lookup_session_remove_session w sp s :
  lookup_session w sp = Some s -> lookup_session (bfd_remove_session w sp) sp = None.
Proof.
  unfold lookup_session, bfd_remove_session.
  destruct (protos w !! sp.1) as [pr|] eqn:Ep; cbn; [|done].
  intros ->. cbn. rewrite lookup_insert_eq. cbn. apply lookup_delete_eq.
Qed.


Section notify_requests_kept.
Context (r : nat) (state remote diag : Z).

Lemma requests_notify_other w r' :
  r' <> r ->
  requests (bfd_request_notify w r' state remote diag) !! r = requests w !! r.
Proof.
  intros Hne.
  destruct (notify_cases state remote diag w r')
    as [->|(q' & lg & _ & [->|[->| ->]])]; [done|..].
  - cbn. now rewrite lookup_alter_ne.
  - cbn. now rewrite lookup_alter_ne.
  - rewrite requests_rfree. cbn. now rewrite lookup_delete_ne, lookup_alter_ne.
Qed.

End notify_requests_kept.

Section notify_before.
Context (sp : session_ptr) (r : nat) (state remote diag : Z).


End notify_before.



Lemma lookup_session_taken w p sp :
  lookup_session (upd_proto p (set_notify_list []) w) sp = lookup_session w sp.
Proof.
  unfold lookup_session, upd_proto. cbn.
  destruct (decide (p = sp.1)) as [->|Hne].
  - rewrite lookup_alter_eq. destruct (protos w !! sp.1); reflexivity.
  - now rewrite lookup_alter_ne.
Qed.



(** ** The session between events *)

Lemma detection_update_tx_interval s :
  detection_fields (bfd_session_update_tx_interval s) = detection_fields s.
Proof. unfold bfd_session_update_tx_interval. frame_by_cases. Qed.

Lemma detection_control_tx_timer s reset now :
  detection_fields (bfd_session_control_tx_timer s reset now) = detection_fields s.
Proof. unfold bfd_session_control_tx_timer. frame_by_cases. Qed.

Lemma detection_request_poll s request now :
  detection_fields (bfd_session_request_poll s request now) = detection_fields s.
Proof.
  unfold bfd_session_request_poll. repeat case_if; try reflexivity.
  now rewrite detection_control_tx_timer.
Qed.

Lemma detection_set_min_tx s val now :
  detection_fields (bfd_session_set_min_tx s val now) = detection_fields s.
Proof.
  unfold bfd_session_set_min_tx. repeat case_if; try reflexivity;
    rewrite detection_request_poll, ?detection_update_tx_interval; reflexivity.
Qed.

Lemma set_min_tx_new s val now :
  des_min_tx_new (bfd_session_set_min_tx s val now) = val /\
  req_min_rx_new (bfd_session_set_min_tx s val now) = req_min_rx_new s.
Proof.
  unfold bfd_session_set_min_tx.
  destruct (val =? des_min_tx_new s) eqn:E; [apply Z.eqb_eq in E; done|].
  set (s1 := if negb _ || _ then _ else _).
  pose proof (interval_request_poll s1 BFD_POLL_TX now) as H.
  assert (H1 : des_min_tx_new s1 = val /\ req_min_rx_new s1 = req_min_rx_new s).
  { subst s1. case_if; [|done].
    pose proof (interval_update_tx_interval
                  (set_des_min_tx_int val (set_des_min_tx_new val s))) as H1.
    unfold interval_fields in H1. injection H1 as _ -> _ ->. done. }
  unfold interval_fields in H. injection H as _ -> _ ->. exact H1.
Qed.

Lemma set_min_rx_new s val now :
  req_min_rx_new (bfd_session_set_min_rx s val now) = val /\
  des_min_tx_new (bfd_session_set_min_rx s val now) = des_min_tx_new s.
Proof.
  unfold bfd_session_set_min_rx.
  destruct (val =? req_min_rx_new s) eqn:E; [apply Z.eqb_eq in E; done|].
  set (s1 := if negb _ || _ then _ else _).
  pose proof (interval_request_poll s1 BFD_POLL_RX now) as H.
  assert (H1 : req_min_rx_new s1 = val /\ des_min_tx_new s1 = des_min_tx_new s).
  { subst s1. case_if; [|done].
    pose proof (interval_update_detection_time
                  (set_req_min_rx_int val (set_req_min_rx_new val s)) 0 now) as H1.
    unfold interval_fields in H1. injection H1 as _ -> _ ->. done. }
  unfold interval_fields in H. injection H as _ -> _ ->. exact H1.
Qed.

(** What a change of state does beyond the state itself. *)
Lemma update_state_effects s state diag now :
  state <> loc_state s ->
  let s' := bfd_session_update_state s state diag now in
  sent s' = sent s /\
  kicks s' = (if n_linked s then kicks s else S (kicks s)) /\
  detection_fields s' = detection_fields s /\
  req_min_rx_new s' = req_min_rx_new s /\
  des_min_tx_new s' =
    (if loc_state s =? BFD_STATE_UP then sc_idle_tx_int (cf s)
     else if state =? BFD_STATE_UP then sc_min_tx_int (cf s)
     else des_min_tx_new s).
Proof.
  intros Hne. unfold bfd_session_update_state.
  apply Z.eqb_neq in Hne. rewrite Hne.
  set (s1 := set_last_state_change _ _).
  set (s2 := if negb (n_linked s1) then _ else s1).
  set (s3 := if state =? BFD_STATE_UP then _ else s2).
  set (s4 := if loc_state s =? BFD_STATE_UP then _ else s3).
  set (s5 := if negb (n_linked s1) then _ else s4).
  assert (H2 : sent s2 = sent s /\ kicks s2 = kicks s /\
               detection_fields s2 = detection_fields s /\
               req_min_rx_new s2 = req_min_rx_new s /\
               des_min_tx_new s2 = des_min_tx_new s /\ cf s2 = cf s).
  { subst s2 s1. cbn. destruct (n_linked s); cbn; done. }
  assert (H3 : fsm_fields s3 = fsm_fields s2 /\
               detection_fields s3 = detection_fields s2 /\
               req_min_rx_new s3 = req_min_rx_new s2 /\
               des_min_tx_new s3 =
                 if state =? BFD_STATE_UP then sc_min_tx_int (cf s2)
                 else des_min_tx_new s2).
  { subst s3. case_if; [|done].
    destruct (set_min_tx_new s2 (sc_min_tx_int (cf s2)) now).
    rewrite fsm_set_min_tx, detection_set_min_tx. done. }
  assert (H4 : fsm_fields s4 = fsm_fields s3 /\
               detection_fields s4 = detection_fields s3 /\
               req_min_rx_new s4 = req_min_rx_new s3 /\
               des_min_tx_new s4 =
                 if loc_state s =? BFD_STATE_UP then sc_idle_tx_int (cf s3)
                 else des_min_tx_new s3).
  { subst s4. case_if; [|done].
    destruct (set_min_tx_new s3 (sc_idle_tx_int (cf s3)) now).
    rewrite fsm_set_min_tx, detection_set_min_tx. done. }
  assert (H5 : sent s5 = sent s4 /\
               kicks s5 = (if n_linked s then kicks s4 else S (kicks s4)) /\
               detection_fields s5 = detection_fields s4 /\
               req_min_rx_new s5 = req_min_rx_new s4 /\
               des_min_tx_new s5 = des_min_tx_new s4).
  { subst s5 s1. cbn. destruct (n_linked s); cbn; done. }
  clearbody s5 s4 s3 s2.
  destruct H2 as (A1 & A2 & A3 & A4 & A5 & A6).
  destruct H3 as (B0 & B3 & B4 & B5).
  destruct H4 as (C0 & C3 & C4 & C5).
  destruct H5 as (D1 & D2 & D3 & D4 & D5).
  unfold fsm_fields in B0, C0.
  injection B0 as _ _ _ _ _ _ _ _ _ Bc _ Bk Bs _.
  injection C0 as _ _ _ _ _ _ _ _ _ Cc _ Ck Cs _.
  repeat split; try congruence.
  - rewrite D2. destruct (n_linked s); congruence.
  - rewrite D5, C5, B5, Bc, A6, A5. reflexivity.
Qed.

(** The part of [bfd_session_process_ctl] after the detection time was
    updated keeps the detection parameters. *)
Lemma detection_update_state s state diag now :
  detection_fields (bfd_session_update_state s state diag now) = detection_fields s.
Proof.
  destruct (Z.eq_dec state (loc_state s)) as [E|E].
  - now rewrite update_state_same.
  - now destruct (update_state_effects s state diag now E) as (_ & _ & ? & _).
Qed.

Lemma sent_update_state s state diag now :
  sent (bfd_session_update_state s state diag now) = sent s.
Proof.
  destruct (Z.eq_dec state (loc_state s)) as [E|E].
  - now rewrite update_state_same.
  - now destruct (update_state_effects s state diag now E) as (? & _).
Qed.

(** X1.  Every control packet processed at a time other than zero records
    the time of its arrival and re-arms the detection timer: the hold timer
    then expires at [now + MAX(req_min_rx_int, rem_min_tx_int) *
    rem_detect_mult], with the values the session holds once the packet is
    processed; this also holds in AdminDown and whatever transition the
    packet causes. *)
Theorem packet_rearms_detection_timer s flags old_tx_int old_rx_int now :
  now <> 0 ->
  let s' := bfd_session_process_ctl s flags old_tx_int old_rx_int now in
  last_rx s' = now /\
  expires (hold_timer s') =
    Some (now + Z.max (req_min_rx_int s') (rem_min_tx_int s') * rem_detect_mult s').
Proof.
  intros Hnow. cbv zeta. unfold bfd_session_process_ctl.
  set (s1 := if nz (poll_active s) && _ then _ else s).
  set (s2 := if negb (des_min_tx_int s1 =? _) || _ then _ else s1).
  set (s3 := bfd_session_update_detection_time s2 1 now).
  assert (H3 : last_rx s3 = now /\
    expires (hold_timer s3) =
      Some (now + Z.max (req_min_rx_int s3) (rem_min_tx_int s3) * rem_detect_mult s3)).
  { subst s3. unfold bfd_session_update_detection_time.
    change (nz 1) with true. cbn [last_rx set_last_rx]. unfold nz.
    apply Z.eqb_neq in Hnow. rewrite Hnow. cbn. done. }
  clearbody s3. clear s1 s2.
  assert (T : forall t, detection_fields t = detection_fields s3 ->
    last_rx t = now /\
    expires (hold_timer t) =
      Some (now + Z.max (req_min_rx_int t) (rem_min_tx_int t) * rem_detect_mult t)).
  { intros t Ht. unfold detection_fields in Ht.
    injection Ht as -> -> -> _ -> ->. exact H3. }
  apply T. destruct (loc_state s3 =? BFD_STATE_ADMIN_DOWN); [done|].
  destruct (process_ctl_switch (loc_state s3) (rem_state s3)) as [next diag].
  set (s4 := if nz next then _ else s3).
  assert (H4 : detection_fields s4 = detection_fields s3).
  { subst s4. case_if; [apply detection_update_state | done]. }
  rewrite <- H4. clearbody s4.
  case_if; [unfold bfd_send_ctl; cbn|]; apply detection_control_tx_timer.
Qed.

(** The first packet heard by a session re-arms its detection timer. *)
Lemma packet_rearms_detection_timer_witness :
  last_rx (bfd_session_process_ctl session_down_sees_up 0 0 0 2000) = 2000 /\
  expires (hold_timer (bfd_session_process_ctl session_down_sees_up 0 0 0 2000)) =
    Some (2000 +
          Z.max (req_min_rx_int (bfd_session_process_ctl session_down_sees_up 0 0 0 2000))
                (rem_min_tx_int (bfd_session_process_ctl session_down_sees_up 0 0 0 2000)) *
          rem_detect_mult (bfd_session_process_ctl session_down_sees_up 0 0 0 2000)).
Proof.
  apply (packet_rearms_detection_timer session_down_sees_up 0 0 0 2000). lia.
Defined.

(** ** Transmission, timeout and notification *)

(** X2.  Processing a control packet emits a packet only as the answer to a
    poll: when the received packet carries the Poll flag and the session is
    not in AdminDown, exactly one packet with the Final flag is sent;
    otherwise [bfd_session_process_ctl] sends nothing. *)
Theorem poll_answered_with_final s flags old_tx_int old_rx_int now :
  sent (bfd_session_process_ctl s flags old_tx_int old_rx_int now) =
  if has_bit flags BFD_FLAG_POLL && nz (loc_state s) then 1 :: sent s else sent s.
Proof.
  unfold bfd_session_process_ctl, has_bit.
  set (s1 := if nz (poll_active s) && _ then _ else s).
  set (s2 := if negb (des_min_tx_int s1 =? _) || _ then _ else s1).
  set (s3 := bfd_session_update_detection_time s2 1 now).
  assert (E1 : fsm_fields s1 = fsm_fields s).
  { subst s1. case_if; [apply fsm_terminate_poll | done]. }
  assert (E2 : fsm_fields s2 = fsm_fields s1).
  { subst s2. case_if; [apply fsm_update_tx_interval | done]. }
  assert (E3 : fsm_fields s3 = fsm_fields s) by
    (subst s3; rewrite fsm_update_detection_time; congruence).
  clearbody s3. clear E1 E2 s1 s2.
  unfold fsm_fields in E3. injection E3 as Hl _ _ _ _ _ _ _ _ _ _ _ Hs _.
  rewrite <- Hl, <- Hs.
  replace (nz (loc_state s3)) with (negb (loc_state s3 =? BFD_STATE_ADMIN_DOWN))
    by reflexivity.
  destruct (loc_state s3 =? BFD_STATE_ADMIN_DOWN); cbn [negb];
    [now rewrite andb_false_r|].
  rewrite andb_true_r.
  destruct (process_ctl_switch (loc_state s3) (rem_state s3)) as [next diag].
  set (s4 := if nz next then _ else s3).
  assert (H4 : sent s4 = sent s3).
  { subst s4. case_if; [apply sent_update_state | done]. }
  rewrite <- H4. clearbody s4.
  pose proof (fsm_control_tx_timer s4 0 now) as F.
  unfold fsm_fields in F. injection F as _ _ _ _ _ _ _ _ _ _ _ _ F _.
  case_if; cbn; now rewrite F.
Qed.

Lemma masks_set_min_tx s val now :
  rem_id s = 0 ->
  poll_active (bfd_session_set_min_tx s val now) = poll_active s /\
  poll_scheduled (bfd_session_set_min_tx s val now) = poll_scheduled s.
Proof.
  intros H0. unfold bfd_session_set_min_tx. case_if; [done|].
  set (s1 := if negb _ || _ then _ else _).
  assert (H1 : rem_id s1 = 0 /\ poll_active s1 = poll_active s /\
               poll_scheduled s1 = poll_scheduled s).
  { subst s1. case_if; [|done].
    pose proof (poll_update_tx_interval
                  (set_des_min_tx_int val (set_des_min_tx_new val s))) as P.
    pose proof (fsm_update_tx_interval
                  (set_des_min_tx_int val (set_des_min_tx_new val s))) as F.
    apply fsm_fields_rem_id in F. apply poll_fields_inv in P.
    destruct P as (_ & _ & _ & _ & -> & ->). rewrite F. done. }
  destruct H1 as (R & A & B). unfold bfd_session_request_poll.
  apply Z.eqb_eq in R. now rewrite R.
Qed.

Lemma masks_update_state s state diag now :
  rem_id s = 0 ->
  poll_active (bfd_session_update_state s state diag now) = poll_active s /\
  poll_scheduled (bfd_session_update_state s state diag now) = poll_scheduled s.
Proof.
  intros H0. unfold bfd_session_update_state. case_if; [done|].
  set (s1 := set_last_state_change _ _).
  set (s2 := if negb (n_linked s1) then _ else s1).
  set (s3 := if state =? BFD_STATE_UP then _ else s2).
  set (s4 := if loc_state s =? BFD_STATE_UP then _ else s3).
  assert (H2 : rem_id s2 = 0 /\ poll_active s2 = poll_active s /\
               poll_scheduled s2 = poll_scheduled s).
  { subst s2 s1. cbn. destruct (n_linked s); cbn; done. }
  assert (H3 : rem_id s3 = 0 /\ poll_active s3 = poll_active s /\
               poll_scheduled s3 = poll_scheduled s).
  { destruct H2 as (R & A & B). subst s3. case_if; [|done].
    destruct (masks_set_min_tx s2 (sc_min_tx_int (cf s2)) now R) as [-> ->].
    pose proof (fsm_set_min_tx s2 (sc_min_tx_int (cf s2)) now) as F.
    apply fsm_fields_rem_id in F. rewrite F. done. }
  assert (H4 : poll_active s4 = poll_active s /\
               poll_scheduled s4 = poll_scheduled s).
  { destruct H3 as (R & A & B). subst s4. case_if; [|done].
    destruct (masks_set_min_tx s3 (sc_idle_tx_int (cf s3)) now R) as [-> ->].
    done. }
  clearbody s4. case_if; cbn; exact H4.
Qed.

(** X3.  The detection timeout in any local state: the session ends Down
    with the remote state Down, the remote discriminator, minimum TX
    interval, demand mode and detection multiplier zero and the remote
    minimum RX interval 1, no poll active or scheduled and [last_tx] zero;
    the diagnostic becomes Time expired unless the session was Down already,
    in which case it is kept; the TX timer is restarted at once for a
    session that is not passive and stopped for a passive one. *)
Theorem timeout_from_any_state s now :
  let s' := bfd_session_timeout s now in
  loc_state s' = BFD_STATE_DOWN /\
  loc_diag s' = (if loc_state s =? BFD_STATE_DOWN then loc_diag s else BFD_DIAG_TIMEOUT) /\
  (rem_state s', rem_id s', rem_min_tx_int s', rem_min_rx_int s',
   rem_demand_mode s', rem_detect_mult s') = (BFD_STATE_DOWN, 0, 0, 1, 0, 0) /\
  poll_active s' = 0 /\ poll_scheduled s' = 0 /\
  last_tx s' = 0 /\
  expires (tx_timer s') = (if nz (passive s) then None else Some now).
Proof.
  cbv zeta. unfold bfd_session_timeout.
  set (s9 := set_poll_scheduled 0 _).
  set (s10 := bfd_session_update_state s9 _ _ now).
  assert (H9 : rem_id s9 = 0) by reflexivity.
  destruct (masks_update_state s9 BFD_STATE_DOWN BFD_DIAG_TIMEOUT now H9) as [Ma Ms].
  fold s10 in Ma, Ms.
  assert (H10 : loc_state s10 = BFD_STATE_DOWN /\
    loc_diag s10 = (if loc_state s =? BFD_STATE_DOWN then loc_diag s else BFD_DIAG_TIMEOUT) /\
    peer_fields s10 = peer_fields s9).
  { subst s10. destruct (Z.eq_dec BFD_STATE_DOWN (loc_state s9)) as [E|E].
    - rewrite update_state_same by done. change (loc_state s9) with (loc_state s) in E.
      rewrite <- E. done.
    - destruct (update_state_changed s9 _ BFD_DIAG_TIMEOUT now E) as (-> & -> & _ & _ & ->).
      change (loc_state s9) with (loc_state s) in E.
      apply not_eq_sym, Z.eqb_neq in E. rewrite E. done. }
  clearbody s10. destruct H10 as (L & D & P).
  pose proof (fsm_control_tx_timer s10 1 now) as F.
  pose proof (poll_control_tx_timer s10 1 now) as Q.
  apply poll_fields_inv in Q. destruct Q as (_ & _ & _ & _ & Qa & Qs).
  unfold peer_fields in P. injection P as P1 P2 P3 P4 P5 P6 P7 _.
  assert (T : last_tx (bfd_session_control_tx_timer s10 1 now) = 0 /\
    expires (tx_timer (bfd_session_control_tx_timer s10 1 now)) =
      (if nz (passive s) then None else Some now)).
  { unfold bfd_session_control_tx_timer.
    rewrite P2, P4, P5, P7. subst s9. cbn [rem_id rem_min_rx_int rem_demand_mode passive
      set_poll_scheduled set_poll_active set_rx_csn_known set_rem_detect_mult
      set_rem_demand_mode set_rem_min_rx_int set_rem_min_tx_int set_rem_id
      set_rem_state].
    change (0 =? 0) with true. change (nz 0) with false. change (1 =? 0) with false.
    rewrite andb_true_r. cbn [andb orb].
    destruct (nz (passive s)); cbn; [done|]. now rewrite Z.add_0_r. }
  unfold fsm_fields in F. injection F as -> -> -> -> -> -> -> -> _ _ _ _ _ _.
  rewrite Qa, Qs, Ma, Ms, L, D, P1, P2, P3, P4, P5, P6. destruct T as [-> ->].
  subst s9. cbn. repeat split.
Qed.

Lemma notified_once_of_fields s s' :
  (loc_state s', n_linked s', kicks s') = (loc_state s, n_linked s, kicks s) ->
  notified_once s s'.
Proof.
  unfold notified_once. intros [= -> -> ->].
  now rewrite Z.eqb_refl, orb_false_r, andb_false_r.
Qed.

Lemma notified_once_fsm s s' : fsm_fields s' = fsm_fields s -> notified_once s s'.
Proof.
  unfold fsm_fields. intros [= ]. apply notified_once_of_fields. congruence.
Qed.

Lemma notified_once_then_fields s s' s'' :
  notified_once s s' ->
  (loc_state s'', n_linked s'', kicks s'') = (loc_state s', n_linked s', kicks s') ->
  notified_once s s''.
Proof.
  unfold notified_once. intros [H1 H2] [= E1 E2 E3]. now rewrite E1, E2, E3.
Qed.

Lemma notified_once_trans_same s s' s'' :
  notified_once s s' -> fsm_fields s'' = fsm_fields s' -> notified_once s s''.
Proof.
  unfold fsm_fields. intros H [= E1 _ _ _ _ _ _ _ _ _ E2 E3 _ _].
  apply (notified_once_then_fields _ _ _ H). congruence.
Qed.

Lemma notified_once_update_state s state diag now :
  0 <= state < 256 ->
  notified_once s (bfd_session_update_state s state diag now).
Proof.
  intros Hr. destruct (Z.eq_dec state (loc_state s)) as [E|E].
  - rewrite update_state_same by done. now apply notified_once_fsm.
  - destruct (update_state_changed s state diag now E) as (L & _ & _ & N & _).
    destruct (update_state_effects s state diag now E) as (_ & K & _).
    unfold notified_once. rewrite L, N, K. unfold u8.
    rewrite Z.mod_small by lia. apply Z.eqb_neq in E. rewrite E.
    cbn [negb]. now rewrite orb_true_r, andb_true_r; destruct (n_linked s).
Qed.

Lemma notified_once_process_ctl s flags old_tx_int old_rx_int now :
  notified_once s (bfd_session_process_ctl s flags old_tx_int old_rx_int now).
Proof.
  unfold bfd_session_process_ctl.
  set (s1 := if nz (poll_active s) && _ then _ else s).
  set (s2 := if negb (des_min_tx_int s1 =? _) || _ then _ else s1).
  set (s3 := bfd_session_update_detection_time s2 1 now).
  assert (E1 : fsm_fields s1 = fsm_fields s).
  { subst s1. case_if; [apply fsm_terminate_poll | done]. }
  assert (E2 : fsm_fields s2 = fsm_fields s1).
  { subst s2. case_if; [apply fsm_update_tx_interval | done]. }
  assert (E3 : fsm_fields s3 = fsm_fields s) by
    (subst s3; rewrite fsm_update_detection_time; congruence).
  clearbody s3. clear E1 E2 s1 s2.
  assert (T : forall t, notified_once s3 t -> notified_once s t).
  { unfold notified_once, fsm_fields in *.
    injection E3 as E1 _ _ _ _ _ _ _ _ _ E2 E3 _ _. intros t [? ?].
    now rewrite <- E1, <- E2, <- E3. }
  apply T. clear T E3.
  destruct (loc_state s3 =? BFD_STATE_ADMIN_DOWN); [now apply notified_once_fsm|].
  pose proof (switch_next_range (loc_state s3) (rem_state s3)) as Hr.
  destruct (process_ctl_switch (loc_state s3) (rem_state s3)) as [next diag].
  cbn in Hr.
  set (s4 := if nz next then _ else s3).
  assert (H4 : notified_once s3 s4).
  { subst s4. case_if; [apply notified_once_update_state; lia
                       | now apply notified_once_fsm]. }
  clearbody s4. apply (notified_once_then_fields _ s4); [done|].
  pose proof (fsm_control_tx_timer s4 0 now) as F. unfold fsm_fields in F.
  injection F as E1 _ _ _ _ _ _ _ _ _ E2 E3 _ _.
  case_if; cbn; congruence.
Qed.

(** X4.  Notifications are coalesced: a received packet, a detection
    timeout, a TX timer expiry and a reconfiguration leave the session
    linked on the notify list if it was linked or its local state changed,
    and wake the control thread once exactly when the local state changed on
    a session that was not linked; a session already linked is never kicked
    again. *)
Theorem state_change_kicks_once :
  (forall s pkt now, notified_once s (bfd_rx_ctl s pkt now)) /\
  (forall s now, notified_once s (bfd_hold_timer_hook s now)) /\
  (forall s now, notified_once s (bfd_tx_timer_hook s now)) /\
  (forall s ifa_cf opts now,
     notified_once s (bfd_session_reconfigure s ifa_cf opts now)).
Proof.
  split; [|split; [|split]].
  - intros s pkt now. unfold bfd_rx_ctl.
    set (s7 := set_rem_detect_mult _ _).
    pose proof (notified_once_process_ctl s7 (p_flags pkt)
                  (des_min_tx_int s) (rem_min_rx_int s) now) as H.
    exact H.
  - intros s now. unfold bfd_hold_timer_hook, bfd_session_timeout.
    set (s9 := set_poll_scheduled 0 _).
    apply (notified_once_trans_same _
             (bfd_session_update_state s9 BFD_STATE_DOWN BFD_DIAG_TIMEOUT now)).
    + exact (notified_once_update_state s9 BFD_STATE_DOWN BFD_DIAG_TIMEOUT now
               ltac:(unfold BFD_STATE_DOWN; lia)).
    + apply fsm_control_tx_timer.
  - intros s now. now apply notified_once_of_fields.
  - intros s ifa_cf opts now. unfold bfd_session_reconfigure.
    set (s1 := set_cf _ s).
    set (s2 := bfd_session_set_min_tx s1 _ now).
    set (s3 := bfd_session_set_min_rx s2 _ now).
    set (s5 := set_passive _ _).
    pose proof (fsm_set_min_tx s1 (if loc_state s1 =? BFD_STATE_UP
      then sc_min_tx_int (cf s1) else sc_idle_tx_int (cf s1)) now) as F2.
    fold s2 in F2.
    pose proof (fsm_set_min_rx s2 (sc_min_rx_int (cf s2)) now) as F3. fold s3 in F3.
    pose proof (fsm_control_tx_timer s5 0 now) as F5.
    apply notified_once_of_fields.
    unfold fsm_fields in F2, F3, F5.
    injection F2 as ?. injection F3 as ?. injection F5 as ?.
    subst s5. cbn in *. subst s1. cbn in *. congruence.
Qed.

(** ** Configured parameters and postponed changes *)

(** What [follows_configuration] reads. *)
Lemma follows_of_fields s s' :
  (des_min_tx_new s', req_min_rx_new s', detect_mult s', passive s', cf s',
   loc_state s') =
  (des_min_tx_new s, req_min_rx_new s, detect_mult s, passive s, cf s,
   loc_state s) ->
  follows_configuration s -> follows_configuration s'.
Proof. unfold follows_configuration. intros [= -> -> -> -> -> ->]. done. Qed.

Lemma follows_of_frames s s' :
  fsm_fields s' = fsm_fields s -> interval_fields s' = interval_fields s ->
  detect_mult s' = detect_mult s ->
  follows_configuration s -> follows_configuration s'.
Proof.
  unfold fsm_fields, interval_fields. intros [= ] [= ] ?.
  apply follows_of_fields. congruence.
Qed.

Lemma detect_mult_terminate_poll s :
  detect_mult (bfd_session_terminate_poll s) = detect_mult s.
Proof. unfold bfd_session_terminate_poll. frame_by_cases. Qed.

Lemma detect_mult_update_detection_time s kick now :
  detect_mult (bfd_session_update_detection_time s kick now) = detect_mult s.
Proof. unfold bfd_session_update_detection_time. frame_by_cases. Qed.

Lemma detect_mult_of_detection s s' :
  detection_fields s' = detection_fields s -> detect_mult s' = detect_mult s.
Proof. unfold detection_fields. intros [= ]. done. Qed.

Lemma follows_control_tx_timer s reset now :
  follows_configuration s ->
  follows_configuration (bfd_session_control_tx_timer s reset now).
Proof.
  apply follows_of_frames.
  - apply fsm_control_tx_timer.
  - apply interval_control_tx_timer.
  - apply detect_mult_of_detection, detection_control_tx_timer.
Qed.

Lemma follows_update_state s state diag now :
  0 <= state < 256 ->
  follows_configuration s ->
  follows_configuration (bfd_session_update_state s state diag now).
Proof.
  intros Hr H. destruct (Z.eq_dec state (loc_state s)) as [E|E].
  - now rewrite update_state_same.
  - destruct (update_state_changed s state diag now E) as (L & _ & _ & _ & P).
    destruct (update_state_effects s state diag now E) as (_ & _ & D & R & T).
    apply detect_mult_of_detection in D.
    unfold peer_fields in P. injection P as _ _ _ _ _ _ Pp Pc.
    destruct H as (H1 & H2 & H3 & H4).
    unfold follows_configuration. rewrite L, D, R, T, Pp, Pc.
    unfold u8 at 1. rewrite Z.mod_small by lia.
    repeat split; try done.
    destruct (loc_state s =? BFD_STATE_UP) eqn:EU.
    + apply Z.eqb_eq in EU. rewrite <- EU in *.
      apply Z.eqb_neq in E. now rewrite E.
    + now destruct (state =? BFD_STATE_UP).
Qed.

Lemma follows_process_ctl s flags old_tx_int old_rx_int now :
  follows_configuration s ->
  follows_configuration (bfd_session_process_ctl s flags old_tx_int old_rx_int now).
Proof.
  intros H. unfold bfd_session_process_ctl.
  set (s1 := if nz (poll_active s) && _ then _ else s).
  set (s2 := if negb (des_min_tx_int s1 =? _) || _ then _ else s1).
  set (s3 := bfd_session_update_detection_time s2 1 now).
  assert (H1 : follows_configuration s1).
  { subst s1. case_if; [|done]. revert H. apply follows_of_fields.
    pose proof (terminate_poll_fields s) as P.
    pose proof (fsm_terminate_poll s) as F.
    pose proof (detect_mult_terminate_poll s) as D.
    set (t := bfd_session_terminate_poll s) in *. clearbody t.
    apply poll_fields_inv in P. destruct P as (_ & P1 & _ & P2 & _).
    unfold fsm_fields in F. injection F as F1 _ _ _ _ _ _ _ F2 F3 _ _ _ _.
    congruence. }
  assert (H2 : follows_configuration s2).
  { subst s2. case_if; [|done]. revert H1. apply follows_of_frames.
    - apply fsm_update_tx_interval.
    - apply interval_update_tx_interval.
    - apply detect_mult_of_detection, detection_update_tx_interval. }
  assert (H3 : follows_configuration s3).
  { subst s3. revert H2. apply follows_of_frames.
    - apply fsm_update_detection_time.
    - apply interval_update_detection_time.
    - apply detect_mult_update_detection_time. }
  clearbody s3. clear H H1 H2 s1 s2.
  destruct (loc_state s3 =? BFD_STATE_ADMIN_DOWN); [done|].
  pose proof (switch_next_range (loc_state s3) (rem_state s3)) as Hr.
  destruct (process_ctl_switch (loc_state s3) (rem_state s3)) as [next diag].
  cbn in Hr.
  set (s4 := if nz next then _ else s3).
  assert (H4 : follows_configuration s4).
  { subst s4. case_if; [apply follows_update_state; [lia|done] | done]. }
  clearbody s4.
  pose proof (follows_control_tx_timer s4 0 now H4) as H5.
  case_if; [|done]. revert H5. now apply follows_of_fields.
Qed.

Lemma follows_timeout s now :
  follows_configuration s -> follows_configuration (bfd_session_timeout s now).
Proof.
  intros H. unfold bfd_session_timeout.
  apply follows_control_tx_timer, follows_update_state.
  - unfold BFD_STATE_DOWN. lia.
  - revert H. now apply follows_of_fields.
Qed.

Lemma follows_reconfigure s ifa_cf opts now :
  follows_configuration (bfd_session_reconfigure s ifa_cf opts now).
Proof.
  unfold bfd_session_reconfigure.
  set (s1 := set_cf _ s).
  set (tx := if loc_state s1 =? BFD_STATE_UP then _ else _).
  set (s2 := bfd_session_set_min_tx s1 tx now).
  set (s3 := bfd_session_set_min_rx s2 (sc_min_rx_int (cf s2)) now).
  apply follows_control_tx_timer.
  destruct (set_min_tx_new s1 tx now) as [T2 _]. fold s2 in T2.
  destruct (set_min_rx_new s2 (sc_min_rx_int (cf s2)) now) as [R3 T3]. fold s3 in R3, T3.
  pose proof (fsm_set_min_tx s1 tx now) as F2. fold s2 in F2.
  pose proof (fsm_set_min_rx s2 (sc_min_rx_int (cf s2)) now) as F3. fold s3 in F3.
  unfold fsm_fields in F2, F3.
  injection F2 as L2 _ _ _ _ _ _ _ _ C2 _ _ _ _.
  injection F3 as L3 _ _ _ _ _ _ _ _ C3 _ _ _ _.
  unfold follows_configuration. cbn.
  rewrite T3, T2, R3, C3, L3, L2, C2. done.
Qed.

Lemma follows_new a k ifx id c csn now :
  follows_configuration (bfd_session_new a k ifx id c csn now).
Proof.
  unfold bfd_session_new.
  set (s9 := set_passive _ _).
  assert (H9 : follows_configuration s9) by (unfold follows_configuration; done).
  clearbody s9.
  assert (H10 : follows_configuration (bfd_session_update_tx_interval s9)).
  { revert H9. apply follows_of_frames.
    - apply fsm_update_tx_interval.
    - apply interval_update_tx_interval.
    - apply detect_mult_of_detection, detection_update_tx_interval. }
  apply (follows_control_tx_timer _ 1 now) in H10. revert H10.
  now apply follows_of_fields.
Qed.

Lemma follows_step s s' :
  session_step s s' -> follows_configuration s -> follows_configuration s'.
Proof.
  intros Hs Hf. destruct Hs.
  - unfold bfd_rx_ctl. apply follows_process_ctl. revert Hf.
    now apply follows_of_fields.
  - revert Hf. now apply follows_of_fields.
  - unfold bfd_hold_timer_hook. apply follows_timeout. revert Hf.
    now apply follows_of_fields.
  - apply follows_reconfigure.
  - revert Hf. now apply follows_of_fields.
Qed.

(** X5.  In every state a session reaches, the parameters it aims at are
    those of its configuration: [des_min_tx_new] is [cf.min_tx_int] when the
    session is Up and [cf.idle_tx_int] otherwise, [req_min_rx_new] is
    [cf.min_rx_int], and the detection multiplier and the passive flag are
    those of the configuration. *)
Theorem parameters_follow_configuration s :
  session_reachable s -> follows_configuration s.
Proof.
  induction 1 as [|s s' _ IH Hstep].
  - apply follows_new.
  - exact (follows_step s s' Hstep IH).
Qed.

(** A passive session after the first packet of its peer. *)
Lemma parameters_follow_configuration_witness :
  follows_configuration (bfd_rx_ctl session_passive_new packet_from_down_peer 2000).
Proof.
  apply parameters_follow_configuration.
  exact (reach_step _ _ (reach_new _ _ _ _ _ _ _) (step_rx _ _ _)).
Defined.

Lemma process_ctl_up_quiet s flags old_tx_int old_rx_int now :
  loc_state s = BFD_STATE_UP -> BFD_STATE_DOWN < rem_state s ->
  let s' := bfd_session_process_ctl s flags old_tx_int old_rx_int now in
  poll_fields s' =
  poll_fields (if nz (poll_active s) && has_bit flags BFD_FLAG_FINAL
               then bfd_session_terminate_poll s else s).
Proof.
  intros Hl Hr. cbv zeta. apply process_ctl_quiet.
  destruct (process_ctl_state s flags old_tx_int old_rx_int now) as [_ H].
  cbv zeta in H. rewrite Hl in H. unfold process_ctl_switch in H.
  change (BFD_STATE_UP =? BFD_STATE_DOWN) with false in H.
  change (BFD_STATE_UP =? BFD_STATE_INIT) with false in H.
  change (BFD_STATE_UP =? BFD_STATE_UP) with true in H.
  cbv iota in H. apply Z.lt_nge, Z.leb_nle in Hr. rewrite Hr in H.
  cbn in H. rewrite Hl. tauto.
Qed.

(** X6.  On a session that is Up, hears a peer that is not Down, knows the
    peer's discriminator and has no poll in progress, a call of
    [bfd_session_set_min_tx] with a value that is not the one stored in
    [des_min_tx_new] and is not below the interval in use stores the new
    value, leaves the interval in use alone and opens a poll for it; the
    next packet commits the new value and ends the poll when it carries the
    Final flag, and changes neither otherwise.  A call with the value
    already stored in [des_min_tx_new] does nothing at all, also when the
    interval in use still differs from it: a value left pending opens no
    poll.  [bfd_session_set_min_rx] behaves in the same way for a value that
    is not above the RX interval in use. *)
Theorem postponed_interval_waits_for_final s val now flags old_tx_int old_rx_int now' :
  loc_state s = BFD_STATE_UP -> BFD_STATE_DOWN < rem_state s ->
  rem_id s <> 0 -> poll_active s = 0 -> poll_scheduled s = 0 ->
  (val <> des_min_tx_new s -> des_min_tx_int s <= val ->
   let s1 := bfd_session_set_min_tx s val now in
   let s2 := bfd_session_process_ctl s1 flags old_tx_int old_rx_int now' in
   (des_min_tx_int s1, des_min_tx_new s1, poll_active s1, poll_scheduled s1) =
     (des_min_tx_int s, val, BFD_POLL_TX, 0) /\
   (des_min_tx_int s2, poll_active s2) =
     if has_bit flags BFD_FLAG_FINAL then (val, 0)
     else (des_min_tx_int s, BFD_POLL_TX)) /\
  (val = des_min_tx_new s -> bfd_session_set_min_tx s val now = s) /\
  (val <> req_min_rx_new s -> val <= req_min_rx_int s ->
   let s1 := bfd_session_set_min_rx s val now in
   let s2 := bfd_session_process_ctl s1 flags old_tx_int old_rx_int now' in
   (req_min_rx_int s1, req_min_rx_new s1, poll_active s1, poll_scheduled s1) =
     (req_min_rx_int s, val, BFD_POLL_RX, 0) /\
   (req_min_rx_int s2, poll_active s2) =
     if has_bit flags BFD_FLAG_FINAL then (val, 0)
     else (req_min_rx_int s, BFD_POLL_RX)) /\
  (val = req_min_rx_new s -> bfd_session_set_min_rx s val now = s).
Proof.
  intros Hl Hr Hid Ha Hs. split; [|split; [|split]].
  2:{ intros ->. unfold bfd_session_set_min_tx. now rewrite Z.eqb_refl. }
  3:{ intros ->. unfold bfd_session_set_min_rx. now rewrite Z.eqb_refl. }
  - intros Hn Hv s1 s2.
    assert (P1 : poll_fields s1 =
      (des_min_tx_int s, val, req_min_rx_int s, req_min_rx_new s, BFD_POLL_TX, 0)).
    { subst s1. unfold bfd_session_set_min_tx.
      assert (E1 : (val =? des_min_tx_new s) = false) by (apply Z.eqb_neq; lia).
      assert (E2 : (val <? des_min_tx_int s) = false) by (apply Z.ltb_ge; lia).
      rewrite E1. cbn [loc_state set_des_min_tx_new des_min_tx_int]. rewrite Hl, E2.
      cbn [negb orb Z.eqb BFD_STATE_UP Pos.eqb].
      unfold bfd_session_request_poll. cbn [rem_id set_des_min_tx_new].
      apply Z.eqb_neq in Hid. rewrite Hid.
      cbn [poll_active poll_scheduled set_poll_scheduled set_des_min_tx_new].
      rewrite Ha, Hs. cbn [nz Z.eqb negb Z.lor]. rewrite poll_control_tx_timer.
      reflexivity. }
    assert (F1 : fsm_fields s1 = fsm_fields s) by apply fsm_set_min_tx.
    pose proof (process_ctl_up_quiet s1 flags old_tx_int old_rx_int now') as Q.
    fold s2 in Q. clearbody s1 s2.
    unfold fsm_fields in F1. injection F1 as F1 _ F2 _ _ _ _ _ _ _ _ _ _ _.
    assert (Q1 : loc_state s1 = BFD_STATE_UP) by congruence.
    assert (Q2 : BFD_STATE_DOWN < rem_state s1) by congruence.
    specialize (Q Q1 Q2). cbv zeta in Q.
    pose proof (terminate_poll_fields s1) as T.
    apply poll_fields_inv in P1. destruct P1 as (A1 & A2 & A3 & A4 & A5 & A6).
    rewrite A5, A6, A1, A2, A3, A4 in T. rewrite A5 in Q.
    change (nz BFD_POLL_TX) with true in Q. cbn [andb] in Q.
    split; [congruence|].
    destruct (has_bit flags BFD_FLAG_FINAL).
    + rewrite T in Q. apply poll_fields_inv in Q.
      destruct Q as (-> & _ & _ & _ & -> & _). reflexivity.
    + unfold poll_fields in Q. injection Q as -> _ _ _ -> _. congruence.
  - intros Hn Hv s1 s2.
    assert (P1 : poll_fields s1 =
      (des_min_tx_int s, des_min_tx_new s, req_min_rx_int s, val, BFD_POLL_RX, 0)).
    { subst s1. unfold bfd_session_set_min_rx.
      assert (E1 : (val =? req_min_rx_new s) = false) by (apply Z.eqb_neq; lia).
      assert (E2 : (val >? req_min_rx_int s) = false).
      { rewrite Z.gtb_ltb. apply Z.ltb_ge. lia. }
      rewrite E1. cbn [loc_state set_req_min_rx_new req_min_rx_int]. rewrite Hl, E2.
      cbn [negb orb Z.eqb BFD_STATE_UP Pos.eqb].
      unfold bfd_session_request_poll. cbn [rem_id set_req_min_rx_new].
      apply Z.eqb_neq in Hid. rewrite Hid.
      cbn [poll_active poll_scheduled set_poll_scheduled set_req_min_rx_new].
      rewrite Ha, Hs. cbn [nz Z.eqb negb Z.lor]. rewrite poll_control_tx_timer.
      reflexivity. }
    assert (F1 : fsm_fields s1 = fsm_fields s) by apply fsm_set_min_rx.
    pose proof (process_ctl_up_quiet s1 flags old_tx_int old_rx_int now') as Q.
    fold s2 in Q. clearbody s1 s2.
    unfold fsm_fields in F1. injection F1 as F1 _ F2 _ _ _ _ _ _ _ _ _ _ _.
    assert (Q1 : loc_state s1 = BFD_STATE_UP) by congruence.
    assert (Q2 : BFD_STATE_DOWN < rem_state s1) by congruence.
    specialize (Q Q1 Q2). cbv zeta in Q.
    pose proof (terminate_poll_fields s1) as T.
    apply poll_fields_inv in P1. destruct P1 as (A1 & A2 & A3 & A4 & A5 & A6).
    rewrite A5, A6, A1, A2, A3, A4 in T. rewrite A5 in Q.
    change (nz BFD_POLL_RX) with true in Q. cbn [andb] in Q.
    split; [congruence|].
    destruct (has_bit flags BFD_FLAG_FINAL).
    + rewrite T in Q. apply poll_fields_inv in Q.
      destruct Q as (_ & _ & -> & _ & -> & _). reflexivity.
    + unfold poll_fields in Q. injection Q as _ _ -> _ -> _. congruence.
Qed.

(** A settled session in Up: 50 ms asked for the TX interval, then 5 ms for
    the RX interval, each followed by the Final packet of the peer.  And a
    session that is Up with 10 ms in use and 1 s pending, no poll open: asking
    for 1 s again changes nothing. *)
Lemma postponed_interval_waits_for_final_witness :
  ((des_min_tx_int (bfd_session_set_min_tx session_up_settled 50000 3500),
    des_min_tx_new (bfd_session_set_min_tx session_up_settled 50000 3500),
    poll_active (bfd_session_set_min_tx session_up_settled 50000 3500),
    poll_scheduled (bfd_session_set_min_tx session_up_settled 50000 3500)) =
   (des_min_tx_int session_up_settled, 50000, BFD_POLL_TX, 0) /\
   (des_min_tx_int
      (bfd_session_process_ctl (bfd_session_set_min_tx session_up_settled 50000 3500)
         BFD_FLAG_FINAL 10000 1000000 4000),
    poll_active
      (bfd_session_process_ctl (bfd_session_set_min_tx session_up_settled 50000 3500)
         BFD_FLAG_FINAL 10000 1000000 4000)) = (50000, 0)) /\
  ((req_min_rx_int (bfd_session_set_min_rx session_up_settled 5000 3500),
    req_min_rx_new (bfd_session_set_min_rx session_up_settled 5000 3500),
    poll_active (bfd_session_set_min_rx session_up_settled 5000 3500),
    poll_scheduled (bfd_session_set_min_rx session_up_settled 5000 3500)) =
   (req_min_rx_int session_up_settled, 5000, BFD_POLL_RX, 0) /\
   (req_min_rx_int
      (bfd_session_process_ctl (bfd_session_set_min_rx session_up_settled 5000 3500)
         BFD_FLAG_FINAL 10000 1000000 4000),
    poll_active
      (bfd_session_process_ctl (bfd_session_set_min_rx session_up_settled 5000 3500)
         BFD_FLAG_FINAL 10000 1000000 4000)) = (5000, 0)) /\
  (loc_state session_up_pending = BFD_STATE_UP /\
   poll_active session_up_pending = 0 /\ poll_scheduled session_up_pending = 0 /\
   des_min_tx_int session_up_pending = 10000 /\
   des_min_tx_new session_up_pending = 1000000) /\
  bfd_session_set_min_tx session_up_pending 1000000 9000 = session_up_pending.
Proof.
  assert (Hl : loc_state session_up_settled = BFD_STATE_UP) by (vm_compute; reflexivity).
  assert (Hr : BFD_STATE_DOWN < rem_state session_up_settled) by (vm_compute; reflexivity).
  assert (Hid : rem_id session_up_settled <> 0) by (vm_compute; discriminate).
  assert (Ha : poll_active session_up_settled = 0) by (vm_compute; reflexivity).
  assert (Hs : poll_scheduled session_up_settled = 0) by (vm_compute; reflexivity).
  assert (Ht : 50000 <> des_min_tx_new session_up_settled) by (vm_compute; discriminate).
  assert (Hx : 5000 <> req_min_rx_new session_up_settled) by (vm_compute; discriminate).
  assert (Tv : des_min_tx_int session_up_settled <= 50000) by (vm_compute; discriminate).
  assert (Rv : 5000 <= req_min_rx_int session_up_settled) by (vm_compute; discriminate).
  destruct (postponed_interval_waits_for_final session_up_settled 50000 3500
              BFD_FLAG_FINAL 10000 1000000 4000 Hl Hr Hid Ha Hs) as (A & _ & _ & _).
  destruct (postponed_interval_waits_for_final session_up_settled 5000 3500
              BFD_FLAG_FINAL 10000 1000000 4000 Hl Hr Hid Ha Hs) as (_ & _ & B & _).
  assert (Hl' : loc_state session_up_pending = BFD_STATE_UP) by (vm_compute; reflexivity).
  assert (Hr' : BFD_STATE_DOWN < rem_state session_up_pending)
    by (vm_compute; reflexivity).
  assert (Hid' : rem_id session_up_pending <> 0) by (vm_compute; discriminate).
  assert (Ha' : poll_active session_up_pending = 0) by (vm_compute; reflexivity).
  assert (Hs' : poll_scheduled session_up_pending = 0) by (vm_compute; reflexivity).
  destruct (postponed_interval_waits_for_final session_up_pending 1000000 9000
              0 10000 10000 9500 Hl' Hr' Hid' Ha' Hs') as (_ & C & _ & _).
  split; [exact (A Ht Tv)|]. split; [exact (B Hx Rv)|].
  split; [vm_compute; repeat split; discriminate|].
  apply C. vm_compute. reflexivity.
Defined.

(** ** The session tables *)

Lemma add_session_unfold w p pr a local i opts o :
  protos w !! p = Some pr ->
  let pr1 := bfd_get_iface pr local i in
  let ic := match find_iface pr1 (local, i) with
            | Some ifa => ifa_cf ifa
            | None => bfd_default_iface
            end in
  let ifx := match i with Some i => index i | None => 0 end in
  let id := bfd_get_free_id pr1 (rnd_id o) in
  let s := bfd_session_new a (local, i) ifx id (bfd_merge_options ic opts)
             (u32 (rnd_csn o)) (now_of o) in
  bfd_add_session w p a local i opts o =
  (id, set_protos
         (<[p := set_session_hash_ip (<[(a, ifx) := id]> (session_hash_ip pr1))
                   (set_session_hash_id (<[id := s]> (session_hash_id pr1)) pr1)]>
            (protos w)) w).
Proof. intros E. unfold bfd_add_session. rewrite E. reflexivity. Qed.

Lemma session_hash_id_get_iface pr local i :
  session_hash_id (bfd_get_iface pr local i) = session_hash_id pr /\
  session_hash_ip (bfd_get_iface pr local i) = session_hash_ip pr /\
  notify_list (bfd_get_iface pr local i) = notify_list pr.
Proof. unfold bfd_get_iface. case_match; done. Qed.

Lemma session_hash_id_free_iface pr k :
  session_hash_id (bfd_free_iface pr k) = session_hash_id pr /\
  session_hash_ip (bfd_free_iface pr k) = session_hash_ip pr /\
  notify_list (bfd_free_iface pr k) = notify_list pr.
Proof. unfold bfd_free_iface. repeat case_match; done. Qed.

Lemma table_update_tx_interval s :
  table_fields (bfd_session_update_tx_interval s) = table_fields s.
Proof. unfold bfd_session_update_tx_interval. frame_by_cases. Qed.

Lemma table_control_tx_timer s reset now :
  table_fields (bfd_session_control_tx_timer s reset now) = table_fields s.
Proof. unfold bfd_session_control_tx_timer. frame_by_cases. Qed.

Lemma table_set_last_state_change v s :
  table_fields (set_last_state_change v s) = table_fields s.
Proof. reflexivity. Qed.

(** The fields of a new session that do not depend on its timers. *)
Lemma session_new_fields a k ifx id c csn now :
  table_fields (bfd_session_new a k ifx id c csn now) =
  (id, a, ifx, k, (BFD_STATE_DOWN, BFD_STATE_DOWN, [], false, false)).
Proof.
  unfold bfd_session_new.
  rewrite table_set_last_state_change, table_control_tx_timer,
    table_update_tx_interval. reflexivity.
Qed.

Lemma registry_ok_empty pr :
  session_hash_id pr = ∅ -> session_hash_ip pr = ∅ -> registry_ok pr.
Proof.
  intros E1 E2. split.
  - intros id s. now rewrite E1, lookup_empty.
  - intros k id. now rewrite E2, lookup_empty.
Qed.

(** Filing a session under a discriminator and an address that are both
    unused keeps the two indexes in step. *)
Lemma registry_ok_insert pr pr1 id s :
  registry_ok pr ->
  session_hash_id pr1 = session_hash_id pr ->
  session_hash_ip pr1 = session_hash_ip pr ->
  session_hash_id pr !! id = None ->
  session_hash_ip pr !! (addr s, ifindex s) = None ->
  loc_id s = id -> id <> 0 ->
  registry_ok
    (set_session_hash_ip (<[(addr s, ifindex s) := id]> (session_hash_ip pr1))
       (set_session_hash_id (<[id := s]> (session_hash_id pr1)) pr1)).
Proof.
  intros [R1 R2] Eid Eip Hnone Hk Hl Hnz. split.
  - intros id' s' E'.
    cbn [session_hash_id session_hash_ip set_session_hash_ip set_session_hash_id]
      in E' |- *.
    rewrite Eid in E'. rewrite Eip.
    destruct (decide (id' = id)) as [->|Hne].
    + rewrite lookup_insert_eq in E'. injection E' as <-.
      now rewrite lookup_insert_eq.
    + rewrite lookup_insert_ne in E' by done.
      destruct (R1 _ _ E') as (A & B & C). repeat (split; [done|]).
      rewrite lookup_insert_ne; [done|]. intros E. rewrite <- E in C. congruence.
  - intros k id' E'.
    cbn [session_hash_id session_hash_ip set_session_hash_ip set_session_hash_id]
      in E' |- *.
    rewrite Eip in E'. rewrite Eid.
    destruct (decide (k = (addr s, ifindex s))) as [->|Hne].
    + rewrite lookup_insert_eq in E'. injection E' as <-.
      exists s. now rewrite lookup_insert_eq.
    + rewrite lookup_insert_ne in E' by done.
      destruct (R2 _ _ E') as (s' & A & B). exists s'. split; [|done].
      rewrite lookup_insert_ne; [done|]. intros <-. congruence.
Qed.

(** In an engine whose indexes are in step, an address without session is
    an address the address index does not have. *)
Lemma registry_no_session pr a ifx :
  registry_ok pr -> bfd_find_session_by_addr pr a ifx = None ->
  session_hash_ip pr !! (a, ifx) = None.
Proof.
  intros [_ R2] Hno.
  destruct (session_hash_ip pr !! (a, ifx)) as [id0|] eqn:E; [|done].
  destruct (R2 _ _ E) as (s0 & E0 & _).
  unfold bfd_find_session_by_addr in Hno. rewrite E in Hno. cbn in Hno.
  congruence.
Qed.

(** X7.  [bfd_add_session] files the new session in both indexes: its
    discriminator is not zero and was free in the engine, afterwards
    [bfd_find_session_by_id] finds the session under it and
    [bfd_find_session_by_addr] under its address and interface index; the
    session starts Down with the remote state Down, on no list and with no
    request; the other discriminators find what they found before; and when
    the indexes were in step and the address had no session, they are in
    step afterwards and the other addresses find what they found before. *)
Theorem add_session_registers w p pr a local i opts o :
  protos w !! p = Some pr ->
  Z.of_nat (size (session_hash_id pr)) + 2 <= 4294967296 ->
  let ifx := match i with Some i => index i | None => 0 end in
  let id := (bfd_add_session w p a local i opts o).1 in
  let w' := (bfd_add_session w p a local i opts o).2 in
  exists pr' s,
    protos w' !! p = Some pr' /\
    id <> 0 /\ bfd_find_session_by_id pr id = None /\
    bfd_find_session_by_id pr' id = Some s /\
    bfd_find_session_by_addr pr' a ifx = Some s /\
    table_fields s =
      (id, a, ifx, (local, i), (BFD_STATE_DOWN, BFD_STATE_DOWN, [], false, false)) /\
    (forall id', id' <> id ->
       bfd_find_session_by_id pr' id' = bfd_find_session_by_id pr id') /\
    (registry_ok pr -> bfd_find_session_by_addr pr a ifx = None ->
     registry_ok pr' /\
     forall a' ifx', (a', ifx') <> (a, ifx) ->
       bfd_find_session_by_addr pr' a' ifx' = bfd_find_session_by_addr pr a' ifx').
Proof.
  intros Hp Hsize. cbv zeta. rewrite (add_session_unfold _ _ _ _ _ _ _ _ Hp).
  cbv zeta. cbn [fst snd].
  set (pr1 := bfd_get_iface pr local i).
  destruct (session_hash_id_get_iface pr local i) as (Eid & Eip & _).
  fold pr1 in Eid, Eip.
  set (ifx := match i with Some i => index i | None => 0 end).
  set (id := bfd_get_free_id pr1 (rnd_id o)).
  set (s := bfd_session_new _ _ _ _ _ _ _).
  assert (Hfree : id_free pr1 id).
  { apply get_free_id_free. now rewrite Eid. }
  destruct Hfree as [Hnz Hnone]. rewrite Eid in Hnone.
  pose proof (session_new_fields a (local, i) ifx id
              (bfd_merge_options
                 match find_iface pr1 (local, i) with
                 | Some ifa => ifa_cf ifa
                 | None => bfd_default_iface
                 end opts) (u32 (rnd_csn o)) (now_of o)) as F1.
  fold s in F1. clearbody s id.
  pose proof (registry_no_session pr a ifx) as HK.
  pose proof F1 as F0.
  unfold table_fields in F1. injection F1 as F1 Fa Fx _ _ _ _ _ _.
  assert (HR : registry_ok pr -> bfd_find_session_by_addr pr a ifx = None ->
    registry_ok
      (set_session_hash_ip (<[(a, ifx) := id]> (session_hash_ip pr1))
         (set_session_hash_id (<[id := s]> (session_hash_id pr1)) pr1))).
  { intros R Hno. rewrite <- Fa, <- Fx.
    apply (registry_ok_insert pr); try done. rewrite Fa, Fx. now apply HK. }
  eexists _, s. split; [apply lookup_insert_eq|].
  unfold bfd_find_session_by_id, bfd_find_session_by_addr.
  cbn [session_hash_id session_hash_ip set_session_hash_ip set_session_hash_id].
  rewrite Eid, Eip. rewrite !lookup_insert_eq. cbn [mbind option_bind].
  rewrite lookup_insert_eq.
  repeat (split; [done|]). split.
  { intros id' Hne. now rewrite lookup_insert_ne. }
  intros R Hno. split.
  { rewrite <- Eid, <- Eip. now apply HR. }
  pose proof (HK R Hno) as Hk. destruct R as [R1 R2].
  intros a' ifx' Hne. rewrite lookup_insert_ne by done.
  destruct (session_hash_ip pr !! (a', ifx')) as [id'|] eqn:E; [|done]. cbn.
  destruct (R2 _ _ E) as (s' & A & _).
  rewrite lookup_insert_ne; [done|]. intros <-. congruence.
Qed.

(** [registry_ok] in a form that can be decided on a given engine. *)
Lemma registry_ok_checked p :
  map_Forall (fun id s => loc_id s = id /\ id <> 0 /\
                session_hash_ip p !! (addr s, ifindex s) = Some id)
    (session_hash_id p) /\
  map_Forall (fun k id =>
                (s ← session_hash_id p !! id; Some (addr s, ifindex s)) = Some k)
    (session_hash_ip p) ->
  registry_ok p.
Proof.
  intros [H1 H2]. split.
  - intros id s E. exact (H1 id s E).
  - intros k id E. specialize (H2 k id E). cbn in H2.
    destruct (session_hash_id p !! id) as [s|]; [|done].
    exists s. split; [done|]. cbn in H2. congruence.
Qed.

Lemma ifaces_ok_empty pr :
  session_hash_id pr = ∅ -> iface_list pr = [] -> ifaces_ok pr.
Proof.
  intros E1 E2. split.
  - rewrite E2. apply NoDup_nil_2.
  - intros k. unfold find_iface, sessions_on. rewrite E1, E2, map_filter_empty.
    reflexivity.
Qed.


(** The first session of an engine. *)
Lemma add_session_registers_witness :
  exists pr' s,
    protos world_one_session !! 0%nat = Some pr' /\
    bfd_find_session_by_id pr' 5 = Some s /\
    bfd_find_session_by_addr pr' (IP4 1) 0 = Some s /\
    loc_state s = BFD_STATE_DOWN /\ registry_ok pr'.
Proof.
  unfold world_one_session.
  destruct (protos world_one_engine !! 0%nat) as [pr|] eqn:Hp;
    [|vm_compute in Hp; discriminate].
  pose proof Hp as Hp0. vm_compute in Hp0. injection Hp0 as E. subst pr.
  match type of Hp with
  | _ = Some ?pr =>
      assert (Hs : Z.of_nat (size (session_hash_id pr)) + 2 <= 4294967296)
        by (vm_compute; discriminate);
      assert (Hr : registry_ok pr)
        by (apply registry_ok_empty; reflexivity);
      assert (Hn : bfd_find_session_by_addr pr (IP4 1) 0 = None)
        by reflexivity;
      destruct (add_session_registers world_one_engine 0 pr (IP4 1) (IP4 2) None
                  options_none oracle_one Hp Hs)
        as (pr' & s & A & _ & _ & B & C & D & _ & F)
  end.
  destruct (F Hr Hn) as [G _].
  assert (Eid : (bfd_add_session world_one_engine 0 (IP4 1) (IP4 2) None
                   options_none oracle_one).1 = 5)
    by (vm_compute; reflexivity).
  rewrite Eid in B. unfold table_fields in D. injection D as _ _ _ _ D _ _ _ _.
  exists pr', s. exact (conj A (conj B (conj C (conj D G)))).
Defined.

Lemma remove_session_unfold w p pr id s :
  protos w !! p = Some pr -> session_hash_id pr !! id = Some s ->
  let pr1 := if n_linked s
             then set_notify_list
                    (List.filter (fun id' => negb (id' =? id)) (notify_list pr)) pr
             else pr in
  let pr2 := bfd_free_iface pr1 (ifa s) in
  bfd_remove_session w (p, id) =
  set_protos
    (<[p := set_session_hash_ip (delete (addr s, ifindex s) (session_hash_ip pr2))
              (set_session_hash_id (delete id (session_hash_id pr2)) pr2)]>
       (protos w)) w.
Proof.
  intros Ep Es. unfold bfd_remove_session. cbn [fst snd]. rewrite Ep, Es.
  reflexivity.
Qed.

(** X8.  [bfd_remove_session] withdraws the session from both indexes of
    an engine whose indexes are in step: afterwards neither its
    discriminator nor its address finds a session, a session that was
    linked is no longer on the notify list, every other discriminator and
    address finds what it found before, and the indexes are still in
    step. *)
Theorem remove_session_unregisters w p pr id s :
  protos w !! p = Some pr -> registry_ok pr ->
  bfd_find_session_by_id pr id = Some s ->
  exists pr',
    protos (bfd_remove_session w (p, id)) !! p = Some pr' /\
    bfd_find_session_by_id pr' id = None /\
    bfd_find_session_by_addr pr' (addr s) (ifindex s) = None /\
    (n_linked s = true -> id ∉ notify_list pr') /\
    (forall id', id' <> id ->
       bfd_find_session_by_id pr' id' = bfd_find_session_by_id pr id') /\
    (forall a' ifx', (a', ifx') <> (addr s, ifindex s) ->
       bfd_find_session_by_addr pr' a' ifx' = bfd_find_session_by_addr pr a' ifx') /\
    registry_ok pr'.
Proof.
  intros Hp [R1 R2] Hs. unfold bfd_find_session_by_id in Hs.
  rewrite (remove_session_unfold _ _ _ _ _ Hp Hs). cbv zeta.
  set (pr1 := if n_linked s then _ else pr).
  assert (E1 : session_hash_id pr1 = session_hash_id pr /\
               session_hash_ip pr1 = session_hash_ip pr /\
               (n_linked s = true -> id ∉ notify_list pr1)).
  { subst pr1. destruct (n_linked s); [|done]. repeat split. intros _.
    cbn. intros Hin. apply list_elem_of_In, filter_In in Hin as [_ Hin].
    now rewrite Z.eqb_refl in Hin. }
  destruct E1 as (Eid & Eip & En).
  destruct (session_hash_id_free_iface pr1 (ifa s)) as (Fid & Fip & Fn).
  set (pr2 := bfd_free_iface pr1 (ifa s)) in *. clearbody pr2 pr1.
  rewrite Eid in Fid. rewrite Eip in Fip.
  destruct (R1 _ _ Hs) as (Hl & Hnz & Hk).
  eexists. split; [cbn; apply lookup_insert_eq|].
  unfold bfd_find_session_by_id, bfd_find_session_by_addr.
  cbn [session_hash_id session_hash_ip set_session_hash_ip set_session_hash_id
       notify_list].
  rewrite Fid, Fip, Fn, !lookup_delete_eq. cbn [mbind option_bind].
  repeat (split; [done|]).
  assert (Hother : forall k id', k <> (addr s, ifindex s) ->
            session_hash_ip pr !! k = Some id' -> id' <> id).
  { intros k id' Hne E ->. destruct (R2 _ _ E) as (s' & E' & <-). congruence. }
  split; [|split; [|split]].
  - intros id' Hne. now rewrite lookup_delete_ne.
  - intros a' ifx' Hne. rewrite lookup_delete_ne by done.
    destruct (session_hash_ip pr !! (a', ifx')) as [id'|] eqn:E; [|done]. cbn.
    rewrite lookup_delete_ne; [done|]. intros ->. now apply (Hother _ _ Hne E).
  - intros id' s' E'.
    cbn [session_hash_id session_hash_ip set_session_hash_ip set_session_hash_id]
      in E' |- *.
    rewrite ?Fid in E'. rewrite ?Fip. destruct (decide (id' = id)) as [->|Hne].
    + now rewrite lookup_delete_eq in E'.
    + rewrite lookup_delete_ne in E' by done.
      destruct (R1 _ _ E') as (A & B & C). repeat (split; [done|]).
      rewrite lookup_delete_ne; [done|]. intros E. rewrite <- E in C. congruence.
  - intros k id' E'.
    cbn [session_hash_id session_hash_ip set_session_hash_ip set_session_hash_id]
      in E' |- *.
    rewrite ?Fip in E'. rewrite ?Fid.
    destruct (decide (k = (addr s, ifindex s))) as [->|Hne].
    + now rewrite lookup_delete_eq in E'.
    + rewrite lookup_delete_ne in E' by done.
      destruct (R2 _ _ E') as (s' & A & B). exists s'. split; [|done].
      rewrite lookup_delete_ne; [done|]. intros ->. now apply (Hother _ _ Hne E').
Qed.

(** The only session of an engine is removed. *)
Lemma remove_session_unregisters_witness :
  exists pr',
    protos (bfd_remove_session world_one_session (0%nat, 5)) !! 0%nat = Some pr' /\
    bfd_find_session_by_id pr' 5 = None /\
    bfd_find_session_by_addr pr' (IP4 1) 0 = None /\
    registry_ok pr'.
Proof.
  destruct (protos world_one_session !! 0%nat) as [pr|] eqn:Hp;
    [|vm_compute in Hp; discriminate].
  destruct (bfd_find_session_by_id pr 5) as [s|] eqn:Hs.
  2:{ pose proof Hp as Hp0. vm_compute in Hp0. injection Hp0 as E. subst pr.
      vm_compute in Hs. discriminate. }
  assert (Hr : registry_ok pr).
  { pose proof Hp as Hp0. vm_compute in Hp0. injection Hp0 as E. subst pr.
    apply registry_ok_checked, (bool_decide_unpack _). vm_compute. reflexivity. }
  assert (Ea : (addr s, ifindex s) = (IP4 1, 0)).
  { pose proof Hp as Hp0. vm_compute in Hp0. injection Hp0 as E. subst pr.
    vm_compute in Hs. injection Hs as <-. reflexivity. }
  destruct (remove_session_unregisters world_one_session 0 pr 5 s Hp Hr Hs)
    as (pr' & A & B & C & _ & _ & _ & G).
  injection Ea as Ea Ex. rewrite Ea, Ex in C.
  exists pr'. exact (conj A (conj B (conj C G))).
Defined.

(** ** The interface bindings *)

Lemma iface_is_key k b : iface_is k b = true <-> iface_key b = k.
Proof.
  unfold iface_is, ipa_equal, iface_key. destruct k as [l i]. cbn.
  rewrite andb_true_iff, !bool_decide_eq_true. split.
  - intros [-> ->]. done.
  - intros [= -> ->]. done.
Qed.

Lemma iface_is_other k b : iface_key b <> k -> iface_is k b = false.
Proof.
  intros H. destruct (iface_is k b) eqn:E; [|done].
  now apply iface_is_key in E.
Qed.

Lemma find_iface_key k l b :
  List.find (iface_is k) l = Some b -> iface_key b = k /\ b ∈ l.
Proof.
  intros H. apply find_some in H as [Hin Hk].
  split; [now apply iface_is_key | now apply list_elem_of_In].
Qed.

Lemma find_iface_none k l :
  List.find (iface_is k) l = None <-> k ∉ iface_key <$> l.
Proof.
  induction l as [|b l IH]; cbn.
  - split; [intros _; apply not_elem_of_nil | done].
  - rewrite not_elem_of_cons. destruct (iface_is k b) eqn:E.
    + apply iface_is_key in E. split; [done|]. intros [H _]. congruence.
    + rewrite IH. split; [|tauto]. intros H. split; [|done].
      intros ->. rewrite (proj2 (iface_is_key _ _) eq_refl) in E. done.
Qed.

Section alter_bindings.
Variable f : bfd_iface -> bfd_iface.
Hypothesis f_key : forall b, iface_key (f b) = iface_key b.

Lemma keys_alter_iface k l :
  iface_key <$> alter_iface f k l = iface_key <$> l.
Proof.
  induction l as [|b l IH]; cbn; [done|].
  destruct (iface_is k b); cbn; [now rewrite f_key | now rewrite IH].
Qed.

Lemma find_alter_iface k l k' :
  List.find (iface_is k') (alter_iface f k l) =
  if decide (k' = k) then f <$> List.find (iface_is k) l
  else List.find (iface_is k') l.
Proof.
  induction l as [|b l IH]; cbn; [by case_decide | ].
  destruct (iface_is k b) eqn:E; cbn.
  - apply iface_is_key in E. case_decide as Hk.
    + subst k'. rewrite (proj2 (iface_is_key k (f b))); [done|].
      now rewrite f_key.
    + rewrite !iface_is_other; [done| |]; rewrite ?f_key; congruence.
  - rewrite IH. case_decide as Hk.
    + subst k'. now rewrite E.
    + done.
Qed.
End alter_bindings.

Lemma find_app_iface k' l b :
  List.find (iface_is k') (l ++ [b]) =
  match List.find (iface_is k') l with
  | Some b' => Some b'
  | None => if iface_is k' b then Some b else None
  end.
Proof.
  induction l as [|b0 l IH]; cbn; [done|]. destruct (iface_is k' b0); done.
Qed.

Lemma remove_iface_keys k l :
  NoDup (iface_key <$> l) ->
  NoDup (iface_key <$> remove_iface k l) /\
  forall k', List.find (iface_is k') (remove_iface k l) =
             if decide (k' = k) then None else List.find (iface_is k') l.
Proof.
  induction l as [|b l IH]; cbn; intros Hnd.
  - split; [done|]. intros k'. by case_decide.
  - apply NoDup_cons in Hnd as [Hnot Hnd]. destruct (iface_is k b) eqn:E.
    + apply iface_is_key in E. split; [done|]. intros k'. case_decide as Hk.
      * subst k'. apply find_iface_none. congruence.
      * rewrite iface_is_other; [done|congruence].
    + destruct (IH Hnd) as [IH1 IH2]. split.
      * cbn. apply NoDup_cons. split; [|done]. intros Hin. apply Hnot.
        apply list_elem_of_fmap in Hin as (b' & Eb & Hin).
        apply list_elem_of_fmap. exists b'. split; [done|].
        clear -Hin. induction l as [|c l IHl]; cbn in Hin; [done|].
        destruct (iface_is k c).
        -- now right.
        -- apply elem_of_cons in Hin as [->|Hin]; [left | right; auto].
      * intros k'. cbn. rewrite IH2. case_decide as Hk.
        -- subst k'. now rewrite E.
        -- done.
Qed.

(** The sessions on a binding when a session is filed or withdrawn. *)
Lemma sessions_on_insert (m : gmap Z bfd_session) id s k :
  m !! id = None ->
  (ifa s = k ->
   size (filter (fun e : Z * bfd_session => ifa e.2 = k) (<[id := s]> m)) =
   S (size (filter (fun e : Z * bfd_session => ifa e.2 = k) m))) /\
  (ifa s <> k ->
   size (filter (fun e : Z * bfd_session => ifa e.2 = k) (<[id := s]> m)) =
   size (filter (fun e : Z * bfd_session => ifa e.2 = k) m)).
Proof.
  intros Hn. split; intros E.
  - rewrite map_filter_insert_True by done.
    apply map_size_insert_None, map_lookup_filter_None_2. now left.
  - rewrite map_filter_insert_not'; [done|done|]. intros y Hy. congruence.
Qed.

Lemma sessions_on_delete (m : gmap Z bfd_session) id s k :
  m !! id = Some s ->
  (ifa s = k ->
   size (filter (fun e : Z * bfd_session => ifa e.2 = k) m) =
   S (size (filter (fun e : Z * bfd_session => ifa e.2 = k) (delete id m)))) /\
  (ifa s <> k ->
   size (filter (fun e : Z * bfd_session => ifa e.2 = k) m) =
   size (filter (fun e : Z * bfd_session => ifa e.2 = k) (delete id m))).
Proof.
  intros Hs. rewrite <- (insert_delete_id m id s Hs) at 1 3.
  apply sessions_on_insert, lookup_delete_eq.
Qed.

Lemma set_ifa_uc_key v b : iface_key (set_ifa_uc v b) = iface_key b.
Proof. reflexivity. Qed.

Lemma ifaces_ok_get_iface pr local i id s :
  ifaces_ok pr -> session_hash_id pr !! id = None -> ifa s = (local, i) ->
  let pr1 := bfd_get_iface pr local i in
  ifaces_ok
    (set_session_hash_ip (<[(addr s, ifindex s) := id]> (session_hash_ip pr1))
       (set_session_hash_id (<[id := s]> (session_hash_id pr1)) pr1)).
Proof.
  intros [Hnd Huc] Hfree Hifa. cbv zeta.
  destruct (session_hash_id_get_iface pr local i) as (Eid & _ & _).
  set (pr1 := bfd_get_iface pr local i) in *.
  assert (Hl : NoDup (iface_key <$> iface_list pr1) /\
    forall k, ifa_uc <$> List.find (iface_is k) (iface_list pr1) =
              if decide (k = (local, i))
              then Some (Z.of_nat (S (sessions_on pr k)))
              else ifa_uc <$> List.find (iface_is k) (iface_list pr)).
  { subst pr1. unfold bfd_get_iface. pose proof (Huc (local, i)) as H0.
    unfold find_iface in *.
    destruct (List.find (iface_is (local, i)) (iface_list pr)) as [b|] eqn:E.
    - cbn [iface_list set_iface_list].
      split; [now rewrite keys_alter_iface|].
      intros k. rewrite find_alter_iface by done.
      destruct (decide (k = (local, i))) as [->|Hk]; [|done].
      rewrite E. cbn in H0 |- *.
      destruct (decide (sessions_on pr (local, i) = 0%nat)); [done|].
      injection H0 as ->. f_equal. lia.
    - cbn [iface_list set_iface_list]. split.
      + rewrite fmap_app. apply NoDup_app. split; [done|]. split.
        * intros k Hk Hin. apply list_elem_of_singleton in Hin. subst k.
          now apply find_iface_none in E.
        * apply NoDup_singleton.
      + intros k. rewrite find_app_iface.
        destruct (decide (k = (local, i))) as [->|Hk].
        * rewrite E.
          rewrite (proj2 (iface_is_key (local, i)
                     (mk_bfd_iface local i (bfd_find_iface_config (p_cf pr) i) 1 false)))
            by done.
          cbn in H0 |- *.
          destruct (decide (sessions_on pr (local, i) = 0%nat)) as [H1|]; [|done].
          now rewrite H1.
        * destruct (List.find (iface_is k) (iface_list pr)); [done|].
          rewrite iface_is_other; [done|]. unfold iface_key. cbn. congruence. }
  clearbody pr1. destruct Hl as [Hnd1 Huc1]. split; [exact Hnd1|].
  intros k. unfold find_iface, sessions_on.
  cbn [iface_list session_hash_id set_session_hash_ip set_session_hash_id].
  rewrite Huc1, Eid. specialize (Huc k). unfold find_iface in Huc.
  destruct (sessions_on_insert (session_hash_id pr) id s k Hfree) as [I1 I2].
  fold (sessions_on pr k) in I1, I2.
  destruct (decide (k = (local, i))) as [->|Hk].
  - rewrite (I1 Hifa). goal_decide; [lia|done].
  - rewrite I2 by congruence. exact Huc.
Qed.

Lemma ifaces_ok_free_iface pr pr1 id s :
  ifaces_ok pr -> session_hash_id pr !! id = Some s ->
  iface_list pr1 = iface_list pr ->
  let pr2 := bfd_free_iface pr1 (ifa s) in
  ifaces_ok
    (set_session_hash_ip (delete (addr s, ifindex s) (session_hash_ip pr))
       (set_session_hash_id (delete id (session_hash_id pr)) pr2)).
Proof.
  intros [Hnd Huc] Hs El. cbv zeta.
  assert (Hl : NoDup (iface_key <$> iface_list (bfd_free_iface pr1 (ifa s))) /\
    forall k, ifa_uc <$> List.find (iface_is k)
                           (iface_list (bfd_free_iface pr1 (ifa s))) =
              if decide (k = ifa s)
              then (if decide (sessions_on pr k = 1%nat) then None
                    else Some (Z.of_nat (sessions_on pr k) - 1))
              else ifa_uc <$> List.find (iface_is k) (iface_list pr)).
  { unfold bfd_free_iface, find_iface. rewrite El.
    pose proof (Huc (ifa s)) as H0. unfold find_iface in H0.
    assert (Hpos : sessions_on pr (ifa s) <> 0%nat).
    { unfold sessions_on.
      rewrite (proj1 (sessions_on_delete _ _ _ (ifa s) Hs) eq_refl). lia. }
    rewrite decide_False in H0 by done.
    destruct (List.find (iface_is (ifa s)) (iface_list pr)) as [b|] eqn:E;
      [|done].
    cbn in H0. injection H0 as Hb. rewrite Hb. unfold nz.
    destruct (Z.of_nat (sessions_on pr (ifa s)) - 1 =? 0) eqn:E1; cbn [negb].
    - apply Z.eqb_eq in E1. cbn [iface_list set_iface_list]. rewrite ?El.
      destruct (remove_iface_keys (ifa s) _ Hnd) as [N1 N2]. split; [done|].
      intros k. rewrite N2. destruct (decide (k = ifa s)) as [->|Hk]; [|done].
      rewrite decide_True by lia. done.
    - apply Z.eqb_neq in E1. cbn [iface_list set_iface_list]. rewrite ?El.
      split; [now rewrite keys_alter_iface|].
      intros k. rewrite find_alter_iface by done.
      destruct (decide (k = ifa s)) as [->|Hk]; [|done].
      rewrite E. cbn. rewrite decide_False by lia. now rewrite Hb. }
  destruct Hl as [Hnd2 Huc2]. split; [exact Hnd2|].
  intros k. unfold find_iface, sessions_on.
  cbn [iface_list session_hash_id set_session_hash_ip set_session_hash_id].
  rewrite Huc2. specialize (Huc k). unfold find_iface in Huc.
  destruct (sessions_on_delete _ _ _ k Hs) as [D1 D2].
  fold (sessions_on pr k) in D1, D2.
  destruct (decide (k = ifa s)) as [->|Hk].
  - specialize (D1 eq_refl). rewrite D1.
    repeat goal_decide; try lia; try done. f_equal. lia.
  - rewrite <- D2 by congruence. exact Huc.
Qed.

(** X9.  The use count of an interface binding is the number of sessions
    that hold it: if no pair of local address and interface is bound twice,
    a binding exists exactly for the pairs some session holds and its [uc]
    counts those sessions, then the same is true after [bfd_add_session]
    (which takes the binding with [bfd_get_iface]) and after
    [bfd_remove_session] (which gives it back with [bfd_free_iface], freeing
    the binding with the last session). *)
Theorem iface_use_counts_kept w p pr :
  protos w !! p = Some pr -> ifaces_ok pr ->
  (forall a local i opts o,
     Z.of_nat (size (session_hash_id pr)) + 2 <= 4294967296 ->
     exists pr', protos (bfd_add_session w p a local i opts o).2 !! p = Some pr' /\
                 ifaces_ok pr') /\
  (forall id,
     exists pr', protos (bfd_remove_session w (p, id)) !! p = Some pr' /\
                 ifaces_ok pr').
Proof.
  intros Hp Hok. split.
  - intros a local i opts o Hsize.
    rewrite (add_session_unfold _ _ _ _ _ _ _ _ Hp). cbv zeta. cbn [snd].
    destruct (session_hash_id_get_iface pr local i) as (Eid & _ & _).
    set (pr1 := bfd_get_iface pr local i) in *.
    set (ifx := match i with Some i => index i | None => 0 end).
    set (id := bfd_get_free_id pr1 (rnd_id o)).
    assert (Hfree : id_free pr1 id).
    { apply get_free_id_free. now rewrite Eid. }
    destruct Hfree as [_ Hnone]. rewrite Eid in Hnone.
    pose proof (session_new_fields a (local, i) ifx id
      (bfd_merge_options
         match find_iface pr1 (local, i) with
         | Some ifa => ifa_cf ifa
         | None => bfd_default_iface
         end opts) (u32 (rnd_csn o)) (now_of o)) as F.
    set (s := bfd_session_new _ _ _ _ _ _ _) in *. clearbody s id.
    unfold table_fields in F. injection F as _ Fa Fx Fi _ _ _ _ _.
    pose proof (ifaces_ok_get_iface pr local i id s Hok Hnone Fi) as H.
    cbv zeta in H. fold pr1 in H. rewrite Fa, Fx in H.
    eexists. split; [apply lookup_insert_eq | exact H].
  - intros id. destruct (session_hash_id pr !! id) as [s|] eqn:Es.
    + rewrite (remove_session_unfold _ _ _ _ _ Hp Es). cbv zeta.
      set (pr1 := if n_linked s then _ else pr).
      assert (E1 : iface_list pr1 = iface_list pr /\
                   session_hash_id pr1 = session_hash_id pr /\
                   session_hash_ip pr1 = session_hash_ip pr).
      { subst pr1. destruct (n_linked s); done. }
      destruct E1 as (El & Eid & Eip).
      destruct (session_hash_id_free_iface pr1 (ifa s)) as (Fid & Fip & _).
      rewrite Fid, Fip, Eid, Eip.
      eexists. split; [apply lookup_insert_eq|].
      exact (ifaces_ok_free_iface pr pr1 id s Hok Es El).
    + unfold bfd_remove_session. cbn [fst snd]. rewrite Hp, Es.
      exists pr. split; [exact Hp | exact Hok].
Qed.

(** An engine without session takes its first one; removing a session it
    does not have changes nothing. *)
Lemma iface_use_counts_kept_witness :
  (exists pr', protos world_one_session !! 0%nat = Some pr' /\ ifaces_ok pr') /\
  (exists pr',
     protos (bfd_remove_session world_one_engine (0%nat, 5)) !! 0%nat = Some pr' /\
     ifaces_ok pr').
Proof.
  unfold world_one_session.
  destruct (protos world_one_engine !! 0%nat) as [pr|] eqn:Hp;
    [|vm_compute in Hp; discriminate].
  pose proof Hp as Hp0. vm_compute in Hp0. injection Hp0 as E. subst pr.
  match type of Hp with
  | _ = Some ?pr =>
      assert (Hs : Z.of_nat (size (session_hash_id pr)) + 2 <= 4294967296)
        by (vm_compute; discriminate);
      assert (Hi : ifaces_ok pr) by (apply ifaces_ok_empty; reflexivity);
      destruct (iface_use_counts_kept world_one_engine 0 pr Hp Hi) as [A B]
  end.
  exact (conj (A (IP4 1) (IP4 2) None options_none oracle_one Hs) (B 5)).
Defined.

(** ** Requests between the engines *)

Lemma add_request_accepted w p r o :
  (bfd_add_request w p r o).1 =
  match protos w !! p, requests w !! r with
  | Some pr, Some req => request_acceptable pr req
  | _, _ => false
  end.
Proof.
  unfold bfd_add_request, request_acceptable.
  destruct (protos w !! p) as [pr|]; [|done].
  destruct (requests w !! r) as [req|]; [|done].
  destruct (vrf_set pr && _); [done|].
  destruct (if ipa_is_ip4 _ then _ else _); [done|].
  destruct (match req_iface req with Some _ => negb _ | None => _ end); [done|].
  cbn [negb andb].
  destruct (match bfd_find_session_by_addr _ _ _ with Some s => _ | None => _ end)
    as [id w1].
  now case_match.
Qed.

Lemma add_request_rejected w p r o :
  (bfd_add_request w p r o).1 = false -> (bfd_add_request w p r o).2 = w.
Proof.
  unfold bfd_add_request.
  destruct (protos w !! p) as [pr|]; [|done].
  destruct (requests w !! r) as [req|]; [|done].
  destruct (vrf_set pr && _); [done|].
  destruct (if ipa_is_ip4 _ then _ else _); [done|].
  destruct (match req_iface req with Some _ => negb _ | None => _ end); [done|].
  destruct (match bfd_find_session_by_addr _ _ _ with Some s => _ | None => _ end)
    as [id w1].
  now case_match.
Qed.

Lemma submit_walk_rejected l w r o :
  (forall p, p ∈ l -> (bfd_add_request w p r o).1 = false) ->
  submit_walk w l r o = None.
Proof.
  induction l as [|p l IH]; intros H; [done|]. cbn.
  pose proof (H p ltac:(left)) as Hp.
  pose proof (add_request_rejected w p r o Hp) as Hw.
  destruct (bfd_add_request w p r o) as [acc w']. cbn in Hp, Hw. subst.
  apply IH. intros p' Hp'. apply H. now right.
Qed.

Lemma protos_rem_node_free w r :
  requests w !! r ≫= req_session = None ->
  rem_node_request w r = set_bfd_wait_list (filter (.≠ r) (bfd_wait_list w)) w.
Proof. intros E. unfold rem_node_request. cbn. now rewrite E. Qed.

(** X10.  A request that no engine of the list accepts is parked by
    [bfd_submit_request]: the engines are as they were but for the request
    leaving the list of the session it was attached to; the request ends
    with no session and at the tail of the wait list; and unless it was in
    AdminDown already its callback hears AdminDown once, with the old
    state as [old_state], and it is in AdminDown afterwards.  A callback
    that releases the request then leaves it neither stored nor waiting. *)
Theorem submit_parks_unaccepted w r req o :
  requests w !! r = Some req ->
  (forall p, p ∈ bfd_proto_list w -> (bfd_add_request w p r o).1 = false) ->
  let w' := bfd_submit_request w r o in
  let told := negb (req_state req =? BFD_STATE_ADMIN_DOWN) in
  let q := if told
           then notified (set_req_session None req)
                  BFD_STATE_ADMIN_DOWN BFD_STATE_ADMIN_DOWN 0
           else set_req_session None req in
  protos w' = protos (rem_node_request w r) /\
  hook_log w' =
    (if told && bool_decide (is_Some (req_hook req))
     then mk_hook_call r BFD_STATE_ADMIN_DOWN 0 (req_state req) 0 :: hook_log w
     else hook_log w) /\
  if told && releases (req_hook req)
  then requests w' !! r = None /\
       bfd_wait_list w' = filter (.≠ r) (bfd_wait_list w)
  else requests w' !! r = Some q /\
       bfd_wait_list w' = filter (.≠ r) (bfd_wait_list w) ++ [r].
Proof.
  intros Hr Hrej. cbv zeta. unfold bfd_submit_request.
  rewrite (submit_walk_rejected _ _ _ _ Hrej).
  set (w1 := rem_node_request w r).
  assert (H1 : requests w1 = requests w /\ hook_log w1 = hook_log w /\
               bfd_wait_list w1 = filter (.≠ r) (bfd_wait_list w)).
  { subst w1. rewrite requests_rem_node, hook_log_rem_node.
    unfold rem_node_request. cbn. now case_match. }
  clearbody w1. destruct H1 as (Eq & El & Ew).
  set (w3 := upd_request r _ _).
  assert (E3 : requests w3 !! r = Some (set_req_session None req)).
  { subst w3. cbn. now rewrite lookup_alter_eq, Eq, Hr. }
  rewrite (request_notify_unfold _ _ _ _ _ _ E3).
  cbn [req_state set_req_session req_hook].
  rewrite (Z.eqb_sym BFD_STATE_ADMIN_DOWN).
  destruct (req_state req =? BFD_STATE_ADMIN_DOWN) eqn:Est; cbn [negb andb].
  { subst w3. cbn. rewrite El, Ew. done. }
  cbv zeta.
  assert (Ed : req_down (notified (set_req_session None req)
                 BFD_STATE_ADMIN_DOWN BFD_STATE_ADMIN_DOWN 0) = 0).
  { cbn. now rewrite andb_false_r. }
  rewrite Ed.
  destruct (req_hook req) as [[]|] eqn:Eh.
  - (* a callback that observes *)
    rewrite bool_decide_eq_true_2 by eauto. cbn [run_hook releases andb].
    subst w3. cbn. rewrite El, Ew, lookup_alter_eq, lookup_alter_eq, Eq, Hr. done.
  - (* a callback that releases the request *)
    rewrite bool_decide_eq_true_2 by eauto. cbn [run_hook releases andb].
    set (w4 := set_hook_log _ _).
    assert (E4 : requests w4 !! r =
                 Some (notified (set_req_session None req)
                         BFD_STATE_ADMIN_DOWN BFD_STATE_ADMIN_DOWN 0)).
    { subst w4 w3. cbn. now rewrite !lookup_alter_eq, Eq, Hr. }
    unfold rfree_request, bfd_request_free. rewrite E4.
    cbn [req_session notified set_req_down set_req_old_state set_req_diag
         set_req_state set_req_session].
    rewrite protos_rem_node_free by (rewrite E4; reflexivity).
    subst w4 w3. cbn. rewrite El, Ew, lookup_delete_eq.
    repeat split. rewrite filter_app, filter_cons_False, filter_nil, app_nil_r by
      (intros H; now apply H).
    rewrite list_filter_filter. apply list_filter_iff. intros x. tauto.
  - rewrite bool_decide_eq_false_2 by (intros [? ?]; done). cbn [releases andb].
    subst w3. cbn. rewrite El, Ew, lookup_alter_eq, lookup_alter_eq, Eq, Hr. done.
Qed.

Lemma submit_parks_unaccepted_witness :
  hook_log (bfd_submit_request world_waiting_up 0 oracle_one) =
    [mk_hook_call 0 BFD_STATE_ADMIN_DOWN 0 BFD_STATE_UP 0] /\
  bfd_wait_list (bfd_submit_request world_waiting_up 0 oracle_one) = [0%nat] /\
  (exists q, requests (bfd_submit_request world_waiting_up 0 oracle_one) !! 0%nat =
             Some q /\ req_session q = None /\
             req_state q = BFD_STATE_ADMIN_DOWN).
Proof.
  lookup_value (requests world_waiting_up !! 0%nat) req Hr.
  match type of Hr with
  | _ = Some ?req =>
      assert (Hrej : forall p, p ∈ bfd_proto_list world_waiting_up ->
                (bfd_add_request world_waiting_up p 0 oracle_one).1 = false)
        by (intros p Hp; by apply elem_of_nil in Hp);
      destruct (submit_parks_unaccepted world_waiting_up 0 req oracle_one Hr Hrej)
        as (_ & A & B)
  end.
  cbn in A, B. destruct B as [B1 B2].
  split; [exact A|]. split; [exact B2|]. eexists. split; [exact B1|]. done.
Defined.

Lemma lookup_session_upd_other w sp sp' f :
  sp' <> sp -> lookup_session (upd_session sp' f w) sp = lookup_session w sp.
Proof.
  intros Hne. unfold lookup_session, upd_session, upd_proto. cbn.
  destruct sp as [p id], sp' as [p' id']. cbn.
  destruct (decide (p' = p)) as [->|Hp].
  - rewrite lookup_alter_eq. destruct (protos w !! p) as [pr|]; cbn; [|done].
    rewrite lookup_alter_ne; [done|]. congruence.
  - now rewrite lookup_alter_ne.
Qed.

Lemma lookup_session_rem_node_any w r sp s :
  lookup_session w sp = Some s ->
  exists l, lookup_session (rem_node_request w r) sp = Some (set_request_list l s) /\
            (l = request_list s \/ l = filter (.≠ r) (request_list s)).
Proof.
  intros Hs. unfold rem_node_request.
  set (w1 := set_bfd_wait_list _ w).
  assert (H1 : lookup_session w1 sp = Some s) by exact Hs.
  destruct (requests w1 !! r ≫= req_session) as [sp'|].
  - destruct (decide (sp' = sp)) as [->|Hne].
    + rewrite lookup_session_upd_session, H1. cbn. eexists. split; [done|]. now right.
    + rewrite lookup_session_upd_other by done. rewrite H1.
      exists (request_list s). split; [|now left]. now destruct s.
  - rewrite H1. exists (request_list s). split; [|now left]. now destruct s.
Qed.

Lemma lookup_session_notify_kept w r state remote diag req sp :
  requests w !! r = Some req -> releases (req_hook req) = false ->
  lookup_session (bfd_request_notify w r state remote diag) sp = lookup_session w sp /\
  exists q, requests (bfd_request_notify w r state remote diag) !! r = Some q /\
            req_session q = req_session req /\ req_state q = state /\
            req_hook q = req_hook req.
Proof.
  intros Hr Hh. rewrite (request_notify_unfold _ _ _ _ _ _ Hr).
  destruct (state =? req_state req) eqn:E.
  { apply Z.eqb_eq in E. split; [done|]. exists req. done. }
  cbv zeta. destruct (req_hook req) as [[]|] eqn:Eh; try done; cbn [run_hook].
  - split; [done|]. exists (notified req state remote diag). cbn.
    rewrite lookup_alter_eq, Hr. done.
  - split; [done|]. exists (notified req state remote diag). cbn.
    rewrite lookup_alter_eq, Hr. done.
Qed.

(** What [bfd_add_request] does once it has its session [sp]. *)
Lemma add_request_attach w r req sp s0 :
  requests w !! r = Some req -> releases (req_hook req) = false ->
  lookup_session w sp = Some s0 ->
  let w1 := rem_node_request w r in
  let w2 := upd_session sp (fun s => set_request_list (request_list s ++ [r]) s) w1 in
  let w3 := upd_request r (set_req_session (Some sp)) w2 in
  let w4 := bfd_request_notify w3 r (loc_state s0) (rem_state s0) (loc_diag s0) in
  exists l q,
    lookup_session w3 sp = Some (set_request_list (l ++ [r]) s0) /\
    lookup_session w4 sp = Some (set_request_list (l ++ [r]) s0) /\
    (l = request_list s0 \/ l = filter (.≠ r) (request_list s0)) /\
    requests w4 !! r = Some q /\ req_session q = Some sp /\
    req_state q = loc_state s0 /\ req_hook q = req_hook req.
Proof.
  intros Hr Hh Hs. cbv zeta.
  destruct (lookup_session_rem_node_any w r sp s0 Hs) as (l & H1 & Hl).
  set (w1 := rem_node_request w r) in *.
  assert (Hq1 : requests w1 = requests w) by apply requests_rem_node.
  clearbody w1.
  set (w2 := upd_session sp _ w1).
  assert (H2 : lookup_session w2 sp = Some (set_request_list (l ++ [r]) s0)).
  { subst w2. now rewrite lookup_session_upd_session, H1. }
  assert (Hq2 : requests w2 = requests w) by exact Hq1.
  clearbody w2.
  set (w3 := upd_request r _ w2).
  assert (H3 : lookup_session w3 sp = Some (set_request_list (l ++ [r]) s0))
    by exact H2.
  assert (Hq3 : requests w3 !! r = Some (set_req_session (Some sp) req)).
  { subst w3. cbn. now rewrite lookup_alter_eq, Hq2, Hr. }
  clearbody w3.
  destruct (lookup_session_notify_kept w3 r (loc_state s0) (rem_state s0)
              (loc_diag s0) _ sp Hq3 Hh) as (H4 & q & E4 & S4 & T4 & K4).
  exists l, q. rewrite H4. done.
Qed.

Lemma is_Some_lookup_upd_session w sp f sp' :
  is_Some (lookup_session (upd_session sp f w) sp') <->
  is_Some (lookup_session w sp').
Proof.
  destruct (decide (sp = sp')) as [->|Hne].
  - rewrite lookup_session_upd_session. apply fmap_is_Some.
  - now rewrite lookup_session_upd_other.
Qed.

Lemma is_Some_lookup_rem_node w r sp' :
  is_Some (lookup_session (rem_node_request w r) sp') <->
  is_Some (lookup_session w sp').
Proof.
  unfold rem_node_request. case_match; [|done].
  now rewrite is_Some_lookup_upd_session.
Qed.

Lemma find_by_addr_session w p pr a ifx s0 :
  protos w !! p = Some pr -> registry_ok pr ->
  bfd_find_session_by_addr pr a ifx = Some s0 ->
  lookup_session w (p, loc_id s0) = Some s0 /\ addr s0 = a /\ ifindex s0 = ifx.
Proof.
  intros Hp [R1 R2] Hf. unfold bfd_find_session_by_addr in Hf.
  destruct (session_hash_ip pr !! (a, ifx)) as [id0|] eqn:Ek; [|done].
  cbn in Hf. destruct (R2 _ _ Ek) as (s' & Es & Ea).
  rewrite Es in Hf. injection Hf as ->. destruct (R1 _ _ Es) as (El & _ & _).
  unfold lookup_session. cbn. rewrite Hp. cbn. rewrite El.
  injection Ea as Ea Ex. done.
Qed.

Lemma lookup_session_add_session w p pr a local i opts o :
  protos w !! p = Some pr ->
  Z.of_nat (size (session_hash_id pr)) + 2 <= 4294967296 ->
  let id := (bfd_add_session w p a local i opts o).1 in
  let w' := (bfd_add_session w p a local i opts o).2 in
  exists s,
    lookup_session w' (p, id) = Some s /\
    table_fields s =
      (id, a, match i with Some i => index i | None => 0 end, (local, i),
       (BFD_STATE_DOWN, BFD_STATE_DOWN, [], false, false)) /\
    lookup_session w (p, id) = None /\
    (forall sp, sp <> (p, id) -> lookup_session w' sp = lookup_session w sp) /\
    requests w' = requests w /\ hook_log w' = hook_log w /\
    bfd_wait_list w' = bfd_wait_list w /\ bfd_proto_list w' = bfd_proto_list w /\
    reconfigure_log w' = reconfigure_log w.
Proof.
  intros Hp Hsize. cbv zeta.
  rewrite (add_session_unfold _ _ _ _ _ _ _ _ Hp). cbv zeta. cbn [fst snd].
  destruct (session_hash_id_get_iface pr local i) as (Eid & _ & _).
  set (pr1 := bfd_get_iface pr local i) in *.
  set (ifx := match i with Some i => index i | None => 0 end).
  set (id := bfd_get_free_id pr1 (rnd_id o)).
  assert (Hfree : id_free pr1 id).
  { apply get_free_id_free. now rewrite Eid. }
  destruct Hfree as [_ Hnone]. rewrite Eid in Hnone.
  pose proof (session_new_fields a (local, i) ifx id
    (bfd_merge_options
       match find_iface pr1 (local, i) with
       | Some ifa => ifa_cf ifa
       | None => bfd_default_iface
       end opts) (u32 (rnd_csn o)) (now_of o)) as F.
  set (s := bfd_session_new _ _ _ _ _ _ _) in *. clearbody s id.
  exists s. unfold lookup_session. cbn [fst snd protos set_protos].
  rewrite lookup_insert_eq, Hp. cbn [mbind option_bind session_hash_id
    set_session_hash_ip set_session_hash_id].
  rewrite lookup_insert_eq. repeat (split; [done|]). split; [|done].
  intros [p' id'] Hne. cbn [fst snd].
  destruct (decide (p' = p)) as [->|Hpp].
  - rewrite lookup_insert_eq, Hp. cbn [mbind option_bind session_hash_id
      set_session_hash_ip set_session_hash_id].
    rewrite Eid. apply lookup_insert_ne. congruence.
  - now rewrite lookup_insert_ne.
Qed.

(** X11.  An engine that accepts a request attaches it to the session of
    the requested (address, ifindex): [bfd_add_request] returns 1, the
    request is last on the request list of that session, points to it and
    holds its local state.  If the engine had a session for the address the
    request joins it, the session is otherwise untouched and no session
    appears or disappears; if not, one new session is created in state Down
    under an unused discriminator, with the request alone on its list.
    This is stated for a request whose callback does not release it. *)
Theorem add_request_attaches w p pr r req o :
  protos w !! p = Some pr -> requests w !! r = Some req ->
  registry_ok pr ->
  Z.of_nat (size (session_hash_id pr)) + 2 <= 4294967296 ->
  request_acceptable pr req = true ->
  releases (req_hook req) = false ->
  let w' := (bfd_add_request w p r o).2 in
  exists id s q l,
    (bfd_add_request w p r o).1 = true /\
    lookup_session w' (p, id) = Some s /\
    (addr s, ifindex s, loc_id s) = (req_addr req, request_ifindex req, id) /\
    request_list s = l ++ [r] /\
    requests w' !! r = Some q /\
    req_session q = Some (p, id) /\ req_state q = loc_state s /\
    match bfd_find_session_by_addr pr (req_addr req) (request_ifindex req) with
    | Some s0 =>
        id = loc_id s0 /\ s = set_request_list (l ++ [r]) s0 /\
        forall sp, is_Some (lookup_session w' sp) <-> is_Some (lookup_session w sp)
    | None =>
        lookup_session w (p, id) = None /\ l = [] /\
        loc_state s = BFD_STATE_DOWN /\
        forall sp, is_Some (lookup_session w' sp) <->
                   sp = (p, id) \/ is_Some (lookup_session w sp)
    end.
Proof.
  intros Hp Hr Hreg Hsize Hacc Hh. cbv zeta.
  pose proof Hacc as Hacc0. unfold request_acceptable in Hacc.
  apply andb_true_iff in Hacc as [Hacc H3]. apply andb_true_iff in Hacc as [H1 H2].
  apply negb_true_iff in H1, H2, H3.
  destruct (bfd_find_session_by_addr pr (req_addr req) (request_ifindex req))
    as [s0|] eqn:Ef.
  - destruct (find_by_addr_session w p pr _ _ s0 Hp Hreg Ef) as (Hs & Ea & Ex).
    destruct (add_request_attach w r req (p, loc_id s0) s0 Hr Hh Hs)
      as (l & q & L3 & L4 & Hl & Q4 & S4 & T4 & K4).
    cbv zeta in L3, L4, Q4.
    set (w3 := upd_request r _ _) in *.
    assert (EW : bfd_add_request w p r o =
                 (true, bfd_request_notify w3 r (loc_state s0) (rem_state s0)
                          (loc_diag s0))).
    { unfold bfd_add_request. rewrite Hp, Hr, H1, H2, H3.
      fold (request_ifindex req). rewrite Ef. cbv beta iota zeta.
      exact (f_equal (fun x => match x with
                               | Some s => (true, bfd_request_notify w3 r (loc_state s)
                                                    (rem_state s) (loc_diag s))
                               | None => (true, w3)
                               end) L3). }
    rewrite EW. cbn [fst snd].
    exists (loc_id s0), (set_request_list (l ++ [r]) s0), q, l.
    rewrite L4, Q4. cbn. rewrite Ea, Ex.
    repeat (split; [done|]). intros sp.
    assert (E3 : requests w3 !! r = Some (set_req_session (Some (p, loc_id s0)) req)).
    { subst w3. cbn. now rewrite lookup_alter_eq, requests_rem_node, Hr. }
    destruct (lookup_session_notify_kept w3 r (loc_state s0) (rem_state s0)
                (loc_diag s0) _ sp E3 Hh) as [-> _].
    subst w3.
    change (lookup_session (upd_request ?a ?b ?c) sp) with (lookup_session c sp).
    now rewrite is_Some_lookup_upd_session, is_Some_lookup_rem_node.
  - destruct (lookup_session_add_session w p pr (req_addr req) (req_local req)
                (req_iface req) (req_opts req) o Hp Hsize)
      as (s0 & Hs & F & Hnew & Hoth & Eq & _).
    cbv zeta in Hs, Hnew, Hoth, Eq.
    destruct (bfd_add_session w p (req_addr req) (req_local req) (req_iface req)
                (req_opts req) o) as [id w1] eqn:Eadd.
    cbn [fst snd] in Hs, Hnew, Hoth, Eq.
    assert (Hr1 : requests w1 !! r = Some req) by now rewrite Eq.
    destruct (add_request_attach w1 r req (p, id) s0 Hr1 Hh Hs)
      as (l & q & L3 & L4 & Hl & Q4 & S4 & T4 & K4).
    cbv zeta in L3, L4, Q4.
    set (w3 := upd_request r _ _) in *.
    assert (EW : bfd_add_request w p r o =
                 (true, bfd_request_notify w3 r (loc_state s0) (rem_state s0)
                          (loc_diag s0))).
    { unfold bfd_add_request. rewrite Hp, Hr, H1, H2, H3.
      fold (request_ifindex req). rewrite Ef, Eadd. cbv beta iota zeta.
      exact (f_equal (fun x => match x with
                               | Some s => (true, bfd_request_notify w3 r (loc_state s)
                                                    (rem_state s) (loc_diag s))
                               | None => (true, w3)
                               end) L3). }
    rewrite EW. cbn [fst snd].
    unfold table_fields in F. injection F as Fi Fa Fx _ Fs _ Fl _ _.
    assert (El : l = []).
    { rewrite Fl in Hl. destruct Hl as [->| ->]; done. }
    exists id, (set_request_list (l ++ [r]) s0), q, l.
    rewrite L4, Q4. cbn. unfold request_ifindex. rewrite Fa, Fx, Fi.
    repeat (split; [done|]). intros sp.
    assert (E3 : requests w3 !! r = Some (set_req_session (Some (p, id)) req)).
    { subst w3. cbn. now rewrite lookup_alter_eq, requests_rem_node, Hr1. }
    destruct (lookup_session_notify_kept w3 r (loc_state s0) (rem_state s0)
                (loc_diag s0) _ sp E3 Hh) as [-> _].
    subst w3.
    change (lookup_session (upd_request ?a ?b ?c) sp) with (lookup_session c sp).
    rewrite is_Some_lookup_upd_session, is_Some_lookup_rem_node.
    destruct (decide (sp = (p, id))) as [->|Hne].
    + rewrite Hs. split; [by left | by eauto].
    + rewrite Hoth by done. split; [by right|]. intros [?|?]; done.
Qed.

Lemma add_request_attaches_witness :
  exists id s q l,
    (bfd_add_request world_request_pending 0 0 oracle_one).1 = true /\
    lookup_session (bfd_add_request world_request_pending 0 0 oracle_one).2
      (0%nat, id) = Some s /\
    request_list s = l ++ [0%nat] /\
    requests (bfd_add_request world_request_pending 0 0 oracle_one).2 !! 0%nat =
      Some q /\
    req_session q = Some (0%nat, id) /\ req_state q = loc_state s.
Proof.
  lookup_value (protos world_request_pending !! 0%nat) pr Hp.
  lookup_value (requests world_request_pending !! 0%nat) req Hr.
  match type of Hp with
  | _ = Some ?pr =>
      match type of Hr with
      | _ = Some ?req =>
          assert (Hreg : registry_ok pr) by (apply registry_ok_empty; reflexivity);
          assert (Hs : Z.of_nat (size (session_hash_id pr)) + 2 <= 4294967296)
            by (vm_compute; discriminate);
          destruct (add_request_attaches world_request_pending 0 pr 0 req oracle_one
                      Hp Hr Hreg Hs eq_refl eq_refl)
            as (id & s & q & l & A & B & _ & C & D & E & F & _)
      end
  end.
  exists id, s, q, l. done.
Defined.

Lemma cf_reconfigure s ifa_cf opts now :
  cf (bfd_session_reconfigure s ifa_cf opts now) = bfd_merge_options ifa_cf opts.
Proof.
  unfold bfd_session_reconfigure.
  set (s1 := set_cf _ s).
  set (tx := if loc_state s1 =? BFD_STATE_UP then _ else _).
  set (s2 := bfd_session_set_min_tx s1 tx now).
  set (s3 := bfd_session_set_min_rx s2 (sc_min_rx_int (cf s2)) now).
  pose proof (fsm_set_min_tx s1 tx now) as F2. fold s2 in F2.
  pose proof (fsm_set_min_rx s2 (sc_min_rx_int (cf s2)) now) as F3. fold s3 in F3.
  set (s5 := set_passive _ _).
  pose proof (fsm_control_tx_timer s5 0 now) as F5.
  assert (C5 : cf s5 = cf s3) by reflexivity.
  assert (C1 : cf s1 = bfd_merge_options ifa_cf opts) by reflexivity.
  clearbody s5 s3 s2 tx s1.
  unfold fsm_fields in F2, F3, F5.
  injection F2 as _ _ _ _ _ _ _ _ _ C2 _ _ _ _.
  injection F3 as _ _ _ _ _ _ _ _ _ C3 _ _ _ _.
  injection F5 as _ _ _ _ _ _ _ _ _ C6 _ _ _ _.
  now rewrite C6, C5, C3, C2, C1.
Qed.

(** X12.  [bfd_update_request] with options that differ from the stored
    ones stores them in the request and reconfigures the session with the
    options of the FIRST request of its list, merged over the configuration
    of its interface: the new options reach the session only when the
    updated request is the first one.  The session then aims at the
    parameters of the merged configuration. *)
Theorem update_request_follows_head w r q sp s h l qh pr b opts now :
  requests w !! r = Some q -> req_session q = Some sp -> opts <> req_opts q ->
  protos w !! sp.1 = Some pr -> session_hash_id pr !! sp.2 = Some s ->
  request_list s = h :: l -> requests w !! h = Some qh ->
  find_iface pr (ifa s) = Some b ->
  let w' := bfd_update_request w r opts now in
  let head_opts := if decide (h = r) then opts else req_opts qh in
  requests w' !! r = Some (set_req_opts opts q) /\
  lookup_session w' sp =
    Some (bfd_session_reconfigure s (ifa_cf b) head_opts now) /\
  exists s', lookup_session w' sp = Some s' /\
             cf s' = bfd_merge_options (ifa_cf b) head_opts /\
             follows_configuration s'.
Proof.
  intros Hr Hsp Hne Hp Hs Hl Hh Hb. cbv zeta.
  assert (EW : bfd_update_request w r opts now =
    upd_session sp
      (fun s => bfd_session_reconfigure s (ifa_cf b)
                  (if decide (h = r) then opts else req_opts qh) now)
      (set_reconfigure_log (sp :: reconfigure_log w)
         (upd_request r (set_req_opts opts) w))).
  { unfold bfd_update_request. rewrite Hr, Hsp.
    rewrite bool_decide_eq_false_2 by done.
    unfold bfd_reconfigure_session.
    cbn [protos set_reconfigure_log upd_request set_requests requests].
    rewrite Hp, Hs, Hl, Hb.
    destruct (decide (h = r)) as [->|Hhr].
    - rewrite lookup_alter_eq, Hr. reflexivity.
    - rewrite lookup_alter_ne, Hh by done. reflexivity. }
  rewrite EW. rewrite lookup_session_upd_session.
  assert (El : lookup_session
                 (set_reconfigure_log (sp :: reconfigure_log w)
                    (upd_request r (set_req_opts opts) w)) sp = Some s).
  { unfold lookup_session. cbn. rewrite Hp. exact Hs. }
  rewrite El. cbn [fmap option_fmap option_map].
  split; [cbn; now rewrite lookup_alter_eq, Hr|]. split; [done|].
  eexists. split; [done|]. split; [apply cf_reconfigure | apply follows_reconfigure].
Qed.

Lemma update_request_follows_head_witness :
  exists s',
    lookup_session (bfd_update_request world_two_requests 1 options_rx_20ms 3000)
      (0%nat, 5) = Some s' /\
    sc_min_rx_int (cf s') = BFD_DEFAULT_MIN_RX_INT /\
    (exists q, requests (bfd_update_request world_two_requests 1 options_rx_20ms 3000)
                 !! 1%nat = Some q /\ req_opts q = options_rx_20ms).
Proof.
  lookup_value (requests world_two_requests !! 1%nat) q Hq.
  lookup_value (requests world_two_requests !! 0%nat) qh Hh.
  lookup_value (protos world_two_requests !! 0%nat) pr Hp.
  match type of Hp with
  | _ = Some ?pr =>
      lookup_value (session_hash_id pr !! 5) s Hs;
      match type of Hs with
      | _ = Some ?s => lookup_value (find_iface pr (ifa s)) b Hb
      end
  end.
  match type of Hq with
  | _ = Some ?q =>
  match type of Hh with
  | _ = Some ?qh =>
  match type of Hp with
  | _ = Some ?pr =>
  match type of Hs with
  | _ = Some ?s =>
  match type of Hb with
  | _ = Some ?b =>
      destruct (update_request_follows_head world_two_requests 1 q (0%nat, 5) s
                  0%nat [1%nat] qh pr b options_rx_20ms 3000 Hq eq_refl
                  ltac:(discriminate) Hp Hs eq_refl Hh Hb)
        as (A & _ & s' & B & C & _)
  end end end end end.
  exists s'. split; [exact B|]. split.
  - rewrite C. reflexivity.
  - eexists. split; [exact A|]. reflexivity.
Defined.

(** ** The notifier *)

Lemma lookup_session_remove_other w sp sp' :
  sp' <> sp -> lookup_session (bfd_remove_session w sp') sp = lookup_session w sp.
Proof.
  intros Hne. destruct sp as [p id], sp' as [p' id'].
  destruct (protos w !! p') as [pr|] eqn:Ep.
  2:{ unfold bfd_remove_session. cbn [fst snd]. now rewrite Ep. }
  destruct (session_hash_id pr !! id') as [s|] eqn:Es.
  2:{ unfold bfd_remove_session. cbn [fst snd]. now rewrite Ep, Es. }
  rewrite (remove_session_unfold _ _ _ _ _ Ep Es). cbv zeta.
  set (pr1 := if n_linked s then _ else pr).
  assert (E1 : session_hash_id pr1 = session_hash_id pr).
  { subst pr1. now destruct (n_linked s). }
  destruct (session_hash_id_free_iface pr1 (ifa s)) as (Fid & _ & _).
  unfold lookup_session. cbn [fst snd protos set_protos].
  destruct (decide (p = p')) as [->|Hp].
  - rewrite lookup_insert_eq, Ep. cbn [mbind option_bind session_hash_id
      set_session_hash_ip set_session_hash_id].
    rewrite Fid, E1. apply lookup_delete_ne. congruence.
  - now rewrite lookup_insert_ne.
Qed.

Lemma lookup_session_remove_cases w sp sp' :
  lookup_session (bfd_remove_session w sp') sp = None \/
  lookup_session (bfd_remove_session w sp') sp = lookup_session w sp.
Proof.
  destruct (decide (sp' = sp)) as [->|Hne].
  - destruct (lookup_session w sp) as [s|] eqn:E.
    + left. now apply (lookup_session_remove_session _ _ s).
    + right. unfold bfd_remove_session. unfold lookup_session in E.
      destruct (protos w !! sp.1) as [pr|] eqn:Ep.
      * cbn in E. rewrite E. unfold lookup_session. rewrite Ep. exact E.
      * unfold lookup_session. now rewrite Ep.
  - right. now apply lookup_session_remove_other.
Qed.

Lemma lookup_session_rem_node_cases w r sp :
  lookup_session (rem_node_request w r) sp = lookup_session w sp \/
  (requests w !! r ≫= req_session = Some sp /\
   lookup_session (rem_node_request w r) sp =
   (fun s => set_request_list (filter (.≠ r) (request_list s)) s) <$>
     lookup_session w sp).
Proof.
  destruct (requests w !! r ≫= req_session) as [sp'|] eqn:E.
  - destruct (decide (sp' = sp)) as [->|Hne].
    + right. split; [done|]. now apply lookup_session_rem_node.
    + left. rewrite (rem_node_unfold _ _ _ E).
      now rewrite lookup_session_upd_other.
  - left. now rewrite protos_rem_node_free.
Qed.

(** A property of sessions that does not depend on the request list holds
    of the session [sp], if it is there, whatever the broker does to
    requests. *)
Section session_property.
Variable P : bfd_session -> Prop.
Hypothesis P_list : forall l s, P s -> P (set_request_list l s).
Variable sp : session_ptr.

Lemma holds_rem_node w r : holds P sp w -> holds P sp (rem_node_request w r).
Proof.
  intros H s. destruct (lookup_session_rem_node_cases w r sp) as [->|[_ ->]].
  - apply H.
  - destruct (lookup_session w sp) as [s0|] eqn:E; [|done].
    cbn. intros [= <-]. apply P_list, H. done.
Qed.

Lemma holds_remove_session w sp' : holds P sp w -> holds P sp (bfd_remove_session w sp').
Proof.
  intros H s. destruct (lookup_session_remove_cases w sp sp') as [->| ->];
    [done | apply H].
Qed.

Lemma holds_rfree w r : holds P sp w -> holds P sp (rfree_request w r).
Proof.
  intros H. unfold rfree_request.
  assert (H1 : holds P sp (bfd_request_free w r)).
  { unfold bfd_request_free. destruct (requests w !! r) as [req|]; [|done].
    pose proof (holds_rem_node w r H) as H1.
    destruct (req_session req) as [sp'|]; [|done].
    destruct (lookup_session (rem_node_request w r) sp') as [s'|]; [|done].
    case_match; [now apply holds_remove_session | done]. }
  exact H1.
Qed.

Lemma holds_notify w r state remote diag :
  holds P sp w -> holds P sp (bfd_request_notify w r state remote diag).
Proof.
  intros H.
  destruct (notify_cases state remote diag w r)
    as [->|(q' & lg & _ & [->|[->| ->]])]; [done|done|done|].
  now apply holds_rfree.
Qed.

Lemma holds_notify_all l w state remote diag :
  holds P sp w ->
  holds P sp (foldl (fun w r => bfd_request_notify w r state remote diag) w l).
Proof.
  revert w. induction l as [|r l IH]; intros w H; [done|].
  cbn. now apply IH, holds_notify.
Qed.

End session_property.

Section delivery.
Context (state remote diag : Z).
Let N := fun w r => bfd_request_notify w r state remote diag.

Lemma delivered_notify_self w r : delivered state r (N w r).
Proof.
  unfold N, delivered. destruct (requests w !! r) as [req|] eqn:E.
  - rewrite (request_notify_unfold _ _ _ _ _ _ E).
    destruct (state =? req_state req) eqn:Es.
    { apply Z.eqb_eq in Es. intros q. rewrite E. now intros [= <-]. }
    cbv zeta. destruct (req_hook req) as [[]|]; cbn [run_hook].
    + intros q. cbn. rewrite lookup_alter_eq, E. now intros [= <-].
    + intros q. rewrite requests_rfree, lookup_delete_eq. done.
    + intros q. cbn. rewrite lookup_alter_eq, E. now intros [= <-].
  - unfold bfd_request_notify. rewrite E. intros q. now rewrite E.
Qed.

Lemma delivered_notify_keep w r r' :
  delivered state r w -> delivered state r (N w r').
Proof.
  intros H. destruct (decide (r' = r)) as [->|Hne].
  - apply delivered_notify_self.
  - unfold delivered, N. now rewrite requests_notify_other.
Qed.

Lemma delivered_notify_all l w r :
  (r ∈ l \/ delivered state r w) -> delivered state r (foldl N w l).
Proof.
  revert w. induction l as [|r0 l IH]; intros w H; cbn.
  - destruct H as [H|H]; [by apply elem_of_nil in H | done].
  - apply IH. destruct H as [H|H].
    + apply elem_of_cons in H as [->|H]; [right; apply delivered_notify_self | by left].
    + right. now apply delivered_notify_keep.
Qed.

(** A request whose callback does not release it survives the notifier
    with its callback and its session. *)
Lemma kept_notify_all l w r q :
  requests w !! r = Some q -> releases (req_hook q) = false ->
  exists q', requests (foldl N w l) !! r = Some q' /\
             req_hook q' = req_hook q /\ req_session q' = req_session q.
Proof.
  revert w q. induction l as [|r0 l IH]; intros w q Hr Hh; cbn; [by exists q|].
  assert (H1 : exists q1, requests (N w r0) !! r = Some q1 /\
                          req_hook q1 = req_hook q /\ req_session q1 = req_session q).
  { destruct (decide (r0 = r)) as [->|Hne].
    - destruct (lookup_session_notify_kept w r state remote diag q (0%nat, 0) Hr Hh)
        as (_ & q1 & E1 & S1 & _ & K1).
      exists q1. done.
    - exists q. unfold N. now rewrite requests_notify_other. }
  destruct H1 as (q1 & E1 & K1 & S1).
  destruct (IH _ q1 E1 ltac:(now rewrite K1)) as (q' & E' & K' & S').
  exists q'. split; [done|]. split; congruence.
Qed.

Lemma served_rfree sp w r :
  holds served sp w -> holds served sp (rfree_request w r).
Proof.
  intros H. unfold rfree_request.
  assert (H1 : holds served sp (bfd_request_free w r)); [|exact H1].
  unfold bfd_request_free. destruct (requests w !! r) as [req|] eqn:Er; [|done].
  destruct (req_session req) as [sp_r|] eqn:Es.
  2:{ rewrite protos_rem_node_free by now rewrite Er. exact H. }
  assert (E : requests w !! r ≫= req_session = Some sp_r) by now rewrite Er.
  destruct (decide (sp_r = sp)) as [->|Hne].
  - rewrite (lookup_session_rem_node _ _ _ E).
    destruct (lookup_session w sp) as [s0|] eqn:E0; cbn [fmap option_fmap option_map].
    + destruct (H s0 E0) as (Hn & Hrun & _).
      cbn [request_list notify_running set_request_list]. rewrite Hrun.
      cbn [negb]. rewrite andb_true_r. case_bool_decide as Hl.
      * intros s. erewrite lookup_session_remove_session; [done|].
        rewrite (lookup_session_rem_node _ _ _ E), E0. reflexivity.
      * intros s. rewrite (lookup_session_rem_node _ _ _ E), E0. cbn.
        intros [= <-]. done.
    + intros s. now rewrite (lookup_session_rem_node _ _ _ E), E0.
  - assert (E1 : lookup_session (rem_node_request w r) sp = lookup_session w sp).
    { rewrite (rem_node_unfold _ _ _ E). now rewrite lookup_session_upd_other. }
    destruct (lookup_session (rem_node_request w r) sp_r) as [s'|].
    + case_match.
      * intros s. rewrite lookup_session_remove_other by done. rewrite E1. apply H.
      * intros s. rewrite E1. apply H.
    + intros s. rewrite E1. apply H.
Qed.

Lemma served_notify_all sp l w :
  holds served sp w -> holds served sp (foldl N w l).
Proof.
  revert w. induction l as [|r l IH]; intros w H; [done|]. cbn. apply IH.
  unfold N. destruct (notify_cases state remote diag w r)
    as [->|(q' & lg & _ & [->|[->| ->]])]; [done|done|done|].
  now apply served_rfree.
Qed.

End delivery.

Lemma served_list l s : n_linked s = false -> n_linked (set_request_list l s) = false.
Proof. done. Qed.

(** How [bfd_notify_session] leaves the session it served. *)
Lemma notify_session_served w p id : holds served (p, id) (bfd_notify_session w p id).
Proof.
  unfold bfd_notify_session.
  destruct (lookup_session w (p, id)) as [s|] eqn:Es.
  2:{ intros s. now rewrite Es. }
  set (w1 := upd_session (p, id) (set_notify_running true) _).
  assert (H1 : holds (fun s => n_linked s = false) (p, id) w1).
  { subst w1. intros s1. rewrite !lookup_session_upd_session, Es. cbn.
    now intros [= <-]. }
  clearbody w1.
  pose proof (holds_notify_all _ served_list (p, id) (request_list s) w1
                (loc_state s) (rem_state s) (loc_diag s) H1) as H2.
  set (w2 := foldl _ w1 (request_list s)) in *. clearbody w2.
  rewrite lookup_session_upd_session.
  destruct (lookup_session w2 (p, id)) as [s2|] eqn:E2; cbn [fmap option_fmap option_map].
  - pose proof (H2 s2 E2) as Hn. cbn [request_list set_notify_running].
    case_bool_decide as Hl.
    + intros s'. erewrite lookup_session_remove_session; [done|].
      now rewrite lookup_session_upd_session, E2.
    + intros s'. rewrite lookup_session_upd_session, E2. cbn. intros [= <-].
      done.
  - intros s'. now rewrite lookup_session_upd_session, E2.
Qed.

Lemma notify_session_served_other w p id sp :
  sp <> (p, id) -> holds served sp w -> holds served sp (bfd_notify_session w p id).
Proof.
  intros Hne H. unfold bfd_notify_session.
  destruct (lookup_session w (p, id)) as [s|] eqn:Es; [|done].
  set (w1 := upd_session (p, id) (set_notify_running true) _).
  assert (H1 : holds served sp w1).
  { subst w1. intros s1. rewrite !lookup_session_upd_other by done. apply H. }
  clearbody w1.
  pose proof (served_notify_all (loc_state s) (rem_state s) (loc_diag s) sp
                (request_list s) w1 H1) as H2.
  set (w2 := foldl _ w1 (request_list s)) in *. clearbody w2.
  assert (H3 : holds served sp (upd_session (p, id) (set_notify_running false) w2)).
  { intros s3. rewrite lookup_session_upd_other by done. apply H2. }
  set (w3 := upd_session (p, id) (set_notify_running false) w2) in *. clearbody w3.
  destruct (lookup_session w3 (p, id)) as [s'|]; [|done].
  case_match; [|done].
  intros s4. rewrite lookup_session_remove_other by done. apply H3.
Qed.

(** X13.  One pass of the notifier over a session: every request that was
    on the list of the session and is still alive holds the local state the
    session had when the pass began; a request whose callback does not
    release it is kept, on the same session and with the same callback; and
    the session, if it survives, is neither linked on the notify list nor
    marked as being notified, and has a request left. *)
Theorem notify_session_delivers w p id s :
  lookup_session w (p, id) = Some s ->
  let w' := bfd_notify_session w p id in
  (forall r, r ∈ request_list s -> delivered (loc_state s) r w') /\
  (forall r q, r ∈ request_list s -> requests w !! r = Some q ->
     releases (req_hook q) = false ->
     exists q', requests w' !! r = Some q' /\ req_state q' = loc_state s /\
                req_hook q' = req_hook q /\ req_session q' = req_session q) /\
  holds served (p, id) w'.
Proof.
  intros Hs. cbv zeta.
  assert (D : forall r, r ∈ request_list s ->
                delivered (loc_state s) r (bfd_notify_session w p id)).
  { intros r Hin. unfold bfd_notify_session. rewrite Hs.
    set (w1 := upd_session (p, id) (set_notify_running true) _).
    pose proof (delivered_notify_all (loc_state s) (rem_state s) (loc_diag s)
                  (request_list s) w1 r (or_introl Hin)) as H2.
    set (w2 := foldl _ w1 (request_list s)) in *. clearbody w2.
    destruct (lookup_session (upd_session (p, id) (set_notify_running false) w2)
                (p, id)) as [s'|]; [|exact H2].
    case_match; [|exact H2].
    unfold delivered. rewrite requests_remove_session. exact H2. }
  split; [exact D|]. split; [|apply notify_session_served].
  intros r q Hin Hr Hh. specialize (D r Hin). revert D.
  unfold bfd_notify_session. rewrite Hs.
  set (w1 := upd_session (p, id) (set_notify_running true) _).
  assert (Hr1 : requests w1 !! r = Some q) by exact Hr.
  destruct (kept_notify_all (loc_state s) (rem_state s) (loc_diag s)
              (request_list s) w1 r q Hr1 Hh) as (q' & E' & K' & S').
  set (w2 := foldl _ w1 (request_list s)) in *. clearbody w2.
  assert (T : forall w3, requests w3 = requests w2 -> delivered (loc_state s) r w3 ->
    exists q'0, requests w3 !! r = Some q'0 /\ req_state q'0 = loc_state s /\
                req_hook q'0 = req_hook q /\ req_session q'0 = req_session q).
  { intros w3 E3 D. exists q'. rewrite E3. split; [done|]. split; [|done].
    apply D. now rewrite E3. }
  destruct (lookup_session (upd_session (p, id) (set_notify_running false) w2)
              (p, id)) as [s'|]; [|now apply T].
  case_match; [|now apply T].
  apply T. now rewrite requests_remove_session.
Qed.

Lemma notify_session_delivers_witness :
  (exists q, requests (bfd_notify_session world_two_requests_init 0 5) !! 1%nat =
             Some q /\ req_state q = BFD_STATE_INIT) /\
  holds served (0%nat, 5) (bfd_notify_session world_two_requests_init 0 5).
Proof.
  lookup_value (lookup_session world_two_requests_init (0%nat, 5)) s Hs.
  lookup_value (requests world_two_requests_init !! 1%nat) q Hq.
  match type of Hs with
  | _ = Some ?s =>
      match type of Hq with
      | _ = Some ?q =>
          destruct (notify_session_delivers world_two_requests_init 0 5 s Hs)
            as (_ & A & B);
          destruct (A 1%nat q ltac:(vm_compute; repeat constructor) Hq eq_refl)
            as (q' & E & F & _)
      end
  end.
  split; [|exact B]. exists q'. split; [exact E | exact F].
Defined.

Lemma drained_upd_session p w sp f :
  notify_drained p w -> notify_drained p (upd_session sp f w).
Proof.
  intros (pr & E & H). unfold notify_drained, upd_session, upd_proto. cbn.
  destruct (decide (sp.1 = p)) as [->|Hne].
  - rewrite lookup_alter_eq, E. cbn. eexists. split; [reflexivity|]. exact H.
  - rewrite lookup_alter_ne by done. eauto.
Qed.

Lemma drained_rem_node p w r :
  notify_drained p w -> notify_drained p (rem_node_request w r).
Proof.
  intros H. unfold rem_node_request. case_match; [|exact H].
  now apply drained_upd_session.
Qed.

Lemma drained_remove_session p w sp :
  notify_drained p w -> notify_drained p (bfd_remove_session w sp).
Proof.
  intros (pr & E & H). destruct sp as [p' id].
  destruct (protos w !! p') as [pr'|] eqn:Ep.
  2:{ unfold bfd_remove_session. cbn [fst snd]. rewrite Ep. by exists pr. }
  destruct (session_hash_id pr' !! id) as [s|] eqn:Es.
  2:{ unfold bfd_remove_session. cbn [fst snd]. rewrite Ep, Es. by exists pr. }
  rewrite (remove_session_unfold _ _ _ _ _ Ep Es). cbv zeta.
  unfold notify_drained. cbn [protos set_protos].
  destruct (decide (p' = p)) as [->|Hne].
  - rewrite lookup_insert_eq. eexists. split; [reflexivity|].
    cbn [notify_list set_session_hash_ip set_session_hash_id].
    destruct (session_hash_id_free_iface
                (if n_linked s
                 then set_notify_list
                        (List.filter (fun id' => negb (id' =? id)) (notify_list pr')) pr'
                 else pr') (ifa s)) as (_ & _ & ->).
    assert (pr' = pr) as -> by congruence.
    destruct (n_linked s); cbn; now rewrite H.
  - rewrite lookup_insert_ne by done. eauto.
Qed.

Lemma drained_rfree p w r :
  notify_drained p w -> notify_drained p (rfree_request w r).
Proof.
  intros H. unfold rfree_request.
  assert (H1 : notify_drained p (bfd_request_free w r)); [|exact H1].
  unfold bfd_request_free. destruct (requests w !! r) as [req|]; [|done].
  pose proof (drained_rem_node p w r H) as H1.
  destruct (req_session req) as [sp|]; [|done].
  destruct (lookup_session (rem_node_request w r) sp); [|done].
  case_match; [now apply drained_remove_session | done].
Qed.

Lemma drained_notify_all p l w state remote diag :
  notify_drained p w ->
  notify_drained p (foldl (fun w r => bfd_request_notify w r state remote diag) w l).
Proof.
  revert w. induction l as [|r l IH]; intros w H; [done|]. cbn. apply IH.
  destruct (notify_cases state remote diag w r)
    as [->|(q' & lg & _ & [->|[->| ->]])]; [done|done|done|].
  now apply drained_rfree.
Qed.

Lemma drained_notify_session p w p' id :
  notify_drained p w -> notify_drained p (bfd_notify_session w p' id).
Proof.
  intros H. unfold bfd_notify_session.
  destruct (lookup_session w (p', id)) as [s|]; [|done].
  set (w3 := upd_session (p', id) (set_notify_running false) _).
  assert (H3 : notify_drained p w3).
  { subst w3. apply drained_upd_session, drained_notify_all.
    now do 2 apply drained_upd_session. }
  clearbody w3. destruct (lookup_session w3 (p', id)); [|done].
  case_match; [now apply drained_remove_session | done].
Qed.

(** X14.  [bfd_notify_hook] takes the whole notify list of the engine and
    leaves it empty, and every session that was on it and survives is
    unlinked, not marked as being notified, and still requested: the
    releases made by the callbacks neither leave a session behind without
    requests nor put one back on the list. *)
Theorem notify_hook_drains w p pr :
  protos w !! p = Some pr ->
  let w' := bfd_notify_hook w p in
  notify_drained p w' /\
  forall id, id ∈ notify_list pr -> holds served (p, id) w'.
Proof.
  intros Hp. cbv zeta. unfold bfd_notify_hook. rewrite Hp.
  set (w0 := upd_proto p (set_notify_list []) w).
  assert (H0 : notify_drained p w0).
  { subst w0. unfold notify_drained, upd_proto. cbn.
    rewrite lookup_alter_eq, Hp. cbn. eexists. split; reflexivity. }
  clearbody w0.
  assert (G : forall l w1, notify_drained p w1 ->
            notify_drained p (foldl (fun w id => bfd_notify_session w p id) w1 l) /\
            forall id, (id ∈ l \/ holds served (p, id) w1) ->
              holds served (p, id) (foldl (fun w id => bfd_notify_session w p id) w1 l)).
  { induction l as [|id0 l IH]; intros w1 H1; cbn.
    - split; [done|]. intros id [H|H]; [by apply elem_of_nil in H | done].
    - destruct (IH (bfd_notify_session w1 p id0)
                  (drained_notify_session p w1 p id0 H1)) as [IH1 IH2].
      split; [exact IH1|]. intros id H. apply IH2.
      destruct (decide (id = id0)) as [->|Hne].
      + right. apply notify_session_served.
      + destruct H as [H|H].
        * apply elem_of_cons in H as [->|H]; [done | by left].
        * right. apply notify_session_served_other; [congruence | done]. }
  destruct (G (notify_list pr) w0 H0) as [G1 G2].
  split; [exact G1|]. intros id Hin. apply G2. now left.
Qed.

Lemma notify_hook_drains_witness :
  notify_drained 0 (bfd_notify_hook world_two_requests_init 0) /\
  holds served (0%nat, 5) (bfd_notify_hook world_two_requests_init 0).
Proof.
  lookup_value (protos world_two_requests_init !! 0%nat) pr Hp.
  match type of Hp with
  | _ = Some ?pr =>
      destruct (notify_hook_drains world_two_requests_init 0 pr Hp) as [A B];
      exact (conj A (B 5 ltac:(vm_compute; repeat constructor)))
  end.
Defined.

(** ** A request submitted and released *)

Lemma world_ext w w' :
  protos w = protos w' -> bfd_proto_list w = bfd_proto_list w' ->
  bfd_wait_list w = bfd_wait_list w' -> requests w = requests w' ->
  hook_log w = hook_log w' -> reconfigure_log w = reconfigure_log w' ->
  w = w'.
Proof. destruct w, w'. cbn. congruence. Qed.

Lemma proto_ext pr pr' :
  vrf_set pr = vrf_set pr' -> vrf pr = vrf pr' -> p_cf pr = p_cf pr' ->
  session_hash_id pr = session_hash_id pr' ->
  session_hash_ip pr = session_hash_ip pr' ->
  iface_list pr = iface_list pr' -> notify_list pr = notify_list pr' ->
  pr = pr'.
Proof. destruct pr, pr'. cbn. congruence. Qed.

Lemma upd_session_id w sp f :
  (forall s, lookup_session w sp = Some s -> f s = s) -> upd_session sp f w = w.
Proof.
  intros H. apply world_ext; try reflexivity.
  unfold upd_session, upd_proto. cbn. apply alter_id. intros pr Hp.
  apply proto_ext; try reflexivity. cbn. apply alter_id. intros s Hs.
  apply H. unfold lookup_session. rewrite Hp. exact Hs.
Qed.

Lemma filter_ne_id (r : nat) (l : list nat) : r ∉ l -> filter (.≠ r) l = l.
Proof.
  induction l as [|x l IH]; intros H; [done|].
  apply not_elem_of_cons in H as [Hne Hl].
  rewrite filter_cons_True by congruence. now rewrite IH.
Qed.

Lemma filter_ne_app_self (r : nat) (l : list nat) :
  filter (.≠ r) (l ++ [r]) = filter (.≠ r) l.
Proof.
  rewrite filter_app, filter_cons_False, filter_nil, app_nil_r; [done|].
  intros H. now apply H.
Qed.

(** What [bfd_get_iface] and [bfd_free_iface] change is the list of
    bindings. *)
Lemma get_iface_list pr local i :
  bfd_get_iface pr local i =
  set_iface_list (iface_list (bfd_get_iface pr local i)) pr.
Proof. unfold bfd_get_iface. now case_match. Qed.

Lemma free_iface_list pr k :
  bfd_free_iface pr k = set_iface_list (iface_list (bfd_free_iface pr k)) pr.
Proof.
  unfold bfd_free_iface. repeat case_match; try reflexivity. now destruct pr.
Qed.

Lemma alter_iface_inverse f g k l :
  (forall b, iface_key (f b) = iface_key b) -> (forall b, g (f b) = b) ->
  alter_iface g k (alter_iface f k l) = l.
Proof.
  intros Hk Hgf. induction l as [|b l IH]; cbn; [done|].
  destruct (iface_is k b) eqn:E; cbn.
  - rewrite (proj2 (iface_is_key k (f b))).
    + now rewrite Hgf.
    + rewrite Hk. now apply iface_is_key.
  - now rewrite E, IH.
Qed.

Lemma remove_iface_app_new k l b :
  List.find (iface_is k) l = None -> iface_key b = k ->
  remove_iface k (l ++ [b]) = l.
Proof.
  intros Hn Hb. induction l as [|c l IH]; cbn in *.
  - now rewrite (proj2 (iface_is_key k b) Hb).
  - destruct (iface_is k c); [done|]. now rewrite IH.
Qed.

(** A binding taken and given back leaves the bindings as they were. *)
Lemma get_free_iface pr pr2 local i :
  (forall b, find_iface pr (local, i) = Some b -> ifa_uc b <> 0) ->
  iface_list pr2 = iface_list (bfd_get_iface pr local i) ->
  iface_list (bfd_free_iface pr2 (local, i)) = iface_list pr.
Proof.
  intros Huc El. unfold bfd_free_iface, find_iface. rewrite El.
  unfold bfd_get_iface, find_iface in *.
  destruct (List.find (iface_is (local, i)) (iface_list pr)) as [b|] eqn:E.
  - cbn [iface_list set_iface_list]. rewrite find_alter_iface by done.
    rewrite decide_True by done. rewrite E. cbn [fmap option_fmap option_map].
    cbn [ifa_uc set_ifa_uc].
    replace (ifa_uc b + 1 - 1) with (ifa_uc b) by lia.
    unfold nz. specialize (Huc b eq_refl). apply Z.eqb_neq in Huc. rewrite Huc.
    cbn [negb iface_list set_iface_list].
    apply alter_iface_inverse; [done|]. intros [l0 i0 c0 u0 ch0]. cbn.
    unfold set_ifa_uc. cbn. f_equal. lia.
  - cbn [iface_list set_iface_list]. rewrite find_app_iface, E.
    rewrite (proj2 (iface_is_key (local, i)
               (mk_bfd_iface local i (bfd_find_iface_config (p_cf pr) i) 1 false)))
      by done.
    cbn [ifa_uc nz Z.sub Z.eqb negb Z.add Z.opp Z.pos_sub iface_list set_iface_list].
    now apply remove_iface_app_new.
Qed.

Lemma request_free_upd_request_same w r f :
  (forall q, req_session (f q) = req_session q) ->
  bfd_request_free (upd_request r f w) r = upd_request r f (bfd_request_free w r).
Proof.
  intros Hf. unfold bfd_request_free.
  change (requests (upd_request r f w)) with (alter f r (requests w)).
  rewrite lookup_alter_eq.
  destruct (requests w !! r) as [q|]; cbn [fmap option_fmap option_map]; [|done].
  rewrite Hf, (rem_node_upd_request r f Hf).
  destruct (req_session q) as [sp|]; [|done].
  change (lookup_session (upd_request r f (rem_node_request w r)) sp)
    with (lookup_session (rem_node_request w r) sp).
  destruct (lookup_session (rem_node_request w r) sp) as [s'|]; [|done].
  case_match; [|done]. now rewrite (remove_session_upd_request r f).
Qed.

Lemma rfree_upd_request_same w r f :
  (forall q, req_session (f q) = req_session q) ->
  rfree_request (upd_request r f w) r = rfree_request w r.
Proof.
  intros Hf. unfold rfree_request.
  rewrite (request_free_upd_request_same _ _ _ Hf).
  world_eq. apply delete_alter_eq.
Qed.

Lemma rfree_notify_hookless w r q state remote diag :
  requests w !! r = Some q -> req_hook q = None ->
  rfree_request (bfd_request_notify w r state remote diag) r = rfree_request w r.
Proof.
  intros Hr Hh. rewrite (request_notify_unfold _ _ _ _ _ _ Hr), Hh.
  case_match; [done|]. cbv zeta. now apply rfree_upd_request_same.
Qed.

Lemma rfree_waiting w r q :
  requests w !! r = Some q -> req_session q = None ->
  rfree_request w r =
  set_requests (delete r (requests w))
    (set_bfd_wait_list (filter (.≠ r) (bfd_wait_list w)) w).
Proof.
  intros Hr Hs. unfold rfree_request, bfd_request_free. rewrite Hr, Hs.
  rewrite protos_rem_node_free by (rewrite Hr; exact Hs). reflexivity.
Qed.

Lemma rfree_attached w r q sp s :
  requests w !! r = Some q -> req_session q = Some sp ->
  lookup_session w sp = Some s ->
  let w1 := upd_session sp
              (fun s => set_request_list (filter (.≠ r) (request_list s)) s)
              (set_bfd_wait_list (filter (.≠ r) (bfd_wait_list w)) w) in
  rfree_request w r =
  set_requests (delete r (requests w))
    (if bool_decide (filter (.≠ r) (request_list s) = []) && negb (notify_running s)
     then bfd_remove_session w1 sp else w1).
Proof.
  intros Hr Hs Hl. cbv zeta. unfold rfree_request, bfd_request_free.
  rewrite Hr, Hs.
  assert (E : requests w !! r ≫= req_session = Some sp) by (rewrite Hr; exact Hs).
  rewrite (lookup_session_rem_node _ _ _ E), Hl.
  cbn [fmap option_fmap option_map request_list notify_running set_request_list].
  rewrite (rem_node_unfold _ _ _ E).
  case_match; [|reflexivity].
  now rewrite requests_remove_session.
Qed.

(** What [bfd_add_request] makes of a request the engine accepts, when the
    address has a session and when it has none. *)
Lemma add_request_unfold w p pr r req o :
  protos w !! p = Some pr -> requests w !! r = Some req ->
  request_acceptable pr req = true ->
  let found := bfd_find_session_by_addr pr (req_addr req) (request_ifindex req) in
  let added := bfd_add_session w p (req_addr req) (req_local req) (req_iface req)
                 (req_opts req) o in
  let id := match found with Some s => loc_id s | None => added.1 end in
  let w0 := match found with Some _ => w | None => added.2 end in
  let w3 := upd_request r (set_req_session (Some (p, id)))
              (upd_session (p, id)
                 (fun s => set_request_list (request_list s ++ [r]) s)
                 (rem_node_request w0 r)) in
  bfd_add_request w p r o =
  match lookup_session w3 (p, id) with
  | Some s => (true, bfd_request_notify w3 r (loc_state s) (rem_state s) (loc_diag s))
  | None => (true, w3)
  end.
Proof.
  intros Hp Hr Hacc. cbv zeta. unfold request_acceptable in Hacc.
  apply andb_true_iff in Hacc as [Hacc H3]. apply andb_true_iff in Hacc as [H1 H2].
  apply negb_true_iff in H1, H2, H3.
  unfold bfd_add_request. rewrite Hp, Hr, H1, H2, H3.
  fold (request_ifindex req).
  destruct (bfd_find_session_by_addr pr (req_addr req) (request_ifindex req)).
  - reflexivity.
  - now destruct (bfd_add_session w p _ _ _ _ o).
Qed.

Lemma set_bfd_wait_list_same w : set_bfd_wait_list (bfd_wait_list w) w = w.
Proof. now destruct w. Qed.

Lemma frames_remove_session w sp :
  bfd_proto_list (bfd_remove_session w sp) = bfd_proto_list w /\
  bfd_wait_list (bfd_remove_session w sp) = bfd_wait_list w /\
  reconfigure_log (bfd_remove_session w sp) = reconfigure_log w.
Proof. unfold bfd_remove_session. repeat case_match; done. Qed.

Lemma ifaces_ok_uc pr k b :
  ifaces_ok pr -> find_iface pr k = Some b -> ifa_uc b <> 0.
Proof.
  intros [_ H] E. specialize (H k). rewrite E in H. cbn in H.
  destruct (decide (sessions_on pr k = 0%nat)); [done|].
  injection H as ->. lia.
Qed.

(** The release of a request right after an engine accepted it undoes the
    acceptance: the session made for it is removed again, a session it
    joined is left as it was. *)
Lemma add_request_release w r q0 p o :
  broker_ok w -> requests w !! r = None ->
  req_session q0 = None -> req_hook q0 = None ->
  (bfd_add_request (set_requests (<[r := q0]> (requests w)) w) p r o).1 = true ->
  rfree_request
    (bfd_add_request (set_requests (<[r := q0]> (requests w)) w) p r o).2 r = w.
Proof.
  intros (Heng & Hwl & Hses) Hfresh Hs0 Hh0.
  set (w5 := set_requests (<[r := q0]> (requests w)) w).
  assert (Hr5 : requests w5 !! r = Some q0) by apply lookup_insert_eq.
  assert (Hnw : r ∉ bfd_wait_list w).
  { intros Hin. destruct (Hwl r Hin) as [q Hq]. congruence. }
  rewrite add_request_accepted, Hr5.
  destruct (protos w5 !! p) as [pr|] eqn:Hp; [|done]. intros Hacc.
  destruct (Heng p pr Hp) as (Hreg & Hifa & Hsize).
  rewrite (add_request_unfold w5 p pr r q0 o Hp Hr5 Hacc). cbv zeta.
  assert (Erem : forall W, requests W = requests w5 ->
            rem_node_request W r =
            set_bfd_wait_list (filter (.≠ r) (bfd_wait_list W)) W).
  { intros W EW. apply protos_rem_node_free. rewrite EW, Hr5. exact Hs0. }
  destruct (bfd_find_session_by_addr pr (req_addr q0) (request_ifindex q0))
    as [s0|] eqn:Ef.
  - (* the address has a session *)
    destruct (find_by_addr_session w p pr _ _ s0 Hp Hreg Ef) as (Hs & _ & _).
    set (sp := (p, loc_id s0)) in *.
    destruct (Hses sp s0 Hs) as [Hne Hall].
    assert (Hnl : r ∉ request_list s0).
    { intros Hin. destruct (Hall r Hin) as [q Hq]. congruence. }
    rewrite (Erem w5 eq_refl).
    change (bfd_wait_list w5) with (bfd_wait_list w).
    rewrite (filter_ne_id _ _ Hnw).
    change (set_bfd_wait_list (bfd_wait_list w) w5) with w5.
    set (w3 := upd_request r _ (upd_session sp _ w5)).
    assert (L3 : lookup_session w3 sp =
                 Some (set_request_list (request_list s0 ++ [r]) s0)).
    { subst w3.
      change (lookup_session (upd_request ?a ?b ?c) sp) with (lookup_session c sp).
      rewrite lookup_session_upd_session.
      change (lookup_session w5 sp) with (lookup_session w sp). now rewrite Hs. }
    assert (Q3 : requests w3 !! r = Some (set_req_session (Some sp) q0)).
    { subst w3. cbn. now rewrite lookup_alter_eq, lookup_insert_eq. }
    rewrite L3. cbn [snd].
    rewrite (rfree_notify_hookless _ _ _ _ _ _ Q3 Hh0).
    rewrite (rfree_attached w3 r _ sp _ Q3 eq_refl L3). cbv zeta.
    cbn [request_list set_request_list].
    rewrite filter_ne_app_self, (filter_ne_id _ _ Hnl).
    rewrite bool_decide_eq_false_2 by done. cbn [andb].
    apply world_ext; try reflexivity.
    + change (protos
                (upd_session sp
                   (fun s => set_request_list (filter (.≠ r) (request_list s)) s)
                   (upd_session sp
                      (fun s => set_request_list (request_list s ++ [r]) s) w)) =
              protos w).
      rewrite upd_session_twice, upd_session_id; [done|].
      intros s. rewrite Hs. intros [= <-]. cbn.
      rewrite filter_ne_app_self, (filter_ne_id _ _ Hnl). now destruct s0.
    + cbn. now apply filter_ne_id.
    + cbn. rewrite delete_alter_eq, delete_insert_eq. now apply delete_id.
  - (* the engine makes a session *)
    destruct (lookup_session_add_session w5 p pr (req_addr q0) (req_local q0)
                (req_iface q0) (req_opts q0) o Hp Hsize)
      as (s1 & Hs1 & F1 & Hnew & _ & Eq1 & Eh1 & Ew1 & Ep1 & El1).
    pose proof (add_session_unfold w5 p pr (req_addr q0) (req_local q0)
                  (req_iface q0) (req_opts q0) o Hp) as EA.
    cbv zeta in Hs1, F1, Hnew, Eq1, Eh1, Ew1, Ep1, El1, EA.
    destruct (bfd_add_session w5 p (req_addr q0) (req_local q0) (req_iface q0)
                (req_opts q0) o) as [id w1] eqn:Eadd.
    cbn [fst snd] in *. set (sp := (p, id)) in *.
    assert (Ew : bfd_wait_list w1 = bfd_wait_list w) by exact Ew1.
    rewrite (Erem w1 Eq1), Ew, (filter_ne_id _ _ Hnw), <- Ew,
      set_bfd_wait_list_same.
    set (w3 := upd_request r _ (upd_session sp _ w1)).
    assert (L3 : lookup_session w3 sp =
                 Some (set_request_list (request_list s1 ++ [r]) s1)).
    { subst w3.
      change (lookup_session (upd_request ?a ?b ?c) sp) with (lookup_session c sp).
      now rewrite lookup_session_upd_session, Hs1. }
    assert (Q3 : requests w3 !! r = Some (set_req_session (Some sp) q0)).
    { subst w3. cbn. now rewrite lookup_alter_eq, Eq1, Hr5. }
    rewrite L3. cbn [snd].
    rewrite (rfree_notify_hookless _ _ _ _ _ _ Q3 Hh0).
    rewrite (rfree_attached w3 r _ sp _ Q3 eq_refl L3). cbv zeta.
    unfold table_fields in F1. injection F1 as Fi Fa Fx Fb _ _ Fl Fn Fr.
    cbn [request_list notify_running set_request_list].
    rewrite Fl, Fr. cbn [app negb andb].
    rewrite filter_cons_False, filter_nil by (intros H; now apply H).
    rewrite bool_decide_eq_true_2 by done. cbn [andb].
    set (W1 := upd_session sp _ (set_bfd_wait_list _ w3)).
    destruct (frames_remove_session W1 sp) as (R1 & R2 & R3).
    apply world_ext.
    + (* the engines *)
      cbn [protos set_requests].
      injection EA as Eid EW. rewrite <- Eid in EW.
      set (pr1 := bfd_get_iface pr (req_local q0) (req_iface q0)) in *.
      set (ifx := match req_iface q0 with Some i => index i | None => 0 end) in *.
      set (s_new := bfd_session_new _ _ _ _ _ _ _) in *.
      assert (Es1 : s1 = s_new).
      { unfold lookup_session in Hs1. rewrite EW in Hs1. cbn in Hs1.
        rewrite lookup_insert_eq in Hs1. cbn in Hs1.
        rewrite lookup_insert_eq in Hs1. congruence. }
      clearbody s_new. subst s_new.
      destruct (session_hash_id_get_iface pr (req_local q0) (req_iface q0))
        as (Gid & Gip & Gn).
      fold pr1 in Gid, Gip, Gn.
      set (prA := set_session_hash_ip _ (set_session_hash_id _ pr1)) in *.
      set (fl := fun s => set_request_list (filter (.≠ r) (request_list s)) s).
      set (fa := fun s => set_request_list (request_list s ++ [r]) s).
      set (prW := set_session_hash_id
                    (alter fl id (alter fa id (session_hash_id prA))) prA).
      assert (EP : protos W1 = <[p := prW]> (protos w)).
      { subst W1 w3. unfold upd_session, upd_proto. cbn [protos set_protos
          set_bfd_wait_list upd_request set_requests fst snd sp].
        rewrite EW. cbn [protos set_protos].
        now rewrite !alter_insert_eq. }
      assert (ES : session_hash_id prW !! id = Some (fl (fa s1))).
      { subst prW prA. cbn [session_hash_id set_session_hash_id set_session_hash_ip].
        now rewrite !lookup_alter_eq, lookup_insert_eq. }
      assert (EPl : protos W1 !! p = Some prW) by (rewrite EP; apply lookup_insert_eq).
      unfold sp. rewrite (remove_session_unfold W1 p prW id _ EPl ES).
      cbv zeta.
      assert (T1 : n_linked (fl (fa s1)) = false) by exact Fn.
      assert (T2 : addr (fl (fa s1)) = req_addr q0) by exact Fa.
      assert (T3 : ifindex (fl (fa s1)) = ifx) by exact Fx.
      assert (T4 : ifa (fl (fa s1)) = (req_local q0, req_iface q0)) by exact Fb.
      rewrite T1, T2, T3, T4.
      cbn [protos set_protos]. rewrite EP, insert_insert_eq.
      assert (Hp' : protos w !! p = Some pr) by exact Hp.
      apply insert_id. rewrite Hp'. f_equal. symmetry.
      destruct (session_hash_id_free_iface prW (req_local q0, req_iface q0))
        as (Xid & Xip & Xn).
      set (pr2 := bfd_free_iface prW (req_local q0, req_iface q0)) in *.
      assert (Hk : session_hash_ip pr !! (req_addr q0, ifx) = None).
      { apply registry_no_session; [done|]. exact Ef. }
      assert (Hi : session_hash_id pr !! id = None).
      { unfold lookup_session in Hnew. cbn in Hnew.
        change (protos w5 !! p) with (protos w !! p) in Hnew.
        now rewrite Hp' in Hnew. }
      assert (X2 : pr2 = set_iface_list (iface_list pr2) prW)
        by apply free_iface_list.
      assert (X1 : pr1 = set_iface_list (iface_list pr1) pr)
        by apply get_iface_list.
      apply proto_ext.
      * cbn. rewrite X2. cbn. subst prW prA. cbn. now rewrite X1.
      * cbn. rewrite X2. cbn. subst prW prA. cbn. now rewrite X1.
      * cbn. rewrite X2. cbn. subst prW prA. cbn. now rewrite X1.
      * cbn [session_hash_id set_session_hash_id set_session_hash_ip].
        rewrite Xid. subst prW prA.
        cbn [session_hash_id set_session_hash_id set_session_hash_ip].
        rewrite !delete_alter_eq, delete_insert_eq, Gid. now apply delete_id.
      * cbn [session_hash_ip set_session_hash_id set_session_hash_ip].
        rewrite Xip. subst prW prA.
        cbn [session_hash_ip set_session_hash_id set_session_hash_ip].
        rewrite delete_insert_eq, Gip. now apply delete_id.
      * cbn [iface_list set_session_hash_id set_session_hash_ip].
        subst pr2. apply get_free_iface.
        -- intros b Hb. exact (ifaces_ok_uc pr _ b Hifa Hb).
        -- reflexivity.
      * cbn [notify_list set_session_hash_id set_session_hash_ip].
        rewrite Xn. subst prW prA. cbn. exact Gn.
    + cbn [bfd_proto_list set_requests]. rewrite R1. subst W1 w3. cbn.
      rewrite Ep1. reflexivity.
    + cbn [bfd_wait_list set_requests]. rewrite R2. subst W1 w3. cbn.
      rewrite Ew. now apply filter_ne_id.
    + cbn [requests set_requests]. subst w3. cbn.
      rewrite delete_alter_eq, Eq1. cbn. rewrite delete_insert_eq.
      now apply delete_id.
    + cbn [hook_log set_requests]. rewrite hook_log_remove_session.
      subst W1 w3. cbn. now rewrite Eh1.
    + cbn [reconfigure_log set_requests]. rewrite R3. subst W1 w3. cbn.
      now rewrite El1.
Qed.

Lemma submit_walk_first l w r o :
  (submit_walk w l r o = None /\
   forall p, p ∈ l -> (bfd_add_request w p r o).1 = false) \/
  exists p, p ∈ l /\ (bfd_add_request w p r o).1 = true /\
            submit_walk w l r o = Some (bfd_add_request w p r o).2.
Proof.
  induction l as [|p l IH]; cbn.
  - left. split; [done|]. intros p Hp. by apply elem_of_nil in Hp.
  - destruct (bfd_add_request w p r o) as [acc w'] eqn:E. destruct acc.
    + right. exists p. rewrite E. split; [by left | done].
    + assert (Ew : w' = w).
      { pose proof (add_request_rejected w p r o) as H. rewrite E in H.
        now apply H. }
      subst w'. destruct IH as [[IH1 IH2]|(p' & Hin & Hacc & IH)].
      * left. split; [done|]. intros p' Hp'.
        apply elem_of_cons in Hp' as [->|Hp']; [now rewrite E | now apply IH2].
      * right. exists p'. split; [by right | done].
Qed.

(** The request as [bfd_request_session] submits it. *)
Lemma request_session_unfold w a local i v hook data opts o :
  let r := fresh (dom (requests w)) in
  let q0 := mk_request a local i v (default (mk_options 0 0 0 0 0 0 0 0) opts)
              None 0 None 0 0 0 0 in
  bfd_request_session w a local i v hook data opts o =
  (r, upd_request r (set_req_data data)
        (upd_request r (set_req_hook hook)
           (bfd_submit_request (set_requests (<[r := q0]> (requests w)) w) r o))).
Proof.
  cbv zeta. unfold bfd_request_session, ralloc_request.
  set (r := fresh (dom (requests w))).
  assert (E : forall f x m,
            upd_request r f (set_requests (<[r := x]> m) w) =
            set_requests (<[r := f x]> m) w).
  { intros f x m. unfold upd_request. cbn. now rewrite alter_insert_eq. }
  rewrite !E. destruct opts as [opts|]; [rewrite E|]; reflexivity.
Qed.

(** X15.  A request made and released at once leaves no trace.  In a world
    whose engines have agreeing indexes, counted interface bindings and
    room for a discriminator, [bfd_request_session] returns a request that
    was not stored before and is stored afterwards, and releasing it with
    [rfree] gives back the very world there was before the request: the
    session created for it, its discriminator and its interface binding are
    gone, a session it joined has its list as before, and the wait list is
    as before. *)
Theorem request_release_round_trip w a local i v hook data opts o :
  broker_ok w ->
  let r := (bfd_request_session w a local i v hook data opts o).1 in
  let w' := (bfd_request_session w a local i v hook data opts o).2 in
  requests w !! r = None /\ is_Some (requests w' !! r) /\
  rfree_request w' r = w.
Proof.
  intros Hok. cbv zeta. rewrite request_session_unfold. cbv zeta. cbn [fst snd].
  set (r := fresh (dom (requests w))).
  set (q0 := mk_request _ _ _ _ _ _ _ _ _ _ _ _).
  assert (Hfresh : requests w !! r = None).
  { apply not_elem_of_dom. subst r. apply is_fresh. }
  split; [exact Hfresh|].
  set (w5 := set_requests (<[r := q0]> (requests w)) w).
  assert (Hr5 : requests w5 !! r = Some q0) by apply lookup_insert_eq.
  split.
  { assert (H : hookless w5 r (hook_log w)).
    { split; [|done]. exists q0. done. }
    destruct (hookless_submit w5 r o _ H) as [(q & Eq & _) _].
    cbn. rewrite !lookup_alter_eq, Eq. done. }
  rewrite !rfree_upd_request_same by done.
  unfold bfd_submit_request.
  destruct (submit_walk_first (bfd_proto_list w5) w5 r o)
    as [[-> Hrej]|(p & Hin & Hacc & ->)].
  - destruct Hok as (_ & Hwl & _).
    assert (Hnw : r ∉ bfd_wait_list w).
    { intros Hi. destruct (Hwl r Hi) as [q Hq]. congruence. }
    rewrite protos_rem_node_free by (rewrite Hr5; reflexivity).
    change (bfd_wait_list w5) with (bfd_wait_list w).
    rewrite (filter_ne_id _ _ Hnw).
    set (w7 := upd_request r (set_req_session None) _).
    assert (Q7 : requests w7 !! r = Some (set_req_session None q0)).
    { subst w7. cbn. now rewrite lookup_alter_eq, lookup_insert_eq. }
    rewrite (rfree_notify_hookless _ _ _ _ _ _ Q7 eq_refl).
    rewrite (rfree_waiting _ _ _ Q7 eq_refl).
    apply world_ext; try reflexivity.
    + cbn. rewrite filter_ne_app_self. now apply filter_ne_id.
    + cbn. rewrite delete_alter_eq, delete_insert_eq. now apply delete_id.
  - now apply add_request_release.
Qed.

(** The world of one engine without sessions is such a world. *)
Lemma broker_ok_one_engine : broker_ok world_one_engine.
Proof.
  split; [|split].
  - intros p pr Hp. unfold world_one_engine in Hp. cbn in Hp.
    apply lookup_singleton_Some in Hp as [<- <-].
    split; [by apply registry_ok_empty|].
    split; [by apply ifaces_ok_empty|]. vm_compute. discriminate.
  - intros r Hr. by apply elem_of_nil in Hr.
  - intros [p id] s Hs. unfold lookup_session, world_one_engine in Hs.
    cbn in Hs. destruct (decide (p = 0%nat)) as [->|Hne].
    + rewrite lookup_singleton_eq in Hs. cbn in Hs. now rewrite lookup_empty in Hs.
    + rewrite lookup_singleton_ne in Hs by done. done.
Qed.

Lemma request_release_round_trip_witness :
  is_Some (requests world_one_request !! 0%nat) /\
  rfree_request world_one_request 0 = world_one_engine.
Proof.
  destruct (request_release_round_trip world_one_engine (IP4 1) (IP4 2) None None
              (Some HookRelease) 0 None oracle_one broker_ok_one_engine)
    as (_ & A & B).
  assert (E : (bfd_request_session world_one_engine (IP4 1) (IP4 2) None None
                 (Some HookRelease) 0 None oracle_one).1 = 0%nat)
    by (vm_compute; reflexivity).
  rewrite E in A, B. exact (conj A B).
Defined.

(** ** Engines that come and go *)

Lemma serves_refl r w : serves_request r w w.
Proof. repeat (split; [done|]). intros q' Hq. now exists q'. Qed.

Lemma serves_trans r w1 w2 w3 :
  serves_request r w1 w2 -> serves_request r w2 w3 -> serves_request r w1 w3.
Proof.
  intros (A1 & B1 & C1 & D1 & E1) (A2 & B2 & C2 & D2 & E2). split; [congruence|].
  split; [intros p; now rewrite B2|]. split; [|split; [congruence|]].
  - intros r' Hne. now rewrite C2, C1.
  - intros q3 H3. destruct (E2 q3 H3) as (q2 & H2 & E).
    destruct (E1 q2 H2) as (q1 & H1 & E'). exists q1. split; [done|congruence].
Qed.

(** A change that leaves the requests alone. *)
Lemma serves_same_requests r w w' :
  bfd_proto_list w' = bfd_proto_list w ->
  (forall p, engine_conf <$> protos w' !! p = engine_conf <$> protos w !! p) ->
  requests w' = requests w ->
  filter (.≠ r) (bfd_wait_list w') = filter (.≠ r) (bfd_wait_list w) ->
  serves_request r w w'.
Proof.
  intros A B C D. split; [done|]. split; [done|]. split; [now rewrite C|].
  split; [done|]. intros q' Hq. exists q'. now rewrite <- C.
Qed.

Lemma serves_upd_proto r p f w :
  (forall pr, engine_conf (f pr) = engine_conf pr) ->
  serves_request r w (upd_proto p f w).
Proof.
  intros Hf. apply serves_same_requests; try done.
  intros p'. unfold upd_proto. cbn.
  destruct (decide (p' = p)) as [->|Hne].
  - rewrite lookup_alter_eq. destruct (protos w !! p) as [pr|]; cbn; [|done].
    now rewrite Hf.
  - now rewrite lookup_alter_ne.
Qed.

Lemma serves_upd_session r sp f w : serves_request r w (upd_session sp f w).
Proof. apply serves_upd_proto. done. Qed.

Lemma serves_upd_request r f w :
  (forall q, request_static (f q) = request_static q) ->
  serves_request r w (upd_request r f w).
Proof.
  intros Hf. split; [done|]. split; [done|]. split; [|split; [done|]].
  - intros r' Hne. unfold upd_request. cbn. now rewrite lookup_alter_ne.
  - intros q'. unfold upd_request. cbn. rewrite lookup_alter_eq. intros Hq.
    apply fmap_Some in Hq as (q & Hq & ->). exists q. split; [done | apply Hf].
Qed.

Lemma serves_set_hook_log r l w : serves_request r w (set_hook_log l w).
Proof. now apply serves_same_requests. Qed.

Lemma filter_ne_idemp (r : nat) (l : list nat) :
  filter (.≠ r) (filter (.≠ r) l) = filter (.≠ r) l.
Proof.
  apply filter_ne_id. intros H. apply list_elem_of_filter in H as [H _]. done.
Qed.

Lemma serves_rem_node r w : serves_request r w (rem_node_request w r).
Proof.
  unfold rem_node_request.
  set (w1 := set_bfd_wait_list _ w).
  assert (H1 : serves_request r w w1).
  { apply serves_same_requests; try done. apply filter_ne_idemp. }
  destruct (requests w1 !! r ≫= req_session) as [sp|]; [|done].
  eapply serves_trans; [exact H1 | apply serves_upd_session].
Qed.

Lemma serves_insert_proto r p pr pr' w :
  protos w !! p = Some pr -> engine_conf pr' = engine_conf pr ->
  serves_request r w (set_protos (<[p := pr']> (protos w)) w).
Proof.
  intros Hp Hc. apply serves_same_requests; try done. intros p'. cbn.
  destruct (decide (p' = p)) as [->|Hne].
  - rewrite lookup_insert_eq, Hp. cbn. now rewrite Hc.
  - now rewrite lookup_insert_ne.
Qed.

Lemma conf_get_iface pr local i :
  engine_conf (bfd_get_iface pr local i) = engine_conf pr.
Proof. unfold bfd_get_iface. now case_match. Qed.

Lemma conf_free_iface pr k : engine_conf (bfd_free_iface pr k) = engine_conf pr.
Proof. unfold bfd_free_iface. repeat case_match; done. Qed.

Lemma serves_add_session r w p a local i opts o :
  serves_request r w (bfd_add_session w p a local i opts o).2.
Proof.
  unfold bfd_add_session.
  destruct (protos w !! p) as [pr|] eqn:Hp; [|apply serves_refl].
  cbn [snd]. eapply serves_insert_proto; [exact Hp|].
  unfold engine_conf. cbn. apply conf_get_iface.
Qed.

Lemma serves_remove_session r w sp : serves_request r w (bfd_remove_session w sp).
Proof.
  unfold bfd_remove_session.
  destruct (protos w !! sp.1) as [pr|] eqn:Hp; [|apply serves_refl].
  destruct (session_hash_id pr !! sp.2) as [s|]; [|apply serves_refl].
  eapply serves_insert_proto; [exact Hp|].
  unfold engine_conf. cbn.
  change (engine_conf (bfd_free_iface
            (if n_linked s
             then set_notify_list
                    (List.filter (fun id => negb (id =? sp.2)) (notify_list pr)) pr
             else pr) (ifa s)) = engine_conf pr).
  rewrite conf_free_iface. now destruct (n_linked s).
Qed.

Lemma serves_request_free r w : serves_request r w (bfd_request_free w r).
Proof.
  unfold bfd_request_free.
  destruct (requests w !! r) as [req|]; [|apply serves_refl].
  destruct (req_session req) as [sp|]; [|apply serves_rem_node].
  destruct (lookup_session _ _) as [s'|]; [|apply serves_rem_node].
  case_match; [|apply serves_rem_node].
  eapply serves_trans; [apply serves_rem_node | apply serves_remove_session].
Qed.

Lemma serves_rfree r w : serves_request r w (rfree_request w r).
Proof.
  unfold rfree_request.
  eapply serves_trans; [apply serves_request_free|].
  split; [done|]. split; [done|]. split; [|split; [done|]].
  - intros r' Hne. cbn. now rewrite lookup_delete_ne.
  - intros q'. cbn. now rewrite lookup_delete_eq.
Qed.

Lemma static_notified q state remote diag :
  request_static (notified q state remote diag) = request_static q.
Proof. reflexivity. Qed.

Lemma serves_notify r w state remote diag :
  serves_request r w (bfd_request_notify w r state remote diag).
Proof.
  destruct (notify_cases state remote diag w r)
    as [->|(q' & lg & _ & [->|[->| ->]])]; [apply serves_refl|..].
  - apply (serves_upd_request r (fun q => notified q state remote diag)). done.
  - eapply serves_trans; [|apply serves_set_hook_log].
    apply (serves_upd_request r (fun q => notified q state remote diag)). done.
  - eapply serves_trans; [|eapply serves_trans;
                            [apply serves_set_hook_log | apply serves_rfree]].
    apply (serves_upd_request r (fun q => notified q state remote diag)). done.
Qed.

Lemma serves_add_request r w p o : serves_request r w (bfd_add_request w p r o).2.
Proof.
  unfold bfd_add_request.
  destruct (protos w !! p) as [pr|]; [|apply serves_refl].
  destruct (requests w !! r) as [req|]; [|apply serves_refl].
  destruct (vrf_set pr && _); [apply serves_refl|].
  destruct (if ipa_is_ip4 _ then _ else _); [apply serves_refl|].
  destruct (match req_iface req with Some _ => negb _ | None => _ end);
    [apply serves_refl|].
  set (found := match bfd_find_session_by_addr _ _ _ with Some s => _ | None => _ end).
  assert (Hf : serves_request r w found.2).
  { subst found. destruct (bfd_find_session_by_addr _ _ _); [apply serves_refl|].
    apply serves_add_session. }
  destruct found as [id w1]. cbn [snd] in Hf.
  set (w3 := upd_request r _ _).
  assert (H3 : serves_request r w w3).
  { subst w3. eapply serves_trans; [exact Hf|].
    eapply serves_trans; [apply serves_rem_node|].
    eapply serves_trans; [apply serves_upd_session|].
    apply (serves_upd_request r (set_req_session (Some (p, id)))). done. }
  clearbody w3. case_match; [|done]. cbn [snd].
  eapply serves_trans; [exact H3 | apply serves_notify].
Qed.

Lemma serves_submit r w o : serves_request r w (bfd_submit_request w r o).
Proof.
  unfold bfd_submit_request.
  destruct (submit_walk_first (bfd_proto_list w) w r o)
    as [[-> _]|(p & _ & _ & ->)]; [|apply serves_add_request].
  eapply serves_trans; [apply serves_rem_node|].
  set (w1 := rem_node_request w r).
  eapply serves_trans; [|apply serves_notify].
  eapply serves_trans;
    [|apply (serves_upd_request r (set_req_session None)); done].
  apply serves_same_requests; try done. cbn.
  rewrite filter_app, filter_cons_False, filter_nil, app_nil_r by (intros H; done).
  reflexivity.
Qed.

(** The acceptance of a request survives the service of another one. *)
Lemma accepts_served r w w' p r' :
  serves_request r w w' -> r' <> r -> accepts w' p r' = accepts w p r'.
Proof.
  intros (_ & B & C & _ & _) Hne. unfold accepts. rewrite (C r' Hne).
  pose proof (B p) as Bp.
  destruct (protos w' !! p) as [pr'|], (protos w !! p) as [pr|]; try done.
  destruct (requests w !! r') as [req|]; [|done].
  cbn in Bp. unfold engine_conf in Bp. injection Bp as E1 E2 E3.
  unfold request_acceptable. now rewrite E1, E2, E3.
Qed.

(** Nothing but a parking puts a request on the wait list. *)
Lemma waiting_rem_node w r x :
  x ∈ bfd_wait_list (rem_node_request w r) -> x ∈ bfd_wait_list w /\ x <> r.
Proof.
  unfold rem_node_request. set (w1 := set_bfd_wait_list _ w).
  assert (H1 : x ∈ bfd_wait_list w1 -> x ∈ bfd_wait_list w /\ x <> r).
  { subst w1. cbn. intros H. apply list_elem_of_filter in H as [H1 H2]. done. }
  destruct (requests w1 !! r ≫= req_session); exact H1.
Qed.

Lemma waiting_request_free w r x :
  x ∈ bfd_wait_list (bfd_request_free w r) -> x ∈ bfd_wait_list w.
Proof.
  unfold bfd_request_free. destruct (requests w !! r) as [req|]; [|done].
  assert (H1 : x ∈ bfd_wait_list (rem_node_request w r) -> x ∈ bfd_wait_list w)
    by (intros H; now apply waiting_rem_node in H).
  destruct (req_session req) as [sp|]; [|exact H1].
  destruct (lookup_session _ _) as [s'|]; [|exact H1].
  case_match; [|exact H1].
  now rewrite (proj1 (proj2 (frames_remove_session _ _))).
Qed.

Lemma waiting_notify w r state remote diag x :
  x ∈ bfd_wait_list (bfd_request_notify w r state remote diag) ->
  x ∈ bfd_wait_list w.
Proof.
  destruct (notify_cases state remote diag w r)
    as [->|(q' & lg & _ & [->|[->| ->]])]; [done..|].
  unfold rfree_request. cbn. intros H. now apply waiting_request_free in H.
Qed.

(** An accepted request is off the wait list. *)
Lemma add_request_not_waiting w p r o :
  accepts w p r = true -> r ∉ bfd_wait_list (bfd_add_request w p r o).2.
Proof.
  unfold accepts. intros Hacc.
  destruct (protos w !! p) as [pr|] eqn:Hp; [|done].
  destruct (requests w !! r) as [req|] eqn:Hr; [|done].
  rewrite (add_request_unfold w p pr r req o Hp Hr Hacc). cbv zeta.
  set (found := bfd_find_session_by_addr _ _ _).
  set (w0 := match found with Some _ => w | None => _ end).
  set (id := match found with Some s => _ | None => _ end).
  set (w3 := upd_request r _ _).
  assert (H3 : r ∉ bfd_wait_list w3).
  { subst w3. cbn. intros H. now apply waiting_rem_node in H as [_ H]. }
  case_match; cbn [snd]; [|exact H3].
  intros Hin. apply H3. now apply waiting_notify in Hin.
Qed.

Lemma wait_list_add_request w p r o :
  bfd_wait_list (bfd_add_request w p r o).2 =
  if accepts w p r then filter (.≠ r) (bfd_wait_list w) else bfd_wait_list w.
Proof.
  destruct (accepts w p r) eqn:Hacc.
  - destruct (serves_add_request r w p o) as (_ & _ & _ & D & _).
    rewrite <- D. symmetry. apply filter_ne_id. now apply add_request_not_waiting.
  - rewrite add_request_rejected; [done|].
    rewrite add_request_accepted. exact Hacc.
Qed.

Lemma filter_ext_in {A} (P Q : A -> Prop) `{!forall x, Decision (P x)}
    `{!forall x, Decision (Q x)} (l : list A) :
  (forall x, x ∈ l -> P x <-> Q x) -> filter P l = filter Q l.
Proof.
  induction l as [|x l IH]; intros Hext; [done|].
  assert (Hx : P x <-> Q x) by (apply Hext; left).
  assert (Hl : filter P l = filter Q l)
    by (apply IH; intros y Hy; apply Hext; now right).
  destruct (decide (P x)) as [HP|HP].
  - rewrite !filter_cons_True by tauto. now rewrite Hl.
  - rewrite !filter_cons_False by tauto. exact Hl.
Qed.

Lemma filter_all {A} (P : A -> Prop) `{!forall x, Decision (P x)} (l : list A) :
  (forall x, x ∈ l -> P x) -> filter P l = l.
Proof.
  induction l as [|x l IH]; intros Hall; [done|].
  rewrite filter_cons_True by (apply Hall; left).
  rewrite IH; [done|]. intros y Hy. apply Hall. now right.
Qed.

(** The request an engine accepted points to a session of that engine as
    long as it lives. *)
Lemma add_request_session w p r o :
  accepts w p r = true ->
  forall q, requests (bfd_add_request w p r o).2 !! r = Some q ->
    exists id, req_session q = Some (p, id).
Proof.
  unfold accepts. intros Hacc.
  destruct (protos w !! p) as [pr|] eqn:Hp; [|done].
  destruct (requests w !! r) as [req|] eqn:Hr; [|done].
  rewrite (add_request_unfold w p pr r req o Hp Hr Hacc). cbv zeta.
  set (found := bfd_find_session_by_addr _ _ _).
  set (w0 := match found with Some _ => w | None => _ end).
  set (id := match found with Some s => _ | None => _ end).
  set (w3 := upd_request r _ _).
  assert (H3 : forall q, requests w3 !! r = Some q -> req_session q = Some (p, id)).
  { subst w3. unfold upd_request. cbn [requests set_requests]. intros q.
    rewrite lookup_alter_eq. intros E.
    apply fmap_Some in E as (q0 & _ & ->). reflexivity. }
  clearbody w3.
  assert (H4 : forall st rem dg q,
            requests (bfd_request_notify w3 r st rem dg) !! r = Some q ->
            req_session q = Some (p, id)).
  { intros st rem dg q.
    destruct (notify_cases st rem dg w3 r)
      as [->|(q' & lg & Hq' & [->|[->| ->]])]; [apply H3|..].
    - cbn. rewrite lookup_alter_eq, Hq'. cbn. intros [= <-].
      rewrite notified_session. now apply H3.
    - cbn. rewrite lookup_alter_eq, Hq'. cbn. intros [= <-].
      rewrite notified_session. now apply H3.
    - rewrite requests_rfree. now rewrite lookup_delete_eq. }
  intros q. case_match; cbn [snd]; intros Hq; exists id; [eapply H4 | apply H3]; done.
Qed.

Section take_requests.
Context (p : nat) (o : nat -> oracle).

Let step (w : bfd_world) (r : nat) : bfd_world := (bfd_add_request w p r (o r)).2.

Lemma take_requests_walk (A : nat -> bool) l : forall w,
  NoDup l -> (forall r, r ∈ l -> accepts w p r = A r) ->
  bfd_wait_list (foldl step w l) =
    filter (fun x => ~ (x ∈ l /\ A x = true)) (bfd_wait_list w) /\
  (forall r, r ∉ l \/ A r = false -> requests (foldl step w l) !! r = requests w !! r) /\
  (forall r q, r ∈ l -> A r = true -> requests (foldl step w l) !! r = Some q ->
     exists id, req_session q = Some (p, id)).
Proof.
  induction l as [|r l IH]; intros w Hnd HA.
  - cbn. split; [|split; [done|]].
    + symmetry. apply filter_all. intros x _ [H _]. by apply elem_of_nil in H.
    + intros r q H. by apply elem_of_nil in H.
  - apply NoDup_cons in Hnd as [Hr Hnd]. cbn [foldl].
    pose proof (serves_add_request r w p (o r)) as Hs. fold (step w r) in Hs.
    pose proof (wait_list_add_request w p r (o r)) as Hw. fold (step w r) in Hw.
    rewrite (HA r ltac:(left)) in Hw.
    assert (HA' : forall r', r' ∈ l -> accepts (step w r) p r' = A r').
    { intros r' Hr'. rewrite (accepts_served r w _ p r' Hs) by (intros ->; done).
      apply HA. now right. }
    destruct (IH (step w r) Hnd HA') as (I1 & I2 & I3).
    split; [|split].
    + rewrite I1, Hw. destruct (A r) eqn:EA.
      * rewrite list_filter_filter. apply list_filter_iff. intros x.
        rewrite elem_of_cons. split.
        -- intros [H1 H2] [[->|H3] H4]; [done | tauto].
        -- intros H. split; [|intros ->; apply H; split; [now left | done]].
           intros [H1 H2]. apply H. split; [now right | done].
      * apply list_filter_iff. intros x. rewrite elem_of_cons. split.
        -- intros H [[->|H3] H4]; [congruence | tauto].
        -- intros H [H1 H2]. apply H. split; [now right | done].
    + intros r' Hr'. rewrite I2.
      * destruct (decide (r' = r)) as [->|Hne].
        -- destruct Hr' as [Hr'|Hr']; [exfalso; apply Hr'; left|].
           unfold step. rewrite add_request_rejected; [done|].
           rewrite add_request_accepted. fold (accepts w p r).
           now rewrite (HA r ltac:(left)).
        -- destruct Hs as (_ & _ & C & _). now apply C.
      * destruct Hr' as [Hr'|Hr']; [left|now right].
        intros H. apply Hr'. now right.
    + intros r' q Hin EA. apply elem_of_cons in Hin as [->|Hin].
      * rewrite I2 by now left. unfold step. apply add_request_session.
        now rewrite (HA r ltac:(left)).
      * now apply I3.
Qed.

End take_requests.

(** X16.  An engine that starts takes from the wait list exactly the
    requests it accepts: after [bfd_take_requests] the wait list holds the
    requests the engine does not accept, in their order; those requests are
    as they were; and every request it accepted points, as long as it
    lives, to a session of the engine. *)
Theorem take_requests_partition w p o :
  NoDup (bfd_wait_list w) ->
  let w' := bfd_take_requests w p o in
  bfd_wait_list w' = filter (fun r => accepts w p r = false) (bfd_wait_list w) /\
  (forall r, r ∈ bfd_wait_list w' -> requests w' !! r = requests w !! r) /\
  (forall r q, r ∈ bfd_wait_list w -> accepts w p r = true ->
     requests w' !! r = Some q -> exists id, req_session q = Some (p, id)).
Proof.
  intros Hnd. cbv zeta. unfold bfd_take_requests.
  destruct (take_requests_walk p o (accepts w p) (bfd_wait_list w) w Hnd
              ltac:(reflexivity)) as (A & B & C).
  assert (E : filter (fun x => ~ (x ∈ bfd_wait_list w /\ accepts w p x = true))
                (bfd_wait_list w) =
              filter (fun r => accepts w p r = false) (bfd_wait_list w)).
  { apply filter_ext_in. intros x Hx. destruct (accepts w p x); split.
    - intros H. exfalso. apply H. done.
    - done.
    - done.
    - intros _ [_ H]. done. }
  split; [now rewrite A, E|]. split; [|exact C].
  intros r Hr. apply B. right. rewrite A, E in Hr.
  now apply list_elem_of_filter in Hr as [Hr _].
Qed.

(** The sessions a request does not point to are out of its reach. *)
Lemma lookup_session_rem_node_else w r sp :
  requests w !! r ≫= req_session <> Some sp ->
  lookup_session (rem_node_request w r) sp = lookup_session w sp.
Proof. intros Hne. destruct (lookup_session_rem_node_cases w r sp) as [E|[E _]]; done. Qed.

Lemma lookup_session_rfree_else w r sp :
  requests w !! r ≫= req_session <> Some sp ->
  lookup_session (rfree_request w r) sp = lookup_session w sp.
Proof.
  intros Hne. unfold rfree_request.
  change (lookup_session (bfd_request_free w r) sp = lookup_session w sp).
  unfold bfd_request_free. destruct (requests w !! r) as [req|] eqn:Hr; [|done].
  cbn in Hne.
  pose proof (lookup_session_rem_node_else w r sp) as H1.
  rewrite Hr in H1. specialize (H1 Hne).
  destruct (req_session req) as [sp'|]; [|exact H1].
  destruct (lookup_session (rem_node_request w r) sp') as [s'|]; [|exact H1].
  case_match; [|exact H1].
  rewrite lookup_session_remove_other by congruence. exact H1.
Qed.

Lemma lookup_session_notify_else w r state remote diag sp :
  requests w !! r ≫= req_session <> Some sp ->
  lookup_session (bfd_request_notify w r state remote diag) sp = lookup_session w sp.
Proof.
  intros Hne.
  destruct (notify_cases state remote diag w r)
    as [->|(q' & lg & Hq' & [->|[->| ->]])]; [done..|].
  rewrite lookup_session_rfree_else; [done|].
  cbn. rewrite lookup_alter_eq, Hq'. cbn. rewrite Hq' in Hne. exact Hne.
Qed.

Lemma lookup_session_add_session_other w p a local i opts o sp :
  sp.1 <> p ->
  lookup_session (bfd_add_session w p a local i opts o).2 sp = lookup_session w sp.
Proof.
  intros Hne. unfold bfd_add_session. destruct (protos w !! p); [|done].
  unfold lookup_session. cbn. now rewrite lookup_insert_ne.
Qed.

Lemma requests_add_session w p a local i opts o :
  requests (bfd_add_session w p a local i opts o).2 = requests w.
Proof. unfold bfd_add_session. now case_match. Qed.

(** What an engine does with a request leaves the sessions of the other
    engines alone, but for the one the request leaves. *)
Lemma lookup_session_add_request_other w p r o sp :
  sp.1 <> p ->
  lookup_session (bfd_add_request w p r o).2 sp =
  if accepts w p r then lookup_session (rem_node_request w r) sp
  else lookup_session w sp.
Proof.
  intros Hne. destruct (accepts w p r) eqn:Hacc.
  2:{ rewrite add_request_rejected; [done|]. now rewrite add_request_accepted. }
  unfold accepts in Hacc.
  destruct (protos w !! p) as [pr|] eqn:Hp; [|done].
  destruct (requests w !! r) as [req|] eqn:Hr; [|done].
  rewrite (add_request_unfold w p pr r req o Hp Hr Hacc). cbv zeta.
  set (found := bfd_find_session_by_addr _ _ _).
  set (w0 := match found with Some _ => w | None => _ end).
  set (id := match found with Some s => _ | None => _ end).
  assert (E0 : lookup_session w0 sp = lookup_session w sp).
  { subst w0. destruct found; [done|]. now apply lookup_session_add_session_other. }
  assert (R0 : requests w0 = requests w).
  { subst w0. destruct found; [done|]. apply requests_add_session. }
  clearbody w0 id.
  assert (E1 : lookup_session (rem_node_request w0 r) sp =
               lookup_session (rem_node_request w r) sp).
  { destruct (decide (requests w !! r ≫= req_session = Some sp)) as [E|E].
    - rewrite !lookup_session_rem_node by (rewrite ?R0; exact E). now rewrite E0.
    - rewrite !lookup_session_rem_node_else by (rewrite ?R0; exact E). exact E0. }
  set (w3 := upd_request r _ _).
  assert (E3 : lookup_session w3 sp = lookup_session (rem_node_request w r) sp).
  { subst w3. rewrite <- E1.
    change (lookup_session (upd_session (p, id)
              (fun s => set_request_list (request_list s ++ [r]) s)
              (rem_node_request w0 r)) sp = lookup_session (rem_node_request w0 r) sp).
    apply lookup_session_upd_other. intros <-. done. }
  assert (R3 : requests w3 !! r ≫= req_session <> Some sp).
  { subst w3. unfold upd_request. cbn [requests set_requests].
    rewrite lookup_alter_eq.
    change (requests (upd_session (p, id)
              (fun s => set_request_list (request_list s ++ [r]) s)
              (rem_node_request w0 r))) with (requests (rem_node_request w0 r)).
    rewrite requests_rem_node, R0, Hr. cbn.
    intros [= <-]. done. }
  clearbody w3.
  case_match; cbn [snd]; [|exact E3].
  now rewrite lookup_session_notify_else.
Qed.

(** A request submitted leaves its session and touches no other session of
    an engine that is not on the list. *)
Lemma lookup_session_submit w r o sp :
  sp.1 ∉ bfd_proto_list w ->
  lookup_session (bfd_submit_request w r o) sp =
  lookup_session (rem_node_request w r) sp.
Proof.
  intros Hp. unfold bfd_submit_request.
  destruct (submit_walk_first (bfd_proto_list w) w r o)
    as [[-> _]|(p & Hin & Hacc & ->)].
  - rewrite lookup_session_notify_else; [done|].
    cbn. rewrite lookup_alter_eq. now destruct (requests _ !! r).
  - rewrite lookup_session_add_request_other by (intros E; now rewrite E in Hp).
    rewrite add_request_accepted in Hacc. fold (accepts w p r) in Hacc.
    now rewrite Hacc.
Qed.

(** A request submitted is then waiting or with an engine of the list. *)
Lemma rehomed_submit w r o : rehomed (bfd_submit_request w r o) r.
Proof.
  unfold bfd_submit_request.
  destruct (submit_walk_first (bfd_proto_list w) w r o)
    as [[-> _]|(p & Hin & Hacc & ->)].
  - set (w3 := upd_request r _ _).
    assert (H3 : rehomed w3 r).
    { subst w3. intros q. cbn. rewrite lookup_alter_eq. intros Hq.
      apply fmap_Some in Hq as (q0 & _ & ->). left. split; [done|].
      apply elem_of_app. right. apply list_elem_of_here. }
    clearbody w3. destruct (notify_cases BFD_STATE_ADMIN_DOWN BFD_STATE_ADMIN_DOWN 0 w3 r)
      as [->|(q' & lg & Hq' & [->|[->| ->]])]; [done|..].
    + intros q. cbn. rewrite lookup_alter_eq, Hq'. cbn. intros [= <-].
      rewrite notified_session. now apply H3.
    + intros q. cbn. rewrite lookup_alter_eq, Hq'. cbn. intros [= <-].
      rewrite notified_session. now apply H3.
    + intros q. rewrite requests_rfree. now rewrite lookup_delete_eq.
  - intros q Hq. right.
    rewrite add_request_accepted in Hacc. fold (accepts w p r) in Hacc.
    destruct (add_request_session w p r o Hacc q Hq) as [id Hid].
    exists (p, id). split; [exact Hid|].
    destruct (serves_add_request r w p o) as (A & _). now rewrite A.
Qed.

Lemma rehomed_served r w w' r0 :
  serves_request r w w' -> r0 <> r -> rehomed w r0 -> rehomed w' r0.
Proof.
  intros (A & _ & C & D & _) Hne H q. rewrite (C r0 Hne). intros Hq.
  destruct (H q Hq) as [[E Hin]|(sp & E & Hin)].
  - left. split; [exact E|].
    assert (H1 : r0 ∈ filter (.≠ r) (bfd_wait_list w'))
      by (rewrite D; now apply list_elem_of_filter).
    now apply list_elem_of_filter in H1 as [_ H1].
  - right. exists sp. now rewrite A.
Qed.

Lemma set_request_list_same s : set_request_list (request_list s) s = s.
Proof. now destruct s. Qed.

Section drop_requests.
Context (p : nat) (o : nat -> oracle).

(** The inner loop of [bfd_drop_requests] on one session: with a round for
    each request of the list the list is empty in the end. *)
Lemma drop_session_spec n : forall w id s,
  p ∉ bfd_proto_list w ->
  lookup_session w (p, id) = Some s ->
  (length (request_list s) <= n)%nat ->
  (forall r, r ∈ request_list s ->
     exists q, requests w !! r = Some q /\ req_session q = Some (p, id)) ->
  let w' := drop_session_requests n w (p, id) o in
  bfd_proto_list w' = bfd_proto_list w /\
  lookup_session w' (p, id) = Some (set_request_list [] s) /\
  (forall sp, sp <> (p, id) -> sp.1 ∉ bfd_proto_list w ->
     lookup_session w' sp = lookup_session w sp) /\
  (forall r, r ∈ request_list s -> rehomed w' r) /\
  (forall r, r ∉ request_list s ->
     requests w' !! r = requests w !! r /\ (rehomed w r -> rehomed w' r)).
Proof.
  induction n as [|n IH]; intros w id s Hp Hs Hlen Hlink; cbv zeta.
  - destruct (request_list s) as [|r l] eqn:El; [|cbn in Hlen; lia].
    cbn. split; [done|]. split; [|split; [done|split; [|done]]].
    + now rewrite <- El, set_request_list_same.
    + intros r Hr. by apply elem_of_nil in Hr.
  - cbn [drop_session_requests]. rewrite Hs. cbn [mbind option_bind].
    destruct (request_list s) as [|r l] eqn:El.
    { cbn. split; [done|]. split; [|split; [done|split; [|done]]].
      + now rewrite <- El, set_request_list_same.
      + intros r Hr. by apply elem_of_nil in Hr. }
    cbn [head].
    set (w1 := bfd_submit_request w r (o r)).
    pose proof (serves_submit r w (o r)) as Hsv. fold w1 in Hsv.
    destruct (Hlink r ltac:(left)) as (q & Hq & Hqs).
    assert (Er : requests w !! r ≫= req_session = Some (p, id))
      by (rewrite Hq; exact Hqs).
    assert (Hp1 : p ∉ bfd_proto_list w1) by now rewrite (proj1 Hsv).
    set (s1 := set_request_list (filter (.≠ r) l) s).
    assert (Hs1 : lookup_session w1 (p, id) = Some s1).
    { subst w1. rewrite lookup_session_submit by exact Hp.
      rewrite (lookup_session_rem_node w r (p, id) Er), Hs. cbn.
      rewrite El, filter_cons_False by (intros H; done). reflexivity. }
    assert (Hlen1 : (length (request_list s1) <= n)%nat).
    { subst s1. change (length (filter (.≠ r) l) <= n)%nat.
      pose proof (length_filter (.≠ r) l). cbn in Hlen. lia. }
    assert (Hlink1 : forall r', r' ∈ request_list s1 ->
              exists q, requests w1 !! r' = Some q /\ req_session q = Some (p, id)).
    { intros r' Hr'. subst s1.
      change (r' ∈ filter (.≠ r) l) in Hr'.
      apply list_elem_of_filter in Hr' as [Hne Hr'].
      destruct Hsv as (_ & _ & C & _). rewrite (C r' Hne).
      apply Hlink. now right. }
    destruct (IH w1 id s1 Hp1 Hs1 Hlen1 Hlink1) as (A & B & C & D & E).
    split; [now rewrite A, (proj1 Hsv)|]. split; [exact B|]. split; [|split].
    + intros sp Hne Hsp. rewrite C by (rewrite ?(proj1 Hsv); done).
      subst w1. rewrite lookup_session_submit by exact Hsp.
      apply lookup_session_rem_node_else. rewrite Er. congruence.
    + intros r' Hr'. destruct (decide (r' = r)) as [->|Hne].
      * apply E; [|apply rehomed_submit].
        subst s1. change (r ∉ filter (.≠ r) l). intros H.
        apply list_elem_of_filter in H as [H _]. done.
      * apply D. subst s1. change (r' ∈ filter (.≠ r) l).
        apply list_elem_of_filter. split; [done|].
        apply elem_of_cons in Hr' as [->|Hr']; done.
    + intros r' Hr'. apply not_elem_of_cons in Hr' as [Hne Hr'].
      assert (Hr1 : r' ∉ request_list s1).
      { subst s1. change (r' ∉ filter (.≠ r) l). intros H.
        apply list_elem_of_filter in H as [_ H]. done. }
      destruct (E r' Hr1) as [E1 E2]. split.
      * rewrite E1. destruct Hsv as (_ & _ & Cs & _). now apply Cs.
      * intros H. apply E2. now apply (rehomed_served r w w1 r' Hsv).
Qed.

Let visit (w : bfd_world) (id : Z) : bfd_world :=
  match lookup_session w (p, id) with
  | Some s => drop_session_requests (length (request_list s)) w (p, id) o
  | None => w
  end.

Lemma drop_requests_walk ids : forall w,
  p ∉ bfd_proto_list w -> requests_linked p w ->
  let w' := foldl visit w ids in
  bfd_proto_list w' = bfd_proto_list w /\
  (forall id s, lookup_session w (p, id) = Some s ->
     lookup_session w' (p, id) =
     Some (if decide (id ∈ ids) then set_request_list [] s else s)) /\
  (forall id s r, id ∈ ids -> lookup_session w (p, id) = Some s ->
     r ∈ request_list s -> rehomed w' r) /\
  (forall r, (forall id s, id ∈ ids -> lookup_session w (p, id) = Some s ->
                r ∉ request_list s) ->
     requests w' !! r = requests w !! r /\ (rehomed w r -> rehomed w' r)) /\
  (forall id, lookup_session w (p, id) = None -> lookup_session w' (p, id) = None).
Proof.
  induction ids as [|id ids IH]; intros w Hp Hlink; cbv zeta.
  { cbn. split; [done|]. split; [|split; [|done]].
    - intros id s Hs. rewrite decide_False by apply not_elem_of_nil. exact Hs.
    - intros id s r H. by apply elem_of_nil in H. }
  cbn [foldl]. destruct (lookup_session w (p, id)) as [s0|] eqn:Hs0.
  2:{ assert (Ev : visit w id = w) by (unfold visit; now rewrite Hs0).
      rewrite Ev. destruct (IH w Hp Hlink) as (A0 & A & B & C & N).
      split; [exact A0|]. split; [|split; [|split; [|exact N]]].
      - intros id' s Hs. rewrite (A id' s Hs). f_equal.
        assert (Hne : id' <> id) by (intros ->; congruence).
        destruct (decide (id' ∈ ids)) as [Hi|Hi].
        + rewrite decide_True by (now right). done.
        + rewrite decide_False; [done|]. intros H.
          apply elem_of_cons in H as [->|H]; done.
      - intros id' s r Hin Hs Hr. apply elem_of_cons in Hin as [->|Hin];
          [congruence|]. now apply (B id' s r).
      - intros r Hr. apply C. intros id' s Hin. apply Hr. now right. }
  assert (Ev : visit w id =
               drop_session_requests (length (request_list s0)) w (p, id) o)
    by (unfold visit; now rewrite Hs0).
  rewrite Ev. clear Ev.
  destruct (drop_session_spec (length (request_list s0)) w id s0 Hp Hs0
              ltac:(lia) (fun r Hr => Hlink id s0 r Hs0 Hr))
    as (A1 & B1 & C1 & D1 & E1).
  set (w1 := drop_session_requests _ w (p, id) o) in *. clearbody w1.
  assert (Hother : forall id', id' <> id ->
            lookup_session w1 (p, id') = lookup_session w (p, id')).
  { intros id' Hne. apply C1; [congruence | exact Hp]. }
  assert (Hdisj : forall id' s r, id' <> id -> lookup_session w (p, id') = Some s ->
            r ∈ request_list s -> r ∉ request_list s0).
  { intros id' s r Hne Hs Hr Hr0.
    destruct (Hlink id' s r Hs Hr) as (q & Hq & Hqs).
    destruct (Hlink id s0 r Hs0 Hr0) as (q0 & Hq0 & Hqs0). congruence. }
  assert (Hp1 : p ∉ bfd_proto_list w1) by now rewrite A1.
  assert (Hlink1 : requests_linked p w1).
  { intros id' s r Hs Hr. destruct (decide (id' = id)) as [->|Hne].
    - rewrite B1 in Hs. injection Hs as <-. by apply elem_of_nil in Hr.
    - rewrite Hother in Hs by done.
      rewrite (proj1 (E1 r (Hdisj id' s r Hne Hs Hr))). now apply (Hlink id' s r). }
  destruct (IH w1 Hp1 Hlink1) as (A0 & A & B & C & N).
  assert (Hfree : forall r,
            (forall id' s, id' ∈ ids -> id' <> id -> lookup_session w (p, id') = Some s ->
               r ∉ request_list s) ->
            forall id' s, id' ∈ ids -> lookup_session w1 (p, id') = Some s ->
              r ∉ request_list s).
  { intros r Hr id' s Hin Hs. destruct (decide (id' = id)) as [->|Hne].
    - rewrite B1 in Hs. injection Hs as <-. apply not_elem_of_nil.
    - rewrite Hother in Hs by done. now apply (Hr id' s). }
  split; [congruence|]. split; [|split; [|split]].
  4:{ intros id' Hn. apply N. rewrite Hother; [done|]. intros ->. congruence. }
  - intros id' s Hs. destruct (decide (id' = id)) as [->|Hne].
    + assert (s = s0) as -> by congruence.
      rewrite (A id _ B1).
      destruct (decide (id ∈ id :: ids)) as [_|H]; [|exfalso; apply H; now left].
      f_equal. now destruct (decide (id ∈ ids)).
    + rewrite <- Hother in Hs by done. rewrite (A id' s Hs). f_equal.
      destruct (decide (id' ∈ ids)) as [Hi|Hi].
      * rewrite decide_True by (now right). done.
      * rewrite decide_False; [done|]. intros H.
        apply elem_of_cons in H as [->|H]; done.
  - intros id' s r Hin Hs Hr. destruct (decide (id' = id)) as [->|Hne].
    + assert (s = s0) as -> by congruence.
      apply C; [|now apply D1]. apply Hfree.
      intros id' s Hin' Hne Hs'. intros H. now apply (Hdisj id' s r Hne Hs' H).
    + apply elem_of_cons in Hin as [->|Hin]; [done|].
      rewrite <- Hother in Hs by done. now apply (B id' s r).
  - intros r Hr.
    assert (Hr0 : r ∉ request_list s0) by (apply (Hr id s0); [now left | done]).
    assert (Hr1 : forall id' s, id' ∈ ids -> lookup_session w1 (p, id') = Some s ->
              r ∉ request_list s).
    { apply Hfree. intros id' s Hin _ Hs. apply (Hr id' s); [now right | done]. }
    destruct (C r Hr1) as [C1' C2]. destruct (E1 r Hr0) as [E1' E2].
    split; [congruence|]. intros H. apply C2, E2, H.
Qed.

End drop_requests.

(** X17.  An engine that shuts down hands all its requests on.  When the
    engine is off the list of the running engines and the requests on the
    lists of its sessions point back to them, [bfd_drop_requests] ends (a
    round of the inner loop for each request of a session is enough) with
    every session it met still there, unchanged but for an empty request
    list; every request that was on such a list is then, if a callback did
    not release it, on the wait list with no session or attached to a
    session of an engine of the list; and if the requests that pointed to
    the engine were all on the lists of sessions the walk meets, no request
    points to a session of the engine any more. *)
Theorem drop_requests_rehomes w p ids o :
  p ∉ bfd_proto_list w -> requests_linked p w ->
  let w' := bfd_drop_requests w p ids o in
  (forall id s, lookup_session w (p, id) = Some s ->
     lookup_session w' (p, id) =
     Some (if decide (id ∈ ids) then set_request_list [] s else s)) /\
  (forall id s r, id ∈ ids -> lookup_session w (p, id) = Some s ->
     r ∈ request_list s -> rehomed w' r) /\
  ((forall r q id, requests w !! r = Some q -> req_session q = Some (p, id) ->
      id ∈ ids /\ exists s, lookup_session w (p, id) = Some s /\ r ∈ request_list s) ->
   forall r q id, requests w' !! r = Some q -> req_session q <> Some (p, id)).
Proof.
  intros Hp Hlink. cbv zeta.
  destruct (drop_requests_walk p o ids w Hp Hlink) as (A0 & A & B & C & _).
  fold (bfd_drop_requests w p ids o) in A0, A, B, C.
  split; [exact A|]. split; [exact B|].
  intros Hback r q id Hq Hqs.
  destruct (requests w !! r ≫= req_session) as [[p0 id0]|] eqn:E.
  - destruct (decide (p0 = p)) as [->|Hne].
    + destruct (requests w !! r) as [q0|] eqn:Hq0; [|done]. cbn in E.
      destruct (Hback r q0 id0 Hq0 E) as (Hin & s & Hs & Hr).
      destruct (B id0 s r Hin Hs Hr q Hq) as [[E' _]|(sp & E' & Hsp)]; [congruence|].
      rewrite A0 in Hsp. assert (sp = (p, id)) as -> by congruence. done.
    + assert (Hfree : forall id' s, id' ∈ ids -> lookup_session w (p, id') = Some s ->
                r ∉ request_list s).
      { intros id' s _ Hs Hr. destruct (Hlink id' s r Hs Hr) as (q0 & Hq0 & E').
        rewrite Hq0 in E. cbn in E. congruence. }
      destruct (C r Hfree) as [E' _]. rewrite E' in Hq.
      rewrite Hq in E. cbn in E. congruence.
  - assert (Hfree : forall id' s, id' ∈ ids -> lookup_session w (p, id') = Some s ->
              r ∉ request_list s).
    { intros id' s _ Hs Hr. destruct (Hlink id' s r Hs Hr) as (q0 & Hq0 & E').
      rewrite Hq0 in E. cbn in E. congruence. }
    destruct (C r Hfree) as [E' _]. rewrite E' in Hq.
    rewrite Hq in E. cbn in E. congruence.
Qed.

(** [requests_linked] in a form that can be decided on a given world. *)
Lemma requests_linked_checked w p pr :
  protos w !! p = Some pr ->
  map_Forall (fun id s =>
                Forall (fun r => requests w !! r ≫= req_session = Some (p, id))
                  (request_list s))
    (session_hash_id pr) ->
  requests_linked p w.
Proof.
  intros Hp H id s r Hs Hr. unfold lookup_session in Hs. cbn in Hs.
  rewrite Hp in Hs. cbn in Hs. specialize (H id s Hs). cbn in H.
  rewrite Forall_forall in H. specialize (H r Hr).
  destruct (requests w !! r) as [q|]; [|done]. now exists q.
Qed.

Lemma take_requests_partition_witness :
  bfd_wait_list (bfd_take_requests world_two_waiting 0 (fun _ => oracle_one)) =
    [1%nat] /\
  exists q id,
    requests (bfd_take_requests world_two_waiting 0 (fun _ => oracle_one)) !! 0%nat =
      Some q /\
    req_session q = Some (0%nat, id).
Proof.
  assert (Hnd : NoDup (bfd_wait_list world_two_waiting))
    by (apply (bool_decide_unpack _); vm_compute; reflexivity).
  destruct (take_requests_partition world_two_waiting 0 (fun _ => oracle_one) Hnd)
    as (A & _ & C).
  split.
  - rewrite A. vm_compute. reflexivity.
  - lookup_value
      (requests (bfd_take_requests world_two_waiting 0 (fun _ => oracle_one)) !! 0%nat)
      q Hq.
    match type of Hq with
    | _ = Some ?q =>
        destruct (C 0%nat q ltac:(vm_compute; repeat constructor)
                    ltac:(vm_compute; reflexivity) Hq) as [id Hid];
        exists q, id
    end.
    split; [exact Hq | exact Hid].
Defined.

Lemma drop_requests_rehomes_witness :
  (exists s, lookup_session (bfd_drop_requests world_leaving 0 [5] (fun _ => oracle_one))
               (0%nat, 5) = Some s /\ request_list s = []) /\
  rehomed (bfd_drop_requests world_leaving 0 [5] (fun _ => oracle_one)) 0 /\
  rehomed (bfd_drop_requests world_leaving 0 [5] (fun _ => oracle_one)) 1.
Proof.
  assert (Hp : 0%nat ∉ bfd_proto_list world_leaving) by apply not_elem_of_nil.
  lookup_value (protos world_leaving !! 0%nat) pr Hpr.
  assert (Hl : requests_linked 0 world_leaving).
  { eapply requests_linked_checked; [exact Hpr|].
    apply (bool_decide_unpack _). vm_compute. reflexivity. }
  destruct (drop_requests_rehomes world_leaving 0 [5] (fun _ => oracle_one) Hp Hl)
    as (A & B & _).
  lookup_value (lookup_session world_leaving (0%nat, 5)) s Hs.
  match type of Hs with
  | _ = Some ?s =>
      pose proof (A 5 s Hs) as A5;
      pose proof (B 5 s 0%nat ltac:(repeat constructor) Hs
                    ltac:(vm_compute; repeat constructor)) as B0;
      pose proof (B 5 s 1%nat ltac:(repeat constructor) Hs
                    ltac:(vm_compute; repeat constructor)) as B1
  end.
  split; [|exact (conj B0 B1)].
  eexists. split; [exact A5|].
  destruct (decide (5 ∈ [5])) as [_|H]; [reflexivity|].
  exfalso. apply H. repeat constructor.
Defined.

(** ** Neighbors *)

Lemma around_refl r w : around_request r w w.
Proof. done. Qed.

Lemma around_trans r w1 w2 w3 :
  around_request r w1 w2 -> around_request r w2 w3 -> around_request r w1 w3.
Proof.
  intros (A1 & B1 & C1 & D1) (A2 & B2 & C2 & D2). split; [congruence|].
  split; [intros p; now rewrite B2|]. split; [|congruence].
  intros r' Hne. now rewrite C2, C1.
Qed.

Lemma serves_around r w w' : serves_request r w w' -> around_request r w w'.
Proof. intros (A & B & C & D & _). done. Qed.

(** A change of the stored request [r] alone. *)
Lemma around_set_request r m w :
  (forall r', r' <> r -> m !! r' = requests w !! r') ->
  around_request r w (set_requests m w).
Proof. intros H. done. Qed.

(** The request [bfd_request_session] returns is new, it is stored when
    the call returns, and it holds what the caller asked for. *)
Lemma request_session_made w a local i v hook data opts o :
  let r := (bfd_request_session w a local i v hook data opts o).1 in
  let w' := (bfd_request_session w a local i v hook data opts o).2 in
  requests w !! r = None /\ around_request r w w' /\
  exists q, requests w' !! r = Some q /\
    request_static q =
    (a, local, i, v, default (mk_options 0 0 0 0 0 0 0 0) opts, hook, data).
Proof.
  cbv zeta. rewrite request_session_unfold. cbv zeta. cbn [fst snd].
  set (r := fresh (dom (requests w))).
  set (q0 := mk_request _ _ _ _ _ _ _ _ _ _ _ _).
  assert (Hfresh : requests w !! r = None).
  { apply not_elem_of_dom. subst r. apply is_fresh. }
  split; [exact Hfresh|].
  set (w5 := set_requests (<[r := q0]> (requests w)) w).
  assert (Hr5 : requests w5 !! r = Some q0) by apply lookup_insert_eq.
  split.
  { eapply around_trans; [apply (around_set_request r (<[r := q0]> (requests w)))|].
    { intros r' Hne. now apply lookup_insert_ne. }
    fold w5. eapply around_trans; [apply serves_around, serves_submit|].
    eapply around_trans; apply around_set_request; intros r' Hne;
      now apply lookup_alter_ne. }
  assert (H : hookless w5 r (hook_log w)).
  { split; [|done]. exists q0. done. }
  destruct (hookless_submit w5 r o _ H) as [(q & Eq & Hh) _].
  destruct (serves_submit r w5 o) as (_ & _ & _ & _ & E).
  destruct (E q Eq) as (q5 & Hq5 & Es). rewrite Hr5 in Hq5. injection Hq5 as <-.
  exists (set_req_data data (set_req_hook hook q)). split.
  - cbn. rewrite !lookup_alter_eq, Eq. done.
  - unfold request_static in *. cbn.
    injection Es as E1 E2 E3 E4 E5 E6 E7. rewrite E1, E2, E3, E4, E5.
    subst q0. cbn. now destruct opts.
Qed.

Lemma nest_ext x x' :
  broker x = broker x' -> neigh_cache x = neigh_cache x' ->
  bfd_neighbors x = bfd_neighbors x' -> neigh_errors x = neigh_errors x' ->
  x = x'.
Proof. destruct x, x'. cbn. congruence. Qed.

(** A neighbor whose request is there exactly when its scope is positive
    is left alone. *)
Lemma neigh_notify_settled ipa_nonzero x nb e n bn o :
  neigh_cache x !! nb = Some e -> nb_data e = Some n ->
  bfd_neighbors x !! n = Some bn ->
  (is_Some (n_req bn) <-> 0 < nb_scope e) ->
  bfd_neigh_notify ipa_nonzero x nb o = x.
Proof.
  intros He Hd Hn Hiff. unfold bfd_neigh_notify. rewrite He, Hd, Hn.
  destruct (n_req bn) as [r|] eqn:Er.
  - assert (Hs : 0 < nb_scope e) by (apply Hiff; done).
    rewrite bool_decide_eq_true_2 by done. rewrite andb_false_r.
    rewrite Hn. cbn. rewrite Er.
    destruct (nb_scope e <=? 0) eqn:E; [lia | done].
  - assert (Hs : ~ 0 < nb_scope e) by (intros H; apply Hiff in H; by destruct H).
    destruct (0 <? nb_scope e) eqn:E; [lia|]. cbn. rewrite Hn. cbn.
    now rewrite Er.
Qed.

(** X18.  [bfd_neigh_notify] makes the request of a neighbor follow the
    scope of its cache entry: afterwards the neighbor has a request exactly
    when the scope is positive, and is otherwise as it was.  A neighbor
    that came into scope without a request gets a new one, for its address
    on the interface of the cache entry, from its local address or, if that
    is zero, from the address of the router there, without callback; a
    neighbor that went out of scope has its request released; in the two
    other cases nothing happens, so that a second call changes nothing. *)
Theorem neigh_notify_tracks_scope ipa_nonzero x nb e n bn o :
  neigh_cache x !! nb = Some e -> nb_data e = Some n ->
  bfd_neighbors x !! n = Some bn ->
  let x' := bfd_neigh_notify ipa_nonzero x nb o in
  (exists bn', bfd_neighbors x' !! n = Some bn' /\
     (is_Some (n_req bn') <-> 0 < nb_scope e) /\
     set_n_req None bn' = set_n_req None bn /\
     match n_req bn with
     | None =>
         0 < nb_scope e ->
         exists r q,
           n_req bn' = Some r /\ requests (broker x) !! r = None /\
           requests (broker x') !! r = Some q /\
           request_static q =
           (n_addr bn,
            if ipa_nonzero (n_local bn) then n_local bn else nb_ifa_ip e,
            nb_iface e, proto_vrf (broker x) (nb_proto e),
            mk_options 0 0 0 0 0 0 0 0, None, 0)
     | Some r =>
         nb_scope e <= 0 -> broker x' = rfree_request (broker x) r
     end) /\
  ((is_Some (n_req bn) <-> 0 < nb_scope e) -> x' = x) /\
  neigh_cache x' = neigh_cache x /\
  forall o', bfd_neigh_notify ipa_nonzero x' nb o' = x'.
Proof.
  intros He Hd Hn. cbv zeta.
  assert (Hset : forall b, set_n_req None (set_n_req b bn) = set_n_req None bn)
    by done.
  assert (Main : exists bn',
            bfd_neighbors (bfd_neigh_notify ipa_nonzero x nb o) !! n = Some bn' /\
            (is_Some (n_req bn') <-> 0 < nb_scope e) /\
            set_n_req None bn' = set_n_req None bn /\
            neigh_cache (bfd_neigh_notify ipa_nonzero x nb o) = neigh_cache x /\
            match n_req bn with
            | None =>
                0 < nb_scope e ->
                exists r q,
                  n_req bn' = Some r /\ requests (broker x) !! r = None /\
                  requests (broker (bfd_neigh_notify ipa_nonzero x nb o)) !! r =
                    Some q /\
                  request_static q =
                  (n_addr bn,
                   if ipa_nonzero (n_local bn) then n_local bn else nb_ifa_ip e,
                   nb_iface e, proto_vrf (broker x) (nb_proto e),
                   mk_options 0 0 0 0 0 0 0 0, None, 0)
            | Some r =>
                nb_scope e <= 0 ->
                broker (bfd_neigh_notify ipa_nonzero x nb o) =
                rfree_request (broker x) r
            end).
  { destruct (n_req bn) as [r|] eqn:Er; destruct (0 <? nb_scope e) eqn:Es.
    - rewrite (neigh_notify_settled ipa_nonzero x nb e n bn o He Hd Hn)
        by (rewrite Er; split; [lia | done]).
      exists bn. rewrite Er. split; [done|]. split; [split; [lia|done]|].
      split; [done|]. split; [done|]. lia.
    - unfold bfd_neigh_notify. rewrite He, Hd, Hn, Es. cbn [andb].
      rewrite Hn. cbn [mbind option_bind]. rewrite Er.
      destruct (nb_scope e <=? 0) eqn:Es'; [|lia].
      exists (set_n_req None bn). split; [|split; [|split; [|split]]]; try done.
      + cbn. now rewrite lookup_alter_eq, Hn.
      + cbn. split; [intros [? ?]; done | lia].
    - unfold bfd_neigh_notify. rewrite He, Hd, Hn, Es, Er.
      rewrite bool_decide_eq_false_2 by (intros [? ?]; done). cbn [andb negb].
      set (local := if ipa_nonzero (n_local bn) then _ else _).
      pose proof (request_session_made (broker x) (n_addr bn) local (nb_iface e)
                    (proto_vrf (broker x) (nb_proto e)) None 0 None o) as Hm.
      destruct (bfd_request_session _ _ _ _ _ _ _ _ _) as [r w].
      cbv zeta in Hm. cbn [fst snd] in Hm. destruct Hm as (Hf & _ & q & Hq & Hst).
      cbn [bfd_neighbors upd_neighbor set_broker].
      rewrite lookup_alter_eq, Hn. cbn [fmap option_fmap option_map mbind option_bind].
      cbn [n_req set_n_req].
      destruct (nb_scope e <=? 0) eqn:Es'; [lia|].
      exists (set_n_req (Some r) bn). split; [|split; [|split; [|split]]]; try done.
      + cbn. now rewrite lookup_alter_eq, Hn.
      + cbn. split; [lia | done].
      + intros _. exists r, q. done.
    - rewrite (neigh_notify_settled ipa_nonzero x nb e n bn o He Hd Hn)
        by (rewrite Er; split; [intros [? ?]; done | lia]).
      exists bn. rewrite Er. split; [done|]. split; [split; [intros [? ?]; done|lia]|].
      split; [done|]. split; [done|]. lia. }
  destruct Main as (bn' & A & B & C & D & E).
  split; [exists bn'; done|]. split; [|split; [exact D|]].
  - intros H. now apply (neigh_notify_settled ipa_nonzero x nb e n bn o).
  - intros o'. apply (neigh_notify_settled ipa_nonzero _ nb e n bn' o'); try done.
    now rewrite D.
Qed.

Lemma same_neighbor_id a b :
  bfd_same_neighbor a b = true <-> neighbor_id a = neighbor_id b.
Proof.
  unfold bfd_same_neighbor, neighbor_id, ipa_equal. split.
  - intros H. repeat (apply andb_prop in H as [H ?]).
    apply bool_decide_eq_true in H. repeat case_bool_decide; try done.
    f_equal; [f_equal; [f_equal|]|]; try done. lia.
  - intros [= -> -> -> ->]. rewrite !bool_decide_eq_true_2 by done.
    now rewrite Z.eqb_refl.
Qed.

Lemma same_ids_refl x : same_ids x x.
Proof. done. Qed.

Lemma same_ids_trans x1 x2 x3 : same_ids x1 x2 -> same_ids x2 x3 -> same_ids x1 x3.
Proof. intros H1 H2 n. now rewrite H2, H1. Qed.

Lemma same_ids_upd_neighbor n f x :
  (forall bn, neighbor_id (f bn) = neighbor_id bn) -> same_ids x (upd_neighbor n f x).
Proof.
  intros Hf n'. cbn. destruct (decide (n' = n)) as [->|Hne].
  - rewrite lookup_alter_eq. destruct (bfd_neighbors x !! n); cbn; [|done].
    now rewrite Hf.
  - now rewrite lookup_alter_ne.
Qed.

Lemma requests_kept_refl w : requests_kept w w.
Proof. done. Qed.

Lemma requests_kept_trans w1 w2 w3 :
  requests_kept w1 w2 -> requests_kept w2 w3 -> requests_kept w1 w3.
Proof.
  intros H1 H2 r Hr. rewrite H2, H1; [done..|]. now rewrite H1.
Qed.

Lemma requests_kept_request_session w a local i v hook data opts o :
  requests_kept w (bfd_request_session w a local i v hook data opts o).2.
Proof.
  destruct (request_session_made w a local i v hook data opts o)
    as (Hf & (_ & _ & C & _) & _).
  intros r Hr. apply C. intros ->. rewrite Hf in Hr. by destruct Hr.
Qed.

(** [find_same] looks at nothing but what makes neighbors the same. *)
Lemma find_same_ids x x' on new :
  same_ids x x' -> find_same x' on new = find_same x on new.
Proof.
  intros H. unfold find_same. pose proof (H on) as Hon.
  destruct (bfd_neighbors x' !! on) as [bo'|], (bfd_neighbors x !! on) as [bo|];
    try done.
  apply (inj Some) in Hon. cbn [mbind option_bind].
  induction new as [|nn new IH]; [done|]. cbn [List.find]. rewrite IH.
  pose proof (H nn) as Hnn.
  destruct (bfd_neighbors x' !! nn) as [bn'|], (bfd_neighbors x !! nn) as [bn|];
    try done.
  apply (inj Some) in Hnn.
  assert (E : bfd_same_neighbor bn' bo' = bfd_same_neighbor bn bo).
  { destruct (bfd_same_neighbor bn bo) eqn:E.
    - apply same_neighbor_id. apply same_neighbor_id in E. congruence.
    - destruct (bfd_same_neighbor bn' bo') eqn:E'; [|done].
      apply same_neighbor_id in E'. rewrite <- E. symmetry.
      apply same_neighbor_id. congruence. }
  now rewrite E.
Qed.

Lemma find_same_Some x on new nn :
  find_same x on new = Some nn ->
  nn ∈ new /\ exists bo bn, bfd_neighbors x !! on = Some bo /\
    bfd_neighbors x !! nn = Some bn /\ neighbor_id bn = neighbor_id bo.
Proof.
  unfold find_same. destruct (bfd_neighbors x !! on) as [bo|]; [|done]. cbn.
  intros H. apply find_some in H as [Hin H]. apply list_elem_of_In in Hin.
  split; [exact Hin|]. destruct (bfd_neighbors x !! nn) as [bn|]; [|done].
  exists bo, bn. split; [done|]. split; [done|]. now apply same_neighbor_id.
Qed.

(** *** One neighbor kept, stopped or started *)

Lemma keep_neighbor_spec x on nn bo :
  bfd_neighbors x !! on = Some bo ->
  keep_neighbor x on nn =
  mk_nest (broker x)
    (match n_neigh bo with
     | Some nb => alter (set_nb_data (Some nn)) nb (neigh_cache x)
     | None => neigh_cache x
     end)
    (alter (fun bn => set_n_active 1 (set_n_req (n_req bo)
                        (set_n_neigh (n_neigh bo) bn))) nn (bfd_neighbors x))
    (neigh_errors x).
Proof.
  intros Ho. unfold keep_neighbor. rewrite Ho.
  destruct (n_neigh bo); apply nest_ext; cbn; try done;
    now rewrite !alter_alter_eq.
Qed.

Lemma stop_neighbor_spec x on bo :
  bfd_neighbors x !! on = Some bo ->
  bfd_stop_neighbor x on =
  mk_nest (match n_req bo with
           | Some r => rfree_request (broker x) r
           | None => broker x
           end)
    (match n_neigh bo with
     | Some nb => alter (set_nb_data None) nb (neigh_cache x)
     | None => neigh_cache x
     end)
    (alter (fun bn => set_n_req None (set_n_neigh None bn)) on (bfd_neighbors x))
    (neigh_errors x).
Proof.
  intros Ho. unfold bfd_stop_neighbor. rewrite Ho.
  destruct (n_neigh bo), (n_req bo); apply nest_ext; cbn; try done;
    now rewrite !alter_alter_eq.
Qed.

Section start_neighbor.
Variable ipa_nonzero : ip_addr -> bool.
Variable neigh_find : nat -> ip_addr -> option iface -> option nat.

(** What [bfd_neigh_notify] leaves alone, for a neighbor in scope. *)
Lemma neigh_notify_frame x nb e n o :
  neigh_cache x !! nb = Some e -> nb_data e = Some n -> 0 < nb_scope e ->
  let x' := bfd_neigh_notify ipa_nonzero x nb o in
  (forall n', n' <> n -> bfd_neighbors x' !! n' = bfd_neighbors x !! n') /\
  set_n_req None <$> bfd_neighbors x' !! n = set_n_req None <$> bfd_neighbors x !! n /\
  requests_kept (broker x) (broker x').
Proof.
  intros He Hd Hs. cbv zeta. unfold bfd_neigh_notify. rewrite He, Hd.
  destruct (bfd_neighbors x !! n) as [bn|] eqn:Hn.
  2:{ rewrite Hn. done. }
  assert (E1 : (0 <? nb_scope e) = true) by lia.
  assert (E2 : (nb_scope e <=? 0) = false) by lia. rewrite E1, E2. cbn [andb].
  destruct (negb (bool_decide (is_Some (n_req bn)))).
  - set (local := if ipa_nonzero (n_local bn) then _ else _).
    pose proof (requests_kept_request_session (broker x) (n_addr bn) local
                  (nb_iface e) (proto_vrf (broker x) (nb_proto e)) None 0 None o)
      as Hk.
    destruct (bfd_request_session _ _ _ _ _ _ _ _ _) as [r w]. cbn [snd] in Hk.
    set (x1 := upd_neighbor n _ _).
    assert (H1 : (forall n', n' <> n -> bfd_neighbors x1 !! n' = bfd_neighbors x !! n') /\
                 set_n_req None <$> bfd_neighbors x1 !! n =
                   set_n_req None <$> bfd_neighbors x !! n /\
                 requests_kept (broker x) (broker x1)).
    { subst x1. cbn. split; [|split; [|exact Hk]].
      - intros n' Hne. now rewrite lookup_alter_ne.
      - rewrite lookup_alter_eq, Hn. done. }
    clearbody x1. rewrite Hn in H1.
    destruct (bfd_neighbors x1 !! n ≫= n_req); exact H1.
  - rewrite Hn. cbn [mbind option_bind].
    destruct (n_req bn); (split; [done|]; split; [now rewrite Hn | done]).
Qed.

Lemma start_neighbor_spec x p nn o :
  let x' := bfd_start_neighbor ipa_nonzero neigh_find x p nn o in
  (forall n, n <> nn -> bfd_neighbors x' !! n = bfd_neighbors x !! n) /\
  same_ids x x' /\
  requests_kept (broker x) (broker x') /\
  (forall bn', bfd_neighbors x' !! nn = Some bn' -> n_active bn' = 1).
Proof.
  cbv zeta. unfold bfd_start_neighbor.
  set (x0 := upd_neighbor nn (set_n_active 1) x).
  assert (H0 : (forall n, n <> nn -> bfd_neighbors x0 !! n = bfd_neighbors x !! n) /\
               same_ids x x0 /\ requests_kept (broker x) (broker x0) /\
               (forall bn', bfd_neighbors x0 !! nn = Some bn' -> n_active bn' = 1)).
  { subst x0. split; [|split; [|split]].
    - intros n Hne. cbn. now rewrite lookup_alter_ne.
    - now apply same_ids_upd_neighbor.
    - done.
    - intros bn'. cbn. rewrite lookup_alter_eq. intros H.
      apply fmap_Some in H as (bn & _ & ->). done. }
  destruct H0 as (A0 & B0 & C0 & D0).
  assert (Step : forall x1 f,
            (forall bn, neighbor_id (f bn) = neighbor_id bn) ->
            (forall bn, n_active (f bn) = n_active bn) ->
            (forall n, n <> nn -> bfd_neighbors x1 !! n = bfd_neighbors x !! n) ->
            same_ids x x1 ->
            (forall bn', bfd_neighbors x1 !! nn = Some bn' -> n_active bn' = 1) ->
            (forall n, n <> nn ->
               bfd_neighbors (upd_neighbor nn f x1) !! n = bfd_neighbors x !! n) /\
            same_ids x (upd_neighbor nn f x1) /\
            (forall bn', bfd_neighbors (upd_neighbor nn f x1) !! nn = Some bn' ->
               n_active bn' = 1)).
  { intros x1 f Hf1 Hf2 A1 B1 D1. split; [|split].
    - intros n Hne. cbn. rewrite lookup_alter_ne by done. now apply A1.
    - eapply same_ids_trans; [exact B1 | now apply same_ids_upd_neighbor].
    - intros bn'. cbn. rewrite lookup_alter_eq. intros H.
      apply fmap_Some in H as (bn & Hbn & ->). rewrite Hf2. now apply D1. }
  destruct (bfd_neighbors x0 !! nn) as [bn|] eqn:Hn.
  2:{ split; [exact A0|]. split; [exact B0|]. split; [exact C0|].
      intros bn' Hb. rewrite ?Hn in Hb. done. }
  assert (D0' : forall bn', bfd_neighbors x0 !! nn = Some bn' -> n_active bn' = 1)
    by (intros bn' Hb; apply D0; congruence).
  destruct (nz (n_multihop bn)).
  - pose proof (requests_kept_request_session (broker x0) (n_addr bn) (n_local bn)
                  None (proto_vrf (broker x0) p) None 0 None o) as Hk.
    destruct (bfd_request_session _ _ _ _ _ _ _ _ _) as [r w]. cbn [snd] in Hk.
    destruct (Step (set_broker w x0) (set_n_req (Some r)) ltac:(done) ltac:(done)
                A0 B0 D0') as (A & B & D).
    split; [exact A|]. split; [exact B|]. split; [|exact D]. exact Hk.
  - assert (G0 : (forall n, n <> nn -> bfd_neighbors x0 !! n = bfd_neighbors x !! n) /\
                 same_ids x x0 /\ requests_kept (broker x) (broker x0) /\
                 (forall bn', bfd_neighbors x0 !! nn = Some bn' -> n_active bn' = 1))
      by done.
    destruct (neigh_find p (n_addr bn) (n_iface bn)) as [nb|]; [|exact G0].
    destruct (neigh_cache x0 !! nb) as [e|] eqn:He; [|exact G0].
    case_bool_decide; [exact G0|].
    set (x2 := upd_cache nb (set_nb_data (Some nn)) (upd_neighbor nn _ x0)).
    destruct (Step x0 (set_n_neigh (Some nb)) ltac:(done) ltac:(done) A0 B0 D0')
      as (A & B & D).
    assert (A2 : forall n, n <> nn -> bfd_neighbors x2 !! n = bfd_neighbors x !! n)
      by exact A.
    assert (B2 : same_ids x x2) by exact B.
    assert (D2 : forall bn', bfd_neighbors x2 !! nn = Some bn' -> n_active bn' = 1)
      by exact D.
    assert (C2 : requests_kept (broker x) (broker x2)) by exact C0.
    destruct (0 <? nb_scope e) eqn:Es; [|done].
    assert (He2 : neigh_cache x2 !! nb = Some (set_nb_data (Some nn) e)).
    { subst x2. unfold upd_cache. cbn [neigh_cache]. rewrite lookup_alter_eq.
      change (neigh_cache (upd_neighbor nn (set_n_neigh (Some nb)) x0))
        with (neigh_cache x0). rewrite He. reflexivity. }
    clearbody x2.
    destruct (neigh_notify_frame x2 nb _ nn o He2 eq_refl ltac:(cbn; lia))
      as (F1 & F2 & F3).
    split; [|split; [|split]].
    + intros n Hne. rewrite F1 by done. now apply A2.
    + intros n. destruct (decide (n = nn)) as [->|Hne].
      * rewrite <- B2.
        assert (G : forall m : option bfd_neighbor,
                  neighbor_id <$> m = neighbor_id <$> (set_n_req None <$> m))
          by (intros [?|]; done).
        rewrite (G (bfd_neighbors _ !! nn)), F2, <- G. done.
      * rewrite F1 by done. apply B2.
    + eapply requests_kept_trans; [exact C2 | exact F3].
    + intros bn' Hbn'. rewrite Hbn' in F2.
      destruct (bfd_neighbors x2 !! nn) as [b2|] eqn:Hb2; [|done].
      apply (inj Some) in F2.
      change (n_active bn') with (n_active (set_n_req None bn')).
      rewrite F2. cbn. now apply D2.
Qed.

End start_neighbor.

Section reconfigure_neighbors.
Variable ipa_nonzero : ip_addr -> bool.
Variable neigh_find : nat -> ip_addr -> option iface -> option nat.
Context (p : nat) (o : nat -> oracle) (new : list nat).

Let start_new (x : bfd_nest) (nn : nat) : bfd_nest :=
  match bfd_neighbors x !! nn with
  | Some bn =>
      if nz (n_active bn) then x
      else bfd_start_neighbor ipa_nonzero neigh_find x p nn (o nn)
  | None => x
  end.

Let settle (x : bfd_nest) (on : nat) : bfd_nest :=
  match find_same x on new with
  | Some nn => keep_neighbor x on nn
  | None => bfd_stop_neighbor x on
  end.

(** The second loop of [bfd_reconfigure_neighbors]: the neighbors that are
    active are passed over, the others are started. *)
Lemma start_new_walk l : forall x,
  let x' := foldl start_new x l in
  same_ids x x' /\ requests_kept (broker x) (broker x') /\
  (forall n bn, bfd_neighbors x !! n = Some bn ->
     n ∉ l \/ nz (n_active bn) = true -> bfd_neighbors x' !! n = Some bn) /\
  (forall n bn', n ∈ l -> bfd_neighbors x' !! n = Some bn' ->
     nz (n_active bn') = true).
Proof.
  induction l as [|nn l IH]; intros x; cbv zeta.
  { cbn. split; [done|]. split; [done|]. split; [done|].
    intros n bn' H. by apply elem_of_nil in H. }
  cbn [foldl].
  assert (H1 : same_ids x (start_new x nn) /\
               requests_kept (broker x) (broker (start_new x nn)) /\
               (forall n bn, bfd_neighbors x !! n = Some bn ->
                  n <> nn \/ nz (n_active bn) = true ->
                  bfd_neighbors (start_new x nn) !! n = Some bn) /\
               (forall bn', bfd_neighbors (start_new x nn) !! nn = Some bn' ->
                  nz (n_active bn') = true)).
  { unfold start_new. destruct (bfd_neighbors x !! nn) as [bn|] eqn:Hn.
    2:{ split; [done|]. split; [done|]. split; [done|]. intros bn'. congruence. }
    destruct (nz (n_active bn)) eqn:Ea.
    { split; [done|]. split; [done|]. split; [done|]. intros bn'. congruence. }
    destruct (start_neighbor_spec ipa_nonzero neigh_find x p nn (o nn))
      as (A & B & C & D).
    split; [exact B|]. split; [exact C|]. split.
    - intros n bn0 Hn0 [Hne|Hact].
      + rewrite A by done. exact Hn0.
      + destruct (decide (n = nn)) as [->|Hne]; [congruence|].
        rewrite A by done. exact Hn0.
    - intros bn' Hb. now rewrite (D bn' Hb). }
  destruct H1 as (A1 & B1 & C1 & D1).
  set (x1 := start_new x nn) in *. clearbody x1.
  destruct (IH x1) as (A & B & C & D).
  split; [eapply same_ids_trans; done|].
  split; [eapply requests_kept_trans; done|]. split.
  - intros n bn Hn H. apply C.
    + apply C1; [done|]. destruct H as [H|H]; [left|now right].
      intros ->. apply H. now left.
    + destruct H as [H|H]; [left|now right]. intros Hin. apply H. now right.
  - intros n bn' Hin Hb. apply elem_of_cons in Hin as [->|Hin]; [|now apply (D n)].
    pose proof (A nn) as E. rewrite Hb in E.
    destruct (bfd_neighbors x1 !! nn) as [b1|] eqn:Hb1; [|done].
    rewrite (C nn b1 Hb1) in Hb by (right; now apply D1).
    injection Hb as <-. now apply D1.
Qed.

(** The first loop: every neighbor of the old list is kept, in the first
    neighbor of the new list that is the same, or stopped. *)
Lemma settle_walk l : forall x,
  neighbors_distinct x l -> (forall n, n ∈ l -> n ∉ new) ->
  let x' := foldl settle x l in
  same_ids x x' /\
  (forall r, (forall on bo, on ∈ l -> bfd_neighbors x !! on = Some bo ->
                n_req bo = Some r -> is_Some (find_same x on new)) ->
     requests (broker x') !! r = requests (broker x) !! r) /\
  (forall n, n ∉ l -> (forall on, on ∈ l -> find_same x on new <> Some n) ->
     bfd_neighbors x' !! n = bfd_neighbors x !! n) /\
  (forall on bo, on ∈ l -> bfd_neighbors x !! on = Some bo ->
     match find_same x on new with
     | Some nn =>
         exists bn', bfd_neighbors x' !! nn = Some bn' /\
           n_req bn' = n_req bo /\ n_neigh bn' = n_neigh bo /\ n_active bn' = 1
     | None =>
         exists bo', bfd_neighbors x' !! on = Some bo' /\
           n_req bo' = None /\ n_neigh bo' = None
     end).
Proof.
  induction l as [|on l IH]; intros x (Hnd & Hal & Hdis) Hnew; cbv zeta.
  { cbn. split; [done|]. split; [done|]. split; [done|].
    intros on bo H. by apply elem_of_nil in H. }
  cbn [foldl]. apply NoDup_cons in Hnd as [Hon Hnd].
  destruct (Hal on ltac:(left)) as [bo Hbo].
  (* the step *)
  assert (H1 : same_ids x (settle x on) /\
               (forall r, (n_req bo = Some r -> is_Some (find_same x on new)) ->
                  requests (broker (settle x on)) !! r = requests (broker x) !! r) /\
               (forall n, n <> on -> find_same x on new <> Some n ->
                  bfd_neighbors (settle x on) !! n = bfd_neighbors x !! n) /\
               match find_same x on new with
               | Some nn =>
                   exists bn', bfd_neighbors (settle x on) !! nn = Some bn' /\
                     n_req bn' = n_req bo /\ n_neigh bn' = n_neigh bo /\
                     n_active bn' = 1
               | None =>
                   exists bo', bfd_neighbors (settle x on) !! on = Some bo' /\
                     n_req bo' = None /\ n_neigh bo' = None
               end).
  { unfold settle. destruct (find_same x on new) as [nn|] eqn:Ef.
    - rewrite (keep_neighbor_spec x on nn bo Hbo).
      destruct (find_same_Some x on new nn Ef) as (Hin & bo0 & bn & Hbo0 & Hbn & Hid).
      split; [|split; [done|split]].
      + intros n. cbn. destruct (decide (n = nn)) as [->|Hne].
        * rewrite lookup_alter_eq, Hbn. done.
        * now rewrite lookup_alter_ne.
      + intros n _ Hne. cbn. rewrite lookup_alter_ne; [done|]. congruence.
      + eexists. cbn. rewrite lookup_alter_eq, Hbn. cbn. done.
    - rewrite (stop_neighbor_spec x on bo Hbo).
      split; [|split; [|split]].
      + intros n. cbn. destruct (decide (n = on)) as [->|Hne].
        * rewrite lookup_alter_eq, Hbo. done.
        * now rewrite lookup_alter_ne.
      + intros r Hr. cbn. destruct (n_req bo) as [r0|]; [|done].
        destruct (serves_rfree r0 (broker x)) as (_ & _ & C & _).
        apply C. intros ->. destruct (Hr eq_refl) as [? ?]. done.
      + intros n Hne _. cbn. now rewrite lookup_alter_ne.
      + eexists. cbn. rewrite lookup_alter_eq, Hbo. cbn. done. }
  destruct H1 as (A1 & B1 & C1 & D1).
  set (x1 := settle x on) in *. clearbody x1.
  assert (Hfs : forall on', find_same x1 on' new = find_same x on' new)
    by (intros on'; now apply find_same_ids).
  assert (Hl : forall n, n ∈ l -> bfd_neighbors x1 !! n = bfd_neighbors x !! n).
  { intros n Hn. apply C1; [intros ->; done|].
    intros E. apply find_same_Some in E as [E _].
    apply (Hnew n); [now right | done]. }
  assert (Hd1 : neighbors_distinct x1 l).
  { split; [exact Hnd|]. split.
    - intros n Hn. rewrite Hl by done. apply Hal. now right.
    - intros n1 n2 b1 b2 H1 H2. rewrite !Hl by done. intros E1 E2.
      apply Hdis; [now right | now right | done..]. }
  destruct (IH x1 Hd1 (fun n Hn => Hnew n ltac:(now right))) as (A & B & C & D).
  split; [eapply same_ids_trans; done|]. split; [|split].
  - intros r Hr. rewrite B, B1; [done| |].
    + intros E. apply (Hr on bo); [now left | done..].
    + intros on' bo' Hin Hbo' E. rewrite Hfs. rewrite Hl in Hbo' by done.
      apply (Hr on' bo'); [now right | done..].
  - intros n Hn Hno. apply not_elem_of_cons in Hn as [Hne Hn].
    rewrite C, C1; [done..| |done|].
    + apply Hno. now left.
    + intros on' Hin. rewrite Hfs. apply Hno. now right.
  - intros on0 bo0 Hin Hbo0. apply elem_of_cons in Hin as [->|Hin].
    + assert (bo0 = bo) as -> by congruence.
      destruct (find_same x on new) as [nn|] eqn:Ef.
      * destruct D1 as (bn' & E & F). exists bn'. split; [|exact F].
        destruct (find_same_Some x on new nn Ef) as (Hin & b & bn & Hb & Hbn & Hid).
        assert (b = bo) as -> by congruence.
        rewrite C; [exact E| |].
        -- intros H. apply (Hnew nn); [now right | done].
        -- intros on' Hin' E'. rewrite Hfs in E'.
           destruct (find_same_Some x on' new nn E')
             as (_ & b' & bn2 & Hb' & Hbn2 & Hid').
           assert (bn2 = bn) as -> by congruence.
           assert (on' = on); [|congruence].
           apply (Hdis on' on b' bo); [now right | now left | done..|].
           left. congruence.
      * destruct D1 as (bo' & E & F). exists bo'. split; [|exact F].
        rewrite C; [exact E | done |].
        intros on' Hin' E'. apply find_same_Some in E' as [E' _].
        apply (Hnew on); [now left | done].
    + rewrite <- Hl in Hbo0 by done. specialize (D on0 bo0 Hin Hbo0).
      now rewrite Hfs in D.
Qed.

End reconfigure_neighbors.

(** X19.  A reconfiguration keeps the neighbors that stay.  When the
    neighbors of the old list are distinct (no two are the same, no two
    hold the same request) and none of them is on the new list,
    [bfd_reconfigure_neighbors] hands the request and the cache entry of
    every old neighbor that has the same neighbor on the new list over to
    the first such neighbor, which is marked active and not started again,
    and the request itself is untouched; an old neighbor without
    counterpart is stopped and ends without request and without cache
    entry; and every neighbor of the new list ends active. *)
Theorem reconfigure_neighbors_keeps_same ipa_nonzero neigh_find x p old new o :
  neighbors_distinct x old -> (forall n, n ∈ old -> n ∉ new) ->
  let x' := bfd_reconfigure_neighbors ipa_nonzero neigh_find x p old new o in
  (forall on bo, on ∈ old -> bfd_neighbors x !! on = Some bo ->
     match find_same x on new with
     | Some nn =>
         exists bn', bfd_neighbors x' !! nn = Some bn' /\
           n_req bn' = n_req bo /\ n_neigh bn' = n_neigh bo /\ n_active bn' = 1 /\
           forall r, n_req bo = Some r -> is_Some (requests (broker x) !! r) ->
             requests (broker x') !! r = requests (broker x) !! r
     | None =>
         exists bo', bfd_neighbors x' !! on = Some bo' /\
           n_req bo' = None /\ n_neigh bo' = None
     end) /\
  (forall nn bn', nn ∈ new -> bfd_neighbors x' !! nn = Some bn' ->
     nz (n_active bn') = true).
Proof.
  intros Hd Hnew. cbv zeta. unfold bfd_reconfigure_neighbors.
  destruct (settle_walk new old x Hd Hnew) as (A1 & B1 & C1 & D1).
  set (x1 := foldl _ x old) in *. clearbody x1.
  destruct (start_new_walk ipa_nonzero neigh_find p o new x1) as (A2 & B2 & C2 & D2).
  set (x2 := foldl _ x1 new) in *. clearbody x2.
  split; [|exact D2].
  intros on bo Hin Hbo. specialize (D1 on bo Hin Hbo).
  destruct (find_same x on new) as [nn|] eqn:Ef.
  - destruct D1 as (bn' & E & F1 & F2 & F3). exists bn'.
    split; [|split; [done|split; [done|split; [done|]]]].
    + apply C2; [exact E|]. right. now rewrite F3.
    + intros r Hr Hs. rewrite B2.
      * apply B1. intros on' bo' Hin' Hbo' Hr'.
        destruct Hd as (_ & _ & Hdis).
        assert (on' = on) as ->; [|now rewrite Ef].
        apply (Hdis on' on bo' bo); try done. right. rewrite Hr'. split; [done|].
        congruence.
      * rewrite B1; [done|]. intros on' bo' Hin' Hbo' Hr'.
        destruct Hd as (_ & _ & Hdis).
        assert (on' = on) as ->; [|now rewrite Ef].
        apply (Hdis on' on bo' bo); try done. right. rewrite Hr'. split; [done|].
        congruence.
  - destruct D1 as (bo' & E & F). exists bo'. split; [|exact F].
    apply C2; [exact E|]. left. now apply Hnew.
Qed.

(** ** Reconfiguration of an engine *)

Lemma reconfigure_iface_changed b new :
  ifa_changed (bfd_reconfigure_iface b new) = true <->
  bfd_find_iface_config new (ifa_iface b) <> ifa_cf b.
Proof.
  unfold bfd_reconfigure_iface. cbn.
  set (n := bfd_find_iface_config new (ifa_iface b)). set (c := ifa_cf b).
  clearbody n c. split.
  - intros H ->. rewrite !Z.eqb_refl in H. done.
  - intros H. destruct n, c. cbn.
    repeat match goal with
           | |- context [?a =? ?b] => destruct (Z.eqb_spec a b); [subst|]
           end; cbn; try reflexivity.
    now exfalso.
Qed.

Lemma find_iface_reconfigured l new k :
  List.find (iface_is k) ((fun b => bfd_reconfigure_iface b new) <$> l) =
  (fun b => bfd_reconfigure_iface b new) <$> List.find (iface_is k) l.
Proof.
  induction l as [|b l IH]; [done|].
  cbn. change (iface_is k (bfd_reconfigure_iface b new)) with (iface_is k b).
  now destruct (iface_is k b).
Qed.

Section reconfigure_sessions.
Context (p : nat) (now : Z).

(** What the walk makes of a session, given the bindings and the
    requests. *)
Let visit (ifl : list bfd_iface) (reqs : gmap nat bfd_request) (s : bfd_session)
  : bfd_session :=
  match List.find (iface_is (ifa s)) ifl, request_list s with
  | Some b, r :: _ =>
      match reqs !! r with
      | Some q =>
          if ifa_changed b
          then bfd_session_reconfigure s (ifa_cf b) (req_opts q) now
          else s
      | None => s
      end
  | _, _ => s
  end.

Lemma reconfigure_changed_spec w pr id :
  protos w !! p = Some pr ->
  exists pr',
    protos (reconfigure_changed p now w id) !! p = Some pr' /\
    iface_list pr' = iface_list pr /\
    requests (reconfigure_changed p now w id) = requests w /\
    (forall id', id' <> id -> session_hash_id pr' !! id' = session_hash_id pr !! id') /\
    (forall s, session_hash_id pr !! id = Some s ->
       session_hash_id pr' !! id = Some (visit (iface_list pr) (requests w) s)).
Proof.
  intros Hp. unfold reconfigure_changed. rewrite Hp.
  assert (Same : forall s, session_hash_id pr !! id = Some s ->
            visit (iface_list pr) (requests w) s = s ->
            forall w', protos w' = protos w -> requests w' = requests w ->
            exists pr',
              protos w' !! p = Some pr' /\ iface_list pr' = iface_list pr /\
              requests w' = requests w /\
              (forall id', id' <> id ->
                 session_hash_id pr' !! id' = session_hash_id pr !! id') /\
              (forall s, session_hash_id pr !! id = Some s ->
                 session_hash_id pr' !! id =
                 Some (visit (iface_list pr) (requests w) s))).
  { intros s Hs Hv w' E1 E2. exists pr. rewrite E1. split; [done|].
    split; [done|]. split; [done|]. split; [done|].
    intros s' Hs'. assert (s' = s) as -> by congruence. now rewrite Hv. }
  destruct (session_hash_id pr !! id) as [s|] eqn:Hs.
  2:{ exists pr. done. }
  unfold visit in Same |- *. fold (find_iface pr (ifa s)) in Same |- *.
  destruct (find_iface pr (ifa s)) as [b|] eqn:Hb.
  2:{ apply (Same s); try done. unfold find_iface in Hb. now rewrite Hb. }
  destruct (ifa_changed b) eqn:Hc.
  2:{ apply (Same s); try done. unfold find_iface in Hb. rewrite Hb, Hc.
      destruct (request_list s); [done|]. now destruct (requests w !! _). }
  unfold bfd_reconfigure_session.
  cbn [protos set_reconfigure_log requests fst snd]. rewrite Hp, Hs.
  destruct (request_list s) as [|r l] eqn:El.
  { apply (Same s); try done. unfold find_iface in Hb. now rewrite Hb, El. }
  destruct (requests w !! r) as [q|] eqn:Hq.
  2:{ apply (Same s); try done. unfold find_iface in Hb. now rewrite Hb, El, Hq. }
  rewrite Hb.
  eexists. split; [|split; [|split; [|split]]].
  - unfold upd_session, upd_proto. cbn. rewrite lookup_alter_eq, Hp. reflexivity.
  - reflexivity.
  - reflexivity.
  - intros id' Hne. cbn. now rewrite lookup_alter_ne.
  - intros s' [= <-]. cbn. rewrite lookup_alter_eq, Hs. cbn.
    unfold find_iface in Hb. now rewrite Hb, El, Hq, Hc.
Qed.

Lemma reconfigure_walk l : forall w pr,
  protos w !! p = Some pr -> NoDup l ->
  exists pr',
    protos (foldl (reconfigure_changed p now) w l) !! p = Some pr' /\
    iface_list pr' = iface_list pr /\
    requests (foldl (reconfigure_changed p now) w l) = requests w /\
    (forall id, id ∉ l -> session_hash_id pr' !! id = session_hash_id pr !! id) /\
    (forall id s, id ∈ l -> session_hash_id pr !! id = Some s ->
       session_hash_id pr' !! id = Some (visit (iface_list pr) (requests w) s)).
Proof.
  induction l as [|id l IH]; intros w pr Hp Hnd.
  { exists pr. cbn. split; [done|]. split; [done|]. split; [done|]. split; [done|].
    intros id s H. by apply elem_of_nil in H. }
  apply NoDup_cons in Hnd as [Hid Hnd]. cbn [foldl].
  destruct (reconfigure_changed_spec w pr id Hp) as (pr1 & Hp1 & I1 & R1 & O1 & S1).
  destruct (IH _ pr1 Hp1 Hnd) as (pr' & Hp' & I & R & O & S).
  exists pr'. split; [exact Hp'|]. split; [congruence|]. split; [congruence|].
  split.
  - intros id' Hn. apply not_elem_of_cons in Hn as [Hne Hn].
    rewrite O by done. now apply O1.
  - intros id' s Hin Hs. apply elem_of_cons in Hin as [->|Hin].
    + rewrite O by done. now apply S1.
    + rewrite (S id' s Hin); [now rewrite I1, R1|].
      rewrite O1; [done|]. intros ->. done.
Qed.

End reconfigure_sessions.

(** X20.  A reconfiguration reaches the sessions through their bindings.
    [bfd_reconfigure] refuses (returns 0, nothing changed) when the new
    configuration differs in what the engine accepts, in [strict_bind] or
    in the UDP checksum option; otherwise it returns 1 after its two loops
    and the reconfiguration of the neighbors.  [bfd_reconfigure_iface]
    marks a binding as changed exactly when the configuration found for
    its interface in the new configuration differs from the one it has,
    and gives it the new one in any case.  After the two loops every
    binding of the engine has been treated so, the requests are as they
    were, a session the walk met with a changed binding has been
    reconfigured, with the options of the first request of its list merged
    over the new configuration of the binding, and every other session of
    the engine is untouched. *)
Theorem reconfigure_sessions_follow ipa_nonzero neigh_find x p pr new udp6_changed
    old_neigh new_neigh ids now o :
  protos (broker x) !! p = Some pr -> NoDup ids ->
  let w := broker x in
  let w' := reconfigure_sessions w p new ids now in
  bfd_reconfigure ipa_nonzero neigh_find x p new udp6_changed old_neigh new_neigh
    ids now o =
    (if Bool.eqb (accept_ipv4 new) (accept_ipv4 (p_cf pr)) &&
        Bool.eqb (accept_ipv6 new) (accept_ipv6 (p_cf pr)) &&
        Bool.eqb (accept_direct new) (accept_direct (p_cf pr)) &&
        Bool.eqb (accept_multihop new) (accept_multihop (p_cf pr)) &&
        Bool.eqb (strict_bind new) (strict_bind (p_cf pr)) && negb udp6_changed
     then (true,
           bfd_reconfigure_neighbors ipa_nonzero neigh_find (set_broker w' x) p
             old_neigh new_neigh o)
     else (false, x)) /\
  (forall b, ifa_changed (bfd_reconfigure_iface b new) = true <->
             bfd_find_iface_config new (ifa_iface b) <> ifa_cf b) /\
  (exists pr', protos w' !! p = Some pr' /\
     iface_list pr' = (fun b => bfd_reconfigure_iface b new) <$> iface_list pr) /\
  requests w' = requests w /\
  forall id s b,
    session_hash_id pr !! id = Some s -> find_iface pr (ifa s) = Some b ->
    let ic := bfd_find_iface_config new (ifa_iface b) in
    match request_list s with
    | r :: _ =>
        forall q, requests w !! r = Some q ->
        if bool_decide (id ∈ ids) && ifa_changed (bfd_reconfigure_iface b new)
        then exists s',
               lookup_session w' (p, id) = Some s' /\
               s' = bfd_session_reconfigure s ic (req_opts q) now /\
               cf s' = bfd_merge_options ic (req_opts q) /\
               follows_configuration s'
        else lookup_session w' (p, id) = Some s
    | [] => lookup_session w' (p, id) = Some s
    end.
Proof.
  intros Hp Hnd. cbv zeta. split.
  { unfold bfd_reconfigure. rewrite Hp.
    destruct (Bool.eqb (accept_ipv4 new) _), (Bool.eqb (accept_ipv6 new) _),
      (Bool.eqb (accept_direct new) _), (Bool.eqb (accept_multihop new) _),
      (Bool.eqb (strict_bind new) _), udp6_changed; reflexivity. }
  set (w := broker x) in *. clearbody w.
  split; [intros b; apply reconfigure_iface_changed|].
  unfold reconfigure_sessions.
  set (w0 := upd_proto p _ w).
  set (pr0 := set_iface_list
                ((fun ifa => bfd_reconfigure_iface ifa new) <$> iface_list pr) pr).
  assert (Hp0 : protos w0 !! p = Some pr0).
  { subst w0. unfold upd_proto. cbn. now rewrite lookup_alter_eq, Hp. }
  destruct (reconfigure_walk p now ids w0 pr0 Hp0 Hnd) as (pr' & Hp' & I & R & O & S).
  split; [exists pr'; done|]. split; [exact R|].
  intros id s b Hs Hb.
  assert (L : lookup_session (foldl (reconfigure_changed p now) w0 ids) (p, id) =
              session_hash_id pr' !! id).
  { unfold lookup_session. cbn. now rewrite Hp'. }
  rewrite L.
  assert (Hb0 : List.find (iface_is (ifa s)) (iface_list pr0) =
                Some (bfd_reconfigure_iface b new)).
  { subst pr0. cbn. rewrite find_iface_reconfigured.
    unfold find_iface in Hb. now rewrite Hb. }
  destruct (decide (id ∈ ids)) as [Hin|Hin].
  - rewrite (S id s Hin Hs), Hb0.
    destruct (request_list s) as [|r l]; [done|].
    intros q Hq. change (requests w0) with (requests w). rewrite Hq.
    rewrite bool_decide_eq_true_2 by done. cbn [andb].
    destruct (ifa_changed (bfd_reconfigure_iface b new)); [|done].
    eexists. split; [reflexivity|]. split; [reflexivity|].
    split; [apply cf_reconfigure | apply follows_reconfigure].
  - rewrite O by done.
    destruct (request_list s) as [|r l]; [exact Hs|].
    intros q Hq. rewrite bool_decide_eq_false_2 by done. exact Hs.
Qed.

Lemma neigh_notify_tracks_scope_witness :
  exists bn' r q,
    bfd_neighbors (bfd_neigh_notify example_nonzero nest_direct 0 oracle_one) !! 0%nat =
      Some bn' /\
    n_req bn' = Some r /\
    requests (broker (bfd_neigh_notify example_nonzero nest_direct 0 oracle_one)) !! r =
      Some q /\
    request_static q =
      (IP4 1, IP4 9, Some (mk_iface 3), None, mk_options 0 0 0 0 0 0 0 0, None, 0).
Proof.
  lookup_value (neigh_cache nest_direct !! 0%nat) e He.
  lookup_value (bfd_neighbors nest_direct !! 0%nat) bn Hn.
  match type of He with
  | _ = Some ?e =>
      match type of Hn with
      | _ = Some ?bn =>
          destruct (neigh_notify_tracks_scope example_nonzero nest_direct 0 e 0 bn
                      oracle_one He eq_refl Hn) as ((bn' & A & _ & _ & D) & _)
      end
  end.
  cbn in D. destruct (D ltac:(lia)) as (r & q & D1 & _ & D2 & D3).
  exists bn', r, q. split; [exact A|]. split; [exact D1|]. split; [exact D2|].
  exact D3.
Defined.

Lemma reconfigure_neighbors_keeps_same_witness :
  exists bn',
    bfd_neighbors (bfd_reconfigure_neighbors example_nonzero no_neighbor nest_multihop
                     0 [0%nat] [1%nat; 2%nat] (fun _ => oracle_one)) !! 1%nat =
      Some bn' /\
    n_req bn' = Some 0%nat /\ n_active bn' = 1.
Proof.
  lookup_value (bfd_neighbors nest_multihop !! 0%nat) bo Hbo.
  assert (Hd : neighbors_distinct nest_multihop [0%nat]).
  { split; [apply NoDup_singleton|]. split.
    - intros n Hn. apply list_elem_of_singleton in Hn as ->. now rewrite Hbo.
    - intros n1 n2 b1 b2 H1 H2 _ _ _.
      apply list_elem_of_singleton in H1, H2. congruence. }
  assert (Hnew : forall n, n ∈ [0%nat] -> n ∉ [1%nat; 2%nat]).
  { intros n Hn. apply list_elem_of_singleton in Hn as ->.
    intros H. apply (bool_decide_pack _) in H. vm_compute in H. done. }
  destruct (reconfigure_neighbors_keeps_same example_nonzero no_neighbor
              nest_multihop 0 [0%nat] [1%nat; 2%nat] (fun _ => oracle_one) Hd Hnew)
    as [A _].
  match type of Hbo with
  | _ = Some ?bo => pose proof (A 0%nat bo ltac:(repeat constructor) Hbo) as A0
  end.
  assert (Ef : find_same nest_multihop 0 [1%nat; 2%nat] = Some 1%nat)
    by (vm_compute; reflexivity).
  rewrite Ef in A0. destruct A0 as (bn' & E & F1 & _ & F3 & _).
  exists bn'. split; [exact E|]. split; [exact F1 | exact F3].
Defined.

Lemma reconfigure_sessions_follow_witness :
  exists s',
    lookup_session (reconfigure_sessions world_two_requests 0 config_multihop_20ms
                      [5] 3000) (0%nat, 5) = Some s' /\
    sc_min_rx_int (cf s') = 20000 /\ follows_configuration s'.
Proof.
  lookup_value (protos world_two_requests !! 0%nat) pr Hp.
  lookup_value (requests world_two_requests !! 0%nat) q Hq.
  match type of Hp with
  | _ = Some ?pr =>
      lookup_value (session_hash_id pr !! 5) s Hs;
      match type of Hs with
      | _ = Some ?s => lookup_value (find_iface pr (ifa s)) b Hb
      end;
      destruct (reconfigure_sessions_follow example_nonzero no_neighbor
                  (mk_nest world_two_requests ∅ ∅ []) 0 pr config_multihop_20ms
                  false [] [] [5] 3000 (fun _ => oracle_one) Hp
                  ltac:(apply NoDup_singleton)) as (_ & _ & _ & _ & D)
  end.
  match type of Hs with
  | _ = Some ?s =>
      match type of Hb with
      | _ = Some ?b => pose proof (D 5 s b Hs Hb) as D5
      end
  end.
  cbn [request_list] in D5. cbv zeta in D5.
  match type of Hq with
  | _ = Some ?q => specialize (D5 q Hq)
  end.
  assert (Ec : forall P Q : Prop,
            (if bool_decide (5 ∈ [5]) && true then P else Q) -> P).
  { intros P Q. rewrite bool_decide_eq_true_2 by repeat constructor. done. }
  apply Ec in D5. destruct D5 as (s' & E & _ & F & G).
  exists s'. split; [exact E|]. split; [|exact G]. now rewrite F.
Defined.

(** ** Engines in order *)

Lemma key_of_table s s' : table_fields s' = table_fields s -> key_fields s' = key_fields s.
Proof. unfold table_fields, key_fields. intros [= -> -> -> ->]. reflexivity. Qed.

Lemma key_update_detection_time s kick now :
  key_fields (bfd_session_update_detection_time s kick now) = key_fields s.
Proof. unfold bfd_session_update_detection_time. repeat case_match; reflexivity. Qed.

Lemma key_request_poll s request now :
  key_fields (bfd_session_request_poll s request now) = key_fields s.
Proof.
  unfold bfd_session_request_poll. repeat case_match; try reflexivity.
  apply key_of_table. now rewrite table_control_tx_timer.
Qed.

Lemma key_set_min_tx s val now :
  key_fields (bfd_session_set_min_tx s val now) = key_fields s.
Proof.
  unfold bfd_session_set_min_tx. case_match; [done|].
  rewrite key_request_poll. case_match; [|done].
  apply key_of_table. now rewrite table_update_tx_interval.
Qed.

Lemma key_set_min_rx s val now :
  key_fields (bfd_session_set_min_rx s val now) = key_fields s.
Proof.
  unfold bfd_session_set_min_rx. case_match; [done|].
  rewrite key_request_poll. case_match; [|done].
  now rewrite key_update_detection_time.
Qed.

Lemma key_reconfigure s ifa_cf opts now :
  key_fields (bfd_session_reconfigure s ifa_cf opts now) = key_fields s.
Proof.
  unfold bfd_session_reconfigure. cbv zeta.
  rewrite (key_of_table _ _ (table_control_tx_timer _ _ _)).
  set (s2 := bfd_session_set_min_rx _ _ _).
  change (key_fields s2 = key_fields s). subst s2.
  now rewrite key_set_min_rx, key_set_min_tx.
Qed.

Lemma key_terminate_poll s : key_fields (bfd_session_terminate_poll s) = key_fields s.
Proof. unfold bfd_session_terminate_poll. repeat case_match; reflexivity. Qed.

Lemma key_update_tx_interval s :
  key_fields (bfd_session_update_tx_interval s) = key_fields s.
Proof. apply key_of_table, table_update_tx_interval. Qed.

Lemma key_control_tx_timer s reset now :
  key_fields (bfd_session_control_tx_timer s reset now) = key_fields s.
Proof. apply key_of_table, table_control_tx_timer. Qed.

Lemma key_update_state s state diag now :
  key_fields (bfd_session_update_state s state diag now) = key_fields s.
Proof.
  unfold bfd_session_update_state. case_match; [done|]. cbv zeta.
  set (s1 := if negb _ then set_n_linked true _ else _).
  assert (K1 : key_fields s1 = key_fields s) by (subst s1; now case_match).
  clearbody s1.
  set (s2 := if state =? BFD_STATE_UP then _ else s1).
  assert (K2 : key_fields s2 = key_fields s).
  { subst s2. case_match; [|done]. now rewrite key_set_min_tx. }
  clearbody s2.
  set (s3 := if loc_state s =? BFD_STATE_UP then _ else s2).
  assert (K3 : key_fields s3 = key_fields s).
  { subst s3. case_match; [|done]. now rewrite key_set_min_tx. }
  clearbody s3. now case_match.
Qed.

Lemma key_process_ctl s flags old_tx_int old_rx_int now :
  key_fields (bfd_session_process_ctl s flags old_tx_int old_rx_int now) = key_fields s.
Proof.
  unfold bfd_session_process_ctl. cbv zeta.
  set (s1 := if nz (poll_active s) && _ then _ else s).
  assert (K1 : key_fields s1 = key_fields s).
  { subst s1. case_match; [|done]. apply key_terminate_poll. }
  clearbody s1.
  set (s2 := if negb _ || _ then _ else s1).
  assert (K2 : key_fields s2 = key_fields s).
  { subst s2. case_match; [|done]. now rewrite key_update_tx_interval. }
  clearbody s2.
  set (s3 := bfd_session_update_detection_time s2 1 now).
  assert (K3 : key_fields s3 = key_fields s)
    by (subst s3; now rewrite key_update_detection_time).
  clearbody s3. case_match; [done|].
  destruct (process_ctl_switch _ _) as [next diag].
  set (s4 := if nz next then _ else s3).
  assert (K4 : key_fields s4 = key_fields s).
  { subst s4. case_match; [|done]. now rewrite key_update_state. }
  clearbody s4.
  assert (K5 : key_fields (bfd_session_control_tx_timer s4 0 now) = key_fields s)
    by now rewrite key_control_tx_timer.
  now case_match.
Qed.

Lemma key_rx_ctl s pkt now : key_fields (bfd_rx_ctl s pkt now) = key_fields s.
Proof. unfold bfd_rx_ctl. cbv zeta. now rewrite key_process_ctl. Qed.

Lemma key_timeout s now : key_fields (bfd_session_timeout s now) = key_fields s.
Proof.
  unfold bfd_session_timeout. cbv zeta.
  now rewrite key_control_tx_timer, key_update_state.
Qed.

Lemma registry_ok_alter pr id f :
  (forall s, key_fields (f s) = key_fields s) -> registry_ok pr ->
  registry_ok (set_session_hash_id (alter f id (session_hash_id pr)) pr).
Proof.
  intros Hf [R1 R2]. split.
  - intros id' s'. cbn. destruct (decide (id' = id)) as [->|Hne].
    + rewrite lookup_alter_eq. intros H. apply fmap_Some in H as (s & Hs & ->).
      pose proof (Hf s) as E. unfold key_fields in E.
      injection E as -> -> -> _. now apply R1.
    + rewrite lookup_alter_ne by done. apply R1.
  - intros k id' Hk. cbn in Hk |- *. destruct (R2 k id' Hk) as (s & Hs & Ek).
    destruct (decide (id' = id)) as [->|Hne].
    + exists (f s). rewrite lookup_alter_eq, Hs. split; [done|].
      pose proof (Hf s) as E. unfold key_fields in E.
      injection E as _ -> -> _. exact Ek.
    + exists s. now rewrite lookup_alter_ne.
Qed.

Lemma sessions_on_alter (m : gmap Z bfd_session) id f k :
  (forall s, key_fields (f s) = key_fields s) ->
  size (filter (fun e : Z * bfd_session => ifa e.2 = k) (alter f id m)) =
  size (filter (fun e : Z * bfd_session => ifa e.2 = k) m).
Proof.
  intros Hf. destruct (m !! id) as [s|] eqn:Hs.
  2:{ rewrite alter_id; [done|]. intros s Hs'. congruence. }
  assert (Ei : ifa (f s) = ifa s).
  { pose proof (Hf s) as E. unfold key_fields in E. now injection E. }
  assert (Hd : delete id m !! id = None) by apply lookup_delete_eq.
  rewrite <- (insert_delete_id m id s Hs) at 2.
  rewrite <- (insert_delete_id m id s Hs) at 1.
  rewrite alter_insert_eq.
  destruct (sessions_on_insert (delete id m) id s k Hd) as [A1 A2].
  destruct (sessions_on_insert (delete id m) id (f s) k Hd) as [B1 B2].
  destruct (decide (ifa s = k)) as [E|E].
  - rewrite A1, B1 by congruence. done.
  - rewrite A2, B2 by congruence. done.
Qed.

Lemma ifaces_ok_alter pr id f :
  (forall s, key_fields (f s) = key_fields s) -> ifaces_ok pr ->
  ifaces_ok (set_session_hash_id (alter f id (session_hash_id pr)) pr).
Proof.
  intros Hf [I1 I2]. split; [exact I1|]. intros k.
  unfold sessions_on, find_iface in *. cbn.
  rewrite (sessions_on_alter _ _ _ _ Hf). apply I2.
Qed.

Lemma registry_ok_delete pr pr2 id s :
  registry_ok pr -> session_hash_id pr !! id = Some s ->
  session_hash_id pr2 = session_hash_id pr ->
  session_hash_ip pr2 = session_hash_ip pr ->
  registry_ok
    (set_session_hash_ip (delete (addr s, ifindex s) (session_hash_ip pr2))
       (set_session_hash_id (delete id (session_hash_id pr2)) pr2)).
Proof.
  intros [R1 R2] Hs Fid Fip.
  destruct (R1 _ _ Hs) as (Hl & Hnz & Hk).
  assert (Hother : forall k id', k <> (addr s, ifindex s) ->
            session_hash_ip pr !! k = Some id' -> id' <> id).
  { intros k id' Hne E ->. destruct (R2 _ _ E) as (s' & E' & <-). congruence. }
  split.
  - intros id' s' E'.
    cbn [session_hash_id session_hash_ip set_session_hash_ip set_session_hash_id]
      in E' |- *.
    rewrite Fid in E'. rewrite Fip. destruct (decide (id' = id)) as [->|Hne].
    + now rewrite lookup_delete_eq in E'.
    + rewrite lookup_delete_ne in E' by done.
      destruct (R1 _ _ E') as (A & B & C). repeat (split; [done|]).
      rewrite lookup_delete_ne; [done|]. intros E. rewrite <- E in C. congruence.
  - intros k id' E'.
    cbn [session_hash_id session_hash_ip set_session_hash_ip set_session_hash_id]
      in E' |- *.
    rewrite Fip in E'. rewrite Fid.
    destruct (decide (k = (addr s, ifindex s))) as [->|Hne].
    + now rewrite lookup_delete_eq in E'.
    + rewrite lookup_delete_ne in E' by done.
      destruct (R2 _ _ E') as (s' & A & B). exists s'. split; [|done].
      rewrite lookup_delete_ne; [done|]. intros ->. now apply (Hother _ _ Hne E').
Qed.

(** *** The operations of the broker *)

Lemma engines_ok_protos w w' : protos w' = protos w -> engines_ok w -> engines_ok w'.
Proof. intros E H p pr. rewrite E. apply H. Qed.

Lemma engines_ok_upd_proto p f w :
  (forall pr, registry_ok pr /\ ifaces_ok pr -> registry_ok (f pr) /\ ifaces_ok (f pr)) ->
  engines_ok w -> engines_ok (upd_proto p f w).
Proof.
  intros Hf H p' pr'. unfold upd_proto. cbn.
  destruct (decide (p' = p)) as [->|Hne].
  - rewrite lookup_alter_eq. intros E. apply fmap_Some in E as (pr & Hp & ->).
    apply Hf. now apply (H p).
  - rewrite lookup_alter_ne by done. apply H.
Qed.

Lemma engines_ok_upd_session sp f w :
  (forall s, key_fields (f s) = key_fields s) ->
  engines_ok w -> engines_ok (upd_session sp f w).
Proof.
  intros Hf. apply engines_ok_upd_proto. intros pr [R I].
  split; [now apply registry_ok_alter | now apply ifaces_ok_alter].
Qed.

Lemma engines_ok_insert p pr' w :
  registry_ok pr' -> ifaces_ok pr' -> engines_ok w ->
  engines_ok (set_protos (<[p := pr']> (protos w)) w).
Proof.
  intros R I H p0 pr0. cbn. destruct (decide (p0 = p)) as [->|Hne].
  - rewrite lookup_insert_eq. now intros [= <-].
  - rewrite lookup_insert_ne by done. apply H.
Qed.

Lemma engines_ok_remove_session w sp :
  engines_ok w -> engines_ok (bfd_remove_session w sp).
Proof.
  intros H. destruct sp as [p id].
  destruct (protos w !! p) as [pr|] eqn:Hp.
  2:{ unfold bfd_remove_session. cbn [fst snd]. now rewrite Hp. }
  destruct (session_hash_id pr !! id) as [s|] eqn:Hs.
  2:{ unfold bfd_remove_session. cbn [fst snd]. now rewrite Hp, Hs. }
  destruct (H p pr Hp) as [R I].
  rewrite (remove_session_unfold _ _ _ _ _ Hp Hs). cbv zeta.
  set (pr1 := if n_linked s then _ else pr).
  assert (E1 : iface_list pr1 = iface_list pr /\
               session_hash_id pr1 = session_hash_id pr /\
               session_hash_ip pr1 = session_hash_ip pr).
  { subst pr1. destruct (n_linked s); done. }
  destruct E1 as (El & Eid & Eip).
  destruct (session_hash_id_free_iface pr1 (ifa s)) as (Fid & Fip & _).
  apply engines_ok_insert; [| |exact H].
  - apply (registry_ok_delete pr _ id s R Hs); congruence.
  - rewrite Fid, Fip, Eid, Eip. exact (ifaces_ok_free_iface pr pr1 id s I Hs El).
Qed.

Lemma engines_ok_add_session w p pr a local i opts o :
  protos w !! p = Some pr ->
  Z.of_nat (size (session_hash_id pr)) + 2 <= 4294967296 ->
  bfd_find_session_by_addr pr a (match i with Some i => index i | None => 0 end) =
    None ->
  engines_ok w -> engines_ok (bfd_add_session w p a local i opts o).2.
Proof.
  intros Hp Hsize Hnone H. destruct (H p pr Hp) as [R I].
  rewrite (add_session_unfold _ _ _ _ _ _ _ _ Hp). cbv zeta. cbn [snd].
  destruct (session_hash_id_get_iface pr local i) as (Eid & Eip & _).
  set (pr1 := bfd_get_iface pr local i) in *.
  set (ifx := match i with Some i => index i | None => 0 end) in *.
  set (id := bfd_get_free_id pr1 (rnd_id o)).
  assert (Hfree : id_free pr1 id).
  { apply get_free_id_free. now rewrite Eid. }
  destruct Hfree as [Hnz Hfree]. rewrite Eid in Hfree.
  pose proof (session_new_fields a (local, i) ifx id
    (bfd_merge_options
       match find_iface pr1 (local, i) with
       | Some ifa => ifa_cf ifa
       | None => bfd_default_iface
       end opts) (u32 (rnd_csn o)) (now_of o)) as F.
  set (s := bfd_session_new _ _ _ _ _ _ _) in *. clearbody s id.
  unfold table_fields in F. injection F as Fl Fa Fx Fi _ _ _ _ _.
  apply engines_ok_insert; [| |exact H].
  - rewrite <- Fa, <- Fx.
    apply (registry_ok_insert pr pr1 id s R Eid Eip Hfree); [|done..].
    rewrite Fa, Fx. now apply registry_no_session.
  - pose proof (ifaces_ok_get_iface pr local i id s I Hfree Fi) as G.
    cbv zeta in G. fold pr1 in G. rewrite Fa, Fx in G. exact G.
Qed.

Lemma engines_ok_rem_node w r : engines_ok w -> engines_ok (rem_node_request w r).
Proof.
  intros H. unfold rem_node_request. set (w1 := set_bfd_wait_list _ w).
  assert (H1 : engines_ok w1) by exact H.
  destruct (requests w1 !! r ≫= req_session); [|exact H1].
  now apply engines_ok_upd_session.
Qed.

Lemma engines_ok_request_free w r : engines_ok w -> engines_ok (bfd_request_free w r).
Proof.
  intros H. unfold bfd_request_free. destruct (requests w !! r) as [req|]; [|done].
  pose proof (engines_ok_rem_node w r H) as H1.
  destruct (req_session req); [|done]. destruct (lookup_session _ _); [|done].
  case_match; [|done]. now apply engines_ok_remove_session.
Qed.

Lemma engines_ok_rfree w r : engines_ok w -> engines_ok (rfree_request w r).
Proof. intros H. now apply (engines_ok_request_free w r). Qed.

Lemma engines_ok_notify w r state remote diag :
  engines_ok w -> engines_ok (bfd_request_notify w r state remote diag).
Proof.
  intros H. destruct (notify_cases state remote diag w r)
    as [->|(q' & lg & _ & [->|[->| ->]])]; [done..|].
  now apply engines_ok_rfree.
Qed.

Lemma engines_ok_add_request w p r o :
  engines_ok w -> engines_room w -> engines_ok (bfd_add_request w p r o).2.
Proof.
  intros H Hroom. unfold bfd_add_request.
  destruct (protos w !! p) as [pr|] eqn:Hp; [|done].
  destruct (requests w !! r) as [req|]; [|done].
  destruct (vrf_set pr && _); [done|].
  destruct (if ipa_is_ip4 _ then _ else _); [done|].
  destruct (match req_iface req with Some _ => negb _ | None => _ end); [done|].
  set (found := match bfd_find_session_by_addr _ _ _ with Some s => _ | None => _ end).
  assert (Hf : engines_ok found.2).
  { subst found. destruct (bfd_find_session_by_addr _ _ _) eqn:Ef; [done|].
    apply (engines_ok_add_session w p pr); [done | now apply (Hroom p) | done..]. }
  destruct found as [id w1]. cbn [snd] in Hf.
  set (w3 := upd_request r _ _).
  assert (H3 : engines_ok w3).
  { subst w3. apply (engines_ok_upd_session (p, id)); [done|].
    now apply engines_ok_rem_node. }
  clearbody w3. case_match; [|done]. cbn [snd]. now apply engines_ok_notify.
Qed.

Lemma engines_ok_submit w r o :
  engines_ok w -> engines_room w -> engines_ok (bfd_submit_request w r o).
Proof.
  intros H Hroom. unfold bfd_submit_request.
  destruct (submit_walk_first (bfd_proto_list w) w r o)
    as [[-> _]|(p & _ & _ & ->)]; [|now apply engines_ok_add_request].
  apply engines_ok_notify. now apply (engines_ok_rem_node w r).
Qed.

Lemma engines_ok_reconfigure_session w sp now :
  engines_ok w -> engines_ok (bfd_reconfigure_session w sp now).
Proof.
  intros H. unfold bfd_reconfigure_session.
  cbn [protos set_reconfigure_log requests].
  destruct (protos w !! sp.1) as [pr|]; [|done].
  destruct (session_hash_id pr !! sp.2) as [s|]; [|done].
  destruct (request_list s) as [|r l]; [done|].
  destruct (requests w !! r) as [q|]; [|done].
  destruct (find_iface pr (ifa s)) as [b|]; [|done].
  apply engines_ok_upd_session; [|done]. intros s0. apply key_reconfigure.
Qed.

Lemma engines_ok_notify_session w p id :
  engines_ok w -> engines_ok (bfd_notify_session w p id).
Proof.
  intros H. unfold bfd_notify_session.
  destruct (lookup_session w (p, id)) as [s|]; [|done].
  set (w1 := upd_session (p, id) (set_notify_running true) _).
  assert (H1 : engines_ok w1).
  { subst w1. apply engines_ok_upd_session; [done|].
    now apply engines_ok_upd_session. }
  clearbody w1.
  assert (H2 : forall l w2, engines_ok w2 ->
            engines_ok (foldl (fun w r => bfd_request_notify w r (loc_state s)
                                            (rem_state s) (loc_diag s)) w2 l)).
  { induction l as [|r l IH]; intros w2 H2; [done|]. cbn. apply IH.
    now apply engines_ok_notify. }
  specialize (H2 (request_list s) w1 H1).
  set (w2 := foldl _ w1 _) in *. clearbody w2.
  assert (H3 : engines_ok (upd_session (p, id) (set_notify_running false) w2))
    by now apply engines_ok_upd_session.
  destruct (lookup_session _ (p, id)); [|done]. case_match; [|done].
  now apply engines_ok_remove_session.
Qed.

Lemma engines_ok_request_session w a local i v hook data opts o :
  engines_ok w -> engines_room w ->
  engines_ok (bfd_request_session w a local i v hook data opts o).2.
Proof.
  intros H Hroom. rewrite request_session_unfold. cbv zeta. cbn [snd].
  set (r := fresh (dom (requests w))).
  set (w5 := set_requests _ w).
  assert (Hs : engines_ok (bfd_submit_request w5 r o))
    by (apply engines_ok_submit; done).
  exact Hs.
Qed.

Lemma ifaces_ok_reconfigured pr new :
  ifaces_ok pr ->
  ifaces_ok (set_iface_list
               ((fun ifa => bfd_reconfigure_iface ifa new) <$> iface_list pr) pr).
Proof.
  intros [I1 I2]. split.
  - cbn. rewrite <- list_fmap_compose.
    assert (E : (iface_key ∘ (fun ifa => bfd_reconfigure_iface ifa new)) <$>
                  iface_list pr = iface_key <$> iface_list pr)
      by (apply list_fmap_ext; done).
    now rewrite E.
  - intros k. unfold find_iface, sessions_on. cbn.
    rewrite find_iface_reconfigured. specialize (I2 k).
    unfold find_iface, sessions_on in I2. rewrite <- I2.
    now destruct (List.find _ _).
Qed.

(** X21.  The engines stay in order.  If in every engine the two indexes
    agree and the use counts of the bindings equal the numbers of their
    sessions, then this is so again after a request has been released,
    after the options of a request have been updated, after the notifier
    has run, after an event of the session thread that leaves alone what
    the tables know the session by (as a received packet and a timeout
    do), after the two loops of a reconfiguration, and, when every engine has room for one more
    discriminator, after a session has been requested. *)
Theorem engines_stay_ok w :
  engines_ok w ->
  (forall r, engines_ok (rfree_request w r)) /\
  (forall r opts now, engines_ok (bfd_update_request w r opts now)) /\
  (forall p, engines_ok (bfd_notify_hook w p)) /\
  (forall sp f, (forall s, key_fields (f s) = key_fields s) ->
     engines_ok (session_thread_event w sp f)) /\
  (forall p new ids now, engines_ok (reconfigure_sessions w p new ids now)) /\
  (engines_room w ->
   forall a local i v hook data opts o,
     engines_ok (bfd_request_session w a local i v hook data opts o).2).
Proof.
  intros H. split; [|split; [|split; [|split; [|split]]]].
  - intros r. now apply engines_ok_rfree.
  - intros r opts now. unfold bfd_update_request.
    destruct (requests w !! r) as [req|]; [|done]. case_bool_decide; [done|].
    destruct (req_session req); [|done].
    now apply engines_ok_reconfigure_session.
  - intros p. unfold bfd_notify_hook. destruct (protos w !! p) as [pr|]; [|done].
    set (w0 := upd_proto p _ w).
    assert (H0 : engines_ok w0) by (subst w0; now apply engines_ok_upd_proto).
    clearbody w0. revert w0 H0.
    induction (notify_list pr) as [|id l IH]; intros w0 H0; [done|]. cbn.
    apply IH. now apply engines_ok_notify_session.
  - intros sp f Hf. unfold session_thread_event.
    destruct (lookup_session w sp); [|done].
    pose proof (engines_ok_upd_session sp f w Hf H) as H1.
    case_match; [|done]. now apply engines_ok_upd_proto.
  - intros p new ids now. unfold reconfigure_sessions.
    set (w0 := upd_proto p _ w).
    assert (H0 : engines_ok w0).
    { subst w0. apply engines_ok_upd_proto; [|done]. intros pr [R I].
      split; [exact R | now apply ifaces_ok_reconfigured]. }
    clearbody w0. revert w0 H0.
    induction ids as [|id l IH]; intros w0 H0; [done|]. cbn [foldl].
    apply IH. unfold reconfigure_changed.
    destruct (protos w0 !! p) as [pr|]; [|done].
    destruct (session_hash_id pr !! id) as [s|]; [|done].
    destruct (find_iface pr (ifa s)) as [b|]; [|done].
    destruct (ifa_changed b); [|done]. now apply engines_ok_reconfigure_session.
  - intros Hroom a local i v hook data opts o.
    now apply engines_ok_request_session.
Qed.

Lemma engines_stay_ok_witness :
  engines_ok world_one_request /\
  engines_ok (rfree_request world_one_request 0) /\
  engines_ok (bfd_notify_hook world_session_init 0).
Proof.
  assert (H0 : engines_ok world_one_engine).
  { intros p pr Hp. unfold world_one_engine in Hp. cbn in Hp.
    apply lookup_singleton_Some in Hp as [<- <-].
    split; [by apply registry_ok_empty | by apply ifaces_ok_empty]. }
  assert (R0 : engines_room world_one_engine).
  { intros p pr Hp. unfold world_one_engine in Hp. cbn in Hp.
    apply lookup_singleton_Some in Hp as [<- <-]. vm_compute. discriminate. }
  destruct (engines_stay_ok world_one_engine H0) as (_ & _ & _ & _ & _ & A).
  pose proof (A R0 (IP4 1) (IP4 2) None None (Some HookRelease) 0 None oracle_one)
    as H1.
  change (engines_ok world_one_request) in H1.
  destruct (engines_stay_ok world_one_request H1) as (B & _ & _ & C & _).
  split; [exact H1|]. split; [exact (B 0%nat)|].
  pose proof (C (0%nat, 5) (fun s => bfd_rx_ctl s packet_from_down_peer 2000)
                (fun s => key_rx_ctl s packet_from_down_peer 2000)) as H2.
  change (engines_ok world_session_init) in H2.
  destruct (engines_stay_ok world_session_init H2) as (_ & _ & D & _).
  exact (D 0%nat).
Defined.

(** ** The lists of the requests *)

Lemma wait_list_rem_node w r :
  bfd_wait_list (rem_node_request w r) = filter (.≠ r) (bfd_wait_list w).
Proof. unfold rem_node_request. now case_match. Qed.

Lemma detached_rem_node w r :
  requests_consistent w -> request_detached r (rem_node_request w r).
Proof.
  intros (L1 & L2 & L3). split; [|split].
  - intros sp s r'. rewrite requests_rem_node.
    destruct (decide (requests w !! r ≫= req_session = Some sp)) as [E|E].
    + rewrite (lookup_session_rem_node w r sp E).
      destruct (lookup_session w sp) as [s0|] eqn:Hs; [|done]. cbn.
      intros [= <-]. cbn. intros Hin. apply list_elem_of_filter in Hin as [Hne Hin].
      split; [done|]. now apply (L1 sp s0).
    + rewrite (lookup_session_rem_node_else w r sp E). intros Hs Hin.
      pose proof (L1 sp s r' Hs Hin) as H. split; [|done]. intros ->. done.
  - intros r' sp Hne. rewrite requests_rem_node. intros H.
    destruct (L2 r' sp H) as (s & Hs & Hin).
    destruct (decide (requests w !! r ≫= req_session = Some sp)) as [E|E].
    + rewrite (lookup_session_rem_node w r sp E), Hs. cbn. eexists. split; [done|].
      cbn. now apply list_elem_of_filter.
    + rewrite (lookup_session_rem_node_else w r sp E). now exists s.
  - intros r'. rewrite wait_list_rem_node, requests_rem_node. intros Hin.
    apply list_elem_of_filter in Hin as [Hne Hin]. split; [done|]. now apply L3.
Qed.

Lemma lookup_session_upd_request w r f sp :
  lookup_session (upd_request r f w) sp = lookup_session w sp.
Proof. reflexivity. Qed.

Lemma consistent_attach r sp s w :
  request_detached r w -> lookup_session w sp = Some s ->
  is_Some (requests w !! r) ->
  requests_consistent
    (upd_request r (set_req_session (Some sp))
       (upd_session sp (fun s => set_request_list (request_list s ++ [r]) s) w)).
Proof.
  intros (D1 & D2 & D3) Hs [q Hq].
  set (w2 := upd_request r _ _).
  assert (Ls : lookup_session w2 sp =
               Some (set_request_list (request_list s ++ [r]) s)).
  { subst w2. rewrite lookup_session_upd_request.
    now rewrite lookup_session_upd_session, Hs. }
  assert (Lo : forall sp', sp' <> sp -> lookup_session w2 sp' = lookup_session w sp').
  { intros sp' Hne. subst w2. rewrite lookup_session_upd_request.
    now apply lookup_session_upd_other. }
  assert (Rr : requests w2 !! r ≫= req_session = Some sp).
  { subst w2. cbn. rewrite lookup_alter_eq, Hq. done. }
  assert (Ro : forall r', r' <> r -> requests w2 !! r' = requests w !! r').
  { intros r' Hne. subst w2. cbn. now rewrite lookup_alter_ne. }
  assert (Wl : bfd_wait_list w2 = bfd_wait_list w) by done.
  clearbody w2. split; [|split].
  - intros sp' s' r'. destruct (decide (sp' = sp)) as [->|Hne].
    + rewrite Ls. intros [= <-]. cbn. intros Hin.
      apply elem_of_app in Hin as [Hin|Hin].
      * destruct (D1 sp s r' Hs Hin) as [Hne E]. now rewrite Ro.
      * apply list_elem_of_singleton in Hin as ->. exact Rr.
    + rewrite Lo by done. intros Hs' Hin.
      destruct (D1 sp' s' r' Hs' Hin) as [Hne' E]. now rewrite Ro.
  - intros r' sp'. destruct (decide (r' = r)) as [->|Hne].
    + rewrite Rr. intros [= <-]. eexists. split; [exact Ls|]. cbn.
      apply elem_of_app. right. apply list_elem_of_here.
    + rewrite Ro by done. intros E. destruct (D2 r' sp' Hne E) as (s' & Hs' & Hin).
      destruct (decide (sp' = sp)) as [->|Hsp].
      * eexists. split; [exact Ls|]. cbn. apply elem_of_app. left. congruence.
      * exists s'. now rewrite Lo.
  - intros r'. rewrite Wl. intros Hin. destruct (D3 r' Hin) as [Hne H].
    now rewrite Ro.
Qed.

Lemma consistent_park r w :
  request_detached r w -> is_Some (requests w !! r) ->
  requests_consistent
    (upd_request r (set_req_session None)
       (set_bfd_wait_list (bfd_wait_list w ++ [r]) w)).
Proof.
  intros (D1 & D2 & D3) [q Hq].
  set (w2 := upd_request r _ _).
  assert (Ls : forall sp, lookup_session w2 sp = lookup_session w sp) by done.
  assert (Rr : requests w2 !! r = Some (set_req_session None q)).
  { subst w2. cbn. now rewrite lookup_alter_eq, Hq. }
  assert (Ro : forall r', r' <> r -> requests w2 !! r' = requests w !! r').
  { intros r' Hne. subst w2. cbn. now rewrite lookup_alter_ne. }
  assert (Wl : bfd_wait_list w2 = bfd_wait_list w ++ [r]) by done.
  clearbody w2. split; [|split].
  - intros sp s r'. rewrite Ls. intros Hs Hin.
    destruct (D1 sp s r' Hs Hin) as [Hne E]. now rewrite Ro.
  - intros r' sp. destruct (decide (r' = r)) as [->|Hne].
    + now rewrite Rr.
    + rewrite Ro by done. intros E. destruct (D2 r' sp Hne E) as (s & Hs & Hin).
      exists s. now rewrite Ls.
  - intros r'. rewrite Wl. intros Hin. apply elem_of_app in Hin as [Hin|Hin].
    + destruct (D3 r' Hin) as [Hne H]. now rewrite Ro.
    + apply list_elem_of_singleton in Hin as ->. eexists. split; [exact Rr|done].
Qed.

Lemma consistent_delete r w :
  request_detached r w ->
  requests_consistent (set_requests (delete r (requests w)) w).
Proof.
  intros (D1 & D2 & D3). split; [|split]; cbn.
  - intros sp s r' Hs Hin. destruct (D1 sp s r' Hs Hin) as [Hne E].
    now rewrite lookup_delete_ne.
  - intros r' sp. destruct (decide (r' = r)) as [->|Hne].
    + now rewrite lookup_delete_eq.
    + rewrite lookup_delete_ne by done. now apply D2.
  - intros r' Hin. destruct (D3 r' Hin) as [Hne H]. now rewrite lookup_delete_ne.
Qed.

Lemma detached_remove_session r w sp s :
  request_detached r w -> lookup_session w sp = Some s -> request_list s = [] ->
  request_detached r (bfd_remove_session w sp).
Proof.
  intros (D1 & D2 & D3) Hs El.
  destruct (frames_remove_session w sp) as (_ & Wl & _).
  split; [|split].
  - intros sp' s' r'. rewrite requests_remove_session.
    destruct (decide (sp' = sp)) as [->|Hne].
    + now rewrite (lookup_session_remove_session w sp s Hs).
    + rewrite lookup_session_remove_other by congruence. apply D1.
  - intros r' sp' Hne. rewrite requests_remove_session. intros E.
    destruct (D2 r' sp' Hne E) as (s' & Hs' & Hin).
    destruct (decide (sp' = sp)) as [->|Hsp].
    + assert (s' = s) as -> by congruence. rewrite El in Hin.
      by apply elem_of_nil in Hin.
    + exists s'. now rewrite lookup_session_remove_other by congruence.
  - intros r'. rewrite Wl, requests_remove_session. apply D3.
Qed.

Lemma consistent_remove_session w sp s :
  requests_consistent w -> lookup_session w sp = Some s -> request_list s = [] ->
  requests_consistent (bfd_remove_session w sp).
Proof.
  intros (L1 & L2 & L3) Hs El.
  destruct (frames_remove_session w sp) as (_ & Wl & _).
  split; [|split].
  - intros sp' s' r'. rewrite requests_remove_session.
    destruct (decide (sp' = sp)) as [->|Hne].
    + now rewrite (lookup_session_remove_session w sp s Hs).
    + rewrite lookup_session_remove_other by congruence. apply L1.
  - intros r' sp'. rewrite requests_remove_session. intros E.
    destruct (L2 r' sp' E) as (s' & Hs' & Hin).
    destruct (decide (sp' = sp)) as [->|Hsp].
    + assert (s' = s) as -> by congruence. rewrite El in Hin.
      by apply elem_of_nil in Hin.
    + exists s'. now rewrite lookup_session_remove_other by congruence.
  - intros r'. rewrite Wl, requests_remove_session. apply L3.
Qed.

(** Changes that touch neither a list nor a session pointer. *)
Lemma consistent_upd_session sp f w :
  (forall s, request_list (f s) = request_list s) ->
  requests_consistent w -> requests_consistent (upd_session sp f w).
Proof.
  intros Hf (L1 & L2 & L3).
  assert (Ls : forall sp', exists g, (forall s, request_list (g s) = request_list s) /\
            lookup_session (upd_session sp f w) sp' = g <$> lookup_session w sp').
  { intros sp'. destruct (decide (sp' = sp)) as [->|Hne].
    - exists f. split; [done|]. apply lookup_session_upd_session.
    - exists id. split; [done|]. rewrite lookup_session_upd_other by congruence.
      now destruct (lookup_session w sp'). }
  split; [|split].
  - intros sp' s' r'. destruct (Ls sp') as (g & Hg & ->).
    intros E. apply fmap_Some in E as (s & Hs & ->). rewrite Hg. now apply L1.
  - intros r' sp' E. destruct (L2 r' sp' E) as (s & Hs & Hin).
    destruct (Ls sp') as (g & Hg & ->). exists (g s). rewrite Hs, Hg. done.
  - exact L3.
Qed.

Lemma detached_upd_session r sp f w :
  (forall s, request_list (f s) = request_list s) ->
  request_detached r w -> request_detached r (upd_session sp f w).
Proof.
  intros Hf (L1 & L2 & L3).
  assert (Ls : forall sp', exists g, (forall s, request_list (g s) = request_list s) /\
            lookup_session (upd_session sp f w) sp' = g <$> lookup_session w sp').
  { intros sp'. destruct (decide (sp' = sp)) as [->|Hne].
    - exists f. split; [done|]. apply lookup_session_upd_session.
    - exists id. split; [done|]. rewrite lookup_session_upd_other by congruence.
      now destruct (lookup_session w sp'). }
  split; [|split].
  - intros sp' s' r'. destruct (Ls sp') as (g & Hg & ->).
    intros E. apply fmap_Some in E as (s & Hs & ->). rewrite Hg. now apply L1.
  - intros r' sp' Hne E. destruct (L2 r' sp' Hne E) as (s & Hs & Hin).
    destruct (Ls sp') as (g & Hg & ->). exists (g s). rewrite Hs, Hg. done.
  - exact L3.
Qed.

Lemma consistent_upd_request r f w :
  (forall q, req_session (f q) = req_session q) ->
  requests_consistent w -> requests_consistent (upd_request r f w).
Proof.
  intros Hf (L1 & L2 & L3).
  assert (Rs : forall r', requests (upd_request r f w) !! r' ≫= req_session =
                          requests w !! r' ≫= req_session).
  { intros r'. cbn. destruct (decide (r' = r)) as [->|Hne].
    - rewrite lookup_alter_eq. destruct (requests w !! r); cbn; [|done]. apply Hf.
    - now rewrite lookup_alter_ne. }
  split; [|split].
  - intros sp s r' Hs Hin. rewrite Rs. now apply (L1 sp s).
  - intros r' sp. rewrite Rs. apply L2.
  - intros r' Hin. destruct (L3 r' Hin) as (q & Hq & E). cbn.
    destruct (decide (r' = r)) as [->|Hne].
    + exists (f q). rewrite lookup_alter_eq, Hq. split; [done|]. now rewrite Hf.
    + exists q. now rewrite lookup_alter_ne.
Qed.

Lemma consistent_same w w' :
  (forall sp, lookup_session w' sp = lookup_session w sp) ->
  requests w' = requests w -> bfd_wait_list w' = bfd_wait_list w ->
  requests_consistent w -> requests_consistent w'.
Proof.
  intros Ls Rs Wl (L1 & L2 & L3). split; [|split].
  - intros sp s r. rewrite Ls, Rs. apply L1.
  - intros r sp. rewrite Rs. intros E. destruct (L2 r sp E) as (s & Hs & Hin).
    exists s. now rewrite Ls.
  - intros r. rewrite Wl, Rs. apply L3.
Qed.

Lemma consistent_add_session w p pr a local i opts o :
  protos w !! p = Some pr ->
  Z.of_nat (size (session_hash_id pr)) + 2 <= 4294967296 ->
  requests_consistent w ->
  requests_consistent (bfd_add_session w p a local i opts o).2.
Proof.
  intros Hp Hsize (L1 & L2 & L3).
  destruct (lookup_session_add_session w p pr a local i opts o Hp Hsize)
    as (s & Hs & F & Hnone & Ho & Rs & _ & Wl & _).
  cbv zeta in *.
  set (id := (bfd_add_session w p a local i opts o).1) in *.
  set (w' := (bfd_add_session w p a local i opts o).2) in *.
  clearbody id w'.
  unfold table_fields in F. injection F as _ _ _ _ _ _ El _ _.
  split; [|split].
  - intros sp s' r. rewrite Rs. destruct (decide (sp = (p, id))) as [->|Hne].
    + rewrite Hs. intros [= <-]. rewrite El. intros H. by apply elem_of_nil in H.
    + rewrite Ho by done. apply L1.
  - intros r sp. rewrite Rs. intros E. destruct (L2 r sp E) as (s' & Hs' & Hin).
    exists s'. rewrite Ho; [done|]. intros ->. congruence.
  - intros r. rewrite Wl, Rs. apply L3.
Qed.

Lemma table_update_detection_time s kick now :
  table_fields (bfd_session_update_detection_time s kick now) = table_fields s.
Proof. unfold bfd_session_update_detection_time. repeat case_match; reflexivity. Qed.

Lemma table_request_poll s request now :
  table_fields (bfd_session_request_poll s request now) = table_fields s.
Proof.
  unfold bfd_session_request_poll. repeat case_match; try reflexivity.
  now rewrite table_control_tx_timer.
Qed.

Lemma table_set_min_tx s val now :
  table_fields (bfd_session_set_min_tx s val now) = table_fields s.
Proof.
  unfold bfd_session_set_min_tx. case_match; [done|].
  rewrite table_request_poll. case_match; [|done].
  now rewrite table_update_tx_interval.
Qed.

Lemma table_set_min_rx s val now :
  table_fields (bfd_session_set_min_rx s val now) = table_fields s.
Proof.
  unfold bfd_session_set_min_rx. case_match; [done|].
  rewrite table_request_poll. case_match; [|done].
  now rewrite table_update_detection_time.
Qed.

Lemma table_reconfigure s ifa_cf opts now :
  table_fields (bfd_session_reconfigure s ifa_cf opts now) = table_fields s.
Proof.
  unfold bfd_session_reconfigure. cbv zeta. rewrite table_control_tx_timer.
  set (s2 := bfd_session_set_min_rx _ _ _).
  change (table_fields s2 = table_fields s). subst s2.
  now rewrite table_set_min_rx, table_set_min_tx.
Qed.

Lemma request_list_reconfigure s ifa_cf opts now :
  request_list (bfd_session_reconfigure s ifa_cf opts now) = request_list s.
Proof.
  pose proof (table_reconfigure s ifa_cf opts now) as E. unfold table_fields in E.
  now injection E.
Qed.

(** *** The operations of the broker *)

Lemma consistent_rfree w r : requests_consistent w -> requests_consistent (rfree_request w r).
Proof.
  intros H. unfold rfree_request. cbv zeta. unfold bfd_request_free.
  destruct (requests w !! r) as [req|] eqn:Hr.
  2:{ apply (consistent_same w); try done. cbn. now apply delete_id. }
  pose proof (detached_rem_node w r H) as H1.
  apply consistent_delete.
  destruct (req_session req) as [sp|]; [|exact H1].
  destruct (lookup_session (rem_node_request w r) sp) as [s'|] eqn:Hs'; [|exact H1].
  case_match; [|exact H1].
  apply (detached_remove_session r _ sp s' H1 Hs').
  destruct (bool_decide (request_list s' = [])) eqn:E; [|done].
  now apply bool_decide_eq_true in E.
Qed.

Lemma consistent_notify w r state remote diag :
  requests_consistent w ->
  requests_consistent (bfd_request_notify w r state remote diag).
Proof.
  intros H. destruct (notify_cases state remote diag w r)
    as [->|(q' & lg & _ & [->|[->| ->]])]; [done|..].
  - now apply consistent_upd_request.
  - apply (consistent_same (upd_request r (fun q => notified q state remote diag) w));
      try done. now apply consistent_upd_request.
  - apply consistent_rfree.
    apply (consistent_same (upd_request r (fun q => notified q state remote diag) w));
      try done. now apply consistent_upd_request.
Qed.

Lemma consistent_add_request w p r o :
  engines_ok w -> engines_room w -> requests_consistent w ->
  requests_consistent (bfd_add_request w p r o).2.
Proof.
  intros Hok Hroom H. unfold bfd_add_request.
  destruct (protos w !! p) as [pr|] eqn:Hp; [|done].
  destruct (requests w !! r) as [req|] eqn:Hr; [|done].
  destruct (vrf_set pr && _); [done|].
  destruct (if ipa_is_ip4 _ then _ else _); [done|].
  destruct (match req_iface req with Some _ => negb _ | None => _ end); [done|].
  set (ifx := match req_iface req with Some i => index i | None => 0 end).
  set (found := match bfd_find_session_by_addr _ _ _ with Some s => _ | None => _ end).
  assert (Hf : requests_consistent found.2 /\ requests found.2 = requests w /\
               is_Some (lookup_session found.2 (p, found.1))).
  { subst found. destruct (bfd_find_session_by_addr pr (req_addr req) ifx)
      as [s0|] eqn:Ef.
    - cbn [fst snd]. split; [done|]. split; [done|].
      destruct (find_by_addr_session w p pr _ _ s0 Hp (proj1 (Hok p pr Hp)) Ef)
        as (E & _). now rewrite E.
    - split; [|split].
      + apply (consistent_add_session w p pr); [done | now apply (Hroom p) | done].
      + apply requests_add_session.
      + destruct (lookup_session_add_session w p pr (req_addr req) (req_local req)
                    (req_iface req) (req_opts req) o Hp (Hroom p pr Hp))
          as (s & Hs & _). cbv zeta in Hs. now rewrite Hs. }
  destruct found as [id w1]. cbn [fst snd] in Hf. destruct Hf as (H1 & R1 & [s1 Hs1]).
  pose proof (detached_rem_node w1 r H1) as H2.
  destruct (lookup_session_rem_node_any w1 r (p, id) s1 Hs1) as (l & Hs2 & _).
  assert (H3 : requests_consistent
                 (upd_request r (set_req_session (Some (p, id)))
                    (upd_session (p, id)
                       (fun s => set_request_list (request_list s ++ [r]) s)
                       (rem_node_request w1 r)))).
  { apply (consistent_attach r (p, id) _ _ H2 Hs2).
    rewrite requests_rem_node, R1, Hr. done. }
  set (w3 := upd_request r _ _) in *. clearbody w3.
  case_match; [|done]. cbn [snd]. now apply consistent_notify.
Qed.

Lemma consistent_submit w r o :
  engines_ok w -> engines_room w -> requests_consistent w ->
  is_Some (requests w !! r) ->
  requests_consistent (bfd_submit_request w r o).
Proof.
  intros Hok Hroom H Hr. unfold bfd_submit_request.
  destruct (submit_walk_first (bfd_proto_list w) w r o)
    as [[-> _]|(p & _ & _ & ->)]; [|now apply consistent_add_request].
  apply consistent_notify.
  pose proof (detached_rem_node w r H) as H1.
  apply (consistent_park r _ H1). now rewrite requests_rem_node.
Qed.

Lemma consistent_request_session w a local i v hook data opts o :
  engines_ok w -> engines_room w -> requests_consistent w ->
  requests_consistent (bfd_request_session w a local i v hook data opts o).2.
Proof.
  intros Hok Hroom H. rewrite request_session_unfold. cbv zeta. cbn [snd].
  set (r := fresh (dom (requests w))).
  set (q0 := mk_request _ _ _ _ _ _ _ _ _ _ _ _).
  assert (Hfresh : requests w !! r = None).
  { apply not_elem_of_dom. subst r. apply is_fresh. }
  set (w5 := set_requests (<[r := q0]> (requests w)) w).
  assert (H5 : requests_consistent w5).
  { destruct H as (L1 & L2 & L3). subst w5. split; [|split]; cbn.
    - intros sp s r' Hs Hin. pose proof (L1 sp s r' Hs Hin) as E.
      rewrite lookup_insert_ne; [done|]. intros <-. now rewrite Hfresh in E.
    - intros r' sp. destruct (decide (r' = r)) as [->|Hne].
      + now rewrite lookup_insert_eq.
      + rewrite lookup_insert_ne by done. apply L2.
    - intros r' Hin. destruct (L3 r' Hin) as (q & Hq & E).
      exists q. rewrite lookup_insert_ne; [done|]. intros <-. congruence. }
  assert (Hs : requests_consistent (bfd_submit_request w5 r o)).
  { apply consistent_submit; try done. subst w5. cbn.
    now rewrite lookup_insert_eq. }
  apply consistent_upd_request; [done|]. now apply consistent_upd_request.
Qed.

Lemma consistent_reconfigure_session w sp now :
  requests_consistent w -> requests_consistent (bfd_reconfigure_session w sp now).
Proof.
  intros H. unfold bfd_reconfigure_session.
  cbn [protos set_reconfigure_log requests].
  set (w1 := set_reconfigure_log _ w).
  assert (H1 : requests_consistent w1) by exact H.
  destruct (protos w !! sp.1) as [pr|]; [|done].
  destruct (session_hash_id pr !! sp.2) as [s|]; [|done].
  destruct (request_list s) as [|r l]; [done|].
  destruct (requests w !! r) as [q|]; [|done].
  destruct (find_iface pr (ifa s)) as [b|]; [|done].
  apply consistent_upd_session; [|done]. intros s0. apply request_list_reconfigure.
Qed.

Lemma consistent_notify_session w p id :
  requests_consistent w -> requests_consistent (bfd_notify_session w p id).
Proof.
  intros H. unfold bfd_notify_session.
  destruct (lookup_session w (p, id)) as [s|]; [|done].
  set (w1 := upd_session (p, id) (set_notify_running true) _).
  assert (H1 : requests_consistent w1).
  { subst w1. apply consistent_upd_session; [done|].
    now apply consistent_upd_session. }
  clearbody w1.
  assert (H2 : forall l w2, requests_consistent w2 ->
            requests_consistent
              (foldl (fun w r => bfd_request_notify w r (loc_state s)
                                   (rem_state s) (loc_diag s)) w2 l)).
  { induction l as [|r l IH]; intros w2 H2; [done|]. cbn. apply IH.
    now apply consistent_notify. }
  specialize (H2 (request_list s) w1 H1).
  set (w2 := foldl _ w1 _) in *. clearbody w2.
  assert (H3 : requests_consistent
                 (upd_session (p, id) (set_notify_running false) w2))
    by now apply consistent_upd_session.
  set (w3 := upd_session (p, id) (set_notify_running false) w2) in *. clearbody w3.
  destruct (lookup_session w3 (p, id)) as [s'|] eqn:Hs'; [|done].
  case_bool_decide; [|done]. now apply (consistent_remove_session w3 (p, id) s').
Qed.

(** X22.  The lists of the requests tell the truth, and go on doing so.  If
    every request on the list of a session points to that session, every
    request that points to a session is on its list, and every request on
    the wait list is stored and points to no session, then this is so again
    after a request has been released, after the options of a request have
    been updated, after the notifier has run (whatever the callbacks
    release), after an event of the session thread, which leaves the
    request lists alone, and, when the engines are in order and have room
    for one more discriminator, after a session has been requested. *)
Theorem requests_stay_consistent w :
  requests_consistent w ->
  (forall r, requests_consistent (rfree_request w r)) /\
  (forall r opts now, requests_consistent (bfd_update_request w r opts now)) /\
  (forall p, requests_consistent (bfd_notify_hook w p)) /\
  (forall sp f, (forall s, request_list (f s) = request_list s) ->
     requests_consistent (session_thread_event w sp f)) /\
  (engines_ok w -> engines_room w ->
   forall a local i v hook data opts o,
     requests_consistent (bfd_request_session w a local i v hook data opts o).2).
Proof.
  intros H. split; [|split; [|split; [|split]]].
  - intros r. now apply consistent_rfree.
  - intros r opts now. unfold bfd_update_request.
    destruct (requests w !! r) as [req|]; [|done]. case_bool_decide; [done|].
    assert (H1 : requests_consistent (upd_request r (set_req_opts opts) w))
      by now apply consistent_upd_request.
    destruct (req_session req); [|done].
    now apply consistent_reconfigure_session.
  - intros p. unfold bfd_notify_hook. destruct (protos w !! p) as [pr|]; [|done].
    set (w0 := upd_proto p _ w).
    assert (H0 : requests_consistent w0).
    { subst w0. apply (consistent_same w); try done.
      intros sp. apply lookup_session_taken. }
    clearbody w0. revert w0 H0.
    induction (notify_list pr) as [|id l IH]; intros w0 H0; [done|]. cbn.
    apply IH. now apply consistent_notify_session.
  - intros sp f Hf. unfold session_thread_event.
    destruct (lookup_session w sp); [|done].
    pose proof (consistent_upd_session sp f w Hf H) as H1.
    case_match; [|done].
    apply (consistent_same (upd_session sp f w)); try done.
    intros sp'. unfold lookup_session, upd_proto. cbn.
    destruct (decide (sp'.1 = sp.1)) as [E|E].
    + rewrite E, !lookup_alter_eq.
      now destruct (protos w !! sp.1).
    + now rewrite !(lookup_alter_ne _ _ _ _ (not_eq_sym E)).
  - intros Hok Hroom a local i v hook data opts o.
    now apply consistent_request_session.
Qed.

(** The events of the session thread leave the request lists alone. *)
Lemma list_of_table s s' : table_fields s' = table_fields s -> request_list s' = request_list s.
Proof. unfold table_fields. intros E. now injection E. Qed.

Lemma list_terminate_poll s :
  request_list (bfd_session_terminate_poll s) = request_list s.
Proof. unfold bfd_session_terminate_poll. repeat case_match; reflexivity. Qed.

Lemma list_update_state s state diag now :
  request_list (bfd_session_update_state s state diag now) = request_list s.
Proof.
  unfold bfd_session_update_state. case_match; [done|]. cbv zeta.
  set (s1 := if negb _ then set_n_linked true _ else _).
  assert (K1 : request_list s1 = request_list s) by (subst s1; now case_match).
  clearbody s1.
  set (s2 := if state =? BFD_STATE_UP then _ else s1).
  assert (K2 : request_list s2 = request_list s).
  { subst s2. case_match; [|done].
    now rewrite (list_of_table _ _ (table_set_min_tx _ _ _)). }
  clearbody s2.
  set (s3 := if loc_state s =? BFD_STATE_UP then _ else s2).
  assert (K3 : request_list s3 = request_list s).
  { subst s3. case_match; [|done].
    now rewrite (list_of_table _ _ (table_set_min_tx _ _ _)). }
  clearbody s3. now case_match.
Qed.

Lemma list_process_ctl s flags old_tx_int old_rx_int now :
  request_list (bfd_session_process_ctl s flags old_tx_int old_rx_int now) =
  request_list s.
Proof.
  unfold bfd_session_process_ctl. cbv zeta.
  set (s1 := if nz (poll_active s) && _ then _ else s).
  assert (K1 : request_list s1 = request_list s).
  { subst s1. case_match; [|done]. apply list_terminate_poll. }
  clearbody s1.
  set (s2 := if negb _ || _ then _ else s1).
  assert (K2 : request_list s2 = request_list s).
  { subst s2. case_match; [|done].
    now rewrite (list_of_table _ _ (table_update_tx_interval _)). }
  clearbody s2.
  set (s3 := bfd_session_update_detection_time s2 1 now).
  assert (K3 : request_list s3 = request_list s)
    by (subst s3; now rewrite (list_of_table _ _ (table_update_detection_time _ _ _))).
  clearbody s3. case_match; [done|].
  destruct (process_ctl_switch _ _) as [next diag].
  set (s4 := if nz next then _ else s3).
  assert (K4 : request_list s4 = request_list s).
  { subst s4. case_match; [|done]. now rewrite list_update_state. }
  clearbody s4.
  assert (K5 : request_list (bfd_session_control_tx_timer s4 0 now) = request_list s)
    by now rewrite (list_of_table _ _ (table_control_tx_timer _ _ _)).
  now case_match.
Qed.

Lemma list_rx_ctl s pkt now : request_list (bfd_rx_ctl s pkt now) = request_list s.
Proof. unfold bfd_rx_ctl. cbv zeta. now rewrite list_process_ctl. Qed.

Lemma list_timeout s now : request_list (bfd_session_timeout s now) = request_list s.
Proof.
  unfold bfd_session_timeout. cbv zeta.
  now rewrite (list_of_table _ _ (table_control_tx_timer _ _ _)), list_update_state.
Qed.

Lemma requests_stay_consistent_witness :
  requests_consistent world_one_request /\
  requests_consistent (rfree_request world_one_request 0) /\
  requests_consistent (bfd_notify_hook world_session_init 0).
Proof.
  assert (H0 : engines_ok world_one_engine).
  { intros p pr Hp. unfold world_one_engine in Hp. cbn in Hp.
    apply lookup_singleton_Some in Hp as [<- <-].
    split; [by apply registry_ok_empty | by apply ifaces_ok_empty]. }
  assert (R0 : engines_room world_one_engine).
  { intros p pr Hp. unfold world_one_engine in Hp. cbn in Hp.
    apply lookup_singleton_Some in Hp as [<- <-]. vm_compute. discriminate. }
  assert (C0 : requests_consistent world_one_engine).
  { split; [|split].
    - intros [p id] s r Hs. unfold lookup_session, world_one_engine in Hs.
      cbn in Hs. destruct (decide (p = 0%nat)) as [->|Hne].
      + rewrite lookup_singleton_eq in Hs. cbn in Hs. now rewrite lookup_empty in Hs.
      + rewrite lookup_singleton_ne in Hs by done. done.
    - intros r sp H. unfold world_one_engine in H. cbn in H.
      now rewrite lookup_empty in H.
    - intros r H. by apply elem_of_nil in H. }
  destruct (requests_stay_consistent world_one_engine C0) as (_ & _ & _ & _ & A).
  pose proof (A H0 R0 (IP4 1) (IP4 2) None None (Some HookRelease) 0 None oracle_one)
    as H1.
  change (requests_consistent world_one_request) in H1.
  destruct (requests_stay_consistent world_one_request H1) as (B & _ & _ & C & _).
  split; [exact H1|]. split; [exact (B 0%nat)|].
  pose proof (C (0%nat, 5) (fun s => bfd_rx_ctl s packet_from_down_peer 2000)
                (fun s => list_rx_ctl s packet_from_down_peer 2000)) as H2.
  change (requests_consistent world_session_init) in H2.
  destruct (requests_stay_consistent world_session_init H2) as (_ & _ & D & _).
  exact (D 0%nat).
Defined.

(** ** The end of an engine *)

Lemma is_Some_lookup_rfree w r sp :
  is_Some (lookup_session (rfree_request w r) sp) -> is_Some (lookup_session w sp).
Proof.
  unfold rfree_request.
  change (is_Some (lookup_session (bfd_request_free w r) sp) ->
          is_Some (lookup_session w sp)).
  unfold bfd_request_free. destruct (requests w !! r) as [req|]; [|done].
  assert (H1 : is_Some (lookup_session (rem_node_request w r) sp) ->
               is_Some (lookup_session w sp)).
  { destruct (lookup_session_rem_node_cases w r sp) as [->|[_ ->]]; [done|].
    apply fmap_is_Some. }
  destruct (req_session req) as [sp'|]; [|exact H1].
  destruct (lookup_session (rem_node_request w r) sp'); [|exact H1].
  case_match; [|exact H1]. intros Hs. apply H1.
  destruct (lookup_session_remove_cases (rem_node_request w r) sp sp') as [E|E];
    rewrite E in Hs; [by destruct Hs | exact Hs].
Qed.

(** The neighbors of a list stopped one after the other. *)
Lemma stop_neighbors_spec l : forall x,
  requests_consistent (broker x) ->
  let x' := foldl bfd_stop_neighbor x l in
  requests_consistent (broker x') /\
  bfd_proto_list (broker x') = bfd_proto_list (broker x) /\
  (forall sp, is_Some (lookup_session (broker x') sp) ->
     is_Some (lookup_session (broker x) sp)) /\
  (forall n bn, bfd_neighbors x' !! n = Some bn ->
     n ∈ l \/ (exists b0, bfd_neighbors x !! n = Some b0 /\
                 n_req b0 = None /\ n_neigh b0 = None) ->
     n_req bn = None /\ n_neigh bn = None).
Proof.
  induction l as [|n0 l IH]; intros x H; cbv zeta.
  { cbn. split; [done|]. split; [done|]. split; [done|].
    intros n bn Hn [Hin|(b0 & Hb0 & E)]; [by apply elem_of_nil in Hin|].
    congruence. }
  cbn [foldl].
  assert (H1 : requests_consistent (broker (bfd_stop_neighbor x n0)) /\
               bfd_proto_list (broker (bfd_stop_neighbor x n0)) =
                 bfd_proto_list (broker x) /\
               (forall sp, is_Some (lookup_session (broker (bfd_stop_neighbor x n0)) sp) ->
                  is_Some (lookup_session (broker x) sp)) /\
               (forall n bn, bfd_neighbors (bfd_stop_neighbor x n0) !! n = Some bn ->
                  n = n0 \/ (exists b0, bfd_neighbors x !! n = Some b0 /\
                               n_req b0 = None /\ n_neigh b0 = None) ->
                  n_req bn = None /\ n_neigh bn = None)).
  { destruct (bfd_neighbors x !! n0) as [b|] eqn:Hb.
    - rewrite (stop_neighbor_spec x n0 b Hb). cbn.
      split; [|split; [|split]].
      + destruct (n_req b); [now apply consistent_rfree | done].
      + destruct (n_req b) as [r|]; [|done].
        now destruct (serves_rfree r (broker x)) as (A & _).
      + intros sp. destruct (n_req b); [apply is_Some_lookup_rfree | done].
      + intros n bn. destruct (decide (n = n0)) as [->|Hne].
        * rewrite lookup_alter_eq, Hb. cbn. intros [= <-]. done.
        * rewrite lookup_alter_ne by done. intros Hn [->|(b0 & Hb0 & E)]; [done|].
          congruence.
    - unfold bfd_stop_neighbor. rewrite Hb. split; [done|]. split; [done|].
      split; [done|]. intros n bn Hn [->|(b0 & Hb0 & E)]; congruence. }
  destruct H1 as (A1 & B1 & C1 & D1).
  set (x1 := bfd_stop_neighbor x n0) in *. clearbody x1.
  destruct (IH x1 A1) as (A & B & C & D).
  split; [exact A|]. split; [congruence|]. split; [intros sp Hs; apply C1; now apply C|].
  intros n bn Hn Hin. apply (D n bn Hn).
  destruct (decide (n ∈ l)) as [Hl|Hl]; [now left|]. right.
  assert (Hsame : exists b1, bfd_neighbors x1 !! n = Some b1).
  { destruct (bfd_neighbors x1 !! n) as [b1|] eqn:E; [now exists b1|].
    exfalso. revert Hn. clear -E Hl.
    revert x1 E. induction l as [|n1 l IHl]; intros x1 E; cbn; [congruence|].
    apply not_elem_of_cons in Hl as [Hne Hl]. apply (IHl Hl).
    destruct (bfd_neighbors x1 !! n1) as [b|] eqn:Hb1.
    - rewrite (stop_neighbor_spec x1 n1 b Hb1). cbn. now rewrite lookup_alter_ne.
    - unfold bfd_stop_neighbor. now rewrite Hb1. }
  destruct Hsame as [b1 Hb1]. exists b1. split; [done|].
  apply (D1 n b1 Hb1). destruct Hin as [Hin|Hin]; [|now right].
  apply elem_of_cons in Hin as [->|Hin]; [now left | done].
Qed.

(** X23.  An engine that shuts down leaves no pointer behind.  When the
    lists of the requests tell the truth and the walk of
    [bfd_drop_requests] meets every session of the engine, then after
    [bfd_shutdown] has stopped the neighbors and dropped the requests, and
    before it frees the pool of the session thread, the engine is off the
    list of the engines, each of its neighbors is without request and
    without cache entry, each of its sessions has an empty request list,
    and no request at all points to one of its sessions. *)
Theorem shutdown_leaves_no_pointer x p neigh ids o :
  requests_consistent (broker x) ->
  (forall id, is_Some (lookup_session (broker x) (p, id)) -> id ∈ ids) ->
  let x' := bfd_shutdown x p neigh ids o in
  (p ∉ bfd_proto_list (broker x')) /\
  (forall n bn, n ∈ neigh -> bfd_neighbors x' !! n = Some bn ->
     n_req bn = None /\ n_neigh bn = None) /\
  (forall id s, lookup_session (broker x') (p, id) = Some s -> request_list s = []) /\
  (forall r q id, requests (broker x') !! r = Some q -> req_session q <> Some (p, id)).
Proof.
  intros H Hids. cbv zeta. unfold bfd_shutdown.
  set (w0 := set_bfd_proto_list _ (broker x)).
  assert (H0 : requests_consistent w0) by exact H.
  assert (P0 : p ∉ bfd_proto_list w0).
  { subst w0. cbn. intros Hin. apply list_elem_of_filter in Hin as [Hne _]. done. }
  destruct (stop_neighbors_spec neigh (set_broker w0 x) H0) as (A1 & B1 & C1 & D1).
  set (x1 := foldl bfd_stop_neighbor (set_broker w0 x) neigh) in *. clearbody x1.
  cbn [broker set_broker] in B1, C1.
  assert (P1 : p ∉ bfd_proto_list (broker x1)) by now rewrite B1.
  destruct A1 as (L1 & L2 & L3).
  assert (Hlink : requests_linked p (broker x1)).
  { intros id s r Hs Hr. pose proof (L1 (p, id) s r Hs Hr) as E.
    destruct (requests (broker x1) !! r) as [q|]; [|done]. now exists q. }
  destruct (drop_requests_walk p o ids (broker x1) P1 Hlink) as (A0 & A & B & C & N).
  fold (bfd_drop_requests (broker x1) p ids o) in A0, A, B, C, N.
  cbn [broker set_broker bfd_neighbors].
  split; [now rewrite A0|]. split; [|split].
  - intros n bn Hin Hn. apply (D1 n bn Hn). now left.
  - intros id s Hs.
    destruct (lookup_session (broker x1) (p, id)) as [s1|] eqn:Hs1.
    + rewrite (A id s1 Hs1) in Hs. injection Hs as <-.
      rewrite decide_True; [done|]. apply Hids, C1. now rewrite Hs1.
    + now rewrite (N id Hs1) in Hs.
  - intros r q id Hq Hqs.
    destruct (requests (broker x1) !! r ≫= req_session) as [[p0 id0]|] eqn:E.
    + destruct (decide (p0 = p)) as [->|Hne].
      * destruct (L2 r (p, id0) E) as (s & Hs & Hr).
        assert (Hin : id0 ∈ ids) by (apply Hids, C1; now rewrite Hs).
        destruct (B id0 s r Hin Hs Hr q Hq) as [[E' _]|(sp & E' & Hsp)];
          [congruence|].
        rewrite A0 in Hsp. assert (sp = (p, id)) as -> by congruence. done.
      * assert (Hfree : forall id' s, id' ∈ ids ->
                  lookup_session (broker x1) (p, id') = Some s -> r ∉ request_list s).
        { intros id' s _ Hs Hr. pose proof (L1 (p, id') s r Hs Hr) as E'.
          congruence. }
        destruct (C r Hfree) as [E' _]. rewrite E' in Hq.
        rewrite Hq in E. cbn in E. congruence.
    + assert (Hfree : forall id' s, id' ∈ ids ->
                lookup_session (broker x1) (p, id') = Some s -> r ∉ request_list s).
      { intros id' s _ Hs Hr. pose proof (L1 (p, id') s r Hs Hr) as E'.
        congruence. }
      destruct (C r Hfree) as [E' _]. rewrite E' in Hq.
      rewrite Hq in E. cbn in E. congruence.
Qed.

Lemma shutdown_leaves_no_pointer_witness :
  (exists bn,
     bfd_neighbors (bfd_shutdown nest_shared 0 [0%nat] [5] (fun _ => oracle_one)) !! 0%nat =
       Some bn /\
     n_req bn = None /\ n_neigh bn = None) /\
  (exists s,
     lookup_session (broker (bfd_shutdown nest_shared 0 [0%nat] [5] (fun _ => oracle_one)))
       (0%nat, 5) = Some s /\
     request_list s = []).
Proof.
  assert (H0 : engines_ok world_one_engine).
  { intros p pr Hp. unfold world_one_engine in Hp. cbn in Hp.
    apply lookup_singleton_Some in Hp as [<- <-].
    split; [by apply registry_ok_empty | by apply ifaces_ok_empty]. }
  assert (R0 : engines_room world_one_engine).
  { intros p pr Hp. unfold world_one_engine in Hp. cbn in Hp.
    apply lookup_singleton_Some in Hp as [<- <-]. vm_compute. discriminate. }
  assert (C0 : requests_consistent world_one_engine).
  { split; [|split].
    - intros [p id] s r Hs. unfold lookup_session, world_one_engine in Hs.
      cbn in Hs. destruct (decide (p = 0%nat)) as [->|Hne].
      + rewrite lookup_singleton_eq in Hs. cbn in Hs. now rewrite lookup_empty in Hs.
      + rewrite lookup_singleton_ne in Hs by done. done.
    - intros r sp H. unfold world_one_engine in H. cbn in H.
      now rewrite lookup_empty in H.
    - intros r H. by apply elem_of_nil in H. }
  assert (H1 : engines_ok world_one_request)
    by (apply engines_ok_request_session; done).
  assert (R1 : engines_room world_one_request).
  { change (map_Forall
              (fun (_ : nat) pr => Z.of_nat (size (session_hash_id pr)) + 2 <= 4294967296)
              (protos world_one_request)).
    apply (bool_decide_unpack _). vm_compute. reflexivity. }
  assert (C1 : requests_consistent world_one_request)
    by (apply consistent_request_session; done).
  assert (C2 : requests_consistent (broker nest_shared)).
  { exact (consistent_request_session world_one_request (IP4 1) (IP4 2) None
             (proto_vrf world_one_request 0) None 0 None oracle_one H1 R1 C1). }
  lookup_value (protos (broker nest_shared) !! 0%nat) pr Hpr.
  assert (Hids : forall id, is_Some (lookup_session (broker nest_shared) (0%nat, id)) ->
                   id ∈ [5]).
  { intros id [s Hs]. unfold lookup_session in Hs. cbn [fst snd] in Hs.
    rewrite Hpr in Hs. cbn in Hs. revert id s Hs.
    match goal with
    | |- forall id s, ?m !! id = Some s -> _ =>
        change (map_Forall (fun (id : Z) (_ : bfd_session) => id ∈ [5]) m)
    end.
    apply (bool_decide_unpack _). vm_compute. reflexivity. }
  destruct (shutdown_leaves_no_pointer nest_shared 0 [0%nat] [5] (fun _ => oracle_one)
              C2 Hids) as (_ & B & C & _).
  split.
  - lookup_value
      (bfd_neighbors (bfd_shutdown nest_shared 0 [0%nat] [5] (fun _ => oracle_one))
         !! 0%nat) bn Hbn.
    eexists. split; [exact Hbn|].
    exact (B 0%nat _ ltac:(repeat constructor) Hbn).
  - lookup_value
      (lookup_session
         (broker (bfd_shutdown nest_shared 0 [0%nat] [5] (fun _ => oracle_one)))
         (0%nat, 5)) s Hs.
    eexists. split; [exact Hs|]. exact (C 5 _ Hs).
Defined.

(** ** What the notifier hands to the callbacks *)

Section notifier_values.
Context (state remote diag : Z).
Let N := fun w r => bfd_request_notify w r state remote diag.

Lemma notify_called w r q h :
  requests w !! r = Some q -> req_hook q = Some h -> req_state q <> state ->
  exists call, hook_log (N w r) = call :: hook_log w /\ call_req call = r.
Proof.
  intros E Eh Hne. unfold N. rewrite (request_notify_unfold _ _ _ _ _ _ E).
  destruct (Z.eqb_spec state (req_state q)) as [Heq|_]; [by destruct Hne|].
  cbv zeta. rewrite Eh.
  exists (mk_hook_call r state diag (req_state q)
            (req_down (notified q state remote diag))).
  split; [|reflexivity].
  destruct h; cbn [run_hook]; rewrite ?hook_log_rfree; reflexivity.
Qed.

(** What the pass leaves in a request that outlives it. *)
Lemma notify_pass_stored l : forall w r q,
  requests w !! r = Some q -> releases (req_hook q) = false ->
  requests (foldl N w l) !! r =
  Some (if bool_decide (r ∈ l) && negb (state =? req_state q)
        then notified q state remote diag else q).
Proof.
  induction l as [|r0 l IH]; intros w r q Hq Hh; [done|].
  cbn [foldl]. destruct (decide (r0 = r)) as [->|Hne].
  - rewrite (bool_decide_eq_true_2 (r ∈ r :: l)) by apply list_elem_of_here.
    cbn [andb]. unfold N at 2.
    rewrite (request_notify_unfold _ _ _ _ _ _ Hq).
    destruct (state =? req_state q) eqn:Es.
    + rewrite (IH w r q Hq Hh), Es. now rewrite andb_false_r.
    + cbv zeta. cbn [negb].
      assert (E1 : requests (upd_request r (fun req => notified req state remote diag) w)
                     !! r = Some (notified q state remote diag))
        by (cbn; now rewrite lookup_alter_eq, Hq).
      assert (R : forall w1, requests w1 !! r = Some (notified q state remote diag) ->
                requests (foldl N w1 l) !! r = Some (notified q state remote diag)).
      { intros w1 Hw1. rewrite (IH w1 r _ Hw1 Hh). cbn [notified req_state set_req_down
          set_req_old_state set_req_diag set_req_state].
        rewrite Z.eqb_refl. now rewrite andb_false_r. }
      destruct (req_hook q) as [[]|]; cbn [run_hook]; [|done|]; now apply R.
  - assert (Hq1 : requests (N w r0) !! r = Some q)
      by (unfold N; now rewrite requests_notify_other).
    rewrite (IH _ r q Hq1 Hh).
    assert (Eb : bool_decide (r ∈ r0 :: l) = bool_decide (r ∈ l)).
    { apply bool_decide_ext. rewrite elem_of_cons.
      split; [intros [->|Hl]; [by destruct Hne | done] | intros Hl; now right]. }
    now rewrite Eb.
Qed.

End notifier_values.

Section notifier_pass.
Context (state remote diag : Z) (w0 : bfd_world) (l0 : list nat).
Let N := fun w r => bfd_request_notify w r state remote diag.

(** What a callback invoked by the pass was given: the values of the pass,
    and as previous state the one its request held before the pass. *)
Let handed (call : hook_call) : Prop :=
  exists q,
    requests w0 !! call_req call = Some q /\ call_req call ∈ l0 /\
    is_Some (req_hook q) /\
    call_state call = state /\ call_diag call = diag /\
    call_old_state call = req_state q /\
    (call_state call, call_diag call) <> (req_state q, req_diag q) /\
    (call_down call <> 0 <->
     req_state q = BFD_STATE_UP /\ state = BFD_STATE_DOWN /\
     remote <> BFD_STATE_ADMIN_DOWN).

(** During the pass a request is as it was before the pass, or it has been
    told the state of the pass. *)
Let fresh_or_told (w : bfd_world) : Prop :=
  forall r, requests w !! r = requests w0 !! r \/ delivered state r w.

Lemma notify_pass_step w r :
  r ∈ l0 -> fresh_or_told w ->
  fresh_or_told (N w r) /\
  (hook_log (N w r) = hook_log w \/
   exists call, hook_log (N w r) = call :: hook_log w /\ handed call).
Proof.
  intros Hin Hinv. split.
  - intros r'. destruct (decide (r = r')) as [<-|Hne].
    + right. apply delivered_notify_self.
    + destruct (Hinv r') as [E|D].
      * left. unfold N. now rewrite requests_notify_other.
      * right. now apply delivered_notify_keep.
  - unfold N. destruct (requests w !! r) as [req|] eqn:E.
    2:{ left. unfold bfd_request_notify. now rewrite E. }
    destruct (request_notify_values w r req state remote diag E) as (A & B & _).
    destruct (Z.eq_dec state (req_state req)) as [Heq|Hne].
    { left. now rewrite (B Heq). }
    destruct A as [A|(call & A1 & A2 & A3 & A4 & A5 & A6 & A7 & A8)]; [by left|].
    right. exists call. split; [exact A1|].
    assert (E0 : requests w0 !! r = Some req).
    { destruct (Hinv r) as [<-|D]; [done|]. destruct Hne. symmetry. now apply D. }
    exists req. rewrite A4. split; [exact E0|]. split; [exact Hin|].
    split; [exact A2|]. split; [exact A5|]. split; [exact A6|].
    split; [exact A7|]. split; [|exact A8]. now rewrite A5, A6.
Qed.

Lemma notify_pass_log l : forall w,
  (forall r, r ∈ l -> r ∈ l0) -> fresh_or_told w ->
  fresh_or_told (foldl N w l) /\
  exists new, hook_log (foldl N w l) = new ++ hook_log w /\
    (forall call, call ∈ new -> handed call) /\
    (forall r q, r ∈ l -> requests w !! r = Some q -> is_Some (req_hook q) ->
       req_state q <> state -> exists call, call ∈ new /\ call_req call = r).
Proof.
  induction l as [|r l IH]; intros w Hl Hinv.
  { split; [done|]. exists []. split; [done|]. split.
    - intros call H. destruct (not_elem_of_nil _ H).
    - intros r q H. destruct (not_elem_of_nil _ H). }
  cbn [foldl].
  destruct (notify_pass_step w r (Hl r ltac:(left)) Hinv) as [Hinv1 Hlog].
  destruct (IH (N w r) (fun r' Hr' => Hl r' (list_elem_of_further _ _ _ Hr')) Hinv1)
    as (Hinv2 & new & E & Hnew & Hcalled).
  split; [exact Hinv2|].
  assert (Hrest : forall r' q, r' <> r -> r' ∈ r :: l ->
            requests w !! r' = Some q -> is_Some (req_hook q) ->
            req_state q <> state -> exists call, call ∈ new /\ call_req call = r').
  { intros r' q Hne Hin Hq Hh Hs.
    apply elem_of_cons in Hin as [->|Hin]; [done|].
    apply (Hcalled r' q Hin); [|done..].
    unfold N. now rewrite requests_notify_other. }
  destruct Hlog as [E1|(call & E1 & Hc)].
  - exists new. split; [now rewrite E, E1|]. split; [exact Hnew|].
    intros r' q Hin Hq Hh Hs. destruct (decide (r' = r)) as [->|Hne].
    + destruct Hh as [h Eh].
      destruct (notify_called state remote diag w r q h Hq Eh Hs) as (call & E2 & _).
      fold (N w r) in E2.
      rewrite E1 in E2. exfalso.
      apply (f_equal length) in E2. cbn in E2. lia.
    + now apply (Hrest r' q).
  - exists (new ++ [call]). split; [now rewrite E, E1, <- app_assoc|]. split.
    + intros c Hc'. apply elem_of_app in Hc' as [Hc'|Hc']; [now apply Hnew|].
      apply list_elem_of_singleton in Hc' as ->. exact Hc.
    + intros r' q Hin Hq Hh Hs. destruct (decide (r' = r)) as [->|Hne].
      * destruct Hh as [h Eh].
        destruct (notify_called state remote diag w r q h Hq Eh Hs) as (call' & E2 & Er).
        fold (N w r) in E2.
        rewrite E1 in E2. injection E2 as <-.
        exists call. split; [|exact Er]. apply elem_of_app. right.
        apply list_elem_of_here.
      * destruct (Hrest r' q Hne Hin Hq Hh Hs) as (c & Hc1 & Hc2).
        exists c. split; [|exact Hc2]. apply elem_of_app. now left.
Qed.

End notifier_pass.

(** C7 (as amended).  One pass of [bfd_notify_hook] over a session, which
    reads the local state, the remote state and the diagnostic of the
    session once, when the pass begins, and hands them to
    [bfd_request_notify] for every request of the session.  Every callback
    the pass invokes belongs to a request of the session whose last
    delivered (state, diag) pair differs from the delivered one; it reads
    the state and the diagnostic the session had when the pass began, as
    previous state the one delivered last, and a down flag that is set if
    and only if the state delivered last was Up, the new state is Down and
    the remote state of the session when the pass began, not the one at the
    time of the transition, is not AdminDown.  Every request of the session
    with a callback and another state delivered last is called.  A request
    that outlives the pass is unchanged when it held the state already, and
    holds the same values otherwise.  For every caller the contract of
    [bfd_request_notify] holds with the remote state handed over:
    [bfd_add_request] hands over the states and the diagnostic of the
    session as it finds them when it has attached the request, and
    [bfd_submit_request] hands over AdminDown twice when it parks it. *)
Theorem request_notify_contract w p id s :
  lookup_session w (p, id) = Some s ->
  let w' := bfd_notify_session w p id in
  (exists new,
     hook_log w' = new ++ hook_log w /\
     (forall call, call ∈ new ->
        exists q,
          requests w !! call_req call = Some q /\
          call_req call ∈ request_list s /\ is_Some (req_hook q) /\
          call_state call = loc_state s /\ call_diag call = loc_diag s /\
          call_old_state call = req_state q /\
          (call_state call, call_diag call) <> (req_state q, req_diag q) /\
          (call_down call <> 0 <->
           req_state q = BFD_STATE_UP /\ loc_state s = BFD_STATE_DOWN /\
           rem_state s <> BFD_STATE_ADMIN_DOWN)) /\
     (forall r q, r ∈ request_list s -> requests w !! r = Some q ->
        is_Some (req_hook q) -> req_state q <> loc_state s ->
        exists call, call ∈ new /\ call_req call = r)) /\
  (forall r q, r ∈ request_list s -> requests w !! r = Some q ->
     releases (req_hook q) = false ->
     exists q',
       requests w' !! r = Some q' /\ req_state q' = loc_state s /\
       (req_state q = loc_state s -> q' = q) /\
       (req_state q <> loc_state s ->
        req_diag q' = loc_diag s /\ req_old_state q' = req_state q /\
        (req_down q' <> 0 <->
         req_state q = BFD_STATE_UP /\ loc_state s = BFD_STATE_DOWN /\
         rem_state s <> BFD_STATE_ADMIN_DOWN))) /\
  (forall w1 r req state remote diag,
     requests w1 !! r = Some req ->
     let w2 := bfd_request_notify w1 r state remote diag in
     (hook_log w2 = hook_log w1 \/
      exists call,
        hook_log w2 = call :: hook_log w1 /\
        is_Some (req_hook req) /\
        (state, diag) <> (req_state req, req_diag req) /\
        call_req call = r /\ call_state call = state /\ call_diag call = diag /\
        call_old_state call = req_state req /\
        (call_down call <> 0 <->
         req_state req = BFD_STATE_UP /\ state = BFD_STATE_DOWN /\
         remote <> BFD_STATE_ADMIN_DOWN)) /\
     (state = req_state req -> w2 = w1)) /\
  (forall w1 p1 pr r req o,
     protos w1 !! p1 = Some pr -> requests w1 !! r = Some req ->
     request_acceptable pr req = true ->
     let found := bfd_find_session_by_addr pr (req_addr req) (request_ifindex req) in
     let added := bfd_add_session w1 p1 (req_addr req) (req_local req)
                    (req_iface req) (req_opts req) o in
     let id1 := match found with Some s1 => loc_id s1 | None => added.1 end in
     let w3 := upd_request r (set_req_session (Some (p1, id1)))
                 (upd_session (p1, id1)
                    (fun s1 => set_request_list (request_list s1 ++ [r]) s1)
                    (rem_node_request
                       (match found with Some _ => w1 | None => added.2 end) r)) in
     bfd_add_request w1 p1 r o =
     match lookup_session w3 (p1, id1) with
     | Some s3 =>
         (true,
          bfd_request_notify w3 r (loc_state s3) (rem_state s3) (loc_diag s3))
     | None => (true, w3)
     end) /\
  (forall w1 r o,
     submit_walk w1 (bfd_proto_list w1) r o = None ->
     let w2 := rem_node_request w1 r in
     let w3 := upd_request r (set_req_session None)
                 (set_bfd_wait_list (bfd_wait_list w2 ++ [r]) w2) in
     bfd_submit_request w1 r o =
     bfd_request_notify w3 r BFD_STATE_ADMIN_DOWN BFD_STATE_ADMIN_DOWN 0).
Proof.
  intros Hs. cbv zeta.
  split; [|split; [|split; [|split]]].
  3:{ intros w1 r req state remote diag E.
      destruct (request_notify_values w1 r req state remote diag E) as (A & B & _).
      split; [exact A | exact B]. }
  3:{ intros w1 p1 pr r req o Hp Hr Hacc.
      exact (add_request_unfold w1 p1 pr r req o Hp Hr Hacc). }
  3:{ intros w1 r o E. cbv zeta. unfold bfd_submit_request. now rewrite E. }
  - unfold bfd_notify_session. rewrite Hs.
    set (w1 := upd_session (p, id) (set_notify_running true) _).
    assert (Hq1 : requests w1 = requests w) by reflexivity.
    assert (Hl1 : hook_log w1 = hook_log w) by reflexivity.
    assert (Hinv : forall r, requests w1 !! r = requests w !! r \/
                             delivered (loc_state s) r w1)
      by (intros r; left; now rewrite Hq1).
    destruct (notify_pass_log (loc_state s) (rem_state s) (loc_diag s) w
                (request_list s) (request_list s) w1 (fun r H => H) Hinv)
      as (_ & new & E & Hnew & Hcalled).
    rewrite Hq1 in Hcalled. rewrite Hl1 in E. clearbody w1.
    set (w2 := foldl _ w1 (request_list s)) in *. clearbody w2.
    exists new. split; [|split; [exact Hnew|]].
    + destruct (lookup_session (upd_session (p, id) (set_notify_running false) w2)
                  (p, id)) as [s'|]; [|exact E].
      case_match; [|exact E]. rewrite hook_log_remove_session. exact E.
    + intros r q Hin Hq Hh Hne. now apply (Hcalled r q).
  - intros r q Hin Hq Hh. unfold bfd_notify_session. rewrite Hs.
    set (w1 := upd_session (p, id) (set_notify_running true) _).
    assert (Hq1 : requests w1 !! r = Some q) by exact Hq.
    pose proof (notify_pass_stored (loc_state s) (rem_state s) (loc_diag s)
                  (request_list s) w1 r q Hq1 Hh) as E.
    rewrite (bool_decide_eq_true_2 _ Hin) in E. cbn [andb] in E.
    clearbody w1.
    set (w2 := foldl _ w1 (request_list s)) in *. clearbody w2.
    assert (E' : requests
                   (match lookup_session
                            (upd_session (p, id) (set_notify_running false) w2)
                            (p, id) with
                    | Some s' =>
                        if bool_decide (request_list s' = [])
                        then bfd_remove_session
                               (upd_session (p, id) (set_notify_running false) w2)
                               (p, id)
                        else upd_session (p, id) (set_notify_running false) w2
                    | None => upd_session (p, id) (set_notify_running false) w2
                    end) !! r = requests w2 !! r).
    { destruct (lookup_session (upd_session (p, id) (set_notify_running false) w2)
                  (p, id)) as [s'|]; [|reflexivity].
      destruct (bool_decide (request_list s' = [])); [|reflexivity].
      now rewrite requests_remove_session. }
    rewrite E', E.
    destruct (Z.eqb_spec (loc_state s) (req_state q)) as [Heq|Hne]; cbn [negb].
    + exists q. split; [done|]. split; [done|]. split; [done|].
      intros Hd. by destruct Hd.
    + eexists. split; [reflexivity|]. cbn. split; [done|].
      split; [intros Hd; by destruct Hne|]. intros _.
      split; [done|]. split; [done|]. apply down_flag_iff.
Qed.

(** The request that was told Up, after the session went Down on an
    AdminDown packet and then heard the peer Up: the notifier tells it Down
    with the down flag set. *)
Lemma request_notify_contract_witness :
  exists q',
    requests (bfd_notify_session world_admin_down_then_up 0 5) !! 0%nat = Some q' /\
    req_state q' = BFD_STATE_DOWN /\ req_diag q' = BFD_DIAG_NEIGHBOR_DOWN /\
    req_old_state q' = BFD_STATE_UP /\ req_down q' <> 0.
Proof.
  lookup_value (lookup_session world_admin_down_then_up (0%nat, 5)) s Hs.
  lookup_value (requests world_admin_down_then_up !! 0%nat) q Hq.
  match type of Hs with
  | _ = Some ?s =>
      match type of Hq with
      | _ = Some ?q =>
          destruct (request_notify_contract world_admin_down_then_up 0 5 s Hs)
            as (_ & B & _);
          destruct (B 0%nat q ltac:(vm_compute; repeat constructor) Hq
                      ltac:(reflexivity))
            as (q' & E' & H1 & _ & H2)
      end
  end.
  destruct H2 as (H2 & H3 & H4); [vm_compute; discriminate|].
  exists q'. split; [exact E'|]. split; [exact H1|]. split; [exact H2|].
  split; [exact H3|]. apply H4. vm_compute. repeat split; discriminate.
Defined.

(** C7, where the claim fails: the remote state that decides the down flag
    is the one the session has when the notifier runs.  The request was told
    Up.  In the first run an AdminDown packet takes the session Down, so the
    remote state at the time of the transition is AdminDown; an Up packet
    follows and leaves the session Down; the notifier then tells the request
    Down with the down flag set.  In the second run the detection time
    expires, so the remote state at the time of the transition is Down; an
    AdminDown packet follows and leaves the session Down; the notifier then
    tells the request Down with the down flag clear. *)
Lemma down_flag_reads_remote_at_delivery :
  let state_of w :=
    (fun s => (loc_state s, rem_state s)) <$> lookup_session w (0%nat, 5) in
  let after_transition_1 :=
    session_thread_event world_delivered_up (0%nat, 5)
      (fun s => bfd_rx_ctl s packet_admin_down 4000) in
  let after_transition_2 :=
    session_thread_event world_delivered_up (0%nat, 5)
      (fun s => bfd_hold_timer_hook
                  (set_hold_timer (tm_fire (hold_timer s) 0) s) 9000) in
  (state_of world_delivered_up = Some (BFD_STATE_UP, BFD_STATE_UP) /\
   req_state <$> requests world_delivered_up !! 0%nat = Some BFD_STATE_UP) /\
  (state_of after_transition_1 = Some (BFD_STATE_DOWN, BFD_STATE_ADMIN_DOWN) /\
   state_of world_admin_down_then_up = Some (BFD_STATE_DOWN, BFD_STATE_UP) /\
   hook_log (bfd_notify_hook world_admin_down_then_up 0) =
     mk_hook_call 0 BFD_STATE_DOWN BFD_DIAG_NEIGHBOR_DOWN BFD_STATE_UP 1
       :: hook_log world_admin_down_then_up) /\
  (state_of after_transition_2 = Some (BFD_STATE_DOWN, BFD_STATE_DOWN) /\
   state_of world_timeout_then_admin_down =
     Some (BFD_STATE_DOWN, BFD_STATE_ADMIN_DOWN) /\
   hook_log (bfd_notify_hook world_timeout_then_admin_down 0) =
     mk_hook_call 0 BFD_STATE_DOWN BFD_DIAG_TIMEOUT BFD_STATE_UP 0
       :: hook_log world_timeout_then_admin_down).
Proof. vm_compute. repeat split. Qed.
